(* ===== verification/_CoqProject ===== *)
-Q . S2P
Prelude.v
Schema.v
Handler.v
TimeWindow.v
Registration.v
Reads.v
Clubs.v
Users.v
Settlement.v
Lifecycle.v
Concurrency.v
Scenarios.v
System.v
Server.v
Counters.v
Client.v
Admin.v
AdminActivities.v
Pages.v
Routing.v
Uploads.v
Tables.v
