(* ===== verification/Prelude.v ===== *)
(** * A verification development of LianTuanfen

    LianTuanfen is a campus club platform: an Express/MySQL server
    ([src/liantuanfen/server]) and a React client
    ([src/liantuanfen/client/src]).  Students join clubs, register for
    club activities and earn points when an activity is settled; club
    presidents and system admins manage clubs, members and activities.
    This development models the server's handlers, its router, and the
    client's session, its pages (public, member and admin) and its route
    guards running against the server model, as a shallow embedding on
    top of stdpp.

    ** How the program is structured, and how the model follows it

    The server keeps five MySQL tables ([server/index.js]): [users],
    [clubs], [activities], [user_activities] (registrations) and
    [club_members].  Every controller function is an Express handler that
    issues a chain of [db.query] calls in nested callbacks; each callback
    either answers early ([return res.status(..).json(..)]) or issues the
    next query.  The client calls the server through axios and keeps the
    session and a cache of joined clubs in [localStorage].

    - [Prelude.v] (this file): the notation scope [ltf_scope], the hint
      databases [ltf] and [ltf_rw] and tactics, the JavaScript truthiness
      helpers, the collation [utf8mb4_unicode_ci] of every text column
      ([ci_eqb]: [=] and the UNIQUE keys ignore letter case and trailing
      spaces), ORDER BY as stable sorts ([order_desc], [order_asc],
      [order_by]) and the generic lemmas on lists and counts.
    - [Schema.v]: the tables as a record [DB] of stdpp [gmap]s keyed by
      the AUTO_INCREMENT id ([users], [clubs], [activities]) and of lists
      in insertion order ([user_activities], [club_members]: they have no
      UNIQUE constraint, so duplicates and order are part of the state);
      the ENUM columns as inductive types; the JWT principal; the
      answers [Resp] (HTTP status and message); a sample database.
    - [Handler.v]: the callback chain as a state-and-early-exit monad
      [M].  A state [Sys] is the database plus a list of booleans, one
      per [db.query] in execution order, saying whether that query fails.
      [query] answers 500 on failure as every callback of the source
      does; [query_quiet] is a query whose error is only logged;
      [query_or] a query whose [ER_DUP_ENTRY] is answered by the
      handler; [detach] work the handler starts after it has answered.
      The middleware of [middleware/auth.js] are combinators on [M];
      [keeps] states that a handler preserves an invariant.
    - [TimeWindow.v]: the status derivation of [getAllActivities] and
      [getActivityById], the join and leave time guards, and the client's
      [canRegister] / [canCancelRegistration].
    - [Registration.v]: [joinActivity], [leaveActivity], their routes.
    - [Reads.v]: the read handlers of [activityController.js]
      ([getAllActivities], [getActivityById], [getPendingActivities],
      [getUserActivities], [getActivityStats]).
    - [Clubs.v]: every handler of [clubController.js] and the routes of
      [clubRoutes.js]; each SQL statement is a function on [DB] with the
      schema's foreign and UNIQUE keys.
    - [Users.v]: every handler of [userController.js] and the routes of
      [userRoutes.js], with JavaScript's [parseInt], the email and
      student-id regexes, MySQL [LIKE] and the [sqlMessage] of a
      duplicate.  bcrypt is the class [Hasher]; theorems hold for every
      instance, witnesses use [plain_hasher].
    - [Settlement.v]: [completeActivity]: the registrant update, the
      point credit (a multi-table UPDATE with its once-per-user
      semantics) and the status write.
    - [Lifecycle.v]: [createActivity], [updateActivity],
      [reviewActivity], [deleteActivity]; the design's lifecycle of the
      stored status, which a review leaves.
    - [Concurrency.v]: [joinActivity] split at its query boundaries into
      a small-step machine, and two requests run interleaved.
    - [Scenarios.v]: the design's scenarios replayed request by request,
      and the request sequence that credits a participant twice, on
      every database where it applies.
    - [System.v]: the activity router as a step relation on [DB] and the
      invariants of its handlers.
    - [Server.v]: the three routers ([index.js] lines 168-170) as one
      request type, the server as a step relation [sstep], and the
      foreign-key and uniqueness invariants of every reachable database.
    - [Counters.v]: the AUTO_INCREMENT counters: every stored id stays
      below its table's counter in every reachable database, so an
      INSERT never lands on an existing row, and a new account can sign
      in on every reachable database.
    - [Client.v]: a browser ([localStorage] and [AuthProvider]'s state),
      JWTs with their 24-hour expiry, and the client operations of
      [AuthContext.tsx], [ClubDetail.tsx], [ClubList.tsx],
      [ActivityList.tsx], [ActivityDetail.tsx], [ActivityCard.tsx],
      [MemberManagement.tsx], [Profile.tsx] and
      [admin/UserManagement.tsx], each calling the server model on a
      shared database; JavaScript's [String(n)]; a step relation [cstep]
      of a browser's history.
    - [Admin.v]: [admin/ActivityReview.tsx] (the pending list, the two
      modals, approve and reject) and [admin/ClubManagement.tsx] (the club
      table, its create/edit form and delete), each page's React state a
      record and each handler a function of the page, the database and
      the browser, answered by the server model.
    - [AdminActivities.v]: [admin/ActivityManagement.tsx]: the list, the
      search, status filter and sort of its [useEffect], and its form.
    - [Pages.v]: [Home.tsx], [PointsRanking.tsx], the state and filter
      handlers of [ActivityList.tsx], the forms of
      [Login.tsx] and [Register.tsx], and the route guards
      [PrivateRoute] and [AdminRoute], composed with the session of
      [Client.v], the review page of [Admin.v] and the reachable
      databases of [Counters.v].
    - [Routing.v]: the route table of [App.tsx] with react-router's
      matching, the menus of [AppLayout.tsx] by role, the links of every
      page, and navigation as a step relation on the current path and
      the visited ones, over every session.
    - [Uploads.v]: the [multer] middleware of the three routers (the file
      filters, the 5 MB limit, the [diskStorage] names, the activity
      router's [uploadErrorHandler] and the 500 of the others), the
      [uploads/] directory as a [gmap] from stored path to file, every
      route that takes a file composed with its controller, and the
      pages' [beforeUpload] checks with antd's [Upload] list.
    - [Tables.v]: the unrouted [pages/ClubManagement.tsx] and
      [pages/ActivityManagement.tsx] as one table page over the class
      [TableResource], the interface a resource of [api/api.ts] offers a
      page (its requests and the laws that a created row is listed and a
      deleted one is not); the page's theorems are proved against the
      class and the club and activity instances discharge its laws from
      the server's handlers.

    ** What the theorems show

    - Functional specifications on every branch, whichever queries fail:
      join and leave, settlement, creation, deletion, the read handlers,
      club creation and deletion, user registration and update.
    - Invariants by rule induction: every database reachable through the
      server keeps its foreign keys, its counters ahead of its ids, and
      at most one registration per (user, activity) when requests run
      one at a time; along every run of a browser its storage mirrors
      its session; no request of the profile page changes a password;
      no navigation by links reaches the review page.
    - Refinement: the small-step join machine computes the handler.
      Round trips: join/leave of an activity and of a club,
      register/login on every reachable database, the UserManagement
      edit form's points through [String] and [parseInt].
    - Error paths under the collation: a name equal to a taken one up to
      case or trailing spaces is refused by register and by club
      creation.
    - Findings proved as theorems: the dead grace check of
      [joinActivity]; two interleaved joins past the capacity on every
      database with a free place; a review that takes a completed or
      rejected activity back to approved; double credit after such a
      re-approval; partial writes; two presidents after a system admin's
      transfer in every club; a transfer failure answered 200; a demoted admin's
      token; duplicates misreported by substring; the client's
      membership shown from a per-browser cache, never from the server;
      the club list never showing membership; an expired session still
      authenticated, and the admin pages it renders refused; the cancel
      button never shown; passwords that the profile page cannot change;
      the points of a new user ignored; the date filter by containment;
      the admin table's [approved] filter always empty; the feedback of
      an approval discarded; the home page's user count capped at 100;
      search results ranked from 1; the review page unreachable by any
      link; every management link of a club admin refused with 403;
      pending and rejected activities listed to every visitor.
    - The admin pages' contracts: a successful decision, creation or
      deletion is reflected in the table the page reads again; the same
      for any table over the [TableResource] interface, and for the
      activity table through [createActivity].
    - Liveness ([System.completion_reachable]): from every database, an
      activity with a club and an unsettled registration can be brought
      to completion by two requests of a system admin.  Termination
      ([Client.provider_effects_settle]): the AuthContext effect that
      React reruns while its dependencies change settles within two runs.
      Type ([AdminActivities.am_labels_known]): every status the server
      sends is one the admin table can label.
    - Uploads: an oversize file is answered 400 by the activity router
      and 500 by the others; two club logos of one millisecond share a
      file; the pages' 2 MB checks stop nothing that the server's 5 MB
      limit accepts.

    ** Bounds and choices

    Times are JavaScript millisecond timestamps in [Z]; [setHours(h +/-
    1)] is 3 600 000 ms (exact except across a daylight-saving change);
    dayjs' day boundaries are taken in UTC.  Strings are Latin-1 code
    units; the collation folds ASCII letters only.  [String(n)] has the
    fuel [log2 |n| + 1], which bounds the number of decimal digits of
    [n]; it is JavaScript's [String] for integers below 1e21 (beyond,
    JavaScript writes an exponent), which covers every INT column.
    Multipart bodies: multer gives every field as a string, so
    [max_participants || 100] keeps a field ["0"] ([field_or]); the
    client pages always send [FormData], and JSON bodies are not
    modelled.  Counts are [nat]; ids and points are [Z], with the INT range
    checked where the code can exceed it ([updateUser]'s points).  No
    other fuel is needed: every handler is a finite chain of queries, and
    the recursive helpers ([parseInt]'s digits, [LIKE]) are structural.
    React's rerun of an effect is [Client.provider_effects] with fuel, the
    number of runs; two are enough on every state, as its theorem shows.
    File sizes are bytes; the pages' [size / 1024 / 1024 < n] is
    [size < n * 2^20], exact for sizes below [2^53].

    ** Not modelled

    The bytes of bcrypt and of the JWT signature (a token is its payload
    and expiry), the bytes of uploaded files and their deletion, the
    MySQL connection and [CREATE TABLE] bootstrap of [index.js] (I/O;
    the schema is [Schema.v]), [app.js] (which [index.js] does not
    load), [express.static], the React rendering, the confirm dialogs,
    the window events between pages of one browser, the schema migration
    [checkAndAddColumns], and the rendering of [AppLayout.tsx].  The
    unrouted pages of [Tables.v] are modelled as if routed.  Pages other
    than [Uploads.v]'s upload model take a file as the stored path it
    becomes; [beforeUpload]'s messages are not modelled, and
    [localeCompare] is a parameter of the ranking's sort.  The two 401
    answers of [authenticateToken] (no token, invalid token) share one
    message in the model; their status is the source's. *)

From Stdlib Require Import ZArith Lia Ascii.
From stdpp Require Export base list gmap strings sorting.

Declare Scope ltf_scope.
Delimit Scope ltf_scope with ltf.
Open Scope Z_scope.

Create HintDb ltf discriminated.
Create Rewrite HintDb ltf_rw.

(** ** JavaScript values *)

(** One hour in milliseconds: [setHours(getHours() + 1)]. *)
Definition hour_ms : Z := 3600000.

(** [x || d] on a field of a multipart body: multer gives every field
    as a string, and a present field is a non-empty one, so it is truthy
    even when it reads ["0"]; an absent field is [undefined]. *)
Definition field_or (x : option Z) (d : Z) : Z :=
  match x with
  | Some v => v
  | None => d
  end.

(** [!!s] on a string field: [undefined] and [""] are falsy. *)
Definition truthy_str (s : option string) : bool :=
  match s with
  | Some v => negb (String.eqb v "")
  | None => false
  end.

(** [!!n] on a numeric id: [undefined] and [0] are falsy. *)
Definition truthy_Z (x : option Z) : bool :=
  match x with
  | Some v => negb (Z.eqb v 0)
  | None => false
  end.

(** ** The collation [utf8mb4_unicode_ci]

    [index.js] creates the database with [COLLATE utf8mb4_unicode_ci],
    the default of every text column: [=] and the UNIQUE keys compare
    letters without case and ignore trailing spaces (a [PAD SPACE]
    collation).  The model folds ASCII letters and strips trailing
    spaces; the accent folding of non-ASCII letters is not modelled. *)
Definition fold_case (c : ascii) : ascii :=
  let n := nat_of_ascii c in
  if Nat.leb 65 n && Nat.leb n 90 then ascii_of_nat (n + 32) else c.

Fixpoint drop_spaces (l : list ascii) : list ascii :=
  match l with
  | " "%char :: l' => drop_spaces l'
  | _ => l
  end.

(** The weight string of a value: folded, trailing spaces removed. *)
Definition collate_key (s : string) : list ascii :=
  rev (drop_spaces (rev (List.map fold_case (String.list_ascii_of_string s)))).

(** [a = b] on two text values. *)
Definition ci_eqb (a b : string) : bool := bool_decide (collate_key a = collate_key b).

(** ** Generic lemmas *)

Lemma ci_eqb_refl s : ci_eqb s s = true.
Proof. by apply bool_decide_eq_true. Qed.

Lemma ci_eqb_sym a b : ci_eqb a b = ci_eqb b a.
Proof. unfold ci_eqb. apply bool_decide_ext. split; by intros ->. Qed.

Lemma ci_eqb_eq a b : a = b -> ci_eqb a b = true.
Proof. intros ->. apply ci_eqb_refl. Qed.

Lemma length_filter_le {A} (p : A -> bool) (l : list A) :
  (length (List.filter p l) <= length l)%nat.
Proof. induction l as [|x l IH]; simpl; [lia|]. destruct (p x); simpl; lia. Qed.

Lemma filter_app_length {A} (p : A -> bool) (l1 l2 : list A) :
  length (List.filter p (l1 ++ l2)) =
  (length (List.filter p l1) + length (List.filter p l2))%nat.
Proof. by rewrite List.filter_app, length_app. Qed.

Lemma filter_all_false {A} (p : A -> bool) (l : list A) :
  (forall x, In x l -> p x = false) -> List.filter p l = [].
Proof.
  induction l as [|x l IH]; simpl; intros H; [done|].
  rewrite H by auto. apply IH. auto.
Qed.

Lemma filter_all_true {A} (p : A -> bool) (l : list A) :
  (forall x, In x l -> p x = true) -> List.filter p l = l.
Proof.
  induction l as [|x l IH]; simpl; intros H; [done|].
  rewrite H by auto. f_equal. apply IH. auto.
Qed.

Lemma existsb_false_forall {A} (p : A -> bool) (l : list A) :
  existsb p l = false <-> (forall x, In x l -> p x = false).
Proof.
  induction l as [|x l IH]; simpl; [split; [done|auto]|].
  rewrite orb_false_iff, IH. split.
  - intros [Hx Hl] y [<-|Hy]; auto.
  - intros H. auto.
Qed.

Lemma length_filter_existsb {A} (p : A -> bool) (l : list A) :
  existsb p l = false -> length (List.filter p l) = 0%nat.
Proof. intros H. rewrite filter_all_false; [done|]. by apply existsb_false_forall. Qed.

(** Membership in a [WHERE]-filtered result. *)
Lemma elem_of_List_filter {A} (p : A -> bool) l x :
  x ∈ List.filter p l <-> p x = true /\ x ∈ l.
Proof. rewrite !list_elem_of_In, filter_In. tauto. Qed.

Lemma List_filter_perm {A} (p : A -> bool) l1 l2 :
  l1 ≡ₚ l2 -> List.filter p l1 ≡ₚ List.filter p l2.
Proof.
  induction 1 as [|x l1 l2 _ IH|x y l|l1 l2 l3 _ IH1 _ IH2]; simpl.
  - done.
  - destruct (p x); [by constructor|done].
  - destruct (p x), (p y); try constructor; done.
  - by etrans.
Qed.

#[export] Hint Rewrite @elem_of_List_filter : ltf_rw.

(** A per-row subquery computed beside the rows and zipped back. *)
Lemma zip_with_map_r {A B C} (f : A -> B -> C) (g : A -> B) (l : list A) :
  zip_with f l (List.map g l) = List.map (fun x => f x (g x)) l.
Proof. induction l as [|x l IH]; simpl; [done|]. by rewrite IH. Qed.

Lemma elem_of_List_map {A B} (f : A -> B) l y :
  y ∈ List.map f l <-> exists x, y = f x /\ x ∈ l.
Proof.
  rewrite list_elem_of_In, in_map_iff.
  split; intros (x & Hx & Hl); exists x; rewrite list_elem_of_In in *; auto.
Qed.

(** ** Orders of [ORDER BY]

    [ORDER BY k DESC] and [ORDER BY k ASC] on an integer column.  SQL
    leaves the order of equal keys unspecified; the development sorts
    with stdpp's (stable) [merge_sort], one of the orders MySQL may give. *)
Definition by_desc {A} (key : A -> Z) : relation A := fun x y => (key y <= key x)%Z.
Definition by_asc {A} (key : A -> Z) : relation A := fun x y => (key x <= key y)%Z.

#[export] Instance by_desc_dec {A} (key : A -> Z) : RelDecision (by_desc key).
Proof. intros x y. unfold by_desc. apply _. Defined.
#[export] Instance by_asc_dec {A} (key : A -> Z) : RelDecision (by_asc key).
Proof. intros x y. unfold by_asc. apply _. Defined.
#[export] Instance by_desc_total {A} (key : A -> Z) : Total (by_desc key).
Proof. intros x y. unfold by_desc. lia. Qed.
#[export] Instance by_asc_total {A} (key : A -> Z) : Total (by_asc key).
Proof. intros x y. unfold by_asc. lia. Qed.

(** The rows of a result in [ORDER BY key DESC] / [ASC] order. *)
Definition order_desc {A} (key : A -> Z) (l : list A) : list A := merge_sort (by_desc key) l.
Definition order_asc {A} (key : A -> Z) (l : list A) : list A := merge_sort (by_asc key) l.

Lemma order_desc_sorted {A} (key : A -> Z) l : Sorted (by_desc key) (order_desc key l).
Proof. apply Sorted_merge_sort, _. Qed.
Lemma order_asc_sorted {A} (key : A -> Z) l : Sorted (by_asc key) (order_asc key l).
Proof. apply Sorted_merge_sort, _. Qed.
Lemma order_desc_elem {A} (key : A -> Z) l x : x ∈ order_desc key l <-> x ∈ l.
Proof. unfold order_desc. by rewrite merge_sort_Permutation. Qed.
Lemma order_asc_elem {A} (key : A -> Z) l x : x ∈ order_asc key l <-> x ∈ l.
Proof. unfold order_asc. by rewrite merge_sort_Permutation. Qed.
Lemma order_desc_length {A} (key : A -> Z) l : length (order_desc key l) = length l.
Proof. unfold order_desc. by rewrite merge_sort_Permutation. Qed.

(** [ORDER BY] on a composite or string key, given as a boolean
    comparison [le]. *)
Definition by_le {A} (le : A -> A -> bool) : relation A := fun x y => le x y = true.
#[export] Instance by_le_dec {A} (le : A -> A -> bool) : RelDecision (by_le le).
Proof. intros x y. unfold by_le. apply _. Defined.
Definition order_by {A} (le : A -> A -> bool) (l : list A) : list A := merge_sort (by_le le) l.

Lemma order_by_elem {A} (le : A -> A -> bool) l x : x ∈ order_by le l <-> x ∈ l.
Proof. unfold order_by. by rewrite merge_sort_Permutation. Qed.
Lemma order_by_sorted {A} (le : A -> A -> bool) l :
  (forall x y, le x y = true \/ le y x = true) -> Sorted (by_le le) (order_by le l).
Proof. intros Ht. apply Sorted_merge_sort. exact Ht. Qed.

(** Rewriting the rows of a sorted result without touching their keys
    keeps it sorted. *)
Lemma Sorted_map_key {A} (R : relation A) (f : A -> A) l :
  (forall x y, R x y -> R (f x) (f y)) -> Sorted R l -> Sorted R (List.map f l).
Proof.
  intros Hf Hs. induction Hs as [|x l Hs IH Hhd]; simpl; constructor; [done|].
  destruct Hhd; simpl; constructor. by apply Hf.
Qed.

(** [LIMIT n] of a sorted result is sorted. *)
Lemma Sorted_take {A} (R : relation A) n l : Sorted R l -> Sorted R (take n l).
Proof.
  intros Hs. revert n. induction Hs as [|x l Hs IH Hhd]; intros [|n]; simpl; try constructor.
  - apply IH.
  - destruct Hhd, n; simpl; by constructor.
Qed.

#[export] Hint Resolve order_desc_sorted order_asc_sorted : ltf.
#[export] Hint Rewrite @order_desc_elem @order_asc_elem @order_desc_length : ltf_rw.

#[export] Hint Resolve length_filter_le ci_eqb_refl : ltf.
#[export] Hint Rewrite ci_eqb_refl : ltf_rw.
#[export] Hint Rewrite @filter_app_length : ltf_rw.

(** ** Tactics *)

(** Turn the boolean comparisons of the code into propositions. *)
Ltac bool_to_prop :=
  repeat match goal with
  | H : (_ <? _) = true |- _ => apply Z.ltb_lt in H
  | H : (_ <? _) = false |- _ => apply Z.ltb_ge in H
  | H : (_ <=? _) = true |- _ => apply Z.leb_le in H
  | H : (_ <=? _) = false |- _ => apply Z.leb_gt in H
  | H : Z.eqb _ _ = true |- _ => apply Z.eqb_eq in H
  | H : Z.eqb _ _ = false |- _ => apply Z.eqb_neq in H
  | H : (_ <? _)%nat = true |- _ => apply Nat.ltb_lt in H
  | H : (_ <? _)%nat = false |- _ => apply Nat.ltb_ge in H
  | H : (_ <=? _)%nat = true |- _ => apply Nat.leb_le in H
  | H : (_ <=? _)%nat = false |- _ => apply Nat.leb_gt in H
  | H : (_ && _)%bool = true |- _ => apply andb_true_iff in H as [? ?]
  | H : (_ || _)%bool = false |- _ => apply orb_false_iff in H as [? ?]
  end.

(** Case on the boolean tests of an [if] in the goal, keeping the
    equation, and translate it. *)
Ltac case_if :=
  match goal with
  | |- context [if ?b then _ else _] =>
      let E := fresh "E" in destruct b eqn:E; bool_to_prop
  end.

(** Decide a closed comparison on integers by evaluation. *)
Ltac zcompute := vm_compute; congruence.
