(* ===== verification/Schema.v ===== *)
(** The data model: the five MySQL tables of [server/index.js] (with the
    columns added by [checkAndAddColumns] in [activityController.js]),
    the JWT principal of [middleware/auth.js], and the HTTP responses of
    the controllers. *)

From S2P Require Import Prelude.

(** ** ENUM columns *)

(** [users.role ENUM('admin', 'student', 'club_admin')]. *)
Inductive Role := Admin | Student | ClubAdmin.

(** [activities.status ENUM('pending', 'approved', 'rejected',
    'completed')]: the stored status. *)
Inductive ActStatus := Pending | Approved | Rejected | Completed.

(** The [status] string of an activity as the server sends it: the stored
    value, or one of the three values the read handlers derive from the
    clock ([upcoming], [ongoing], [completed]). *)
Inductive Status :=
  | SPending | SApproved | SRejected | SCompleted | SUpcoming | SOngoing.

Definition stored_status (s : ActStatus) : Status :=
  match s with
  | Pending => SPending
  | Approved => SApproved
  | Rejected => SRejected
  | Completed => SCompleted
  end.

(** [user_activities.status ENUM('registered', 'participated',
    'completed')]. *)
Inductive RegStatus := Registered | Participated | RegCompleted.

(** [club_members.role ENUM('member', 'officer', 'president')]. *)
Inductive MemberRole := Member | Officer | President.

#[export] Instance Role_eq_dec : EqDecision Role.
Proof. solve_decision. Defined.
#[export] Instance ActStatus_eq_dec : EqDecision ActStatus.
Proof. solve_decision. Defined.
#[export] Instance Status_eq_dec : EqDecision Status.
Proof. solve_decision. Defined.
#[export] Instance RegStatus_eq_dec : EqDecision RegStatus.
Proof. solve_decision. Defined.
#[export] Instance MemberRole_eq_dec : EqDecision MemberRole.
Proof. solve_decision. Defined.

(** ** Rows *)

(** [users]: [username], [student_id] and [email] are UNIQUE; [password]
    holds the bcrypt hash; nullable columns are options. *)
Record User := mkUser {
  u_name : string;
  u_password : string;
  u_avatar : option string;
  u_student_id : option string;
  u_bio : option string;
  u_email : option string;
  u_role : Role;
  u_points : Z;
  u_created : Z
}.

(** [clubs]: [name] is UNIQUE, [admin_id INT] is nullable. *)
Record Club := mkClub {
  c_name : string;
  c_description : option string;
  c_logo : option string;
  c_admin : option Z;
  c_created : Z
}.

(** [activities]. *)
Record Activity := mkActivity {
  a_title : string;
  a_description : string;
  a_club : Z;
  a_location : string;
  a_start : Z;
  a_end : Z;
  a_points : Z;
  a_max : Z;
  a_status : ActStatus;
  a_image : option string;
  a_feedback : option string;
  a_created : Z
}.

(** [user_activities]: a registration.  There is no UNIQUE key on
    [(user_id, activity_id)]. *)
Record UserActivity := mkUA {
  ua_id : Z;
  ua_user : Z;
  ua_activity : Z;
  ua_status : RegStatus;
  ua_earned : Z;
  ua_created : Z
}.

(** [club_members]. *)
Record ClubMember := mkCM {
  cm_id : Z;
  cm_user : Z;
  cm_club : Z;
  cm_role : MemberRole;
  cm_joined : Z
}.

(** The database.  The AUTO_INCREMENT counters are part of the state. *)
Record DB := mkDB {
  users : gmap Z User;
  clubs : gmap Z Club;
  activities : gmap Z Activity;
  user_activities : list UserActivity;
  club_members : list ClubMember;
  next_activity : Z;
  next_ua : Z;
  next_club : Z;
  next_cm : Z;
  next_user : Z
}.

(** Field setters. *)
Definition set_users (m : gmap Z User) (d : DB) : DB :=
  mkDB m (clubs d) (activities d) (user_activities d) (club_members d)
    (next_activity d) (next_ua d) (next_club d) (next_cm d) (next_user d).
Definition set_clubs (m : gmap Z Club) (d : DB) : DB :=
  mkDB (users d) m (activities d) (user_activities d) (club_members d)
    (next_activity d) (next_ua d) (next_club d) (next_cm d) (next_user d).
Definition set_activities (m : gmap Z Activity) (d : DB) : DB :=
  mkDB (users d) (clubs d) m (user_activities d) (club_members d)
    (next_activity d) (next_ua d) (next_club d) (next_cm d) (next_user d).
Definition set_ua (l : list UserActivity) (d : DB) : DB :=
  mkDB (users d) (clubs d) (activities d) l (club_members d)
    (next_activity d) (next_ua d) (next_club d) (next_cm d) (next_user d).
Definition set_cm (l : list ClubMember) (d : DB) : DB :=
  mkDB (users d) (clubs d) (activities d) (user_activities d) l
    (next_activity d) (next_ua d) (next_club d) (next_cm d) (next_user d).
Definition set_next_activity (n : Z) (d : DB) : DB :=
  mkDB (users d) (clubs d) (activities d) (user_activities d) (club_members d)
    n (next_ua d) (next_club d) (next_cm d) (next_user d).
Definition set_next_ua (n : Z) (d : DB) : DB :=
  mkDB (users d) (clubs d) (activities d) (user_activities d) (club_members d)
    (next_activity d) n (next_club d) (next_cm d) (next_user d).

Definition with_status (s : ActStatus) (a : Activity) : Activity :=
  mkActivity (a_title a) (a_description a) (a_club a) (a_location a)
    (a_start a) (a_end a) (a_points a) (a_max a) s (a_image a)
    (a_feedback a) (a_created a).

Definition set_next_club (n : Z) (d : DB) : DB :=
  mkDB (users d) (clubs d) (activities d) (user_activities d) (club_members d)
    (next_activity d) (next_ua d) n (next_cm d) (next_user d).
Definition set_next_cm (n : Z) (d : DB) : DB :=
  mkDB (users d) (clubs d) (activities d) (user_activities d) (club_members d)
    (next_activity d) (next_ua d) (next_club d) n (next_user d).
Definition set_next_user (n : Z) (d : DB) : DB :=
  mkDB (users d) (clubs d) (activities d) (user_activities d) (club_members d)
    (next_activity d) (next_ua d) (next_club d) (next_cm d) n.

Definition with_points (p : Z) (u : User) : User :=
  mkUser (u_name u) (u_password u) (u_avatar u) (u_student_id u) (u_bio u)
    (u_email u) (u_role u) p (u_created u).

Definition with_role (r : Role) (u : User) : User :=
  mkUser (u_name u) (u_password u) (u_avatar u) (u_student_id u) (u_bio u)
    (u_email u) r (u_points u) (u_created u).

(** ** The authenticated principal

    The payload of the JWT ([{ id, username, role }]) as decoded by
    [authenticateToken]: the role is the one at login time. *)
Record Principal := mkPrincipal { p_id : Z; p_role : Role }.

(** ** Responses

    The message of each [res.status(code).json({ message, ... })] of the
    controllers, with the data fields the engine's clients use. *)
Inductive Msg :=
  | MNoToken | MBadToken | MNeedAdmin | MNeedClubAdmin
  | MEmptyBody | MMissingFields | MNoFields | MBadReviewStatus | MNoUserIds
  | MDbError
  | MClubNotFound | MActivityNotFound | MActivityNotApproved
  | MNoCreateRole | MNotClubAdmin | MNoUpdateRight | MNoCompleteRight
  | MNoDeleteRight
  | MEnded | MStarted | MFull | MAlreadyJoined | MNotJoined
  | MNoEligible
  | MCreated (id : Z) (s : ActStatus)
  | MUpdated (id : Z)
  | MReviewed (s : ActStatus)
  | MJoined | MLeft
  | MCompleted (affected : nat)
  | MDeleted (participants : nat)
  (* clubController.js *)
  | MClubFields | MClubNameTaken | MClubCreated (id : Z)
  | MNoClubUpdateRight | MClubUpdated
  | MAlreadyMember | MClubJoined | MNotMember | MPresidentCannotLeave | MClubLeft
  | MBadMemberRole | MNoMemberRoleRight | MMemberNotInClub | MMemberRoleUpdated
  | MNoClubDeleteRight | MClubHasActivities (n : nat) | MClubDeleted (members : nat)
  (* userController.js *)
  | MRegisterFields | MUsernameTaken | MEmailTaken | MStudentIdTaken | MInfoTaken
  | MRegistered (id : Z) | MLoginFields | MBadCredentials | MLoggedIn (token : Principal)
  | MUserNotFound | MNoUserUpdateRight | MBadEmail | MBadUsernameLength
  | MBadStudentId | MPointsNaN | MEmailInUse | MUserDupEntry | MUserUpdated
  | MBadRole | MRoleChanged | MSelfDelete | MUserHasRelations | MUserDeleted
  | MCreateUserFields | MUserInfoTaken | MUserCreated (id : Z) (r : Role)
  (* the upload middleware of the routers *)
  | MFileTooLarge | MImageTypesOnly | MExpressError.

Record Resp := mkResp { code : Z; msg : Msg }.

(** ** Row predicates shared by the handlers *)

(** [WHERE user_id = ? AND activity_id = ?]. *)
Definition ua_is (uid aid : Z) (r : UserActivity) : bool :=
  Z.eqb (ua_user r) uid && Z.eqb (ua_activity r) aid.

(** [WHERE activity_id = ?]. *)
Definition ua_of (aid : Z) (r : UserActivity) : bool := Z.eqb (ua_activity r) aid.

(** [SELECT COUNT( * ) FROM user_activities WHERE activity_id = ?]. *)
Definition count_participants (aid : Z) (d : DB) : nat :=
  length (List.filter (ua_of aid) (user_activities d)).

(** [club.admin_id !== req.user.id]: a NULL admin equals no user. *)
Definition is_club_admin (c : Club) (uid : Z) : bool :=
  match c_admin c with Some a => Z.eqb a uid | None => false end.

(** ** A sample database

    The scenario of the design's test plan: a club (id 1) administered by
    user 10, an approved activity (id 1) from [T] to [T + 2h] worth 10
    points with room for 2, and three students 1, 2, 3.  Times are in
    milliseconds, [T] is 10 hours. *)
Module Sample.
Definition T : Z := 36000000.
Definition alice : Principal := mkPrincipal 1 Student.
Definition bob : Principal := mkPrincipal 2 Student.
Definition carol : Principal := mkPrincipal 3 Student.
Definition leader : Principal := mkPrincipal 10 ClubAdmin.
Definition root : Principal := mkPrincipal 99 Admin.
(** A student row whose password column holds [name]. *)
Definition student (name : string) (n : Z) : User :=
  mkUser name name None None None None Student 0 n.
Definition club1 : Club := mkClub "Hikers" (Some "Walks") None (Some 10) 0.
Definition act1 : Activity :=
  mkActivity "Hike" "A walk" 1 "Hill" T (T + 7200000) 10 2 Approved None None 0.
Definition db0 : DB :=
  mkDB (<[1 := student "alice" 1]> (<[2 := student "bob" 2]>
        (<[3 := student "carol" 3]> (<[10 := with_role ClubAdmin (student "lead" 10)]>
        (<[99 := with_role Admin (student "root" 99)]> ∅)))))
       (<[1 := club1]> ∅)
       (<[1 := act1]> ∅)
       [] [] 2 1 2 1 100.
(** [db0] after alice and bob registered for activity 1. *)
Definition db1 : DB :=
  set_next_ua 3 (set_ua [mkUA 1 1 1 Registered 0 0; mkUA 2 2 1 Registered 0 0] db0).
End Sample.
