(* ===== verification/Handler.v ===== *)
(** The execution model of a controller function.  A handler of the
    source is a chain of [db.query(sql, params, (err, results) => ...)]
    callbacks; each callback answers early with
    [return res.status(c).json(..)] or issues the next query.  Here a
    handler is a computation of the monad [M]: a state transformer on
    [Sys] (the database and the failure oracle) that either continues
    with a value ([Cont]) or has answered ([Done]). *)

From S2P Require Import Prelude Schema.

(** The state a request runs against: the database and, for each
    [db.query] still to be issued, whether it fails.  When the list is
    exhausted every further query succeeds. *)
Record Sys := mkSys { sys_db : DB; sys_faults : list bool }.

Inductive Out (A : Type) := Cont (a : A) | Done (r : Resp).
Arguments Cont {A} a.
Arguments Done {A} r.

Definition M (A : Type) : Type := Sys -> Out A * Sys.

Definition ret {A} (a : A) : M A := fun s => (Cont a, s).

Definition bind {A B} (m : M A) (k : A -> M B) : M B := fun s =>
  match m s with
  | (Cont a, s') => k a s'
  | (Done r, s') => (Done r, s')
  end.

Notation "x <- m ;; k" := (bind m (fun x => k))
  (at level 100, m at next level, right associativity) : ltf_scope.
Notation "m ;;; k" := (bind m (fun _ => k))
  (at level 100, right associativity) : ltf_scope.
Open Scope ltf_scope.

(** [return res.status(c).json({ message })]. *)
Definition reply {A} (c : Z) (m : Msg) : M A := fun s => (Done (mkResp c m), s).

(** The answer of every callback whose [err] is set. *)
Definition err500 : Resp := mkResp 500 MDbError.

(** Consume the failure bit of the next query. *)
Definition next_fault (s : Sys) : bool * list bool :=
  match sys_faults s with
  | [] => (false, [])
  | b :: bs => (b, bs)
  end.

(** One [db.query] whose callback begins with
    [if (err) return res.status(500).json(..)].  [q] is the statement:
    its result and the new database, or [None] when the database rejects
    it (a foreign-key or constraint violation). *)
Definition query {A} (q : DB -> option (A * DB)) : M A := fun s =>
  let '(b, bs) := next_fault s in
  if b then (Done err500, mkSys (sys_db s) bs)
  else match q (sys_db s) with
       | Some (a, d') => (Cont a, mkSys d' bs)
       | None => (Done err500, mkSys (sys_db s) bs)
       end.

(** A [SELECT]. *)
Definition select {A} (f : DB -> A) : M A := query (fun d => Some (f d, d)).

(** A statement whose error is only logged ([console.error]) and whose
    caller goes on. *)
Definition query_quiet (q : DB -> option DB) : M unit := fun s =>
  let '(b, bs) := next_fault s in
  if b then (Cont tt, mkSys (sys_db s) bs)
  else match q (sys_db s) with
       | Some d' => (Cont tt, mkSys d' bs)
       | None => (Cont tt, mkSys (sys_db s) bs)
       end.

(** The errors a statement reports: a duplicate value of a UNIQUE column
    ([err.code === 'ER_DUP_ENTRY'], with the key [err.sqlMessage] names),
    or any other failure. *)
Inductive SqlErr := ErDupEntry (key : string) | ErOther.

(** One [db.query] whose callback inspects [err]: the statement [q]
    reports its own errors, a failing query reports [ErOther], and the
    callback's error branch is [on_err]. *)
Definition query_or {A} (q : DB -> SqlErr + (A * DB)) (on_err : SqlErr -> M A) : M A :=
  fun s =>
  let '(b, bs) := next_fault s in
  if b then on_err ErOther (mkSys (sys_db s) bs)
  else match q (sys_db s) with
       | inr (a, d') => (Cont a, mkSys d' bs)
       | inl e => on_err e (mkSys (sys_db s) bs)
       end.

(** Work a callback starts after its response is sent: its queries run
    and change the database, but nothing it answers reaches the client. *)
Definition detach (m : M unit) : M unit := fun s => (Cont tt, snd (m s)).

(** Run a handler to its response. *)
Definition run (h : M Resp) (s : Sys) : Resp * Sys :=
  match h s with
  | (Cont r, s') => (r, s')
  | (Done r, s') => (r, s')
  end.

(** Run a handler against a database with no failing query. *)
Definition run_ok (h : M Resp) (d : DB) : Resp * DB :=
  let '(r, s) := run h (mkSys d []) in (r, sys_db s).

(** ** Middleware of [middleware/auth.js] *)

(** [authenticateToken]: no token or an invalid one answers 401. *)
Definition verifyToken (p : option Principal) (k : Principal -> M Resp) : M Resp :=
  match p with
  | Some u => k u
  | None => reply 401 MNoToken
  end.

(** [isAdmin]. *)
Definition isAdmin (u : Principal) (k : M Resp) : M Resp :=
  if decide (p_role u = Admin) then k else reply 403 MNeedAdmin.

(** [isClubAdminOrAdmin]. *)
Definition isClubAdminOrAdmin (u : Principal) (k : M Resp) : M Resp :=
  if decide (p_role u = ClubAdmin \/ p_role u = Admin) then k
  else reply 403 MNeedClubAdmin.

(** ** The monad's laws and the failure-free evaluation of its primitives *)

Lemma bind_ret_l {A B} (a : A) (k : A -> M B) s : bind (ret a) k s = k a s.
Proof. reflexivity. Qed.

Lemma bind_assoc {A B C} (m : M A) (k : A -> M B) (k' : B -> M C) s :
  bind (bind m k) k' s = bind m (fun a => bind (k a) k') s.
Proof. unfold bind. destruct (m s) as [[a|r] s']; reflexivity. Qed.

Lemma bind_reply {A B} c m0 (k : A -> M B) s : bind (reply c m0) k s = reply c m0 s.
Proof. reflexivity. Qed.

Lemma query_ok {A} (q : DB -> option (A * DB)) d :
  query q (mkSys d []) =
  match q d with
  | Some (a, d') => (Cont a, mkSys d' [])
  | None => (Done err500, mkSys d [])
  end.
Proof. reflexivity. Qed.

Lemma select_ok {A} (f : DB -> A) d : select f (mkSys d []) = (Cont (f d), mkSys d []).
Proof. reflexivity. Qed.

Lemma query_quiet_ok (q : DB -> option DB) d :
  query_quiet q (mkSys d []) =
  (Cont tt, mkSys (match q d with Some d' => d' | None => d end) []).
Proof. unfold query_quiet. simpl. by destruct (q d). Qed.

(** A failing query leaves the database unchanged and answers 500. *)
Lemma query_fault {A} (q : DB -> option (A * DB)) d bs :
  query q (mkSys d (true :: bs)) = (Done err500, mkSys d bs).
Proof. reflexivity. Qed.

(** ** Invariants of computations

    [keeps I m]: whatever the failures, [m] maps a database satisfying
    [I] to one satisfying [I].  The rules below let a handler's proof
    follow the handler's chain of queries. *)
Definition keeps {A} (I : DB -> Prop) (m : M A) : Prop :=
  forall s, I (sys_db s) -> I (sys_db (snd (m s))).

Lemma keeps_ret {A} I (a : A) : keeps I (ret a).
Proof. by intros s. Qed.

Lemma keeps_reply {A} I c m0 : keeps I (@reply A c m0).
Proof. by intros s. Qed.

Lemma keeps_bind {A B} I (m : M A) (k : A -> M B) :
  keeps I m -> (forall a, keeps I (k a)) -> keeps I (bind m k).
Proof.
  intros Hm Hk s HI. unfold bind.
  specialize (Hm s HI). destruct (m s) as [[a|r] s'] eqn:E; simpl in *; [by apply Hk | done].
Qed.

Lemma keeps_query {A} I (q : DB -> option (A * DB)) :
  (forall d a d', q d = Some (a, d') -> I d -> I d') -> keeps I (query q).
Proof.
  intros Hq s HI. unfold query. destruct (next_fault s) as [[] bs]; simpl; [done|].
  destruct (q (sys_db s)) as [[a d']|] eqn:E; simpl; eauto.
Qed.

Lemma keeps_select {A} I (f : DB -> A) : keeps I (select f).
Proof. apply keeps_query. by intros d a d' [= _ <-]. Qed.

Lemma keeps_quiet I (q : DB -> option DB) :
  (forall d d', q d = Some d' -> I d -> I d') -> keeps I (query_quiet q).
Proof.
  intros Hq s HI. unfold query_quiet. destruct (next_fault s) as [[] bs]; simpl; [done|].
  destruct (q (sys_db s)) eqn:E; simpl; eauto.
Qed.

Lemma keeps_query_or {A} I (q : DB -> SqlErr + (A * DB)) (h : SqlErr -> M A) :
  (forall d a d', q d = inr (a, d') -> I d -> I d') -> (forall e, keeps I (h e)) ->
  keeps I (query_or q h).
Proof.
  intros Hq Hh s HI. unfold query_or. destruct (next_fault s) as [[] bs]; [by apply Hh|].
  destruct (q (sys_db s)) as [e|[a d']] eqn:E; [by apply Hh | simpl; eauto].
Qed.

Lemma keeps_detach I (m : M unit) : keeps I m -> keeps I (detach m).
Proof. intros H s HI. by apply H. Qed.

Lemma keeps_verifyToken I p k :
  (forall u, keeps I (k u)) -> keeps I (verifyToken p k).
Proof. intros H. destruct p; simpl; [apply H | apply keeps_reply]. Qed.

Lemma keeps_isAdmin I u k : keeps I k -> keeps I (isAdmin u k).
Proof. intros H. unfold isAdmin. case_decide; [done | apply keeps_reply]. Qed.

Lemma keeps_isClubAdminOrAdmin I u k : keeps I k -> keeps I (isClubAdminOrAdmin u k).
Proof. intros H. unfold isClubAdminOrAdmin. case_decide; [done | apply keeps_reply]. Qed.

Lemma keeps_run_db (I : DB -> Prop) (h : M Resp) s :
  keeps I h -> I (sys_db s) -> I (sys_db (snd (run h s))).
Proof. intros H HI. unfold run. specialize (H s HI). by destruct (h s) as [[]]. Qed.

(** Two invariants a computation keeps are kept together. *)
Lemma keeps_and {A} (I J : DB -> Prop) (m : M A) :
  keeps I m -> keeps J m -> keeps (fun d => I d /\ J d) m.
Proof. intros HI HJ s [Hi Hj]. split; [by apply HI | by apply HJ]. Qed.

#[export] Hint Resolve keeps_ret keeps_reply keeps_select : ltf.

(** The middleware on a failure-free run: a refusal answers at once with
    the database unchanged, an accepted request runs the handler. *)
Lemma run_ok_verifyToken_None k d : run_ok (verifyToken None k) d = (mkResp 401 MNoToken, d).
Proof. reflexivity. Qed.

Lemma run_ok_verifyToken_Some u k d : run_ok (verifyToken (Some u) k) d = run_ok (k u) d.
Proof. reflexivity. Qed.

Lemma run_ok_isAdmin u k d :
  run_ok (isAdmin u k) d = if decide (p_role u = Admin) then run_ok k d else (mkResp 403 MNeedAdmin, d).
Proof. unfold isAdmin. by case_decide. Qed.

Lemma run_ok_isClubAdminOrAdmin u k d :
  run_ok (isClubAdminOrAdmin u k) d =
  if decide (p_role u = ClubAdmin \/ p_role u = Admin) then run_ok k d
  else (mkResp 403 MNeedClubAdmin, d).
Proof. unfold isClubAdminOrAdmin. by case_decide. Qed.

#[export] Hint Rewrite run_ok_verifyToken_None run_ok_verifyToken_Some run_ok_isAdmin
  run_ok_isClubAdminOrAdmin : ltf_rw.

(** Follow a handler's chain of queries with the [keeps] rules; the
    queries that write are left to the caller. *)
Ltac keeps_chain :=
  repeat match goal with
    | |- keeps _ (match ?x with _ => _ end) => destruct x
    | |- keeps _ (bind _ _) => apply keeps_bind; [| intros ?]
    | |- keeps _ (verifyToken _ _) => apply keeps_verifyToken; intros ?
    | |- keeps _ (isAdmin _ _) => apply keeps_isAdmin
    | |- keeps _ (isClubAdminOrAdmin _ _) => apply keeps_isClubAdminOrAdmin
    | |- keeps _ (detach _) => apply keeps_detach
    | |- keeps _ (query_or _ _) => apply keeps_query_or; [| intros ?]
    | |- keeps _ (ret _) => apply keeps_ret
    | |- keeps _ (reply _ _) => apply keeps_reply
    | |- keeps _ (select _) => apply keeps_select
    end.

(** Symbolic execution of a handler over an arbitrary failure oracle:
    case on the failure bit of the next query, or on the value a query
    returned. *)
Ltac hstep :=
  match goal with
  | |- context [next_fault ?s] =>
      let b := fresh "b" in let bs := fresh "bs" in
      destruct (next_fault s) as [b bs]; destruct b
  | |- context [match ?x with Some _ => _ | None => _ end] =>
      let E := fresh "E" in destruct x eqn:E
  | |- context [match ?x with inl _ => _ | inr _ => _ end] =>
      let E := fresh "E" in destruct x eqn:E
  | |- context [if ?b then _ else _] =>
      let E := fresh "E" in destruct b eqn:E
  | |- context [match ?p with (_, _) => _ end] => is_var p; destruct p
  | x : unit |- _ => destruct x
  end.

(** Evaluate a handler along the branch fixed by the hypotheses: rewrite
    each scrutinee the context determines, and simplify. *)
Ltac hrun :=
  repeat first
    [ progress simpl
    | match goal with
      | H : ?x = _ |- context [match ?x with _ => _ end] => rewrite H
      | H : ?x = _ |- context [if ?x then _ else _] => rewrite H
      | H : ?x = _ |- context [if negb ?x then _ else _] => rewrite H
      end ].
