(* ===== verification/TimeWindow.v ===== *)
(** The clock-dependent rules of the activity engine: the status the
    read handlers derive for an activity, the time guards of
    [joinActivity] and [leaveActivity] on the server, and the client's
    eligibility predicates [canRegister] and [canCancelRegistration]. *)

From S2P Require Import Prelude Schema.

Module TimeWindow.

(** [getAllActivities] (activityController.js 183-196) and
    [getActivityById] (226-238): an approved activity's status is replaced
    by one derived from the clock; the nested [if] has a last branch that
    leaves the status unchanged when no test holds. *)
Definition derive_status (st : ActStatus) (start end_ now : Z) : Status :=
  match st with
  | Approved =>
      if (start <=? now) && (now <=? end_) then SOngoing
      else if end_ <? now then SCompleted
      else if now <? start then SUpcoming
      else SApproved
  | _ => stored_status st
  end.

Definition effective_status (now : Z) (a : Activity) : Status :=
  derive_status (a_status a) (a_start a) (a_end a) now.

(** The design's status partition (§4.1 of the design): an approved
    activity is upcoming before its start, ongoing between start and end
    inclusive, completed after its end. *)
Definition spec_status (st : ActStatus) (start end_ now : Z) : Status :=
  match st with
  | Approved =>
      if now <? start then SUpcoming
      else if now <=? end_ then SOngoing
      else SCompleted
  | _ => stored_status st
  end.

(** [joinActivity] (activityController.js 496-512): the activity has
    ended, or it has started and [now] is before [oneHourBeforeStart],
    which is [startTime] with its hour decremented. *)
Definition join_window (a : Activity) (now : Z) : option Msg :=
  let oneHourBeforeStart := a_start a - hour_ms in
  if a_end a <? now then Some MEnded
  else if (a_start a <? now) && (now <? oneHourBeforeStart) then Some MStarted
  else None.

(** [leaveActivity] (activityController.js 874-880). *)
Definition leave_window (a : Activity) (now : Z) : option Msg :=
  if a_start a <=? now then Some MStarted else None.

(** The design's join window (§4.3): upcoming, or ongoing and no later
    than one hour after the start. *)
Definition spec_join_open (a : Activity) (now : Z) : bool :=
  match effective_status now a with
  | SUpcoming => true
  | SOngoing => now <=? a_start a + hour_ms
  | _ => false
  end.

(** ** The client's copies *)

(** The fields of an activity the client's predicates read, as sent by
    the server: the derived [status], [is_joined] ([undefined] is
    falsy), [current_participants], [max_participants], [start_time]. *)
Record ActivityView := mkView {
  v_status : Status;
  v_is_joined : bool;
  v_current : Z;
  v_max : Z;
  v_start : Z
}.

Definition is_upcoming (s : Status) : bool :=
  match s with SUpcoming => true | _ => false end.
Definition is_ongoing (s : Status) : bool :=
  match s with SOngoing => true | _ => false end.

(** [canRegister] of components/ActivityCard.tsx 71-86. *)
Definition canRegister_card (v : ActivityView) (now : Z) : bool :=
  match v_status v with
  | SCompleted | SPending | SRejected => false
  | _ =>
      if v_is_joined v then false
      else if v_max v <=? v_current v then false
      else is_upcoming (v_status v)
           || (is_ongoing (v_status v) && (now <=? v_start v + hour_ms))
  end.

(** [canRegister] of pages/ActivityDetail.tsx 187-199: the same without
    the pending / rejected test. *)
Definition canRegister_detail (v : ActivityView) (now : Z) : bool :=
  match v_status v with
  | SCompleted => false
  | _ =>
      if v_is_joined v then false
      else if v_max v <=? v_current v then false
      else is_upcoming (v_status v)
           || (is_ongoing (v_status v) && (now <=? v_start v + hour_ms))
  end.

(** [canCancelRegistration] of ActivityCard.tsx 89-97 and
    ActivityDetail.tsx 202-210. *)
Definition canCancelRegistration (v : ActivityView) (now : Z) : bool :=
  if negb (v_is_joined v) then false else now <? v_start v.

(** The view of an activity read at time [now] with [n] registrations. *)
Definition view_of (now : Z) (a : Activity) (n : nat) (joined : bool) : ActivityView :=
  mkView (effective_status now a) joined (Z.of_nat n) (a_max a) (a_start a).

(** ** Lemmas *)

Lemma derive_status_not_approved st start end_ now :
  st <> Approved -> derive_status st start end_ now = stored_status st.
Proof. destruct st; done. Qed.

(** The clock never derives the status [approved]: an approved activity
    is upcoming, ongoing or completed. *)
Lemma derive_status_never_approved st start end_ now : derive_status st start end_ now <> SApproved.
Proof.
  destruct st; simpl; try done.
  destruct (Z.leb_spec start now), (Z.leb_spec now end_), (Z.ltb_spec end_ now), (Z.ltb_spec now start);
    simpl; try done; lia.
Qed.

Lemma effective_status_approved now a :
  a_status a = Approved ->
  effective_status now a =
  if (a_start a <=? now) && (now <=? a_end a) then SOngoing
  else if a_end a <? now then SCompleted
  else if now <? a_start a then SUpcoming
  else SApproved.
Proof. unfold effective_status. by intros ->. Qed.

(** The first two tests of [join_window] exclude each other. *)
Lemma oneHourBefore_lt_start a now :
  ((a_start a <? now) && (now <? a_start a - hour_ms))%bool = false.
Proof.
  unfold hour_ms. destruct (a_start a <? now) eqn:E1; [|done].
  simpl. apply Z.ltb_ge. bool_to_prop. lia.
Qed.

(** ** Properties *)

(** C1: For an activity whose start is not after its end, the status
    the server derives is the design's partition: the nested tests of
    the source compute exactly upcoming / ongoing / completed for an
    approved activity and leave every other stored status unchanged. *)
Theorem derive_status_spec st start end_ now :
  start <= end_ -> derive_status st start end_ now = spec_status st start end_ now.
Proof.
  intros Hle. destruct st; try done. simpl.
  repeat case_if; simpl in *; try done; lia.
Qed.

Lemma derive_status_spec_witness :
  0 <= 10 /\ derive_status Approved 0 10 5 = spec_status Approved 0 10 5.
Proof. split; [lia | apply (derive_status_spec Approved 0 10 5); lia]. Defined.

(** The derivation is total on approved activities: whatever the
    three timestamps (even a start after the end, which
    [createActivity] does not reject), an approved activity is reported
    as exactly one of upcoming, ongoing or completed, never as approved. *)
Theorem derive_status_approved_total start end_ now :
  derive_status Approved start end_ now = SUpcoming
  \/ derive_status Approved start end_ now = SOngoing
  \/ derive_status Approved start end_ now = SCompleted.
Proof. simpl. repeat case_if; auto. lia. Qed.

(** The server's "already started" test of [joinActivity] can never
    fire: [oneHourBeforeStart] is one hour before the start, so
    [now > startTime && now < oneHourBeforeStart] is unsatisfiable and
    the join window is decided by the end time alone. *)
Theorem join_window_no_grace a now :
  join_window a now = if a_end a <? now then Some MEnded else None.
Proof. unfold join_window. by rewrite oneHourBefore_lt_start. Qed.

(** C11: Consequently the server accepts a join after the one-hour grace
    window of the design and of the client: an approved activity that
    started more than an hour ago and has not ended passes the server's
    time guard, while the design's window and the client's
    [canRegister] are closed. *)
Theorem join_after_grace_accepted a now n :
  a_status a = Approved -> a_start a + hour_ms < now <= a_end a ->
  join_window a now = None
  /\ spec_join_open a now = false
  /\ canRegister_card (view_of now a n false) now = false.
Proof.
  intros Hst Hw. rewrite join_window_no_grace.
  unfold spec_join_open, canRegister_card, view_of; simpl.
  rewrite effective_status_approved by done. unfold hour_ms in *.
  repeat case_if; simpl; repeat split; try done; lia.
Qed.

Lemma join_after_grace_accepted_witness :
  let a := mkActivity "t" "d" 1 "l" 0 (3 * hour_ms) 10 2 Approved None None 0 in
  a_status a = Approved /\ a_start a + hour_ms < 2 * hour_ms <= a_end a /\
  join_window a (2 * hour_ms) = None
  /\ spec_join_open a (2 * hour_ms) = false
  /\ canRegister_card (view_of (2 * hour_ms) a 0 false) (2 * hour_ms) = false.
Proof.
  simpl. split; [done|]. split; [unfold hour_ms; lia|].
  apply join_after_grace_accepted; [done | unfold hour_ms; simpl; lia].
Defined.

(** The client's cancel button and the server's leave guard agree:
    the client offers cancellation exactly when the user is joined and
    the server's time guard lets the leave through (strictly before the
    start). *)
Theorem cancel_agrees_with_leave a now n joined :
  canCancelRegistration (view_of now a n joined) now = true
  <-> joined = true /\ leave_window a now = None.
Proof.
  unfold canCancelRegistration, leave_window, view_of; simpl.
  destruct joined; simpl; [|intuition congruence].
  repeat case_if; intuition (try congruence; lia).
Qed.

End TimeWindow.
