(* ===== verification/Registration.v ===== *)
(** The registration state machine of [activityController.js]:
    [joinActivity] (474-565) and [leaveActivity] (852-914), with the
    capacity count they consult. *)

From S2P Require Import Prelude Schema Handler TimeWindow.

Module Registration.
Import TimeWindow.

(** [SELECT * FROM activities WHERE id = ? AND status = 'approved']. *)
Definition find_approved (aid : Z) (d : DB) : option Activity :=
  match activities d !! aid with
  | Some a => if decide (a_status a = Approved) then Some a else None
  | None => None
  end.

(** [SELECT * FROM user_activities WHERE user_id = ? AND activity_id = ?]
    is non-empty. *)
Definition is_registered (uid aid : Z) (d : DB) : bool :=
  existsb (ua_is uid aid) (user_activities d).

(** The row [INSERT INTO user_activities (user_id, activity_id, status)
    VALUES (?, ?, 'registered')] adds: the next AUTO_INCREMENT id,
    [earned_points] and [created_at] by their defaults. *)
Definition new_registration (now uid aid : Z) (d : DB) : UserActivity :=
  mkUA (next_ua d) uid aid Registered 0 now.

(** The INSERT, rejected by the foreign keys on [user_id] and
    [activity_id] when either row is missing. *)
Definition insert_registration (now uid aid : Z) (d : DB) : option (unit * DB) :=
  match users d !! uid, activities d !! aid with
  | Some _, Some _ =>
      Some (tt, set_next_ua (next_ua d + 1)
                  (set_ua (user_activities d ++ [new_registration now uid aid d]) d))
  | _, _ => None
  end.

(** [joinActivity]: the activity must be approved, the time guard must
    pass, the count must be below [max_participants], and the user must
    not be registered yet; then the row is inserted. *)
Definition joinActivity (now : Z) (u : Principal) (aid : Z) : M Resp :=
  r <- select (find_approved aid) ;;
  match r with
  | None => reply 404 MActivityNotApproved
  | Some a =>
      match join_window a now with
      | Some m => reply 400 m
      | None =>
          cnt <- select (count_participants aid) ;;
          if a_max a <=? Z.of_nat cnt then reply 400 MFull else
          ex <- select (is_registered (p_id u) aid) ;;
          if ex then reply 400 MAlreadyJoined else
          query (insert_registration now (p_id u) aid) ;;;
          reply 200 MJoined
      end
  end.

(** [DELETE FROM user_activities WHERE user_id = ? AND activity_id = ?]:
    every matching row. *)
Definition delete_registration (uid aid : Z) (d : DB) : option (unit * DB) :=
  Some (tt, set_ua (List.filter (fun r => negb (ua_is uid aid r)) (user_activities d)) d).

(** [leaveActivity]: the activity must exist (any status), the start
    must not have been reached, and the user must be registered. *)
Definition leaveActivity (now : Z) (u : Principal) (aid : Z) : M Resp :=
  r <- select (fun d => activities d !! aid) ;;
  match r with
  | None => reply 404 MActivityNotFound
  | Some a =>
      match leave_window a now with
      | Some m => reply 400 m
      | None =>
          ex <- select (is_registered (p_id u) aid) ;;
          if negb ex then reply 400 MNotJoined else
          query (delete_registration (p_id u) aid) ;;;
          reply 200 MLeft
      end
  end.

(** The routes of activityRoutes.js 75 and 78. *)
Definition route_join (now : Z) (p : option Principal) (aid : Z) : M Resp :=
  verifyToken p (fun u => joinActivity now u aid).
Definition route_leave (now : Z) (p : option Principal) (aid : Z) : M Resp :=
  verifyToken p (fun u => leaveActivity now u aid).

(** ** Lemmas *)

Lemma find_approved_Some aid d a :
  find_approved aid d = Some a <-> activities d !! aid = Some a /\ a_status a = Approved.
Proof.
  unfold find_approved. destruct (activities d !! aid) as [a'|]; [|split; [done | by intros []]].
  case_decide; split; [intros [= <-] | intros [[= ->] _] | done | intros [[= ->] ?]]; done.
Qed.

Lemma count_participants_append aid d r :
  length (List.filter (ua_of aid) (user_activities d ++ [r])) =
  (count_participants aid d + (if ua_of aid r then 1 else 0))%nat.
Proof.
  unfold count_participants. rewrite filter_app_length. simpl.
  by destruct (ua_of aid r).
Qed.

Lemma ua_of_new_registration now uid aid d : ua_of aid (new_registration now uid aid d) = true.
Proof. apply Z.eqb_refl. Qed.

Lemma ua_is_new_registration now uid aid d :
  ua_is uid aid (new_registration now uid aid d) = true.
Proof. unfold ua_is. simpl. by rewrite !Z.eqb_refl. Qed.

Lemma count_participants_register now uid aid d n :
  count_participants aid
    (set_next_ua n (set_ua (user_activities d ++ [new_registration now uid aid d]) d))
  = S (count_participants aid d).
Proof.
  unfold count_participants at 1. simpl.
  rewrite count_participants_append, ua_of_new_registration. lia.
Qed.

Lemma delete_registration_absent uid aid l :
  existsb (ua_is uid aid) l = false ->
  List.filter (fun r => negb (ua_is uid aid r)) l = l.
Proof.
  intros H. apply filter_all_true. intros x Hx.
  rewrite (proj1 (existsb_false_forall _ _) H x Hx). done.
Qed.

(** The result of a join that passes every test and whose queries all
    succeed. *)
Lemma joinActivity_run_ok now u aid d a :
  find_approved aid d = Some a -> join_window a now = None ->
  Z.of_nat (count_participants aid d) < a_max a ->
  is_registered (p_id u) aid d = false ->
  is_Some (users d !! p_id u) ->
  run_ok (joinActivity now u aid) d =
  (mkResp 200 MJoined,
   set_next_ua (next_ua d + 1)
     (set_ua (user_activities d ++ [new_registration now (p_id u) aid d]) d)).
Proof.
  intros Hf Hw Hc Hr [x Hu]. apply Z.leb_gt in Hc.
  pose proof (proj1 (find_approved_Some _ _ _) Hf) as [Ha _].
  unfold run_ok, run, joinActivity, bind, select, query, insert_registration. by hrun.
Qed.

(** The case analysis of [joinActivity] over every query's outcome. *)
Ltac join_cases :=
  match goal with s : Sys |- _ => destruct s as [?d ?fs] end;
  unfold run, joinActivity, bind, select, query;
  repeat (simpl; hstep);
  simpl; first [left; split; [done|done] | right; bool_to_prop; split; [done|]; split; [done|]; eexists; eauto].

(** C2: [joinActivity] on every branch, whichever of its queries fail:
    either it answers with an error and the database is unchanged, or it
    answers 200 and the database is exactly the old one plus the new
    registration; a 200 answer implies the activity is approved, the
    time guard passed, the count was below the capacity and the user had
    no registration. *)
Theorem joinActivity_db now u aid s :
  let '(r, s') := run (joinActivity now u aid) s in
  (code r <> 200 /\ sys_db s' = sys_db s)
  \/ (r = mkResp 200 MJoined
      /\ insert_registration now (p_id u) aid (sys_db s) = Some (tt, sys_db s')
      /\ exists a, find_approved aid (sys_db s) = Some a
          /\ join_window a now = None
          /\ Z.of_nat (count_participants aid (sys_db s)) < a_max a
          /\ is_registered (p_id u) aid (sys_db s) = false).
Proof. join_cases. Qed.

(** The branches of [joinActivity], whichever of its queries fail. *)
Lemma joinActivity_cases now u aid s :
  let '(r, s') := run (joinActivity now u aid) s in
  (code r <> 200 /\ sys_db s' = sys_db s)
  \/ (r = mkResp 200 MJoined
      /\ insert_registration now (p_id u) aid (sys_db s) = Some (tt, sys_db s')
      /\ exists a, find_approved aid (sys_db s) = Some a
          /\ join_window a now = None
          /\ Z.of_nat (count_participants aid (sys_db s)) < a_max a
          /\ is_registered (p_id u) aid (sys_db s) = false).
Proof. join_cases. Qed.

(** The effect of a successful insert on the table and the count. *)
Lemma insert_registration_effect now uid aid d d' :
  insert_registration now uid aid d = Some (tt, d') ->
  user_activities d' = user_activities d ++ [new_registration now uid aid d]
  /\ count_participants aid d' = S (count_participants aid d).
Proof.
  unfold insert_registration.
  destruct (users d !! uid), (activities d !! aid); intros; simplify_eq.
  split; [done|]. apply count_participants_register.
Qed.

(** C3: A join never takes an activity past its capacity: after any
    join, whichever queries fail, either the activity's registration
    count is unchanged, or the join succeeded and the count is now at
    most [max_participants].  (This holds for one request at a time; see
    Concurrency.v for interleaved requests.) *)
Theorem join_respects_capacity now u aid s :
  let '(r, s') := run (joinActivity now u aid) s in
  count_participants aid (sys_db s') = count_participants aid (sys_db s)
  \/ (code r = 200 /\
      exists a, activities (sys_db s) !! aid = Some a
        /\ Z.of_nat (count_participants aid (sys_db s')) <= a_max a).
Proof.
  pose proof (joinActivity_cases now u aid s) as H.
  destruct (run (joinActivity now u aid) s) as [r s'].
  destruct H as [[_ ->] | (-> & Hins & a & Hf & _ & Hc & _)]; [by left|].
  right. split; [done|]. exists a.
  apply find_approved_Some in Hf as [Ha _]. split; [done|].
  apply insert_registration_effect in Hins as [_ ->]. lia.
Qed.

(** C4: With no failing query, a join that finds the activity approved
    and not yet ended, below capacity, and the user known and not yet
    registered, answers 200 and appends exactly one registration, whose
    count is now at most the capacity.  No condition on the start time
    is needed: the server accepts joins at any time before the end. *)
Theorem join_registers now u aid d a :
  find_approved aid d = Some a -> now <= a_end a ->
  Z.of_nat (count_participants aid d) < a_max a ->
  is_registered (p_id u) aid d = false -> is_Some (users d !! p_id u) ->
  let '(r, d') := run_ok (joinActivity now u aid) d in
  r = mkResp 200 MJoined
  /\ user_activities d' = user_activities d ++ [new_registration now (p_id u) aid d]
  /\ count_participants aid d' = S (count_participants aid d)
  /\ Z.of_nat (count_participants aid d') <= a_max a.
Proof.
  intros Hf Hend Hc Hr Hu.
  assert (Hw : join_window a now = None).
  { rewrite join_window_no_grace. apply Z.ltb_ge in Hend. by rewrite Hend. }
  rewrite (joinActivity_run_ok now u aid d a Hf Hw Hc Hr Hu). simpl.
  rewrite count_participants_register. repeat split; try done; lia.
Qed.

(** C5: A leave at or after the start of the activity always fails:
    whichever queries fail, the database is unchanged and the answer is
    "already started" (or 500 when the first query fails). *)
Theorem leave_after_start_fails now u aid a s :
  activities (sys_db s) !! aid = Some a -> a_start a <= now ->
  let '(r, s') := run (leaveActivity now u aid) s in
  sys_db s' = sys_db s /\ (r = mkResp 400 MStarted \/ r = err500).
Proof.
  intros Ha Hs. destruct s as [d fs]. simpl in Ha.
  assert (Hw : leave_window a now = Some MStarted).
  { unfold leave_window. apply Z.leb_le in Hs. by rewrite Hs. }
  unfold run, leaveActivity, bind, select, query, reply.
  destruct (next_fault _) as [[] bs]; hrun; simpl; auto.
Qed.

(** C14: Join followed by leave, both before the start, restores the
    registrations of the database: the table is the one before the join,
    so the count is back to its value before the join. *)
Theorem join_leave_roundtrip now now' u aid d a :
  find_approved aid d = Some a -> now < a_start a -> now' < a_start a ->
  a_start a <= a_end a ->
  Z.of_nat (count_participants aid d) < a_max a ->
  is_registered (p_id u) aid d = false -> is_Some (users d !! p_id u) ->
  let d1 := snd (run_ok (joinActivity now u aid) d) in
  let '(r, d2) := run_ok (leaveActivity now' u aid) d1 in
  r = mkResp 200 MLeft /\ user_activities d2 = user_activities d
  /\ count_participants aid d2 = count_participants aid d.
Proof.
  intros Hf Hn Hn' Hse Hc Hr Hu.
  assert (Hw : join_window a now = None).
  { rewrite join_window_no_grace. by rewrite (proj2 (Z.ltb_ge _ _)) by lia. }
  rewrite (joinActivity_run_ok now u aid d a Hf Hw Hc Hr Hu). simpl.
  pose proof (proj1 (find_approved_Some _ _ _) Hf) as [Ha _].
  assert (Hl : leave_window a now' = None).
  { unfold leave_window. by rewrite (proj2 (Z.leb_gt _ _)) by lia. }
  assert (Hreg : is_registered (p_id u) aid
     (set_next_ua (next_ua d + 1)
        (set_ua (user_activities d ++ [new_registration now (p_id u) aid d]) d)) = true).
  { unfold is_registered. simpl. rewrite existsb_app. simpl.
    by rewrite ua_is_new_registration, orb_true_r. }
  unfold run_ok, run, leaveActivity, bind, select, query, reply, next_fault,
    delete_registration. hrun.
  rewrite !List.filter_app. simpl. rewrite !ua_is_new_registration. simpl.
  rewrite !app_nil_r, !delete_registration_absent by done.
  repeat split.
Qed.

(** ** Witnesses on the sample database *)

Lemma join_registers_witness :
  let d := Sample.db0 in let u := Sample.alice in
  let now := Sample.T - hour_ms in
  (find_approved 1 d = Some Sample.act1 /\ now <= a_end Sample.act1
   /\ Z.of_nat (count_participants 1 d) < a_max Sample.act1
   /\ is_registered (p_id u) 1 d = false /\ is_Some (users d !! p_id u))
  /\ let '(r, d') := run_ok (joinActivity now u 1) d in
     r = mkResp 200 MJoined
     /\ user_activities d' = user_activities d ++ [new_registration now (p_id u) 1 d]
     /\ count_participants 1 d' = S (count_participants 1 d)
     /\ Z.of_nat (count_participants 1 d') <= a_max Sample.act1.
Proof.
  intros d u now.
  assert (H1 : find_approved 1 d = Some Sample.act1) by (vm_compute; reflexivity).
  assert (H2 : now <= a_end Sample.act1) by zcompute.
  assert (H3 : Z.of_nat (count_participants 1 d) < a_max Sample.act1) by (vm_compute; reflexivity).
  assert (H4 : is_registered (p_id u) 1 d = false) by (vm_compute; reflexivity).
  assert (H5 : is_Some (users d !! p_id u)) by (vm_compute; eexists; reflexivity).
  split; [tauto|]. exact (join_registers now u 1 d Sample.act1 H1 H2 H3 H4 H5).
Defined.

Lemma leave_after_start_fails_witness :
  let s := mkSys Sample.db0 [] in
  (activities (sys_db s) !! 1 = Some Sample.act1 /\ a_start Sample.act1 <= Sample.T)
  /\ let '(r, s') := run (leaveActivity Sample.T Sample.alice 1) s in
     sys_db s' = sys_db s /\ (r = mkResp 400 MStarted \/ r = err500).
Proof.
  intros s.
  assert (H1 : activities (sys_db s) !! 1 = Some Sample.act1) by (vm_compute; reflexivity).
  assert (H2 : a_start Sample.act1 <= Sample.T) by zcompute.
  split; [tauto|]. exact (leave_after_start_fails Sample.T Sample.alice 1 Sample.act1 s H1 H2).
Defined.

Lemma join_leave_roundtrip_witness :
  let d := Sample.db0 in let u := Sample.alice in
  let now := Sample.T - hour_ms in let now' := Sample.T - 1 in
  (find_approved 1 d = Some Sample.act1 /\ now < a_start Sample.act1
   /\ now' < a_start Sample.act1 /\ a_start Sample.act1 <= a_end Sample.act1
   /\ Z.of_nat (count_participants 1 d) < a_max Sample.act1
   /\ is_registered (p_id u) 1 d = false /\ is_Some (users d !! p_id u))
  /\ let d1 := snd (run_ok (joinActivity now u 1) d) in
     let '(r, d2) := run_ok (leaveActivity now' u 1) d1 in
     r = mkResp 200 MLeft /\ user_activities d2 = user_activities d
     /\ count_participants 1 d2 = count_participants 1 d.
Proof.
  intros d u now now'.
  assert (H1 : find_approved 1 d = Some Sample.act1) by (vm_compute; reflexivity).
  assert (H2 : now < a_start Sample.act1) by zcompute.
  assert (H3 : now' < a_start Sample.act1) by zcompute.
  assert (H4 : a_start Sample.act1 <= a_end Sample.act1) by zcompute.
  assert (H5 : Z.of_nat (count_participants 1 d) < a_max Sample.act1) by (vm_compute; reflexivity).
  assert (H6 : is_registered (p_id u) 1 d = false) by (vm_compute; reflexivity).
  assert (H7 : is_Some (users d !! p_id u)) by (vm_compute; eexists; reflexivity).
  split; [tauto|].
  exact (join_leave_roundtrip now now' u 1 d Sample.act1 H1 H2 H3 H4 H5 H6 H7).
Defined.

End Registration.
