(* ===== verification/Reads.v ===== *)
(** The read handlers of [server/controllers/activityController.js]:
    [getAllActivities], [getActivityById], [getPendingActivities],
    [getUserActivities] and [getActivityStats].  Each is a computation of
    [M] whose continuation value is the JSON body of its 200 answer; the
    SQL joins and orders are written out on the tables of [Schema]. *)

From S2P Require Import Prelude Schema Handler TimeWindow Registration.

Module Reads.
Import TimeWindow Registration.

(** ** Rows of [activities a JOIN clubs c ON a.club_id = c.id] *)

(** [a.*, c.name as club_name, c.logo as club_logo,
    (SELECT COUNT( * ) ..) as current_participants]; [r_status] is the
    [status] field, which the handlers overwrite with the derived one. *)
Record ActivityRow := mkRow {
  r_id : Z;
  r_act : Activity;
  r_club_name : string;
  r_club_logo : option string;
  r_participants : nat;
  r_status : Status
}.

(** The joined row of activity [id], if its club exists (inner join). *)
Definition activity_row (d : DB) (id : Z) (a : Activity) : option ActivityRow :=
  match clubs d !! a_club a with
  | Some c => Some (mkRow id a (c_name c) (c_logo c) (count_participants id d)
                      (stored_status (a_status a)))
  | None => None
  end.

Definition activity_rows (d : DB) : list ActivityRow :=
  omap (fun p => activity_row d p.1 p.2) (map_to_list (activities d)).

Definition row_start (r : ActivityRow) : Z := a_start (r_act r).
Definition row_created (r : ActivityRow) : Z := a_created (r_act r).

(** The [results.forEach] of getAllActivities (and the same block of
    getActivityById): an approved row gets its status from the clock. *)
Definition derive_row (now : Z) (r : ActivityRow) : ActivityRow :=
  let a := r_act r in
  mkRow (r_id r) a (r_club_name r) (r_club_logo r) (r_participants r)
    (derive_status (a_status a) (a_start a) (a_end a) now).

(** The [status] column as MySQL compares it with a query string. *)
Definition status_str (s : ActStatus) : string :=
  match s with
  | Pending => "pending" | Approved => "approved"
  | Rejected => "rejected" | Completed => "completed"
  end.

(** The WHERE clause built from [req.query]: [if (status)] and
    [if (club_id)] add [a.status = ?] and [a.club_id = ?]; the ENUM is
    compared with the string under the column's collation. *)
Definition list_filter (status : option string) (club_id : option Z) (r : ActivityRow) : bool :=
  (if truthy_str status
   then match status with Some s => ci_eqb (status_str (a_status (r_act r))) s | None => true end
   else true)
  && match club_id with Some c => Z.eqb (a_club (r_act r)) c | None => true end.

(** ** Handlers *)

(** [getAllActivities] (lines 153-196): the filtered join, in
    [ORDER BY a.start_time DESC] order, with derived statuses. *)
Definition getAllActivities (now : Z) (status : option string) (club_id : option Z)
    : M (list ActivityRow) :=
  rows <- select (fun d => order_desc row_start (List.filter (list_filter status club_id) (activity_rows d))) ;;
  ret (List.map (derive_row now) rows).

(** A participant of [participantsQuery]:
    [u.id, u.username as name, u.avatar, ua.created_at as join_time]. *)
Record Participant := mkPart { pt_id : Z; pt_name : string; pt_avatar : option string; pt_join : Z }.

Definition participant_of (d : DB) (r : UserActivity) : option Participant :=
  match users d !! ua_user r with
  | Some u => Some (mkPart (ua_user r) (u_name u) (u_avatar u) (ua_created r))
  | None => None
  end.

(** [user_activities ua JOIN users u .. WHERE ua.activity_id = ?
    ORDER BY ua.created_at ASC]. *)
Definition participants (aid : Z) (d : DB) : list Participant :=
  order_asc pt_join (omap (participant_of d) (List.filter (ua_of aid) (user_activities d))).

(** The body [{ activity, participants }], with [activity.is_joined]
    present only when [req.user] was set. *)
Record ActivityDetail := mkDetail {
  det_activity : ActivityRow;
  det_is_joined : option bool;
  det_participants : list Participant
}.

(** [getActivityById] (lines 199-300); [user] is [req.user]. *)
Definition getActivityById (now : Z) (user : option Principal) (aid : Z) : M ActivityDetail :=
  rows <- select (fun d => List.filter (fun r => Z.eqb (r_id r) aid) (activity_rows d)) ;;
  match rows with
  | [] => reply 404 MActivityNotFound
  | r :: _ =>
      let act := derive_row now r in
      match user with
      | Some u =>
          joined <- select (is_registered (p_id u) aid) ;;
          ps <- select (participants aid) ;;
          ret (mkDetail act (Some joined) ps)
      | None =>
          ps <- select (participants aid) ;;
          ret (mkDetail act None ps)
      end
  end.

(** [GET /:id] of routes/activityRoutes.js (line 66) has no
    [verifyToken]: the handler runs with [req.user] unset whatever token
    the request carries. *)
Definition route_get_activity (now : Z) (token : option Principal) (aid : Z) : M ActivityDetail :=
  getActivityById now None aid.

(** [getPendingActivities] (lines 663-681): stored status pending,
    [ORDER BY a.created_at ASC], statuses not derived. *)
Definition getPendingActivities : M (list ActivityRow) :=
  select (fun d => order_asc row_created
    (List.filter (fun r => bool_decide (a_status (r_act r) = Pending)) (activity_rows d))).

(** A row of getUserActivities: [a.*, club_name, club_logo,
    ua.status as participation_status, ua.earned_points]. *)
Record UserActivityRow := mkURow {
  ur_id : Z;
  ur_act : Activity;
  ur_club_name : string;
  ur_club_logo : option string;
  ur_status : RegStatus;
  ur_earned : Z
}.

Definition user_activity_row (d : DB) (uid : Z) (r : UserActivity) : option UserActivityRow :=
  if Z.eqb (ua_user r) uid then
    match activities d !! ua_activity r with
    | Some a =>
        match clubs d !! a_club a with
        | Some c => Some (mkURow (ua_activity r) a (c_name c) (c_logo c) (ua_status r) (ua_earned r))
        | None => None
        end
    | None => None
    end
  else None.

(** [getUserActivities] (lines 770-790): one row per registration of the
    caller, [ORDER BY a.start_time DESC]. *)
Definition getUserActivities (u : Principal) : M (list UserActivityRow) :=
  select (fun d => order_desc (fun r => a_start (ur_act r))
                     (omap (user_activity_row d (p_id u)) (user_activities d))).

(** ** Statistics *)

(** [MONTH(t)] and [YEAR(t)] of a timestamp in milliseconds: the civil
    date of day [t / 86400000] (days from civil, proleptic Gregorian
    calendar; timestamps are taken in the server's time zone). *)
Definition year_month (t : Z) : Z * Z :=
  let z := t / 86400000 + 719468 in
  let era := z / 146097 in
  let doe := z - era * 146097 in
  let yoe := (doe - doe / 1460 + doe / 36524 - doe / 146096) / 365 in
  let doy := doe - (365 * yoe + yoe / 4 - yoe / 100) in
  let mp := (5 * doy + 2) / 153 in
  let m := if mp <? 10 then mp + 3 else mp - 9 in
  (if m <=? 2 then yoe + era * 400 + 1 else yoe + era * 400, m).

(** The body [{ stats }] of getActivityStats. *)
Record Stats := mkStats {
  st_total : nat;
  st_pending : nat;
  st_approved : nat;
  st_completed : nat;
  st_rejected : nat;
  st_current_month : nat;
  st_popular : list (Z * string * nat)
}.

Definition count_status (s : ActStatus) (d : DB) : nat :=
  length (List.filter (fun p => bool_decide (a_status p.2 = s)) (map_to_list (activities d))).

(** [a.id, a.title, COUNT(ua.id)] of [activities a LEFT JOIN
    user_activities ua .. GROUP BY a.id ORDER BY participant_count DESC
    LIMIT 5]. *)
Definition popular (d : DB) : list (Z * string * nat) :=
  take 5 (order_desc (fun p => Z.of_nat p.2)
    (List.map (fun p => (p.1, a_title p.2, count_participants p.1 d)) (map_to_list (activities d)))).

(** [getActivityStats] (lines 793-850): three queries, each answering
    500 on error. *)
Definition getActivityStats (now : Z) : M Stats :=
  totals <- select (fun d => (length (map_to_list (activities d)), count_status Pending d,
                              count_status Approved d, count_status Completed d,
                              count_status Rejected d)) ;;
  month <- select (fun d => length (List.filter
                     (fun p => bool_decide (year_month (a_start p.2) = year_month now))
                     (map_to_list (activities d)))) ;;
  pop <- select popular ;;
  let '(t, p, a, c, r) := totals in
  ret (mkStats t p a c r month pop).

(** ** Properties *)

Lemma elem_activity_rows d r :
  r ∈ activity_rows d <-> exists id a, activities d !! id = Some a /\ activity_row d id a = Some r.
Proof.
  unfold activity_rows. rewrite list_elem_of_omap. split.
  - intros [[id a] [Hin Hr]]. apply elem_of_map_to_list in Hin. eauto.
  - intros (id & a & Ha & Hr). exists (id, a). split; [by apply elem_of_map_to_list | done].
Qed.

Lemma activity_row_Some d id a r :
  activity_row d id a = Some r <->
  exists c, clubs d !! a_club a = Some c /\
            r = mkRow id a (c_name c) (c_logo c) (count_participants id d) (stored_status (a_status a)).
Proof.
  unfold activity_row. destruct (clubs d !! a_club a) as [c|]; split.
  - intros [= <-]. eauto.
  - by intros (c' & [= <-] & ->).
  - done.
  - by intros (c' & ? & _).
Qed.

(** The list read with no failing query. *)
Lemma getAllActivities_ok now st c d :
  fst (getAllActivities now st c (mkSys d [])) =
  Cont (List.map (derive_row now) (order_desc row_start (List.filter (list_filter st c) (activity_rows d)))).
Proof. reflexivity. Qed.

(** Every activity whose club exists is on the unfiltered list, with
    its derived status. *)
Lemma getAllActivities_row_elem now d id a c :
  activities d !! id = Some a -> clubs d !! a_club a = Some c ->
  derive_row now (mkRow id a (c_name c) (c_logo c) (count_participants id d) (stored_status (a_status a)))
  ∈ List.map (derive_row now) (order_desc row_start (List.filter (list_filter None None) (activity_rows d))).
Proof.
  intros Ha Hc. apply list_elem_of_fmap. eexists. split; [done|].
  rewrite order_desc_elem, elem_of_List_filter. split; [done|].
  apply elem_activity_rows. exists id, a. split; [done|]. apply activity_row_Some. by exists c.
Qed.

Lemma derive_row_key now : forall x y, by_desc row_start x y -> by_desc row_start (derive_row now x) (derive_row now y).
Proof. done. Qed.

(** C27: [getAllActivities] answers, with no failing query, exactly the
    activities whose club exists and which pass the [status] and
    [club_id] filters of the query string, each once per activity with
    its club's name and logo, its registration count and the status
    derived from the clock, sorted by start time descending (§5 of the
    design: [listActivities]). *)
Theorem getAllActivities_spec now status club_id d :
  exists rows, fst (getAllActivities now status club_id (mkSys d [])) = Cont rows
  /\ Sorted (by_desc row_start) rows
  /\ forall r, r ∈ rows <->
       exists id a c, activities d !! id = Some a /\ clubs d !! a_club a = Some c
       /\ list_filter status club_id (mkRow id a (c_name c) (c_logo c) (count_participants id d)
                                      (stored_status (a_status a))) = true
       /\ r = mkRow id a (c_name c) (c_logo c) (count_participants id d)
                 (derive_status (a_status a) (a_start a) (a_end a) now).
Proof.
  eexists. split; [reflexivity|]. split.
  { apply Sorted_map_key; [apply derive_row_key | apply order_desc_sorted]. }
  intros r. rewrite list_elem_of_fmap. setoid_rewrite order_desc_elem.
  setoid_rewrite elem_of_List_filter. setoid_rewrite elem_activity_rows.
  setoid_rewrite activity_row_Some. split.
  - intros (y & -> & Hf & id & a & Ha & c & Hc & ->). eauto 10.
  - intros (id & a & c & Ha & Hc & Hf & ->). eexists. split; [|split; [exact Hf|eauto 10]]. done.
Qed.

(** The registrations of activity [aid] whose user exists, ordered by
    join time. *)
Lemma participants_spec aid d :
  Sorted (by_asc pt_join) (participants aid d)
  /\ forall p, p ∈ participants aid d <->
       exists r us, r ∈ user_activities d /\ ua_activity r = aid /\ users d !! ua_user r = Some us
       /\ p = mkPart (ua_user r) (u_name us) (u_avatar us) (ua_created r).
Proof.
  split; [apply order_asc_sorted|]. intros p. unfold participants.
  rewrite order_asc_elem, list_elem_of_omap. setoid_rewrite elem_of_List_filter.
  unfold participant_of, ua_of. split.
  - intros (r & [Hof Hin] & Hp). destruct (users d !! ua_user r) as [us|] eqn:Eu; [|done].
    injection Hp as <-. apply Z.eqb_eq in Hof. eauto 10.
  - intros (r & us & Hin & Ha & Hu & ->). exists r. rewrite Hu, Ha, Z.eqb_refl. done.
Qed.

(** The row of [activities a JOIN clubs c WHERE a.id = aid]. *)
Lemma rows_by_id d aid r :
  r ∈ List.filter (fun r => Z.eqb (r_id r) aid) (activity_rows d) <->
  exists a c, activities d !! aid = Some a /\ clubs d !! a_club a = Some c
  /\ r = mkRow aid a (c_name c) (c_logo c) (count_participants aid d) (stored_status (a_status a)).
Proof.
  rewrite elem_of_List_filter, elem_activity_rows. setoid_rewrite activity_row_Some. split.
  - intros [Hid (id & a & Ha & c & Hc & ->)]. simpl in Hid. apply Z.eqb_eq in Hid as ->. eauto.
  - intros (a & c & Ha & Hc & ->). simpl. rewrite Z.eqb_refl. eauto 10.
Qed.

(** [getActivityById] with no failing query: 404 exactly when the
    activity or its club is missing; otherwise the joined row with the
    derived status, [is_joined] exactly when [req.user] is set (whether
    the caller has a registration), and the participants: every
    registration of the activity whose user exists, by join time
    ascending (§5 of the design: [getActivity]). *)
Theorem getActivityById_spec now user aid d :
  match fst (getActivityById now user aid (mkSys d [])) with
  | Cont det =>
      (exists a c, activities d !! aid = Some a /\ clubs d !! a_club a = Some c
       /\ det_activity det = mkRow aid a (c_name c) (c_logo c) (count_participants aid d)
                               (derive_status (a_status a) (a_start a) (a_end a) now))
      /\ det_is_joined det = (match user with Some u => Some (is_registered (p_id u) aid d) | None => None end)
      /\ Sorted (by_asc pt_join) (det_participants det)
      /\ (forall p, p ∈ det_participants det <->
           exists r us, r ∈ user_activities d /\ ua_activity r = aid /\ users d !! ua_user r = Some us
           /\ p = mkPart (ua_user r) (u_name us) (u_avatar us) (ua_created r))
  | Done r =>
      r = mkResp 404 MActivityNotFound
      /\ forall a, activities d !! aid = Some a -> clubs d !! a_club a = None
  end.
Proof.
  unfold getActivityById, bind, select, query, ret, reply, next_fault. simpl.
  destruct (List.filter _ (activity_rows d)) as [|r rs] eqn:E.
  - split; [done|]. intros a Ha. destruct (clubs d !! a_club a) as [c|] eqn:Hc; [|done].
    assert (Hin : mkRow aid a (c_name c) (c_logo c) (count_participants aid d) (stored_status (a_status a))
                  ∈ List.filter (fun r => Z.eqb (r_id r) aid) (activity_rows d)).
    { apply rows_by_id. eauto. }
    rewrite E in Hin. by apply elem_of_nil in Hin.
  - assert (Hr : r ∈ List.filter (fun r => Z.eqb (r_id r) aid) (activity_rows d)) by (rewrite E; left).
    apply rows_by_id in Hr as (a & c & Ha & Hc & ->).
    destruct (participants_spec aid d) as [Hs Hp].
    destruct user; simpl; eauto 10.
Qed.

(** The detail route ignores the caller's token: alice, registered
    for activity 1, asks for it with her token and gets no [is_joined]
    field, so ActivityDetail.tsx shows her the join button of a
    non-participant (GET /:id has no [verifyToken]). *)
Theorem detail_route_hides_registration :
  match fst (route_get_activity (Sample.T - hour_ms) (Some Sample.alice) 1 (mkSys Sample.db1 [])) with
  | Cont det => det_is_joined det = None /\ is_registered 1 1 Sample.db1 = true
  | Done _ => False
  end.
Proof. vm_compute. split; reflexivity. Qed.

(** Every stored status is one of the four ENUM values. *)
Lemma count_status_partition d :
  length (map_to_list (activities d)) =
  (count_status Pending d + count_status Approved d + count_status Completed d
   + count_status Rejected d)%nat.
Proof.
  unfold count_status. induction (map_to_list (activities d)) as [|[i a] l IH]; [done|].
  simpl. destruct (a_status a); simpl; rewrite IH; lia.
Qed.

(** [getActivityStats] with no failing query answers counts whose
    four per-status parts add up to the total number of activities, and
    at most five popular activities, by participant count descending. *)
Theorem getActivityStats_spec now d :
  match fst (getActivityStats now (mkSys d [])) with
  | Cont st =>
      st_total st = map_size (activities d)
      /\ st_total st = (st_pending st + st_approved st + st_completed st + st_rejected st)%nat
      /\ (length (st_popular st) <= 5)%nat
      /\ Sorted (by_desc (fun p => Z.of_nat p.2)) (st_popular st)
  | Done _ => False
  end.
Proof.
  cbn -[popular count_status map_to_list].
  split; [by rewrite length_map_to_list|]. split; [apply count_status_partition|].
  unfold popular. split; [rewrite length_take; lia|]. apply Sorted_take, order_desc_sorted.
Qed.

End Reads.
