(* ===== verification/Clubs.v ===== *)
(** Club management: the handlers of [server/controllers/clubController.js]
    behind [server/routes/clubRoutes.js].  A club row carries its
    administrator ([clubs.admin_id]); membership is the [club_members]
    table with a role per row.  The writes are the handlers' statements
    on [Schema]'s tables, with the foreign keys and the UNIQUE [name] of
    the schema. *)

From S2P Require Import Prelude Schema Handler.

Module Clubs.

(** ** Rows and statements *)

(** [WHERE club_id = ? AND user_id = ?]. *)
Definition cm_is (cid uid : Z) (m : ClubMember) : bool :=
  Z.eqb (cm_club m) cid && Z.eqb (cm_user m) uid.

(** [WHERE club_id = ?]. *)
Definition cm_of (cid : Z) (m : ClubMember) : bool := Z.eqb (cm_club m) cid.

(** [(SELECT COUNT( * ) FROM club_members WHERE club_id = c.id)]. *)
Definition member_count (cid : Z) (d : DB) : nat :=
  length (List.filter (cm_of cid) (club_members d)).

(** [(SELECT COUNT( * ) FROM activities WHERE club_id = ?)]. *)
Definition activity_count (cid : Z) (d : DB) : nat :=
  length (List.filter (fun p => Z.eqb (a_club p.2) cid) (map_to_list (activities d))).

(** The UNIQUE key on [clubs.name]: another club than [self] has a name
    equal to [n] under the collation. *)
Definition name_taken (n : string) (self : option Z) (d : DB) : bool :=
  existsb (fun p => ci_eqb (c_name p.2) n && negb (bool_decide (Some p.1 = self)))
    (map_to_list (clubs d)).

(** [INSERT INTO clubs (name, description, logo, admin_id)]: the foreign
    key on [admin_id], then the UNIQUE [name]. *)
Definition insert_club (now : Z) (n desc : string) (logo : option string) (uid : Z) (d : DB)
    : SqlErr + (Z * DB) :=
  if bool_decide (users d !! uid = None) then inl ErOther
  else if name_taken n None d then inl (ErDupEntry "name")
  else let id := next_club d in
       inr (id, set_next_club (id + 1)
                  (set_clubs (<[id := mkClub n (Some desc) logo (Some uid) now]> (clubs d)) d)).

(** [INSERT INTO club_members (user_id, club_id, role)]: both foreign
    keys, [joined_at] the current time. *)
Definition insert_member (now cid uid : Z) (r : MemberRole) (d : DB) : option (unit * DB) :=
  if bool_decide (is_Some (users d !! uid)) && bool_decide (is_Some (clubs d !! cid)) then
    let id := next_cm d in
    Some (tt, set_next_cm (id + 1) (set_cm (club_members d ++ [mkCM id uid cid r now]) d))
  else None.

(** [UPDATE users SET role = ? WHERE id = ?]. *)
Definition set_user_role (uid : Z) (r : Role) (d : DB) : option DB :=
  match users d !! uid with
  | Some u => Some (set_users (<[uid := with_role r u]> (users d)) d)
  | None => Some d
  end.

(** [UPDATE clubs SET name/description/logo = ? WHERE id = ?] with the
    fields [updateClub] collected. *)
Definition update_club (cid : Z) (name desc logo : option string) (d : DB) : SqlErr + (unit * DB) :=
  match clubs d !! cid with
  | None => inr (tt, d)
  | Some c =>
      let n := if truthy_str name then default "" name else c_name c in
      if truthy_str name && name_taken n (Some cid) d then inl (ErDupEntry "name")
      else
        let c' := mkClub n
                    (if truthy_str desc then desc else c_description c)
                    (if truthy_str logo then logo else c_logo c)
                    (c_admin c) (c_created c) in
        inr (tt, set_clubs (<[cid := c']> (clubs d)) d)
  end.

(** [DELETE FROM club_members WHERE club_id = ? AND user_id = ?]. *)
Definition remove_member (cid uid : Z) (d : DB) : option (unit * DB) :=
  Some (tt, set_cm (List.filter (fun m => negb (cm_is cid uid m)) (club_members d)) d).

(** [UPDATE club_members SET role = ? WHERE user_id = ? AND club_id = ?]:
    the new table and [affectedRows], the number of matched rows (the
    driver's FOUND_ROWS default). *)
Definition set_member_role (cid uid : Z) (r : MemberRole) (d : DB) : option (nat * DB) :=
  let n := length (List.filter (cm_is cid uid) (club_members d)) in
  Some (n, set_cm (List.map (fun m => if cm_is cid uid m
                                      then mkCM (cm_id m) (cm_user m) (cm_club m) r (cm_joined m)
                                      else m) (club_members d)) d).

(** [UPDATE clubs SET admin_id = ? WHERE id = ?]: the foreign key on
    [admin_id]. *)
Definition set_club_admin (cid uid : Z) (d : DB) : option (unit * DB) :=
  if bool_decide (users d !! uid = None) then None
  else match clubs d !! cid with
       | Some c => Some (tt, set_clubs (<[cid := mkClub (c_name c) (c_description c) (c_logo c)
                                                  (Some uid) (c_created c)]> (clubs d)) d)
       | None => Some (tt, d)
       end.

(** [UPDATE club_members SET role = 'officer' WHERE club_id = ? AND
    user_id = ? AND user_id != ?] with [req.user.id] and the new
    president: demotes the caller, not the previous president. *)
Definition demote_caller (cid caller uid : Z) (d : DB) : option DB :=
  if Z.eqb caller uid then Some d
  else option_map snd (set_member_role cid caller Officer d).

(** [DELETE FROM club_members WHERE club_id = ?]. *)
Definition delete_members (cid : Z) (d : DB) : option (unit * DB) :=
  Some (tt, set_cm (List.filter (fun m => negb (cm_of cid m)) (club_members d)) d).

(** [DELETE FROM clubs WHERE id = ?]: refused while an activity or a
    membership references the club. *)
Definition delete_club_row (cid : Z) (d : DB) : option (unit * DB) :=
  if bool_decide (activity_count cid d = O) && negb (existsb (cm_of cid) (club_members d))
  then Some (tt, set_clubs (delete cid (clubs d)) d)
  else None.

(** ** Handlers *)

(** The error branch of an INSERT or UPDATE on [clubs]: a duplicate
    name answers 400, anything else 500. *)
Definition club_write_err {A} (e : SqlErr) : M A :=
  match e with
  | ErDupEntry _ => reply 400 MClubNameTaken
  | ErOther => reply 500 MDbError
  end.

(** [createClub] (lines 12-75): [name], [description] from the body,
    [logo] from the upload.  The role update is issued and its error only
    logged; the 201 answer does not wait for it. *)
Definition createClub (now : Z) (u : Principal) (name desc logo : option string) : M Resp :=
  if negb (truthy_str name && truthy_str desc) then reply 400 MClubFields else
  cid <- query_or (insert_club now (default "" name) (default "" desc) logo (p_id u)) club_write_err ;;
  query (insert_member now cid (p_id u) President) ;;;
  (if bool_decide (p_role u = Admin) then ret tt
   else query_quiet (set_user_role (p_id u) ClubAdmin)) ;;;
  reply 201 (MClubCreated cid).

(** [updateClub] (lines 190-259). *)
Definition updateClub (u : Principal) (cid : Z) (name desc logo : option string) : M Resp :=
  club <- select (fun d => clubs d !! cid) ;;
  match club with
  | None => reply 404 MClubNotFound
  | Some c =>
      if negb (is_club_admin c (p_id u)) && negb (bool_decide (p_role u = Admin))
      then reply 403 MNoClubUpdateRight
      else if negb (truthy_str name || truthy_str desc || truthy_str logo) then reply 400 MNoFields
      else query_or (update_club cid name desc logo) club_write_err ;;;
           reply 200 MClubUpdated
  end.

(** The members of a club as getClubById, joinClub and leaveClub read
    them: [club_members cm JOIN users u .. ORDER BY CASE cm.role ..,
    cm.joined_at DESC]. *)
Definition role_rank (r : MemberRole) : Z :=
  match r with President => 1 | Officer => 2 | Member => 3 end.
Definition member_le (x y : ClubMember) : bool :=
  (role_rank (cm_role x) <? role_rank (cm_role y))
  || ((role_rank (cm_role x) =? role_rank (cm_role y)) && (cm_joined y <=? cm_joined x)).
Definition member_list (cid : Z) (d : DB) : list ClubMember :=
  order_by member_le
    (List.filter (fun m => cm_of cid m && bool_decide (is_Some (users d !! cm_user m))) (club_members d)).

(** [joinClub] (lines 262-351): the membership check, the club check,
    the insert, then the two reads of the answer, each answering 500 on
    error after the row is in. *)
Definition joinClub (now : Z) (u : Principal) (cid : Z) : M Resp :=
  mem <- select (fun d => existsb (cm_is cid (p_id u)) (club_members d)) ;;
  if mem then reply 400 MAlreadyMember else
  club <- select (fun d => clubs d !! cid) ;;
  match club with
  | None => reply 404 MClubNotFound
  | Some _ =>
      query (insert_member now cid (p_id u) Member) ;;;
      _ <- select (fun d => clubs d !! cid) ;;
      _ <- select (member_list cid) ;;
      reply 200 MClubJoined
  end.

(** [leaveClub] (lines 354-435): [results[0].role] is the role of the
    caller's first membership row of the club. *)
Definition leaveClub (u : Principal) (cid : Z) : M Resp :=
  rows <- select (fun d => if bool_decide (is_Some (clubs d !! cid))
                           then List.filter (cm_is cid (p_id u)) (club_members d) else []) ;;
  match rows with
  | [] => reply 400 MNotMember
  | m :: _ =>
      if bool_decide (cm_role m = President) then reply 400 MPresidentCannotLeave else
      query (remove_member cid (p_id u)) ;;;
      _ <- select (fun d => clubs d !! cid) ;;
      _ <- select (member_list cid) ;;
      reply 200 MClubLeft
  end.

(** [['member', 'officer', 'president'].includes(role)]. *)
Definition parse_member_role (r : option string) : option MemberRole :=
  match r with
  | Some "member" => Some Member
  | Some "officer" => Some Officer
  | Some "president" => Some President
  | _ => None
  end.

(** [checkPermissionQuery] of updateMemberRole: the club's [admin_id]
    and the caller's role in it ([LEFT JOIN]: none if not a member). *)
Definition member_permission (cid caller : Z) (d : DB) : option (option Z * option MemberRole) :=
  match clubs d !! cid with
  | None => None
  | Some c => Some (c_admin c, cm_role <$> head (List.filter (cm_is cid caller) (club_members d)))
  end.

(** The presidency transfer of updateMemberRole (lines 485-528): it runs
    after the answer is sent.  The club's admin becomes the new
    president; the caller, if another user, is demoted to officer; a
    student promoted becomes club_admin. *)
Definition transfer_presidency (cid caller uid : Z) : M unit :=
  query (set_club_admin cid uid) ;;;
  query_quiet (demote_caller cid caller uid) ;;;
  r <- query (fun d => match users d !! uid with Some v => Some (u_role v, d) | None => None end) ;;
  if bool_decide (r = Student) then query_quiet (set_user_role uid ClubAdmin) else ret tt.

(** [updateMemberRole] (lines 438-533). *)
Definition updateMemberRole (u : Principal) (cid : Z) (userId : option Z) (role : option string) : M Resp :=
  match userId, parse_member_role role with
  | Some uid, Some r =>
      if negb (truthy_Z userId) then reply 400 MBadMemberRole else
      perm <- select (member_permission cid (p_id u)) ;;
      match perm with
      | None => reply 404 MClubNotFound
      | Some (adm, crole) =>
          if negb (bool_decide (crole = Some President)) && negb (bool_decide (adm = Some (p_id u)))
             && negb (bool_decide (p_role u = Admin))
          then reply 403 MNoMemberRoleRight else
          n <- query (set_member_role cid uid r) ;;
          if Nat.eqb n 0 then reply 404 MMemberNotInClub else
          (if bool_decide (r = President) then detach (transfer_presidency cid (p_id u) uid) else ret tt) ;;;
          reply 200 MMemberRoleUpdated
      end
  | _, _ => reply 400 MBadMemberRole
  end.

(** [deleteClub] (lines 536-610). *)
Definition deleteClub (u : Principal) (cid : Z) : M Resp :=
  club <- select (fun d => clubs d !! cid) ;;
  match club with
  | None => reply 404 MClubNotFound
  | Some c =>
      if negb (is_club_admin c (p_id u)) && negb (bool_decide (p_role u = Admin))
      then reply 403 MNoClubDeleteRight else
      rel <- select (fun d => (member_count cid d, activity_count cid d)) ;;
      let '(members, acts) := rel in
      if negb (Nat.eqb acts 0) then reply 400 (MClubHasActivities acts) else
      query (delete_members cid) ;;;
      query (delete_club_row cid) ;;;
      reply 200 (MClubDeleted members)
  end.

(** ** Routes of routes/clubRoutes.js (lines 30-51) *)

Definition route_create_club now tok name desc logo : M Resp :=
  verifyToken tok (fun u => createClub now u name desc logo).
Definition route_update_club tok cid name desc logo : M Resp :=
  verifyToken tok (fun u => updateClub u cid name desc logo).
Definition route_join_club now tok cid : M Resp := verifyToken tok (fun u => joinClub now u cid).
Definition route_leave_club tok cid : M Resp := verifyToken tok (fun u => leaveClub u cid).
Definition route_member_role tok cid userId role : M Resp :=
  verifyToken tok (fun u => updateMemberRole u cid userId role).
Definition route_delete_club tok cid : M Resp :=
  verifyToken tok (fun u => isClubAdminOrAdmin u (deleteClub u cid)).

(** ** Read handlers *)

(** A row of getAllClubs: [c.*], [member_count] and [is_member]. *)
Record ClubRow := mkClubRow { cr_id : Z; cr_club : Club; cr_members : nat; cr_is_member : bool }.

(** [getAllClubs] (lines 78-126): every club [ORDER BY c.name], marked
    with the caller's memberships when [req.user] is set. *)
Definition getAllClubs (user : option Principal) : M (list ClubRow) :=
  rows <- select (fun d => order_by (fun x y => String.leb (c_name x.2) (c_name y.2))
                             (map_to_list (clubs d))) ;;
  match user with
  | Some u =>
      mine <- select (fun d => List.map cm_club (List.filter (fun m => Z.eqb (cm_user m) (p_id u))
                                                   (club_members d))) ;;
      counts <- select (fun d => List.map (fun p => member_count p.1 d) rows) ;;
      ret (zip_with (fun p n => mkClubRow p.1 p.2 n (bool_decide (p.1 ∈ mine))) rows counts)
  | None =>
      counts <- select (fun d => List.map (fun p => member_count p.1 d) rows) ;;
      ret (zip_with (fun p n => mkClubRow p.1 p.2 n false) rows counts)
  end.

(** The body of getClubById: the club, its member count, its members
    and [is_joined]. *)
Record ClubDetail := mkClubDetail {
  cd_club : Club; cd_members_count : nat; cd_members : list ClubMember; cd_is_joined : bool }.

(** [getClubById] (lines 129-187). *)
Definition getClubById (user : option Principal) (cid : Z) : M ClubDetail :=
  club <- select (fun d => (clubs d !! cid, member_count cid d)) ;;
  match club with
  | (None, _) => reply 404 MClubNotFound
  | (Some c, n) =>
      members <- select (member_list cid) ;;
      let joined := match user with
                    | Some u => existsb (fun m => Z.eqb (cm_user m) (p_id u)) members
                    | None => false
                    end in
      ret (mkClubDetail c n members joined)
  end.

(** [GET /] and [GET /:id] of clubRoutes.js (lines 33, 36) are public:
    [req.user] is never set. *)
Definition route_get_clubs (tok : option Principal) : M (list ClubRow) := getAllClubs None.
Definition route_get_club (tok : option Principal) (cid : Z) : M ClubDetail := getClubById None cid.

(** The rows [getAllClubs] answers to a request without [req.user]. *)
Definition club_rows (d : DB) : list ClubRow :=
  List.map (fun p => mkClubRow p.1 p.2 (member_count p.1 d) false)
    (order_by (fun x y => String.leb (c_name x.2) (c_name y.2)) (map_to_list (clubs d))).

(** ** A sample club

    [Sample.db0] with the club's administrator (user 10) as its
    president and alice (user 1) as a member. *)
Definition club_db : DB :=
  set_next_cm 3 (set_cm [mkCM 1 10 1 President 0; mkCM 2 1 1 Member 0] Sample.db0).

(** The presidents of club [cid]. *)
Definition presidents (cid : Z) (d : DB) : list Z :=
  List.map cm_user (List.filter (fun m => cm_of cid m && bool_decide (cm_role m = President))
                      (club_members d)).

(** ** Properties *)

(** The public list read with no failing query. *)
Lemma getAllClubs_None_ok d : fst (getAllClubs None (mkSys d [])) = Cont (club_rows d).
Proof.
  unfold getAllClubs, bind, ret. rewrite select_ok. simpl. by rewrite zip_with_map_r.
Qed.

(** The evaluation of [createClub] on every branch, shared by the club
    pages' proofs. *)
Lemma createClub_run now u name desc logo d :
  let '(r, d') := run_ok (createClub now u name desc logo) d in
  if negb (truthy_str name && truthy_str desc) then r = mkResp 400 MClubFields /\ d' = d
  else match users d !! p_id u with
  | None => r = err500 /\ d' = d
  | Some us =>
      if name_taken (default "" name) None d then r = mkResp 400 MClubNameTaken /\ d' = d
      else let cid := next_club d in
        r = mkResp 201 (MClubCreated cid)
        /\ clubs d' = <[cid := mkClub (default "" name) (Some (default "" desc)) logo (Some (p_id u)) now]> (clubs d)
        /\ club_members d' = club_members d ++ [mkCM (next_cm d) (p_id u) cid President now]
        /\ users d' !! p_id u = Some (if bool_decide (p_role u = Admin) then us else with_role ClubAdmin us)
        /\ activities d' = activities d /\ user_activities d' = user_activities d
        /\ next_club d' = cid + 1
  end.
Proof.
  unfold run_ok, run, createClub, bind, query_or, query, query_quiet, reply, ret, next_fault.
  destruct (truthy_str name && truthy_str desc); simpl; [|done].
  unfold insert_club. destruct (users d !! p_id u) as [us|] eqn:Eu; simpl; [|done].
  destruct (name_taken _ None d); simpl; [done|].
  unfold insert_member, set_next_club, set_clubs. simpl.
  rewrite (bool_decide_eq_true_2 (is_Some (users d !! p_id u))) by (rewrite Eu; eauto).
  rewrite bool_decide_eq_true_2 by (rewrite lookup_insert_eq; eauto). simpl.
  case_bool_decide; simpl; unfold set_user_role; simpl; rewrite Eu; simpl;
    repeat split; try done. by rewrite lookup_insert_eq.
Qed.


(** A join by a user who is not yet a member of an existing club, with
    no failing query. *)
Lemma joinClub_ok now u cid d us c :
  existsb (cm_is cid (p_id u)) (club_members d) = false ->
  users d !! p_id u = Some us -> clubs d !! cid = Some c ->
  run_ok (joinClub now u cid) d =
  (mkResp 200 MClubJoined,
   set_next_cm (next_cm d + 1) (set_cm (club_members d ++ [mkCM (next_cm d) (p_id u) cid Member now]) d)).
Proof.
  intros Hm Hu Hc. unfold run_ok, run, joinClub, bind, select, query, reply, ret, next_fault.
  cbn -[lookup]. rewrite Hm. cbn -[lookup]. erewrite Hc. cbn -[lookup]. unfold insert_member.
  rewrite !bool_decide_eq_true_2 by (rewrite ?Hu, ?Hc; eauto). done.
Qed.

(** A leave by a member whose first membership row of an existing club
    is not the presidency, with no failing query. *)
Lemma leaveClub_ok u cid d c m rest :
  clubs d !! cid = Some c ->
  List.filter (cm_is cid (p_id u)) (club_members d) = m :: rest -> cm_role m <> President ->
  run_ok (leaveClub u cid) d =
  (mkResp 200 MClubLeft, set_cm (List.filter (fun m => negb (cm_is cid (p_id u) m)) (club_members d)) d).
Proof.
  intros Hc Hf Hr. unfold run_ok, run, leaveClub, bind, select, query, reply, ret, next_fault.
  cbn -[lookup]. rewrite bool_decide_eq_true_2 by (erewrite Hc; eauto).
  rewrite Hf. cbn -[lookup]. by rewrite bool_decide_eq_false_2.
Qed.

(** Joining a club and leaving it again restores the membership
    table: both answers are 200, and the database is the first one with
    only the membership counter advanced. *)
Theorem club_join_leave_roundtrip now u cid d us c :
  existsb (cm_is cid (p_id u)) (club_members d) = false ->
  users d !! p_id u = Some us -> clubs d !! cid = Some c ->
  let '(r1, d1) := run_ok (joinClub now u cid) d in
  let '(r2, d2) := run_ok (leaveClub u cid) d1 in
  r1 = mkResp 200 MClubJoined /\ r2 = mkResp 200 MClubLeft /\ d2 = set_next_cm (next_cm d + 1) d.
Proof.
  intros Hm Hu Hc. rewrite (joinClub_ok now u cid d us c Hm Hu Hc).
  pose proof (proj1 (existsb_false_forall _ _) Hm) as Hall.
  set (row := mkCM (next_cm d) (p_id u) cid Member now).
  assert (Hrow : cm_is cid (p_id u) row = true) by (unfold cm_is; simpl; by rewrite !Z.eqb_refl).
  rewrite (leaveClub_ok u cid _ c row []); [| done | | done]; cycle 1.
  { simpl. rewrite List.filter_app, filter_all_false by exact Hall. simpl. by rewrite Hrow. }
  simpl. rewrite List.filter_app, filter_all_true by (intros x Hx; by rewrite Hall).
  simpl. rewrite Hrow, app_nil_r. split; [done|]. split; [done|]. by destruct d.
Qed.

(** Bob, who is not a member, joins the sample club and leaves it. *)
Lemma club_join_leave_roundtrip_witness :
  existsb (cm_is 1 2) (club_members club_db) = false
  /\ (let '(r1, d1) := run_ok (joinClub 0 (mkPrincipal 2 Student) 1) club_db in
      let '(r2, d2) := run_ok (leaveClub (mkPrincipal 2 Student) 1) d1 in
      r1 = mkResp 200 MClubJoined /\ r2 = mkResp 200 MClubLeft
      /\ d2 = set_next_cm (next_cm club_db + 1) club_db).
Proof.
  split; [reflexivity |].
  apply (club_join_leave_roundtrip 0 (mkPrincipal 2 Student) 1 club_db
           (Sample.student "bob" 2) Sample.club1); reflexivity.
Defined.

(** The rows of [set_member_role]: the rows of the member get the role. *)
Definition promote (cid uid : Z) (r : MemberRole) (m : ClubMember) : ClubMember :=
  if cm_is cid uid m then mkCM (cm_id m) (cm_user m) (cm_club m) r (cm_joined m) else m.

Lemma set_member_role_eq cid uid r d :
  set_member_role cid uid r d
  = Some (length (List.filter (cm_is cid uid) (club_members d)),
          set_cm (List.map (promote cid uid r) (club_members d)) d).
Proof. reflexivity. Qed.

Lemma map_promote_absent cid uid r l :
  existsb (cm_is cid uid) l = false -> List.map (promote cid uid r) l = l.
Proof.
  induction l as [|m l IH]; simpl; [done|]. intros [H1 H2]%orb_false_iff.
  unfold promote at 1. rewrite H1. f_equal. by apply IH.
Qed.

Lemma existsb_cm_is_promote cid uid x r l :
  existsb (cm_is cid x) (List.map (promote cid uid r) l) = existsb (cm_is cid x) l.
Proof. induction l as [|m l IH]; simpl; [done|]. rewrite IH. unfold promote. by case_match. Qed.

Lemma elem_presidents cid d x :
  x ∈ presidents cid d <->
  exists m, m ∈ club_members d /\ cm_of cid m = true /\ cm_role m = President /\ cm_user m = x.
Proof.
  unfold presidents. rewrite elem_of_List_map. setoid_rewrite elem_of_List_filter.
  split; [intros (m & -> & Hp & Hm) | intros (m & Hm & Hc & Hr & <-)].
  - apply andb_true_iff in Hp as [Hc Hr%bool_decide_eq_true]. eauto.
  - exists m. split; [done|]. rewrite Hc, bool_decide_eq_true_2 by done. done.
Qed.

(** The detached presidency transfer with no failing query, when the
    caller has no membership row: the members are unchanged and the club
    names the new president as its administrator. *)
Lemma transfer_presidency_db cid caller uid d c vu :
  clubs d !! cid = Some c -> users d !! uid = Some vu -> caller <> uid ->
  existsb (cm_is cid caller) (club_members d) = false ->
  let d' := sys_db (snd (transfer_presidency cid caller uid (mkSys d []))) in
  club_members d' = club_members d
  /\ clubs d' !! cid = Some (mkClub (c_name c) (c_description c) (c_logo c) (Some uid) (c_created c)).
Proof.
  intros Hc Hu Hne Hna. unfold transfer_presidency, bind. rewrite query_ok.
  unfold set_club_admin. rewrite Hu, Hc. simpl.
  rewrite query_quiet_ok. unfold demote_caller. rewrite (proj2 (Z.eqb_neq _ _) Hne), set_member_role_eq.
  simpl. rewrite map_promote_absent by done. rewrite query_ok. simpl. rewrite Hu. simpl.
  case_bool_decide; simpl; [rewrite query_quiet_ok; unfold set_user_role; simpl; rewrite Hu; simpl|];
    (split; [by destruct d | by rewrite lookup_insert_eq]).
Qed.

(** C26: A system admin who is not a member of a club and makes one of
    its members president leaves the club with two presidents:
    updateMemberRole answers 200, the member becomes president and the
    club's administrator, and the previous president keeps the role,
    since the transfer demotes the caller instead of the previous
    president. *)
Theorem admin_transfer_two_presidents adm cid c p uid vu d :
  p_role adm = Admin -> clubs d !! cid = Some c -> uid <> 0 ->
  existsb (cm_is cid (p_id adm)) (club_members d) = false ->
  existsb (cm_is cid uid) (club_members d) = true ->
  p ∈ presidents cid d -> p <> uid -> users d !! uid = Some vu ->
  let '(r, d') := run_ok (updateMemberRole adm cid (Some uid) (Some "president")) d in
  r = mkResp 200 MMemberRoleUpdated
  /\ p ∈ presidents cid d' /\ uid ∈ presidents cid d'
  /\ (c_admin <$> clubs d' !! cid) = Some (Some uid).
Proof.
  intros Hadm Hc Hu0 Hna Hm Hp Hne Hu.
  assert (Hne' : p_id adm <> uid) by (intros <-; congruence).
  assert (Hn : Nat.eqb (length (List.filter (cm_is cid uid) (club_members d))) 0 = false).
  { apply Nat.eqb_neq. apply existsb_exists in Hm as (m & Hm & Hi).
    intros Hz%length_zero_iff_nil. assert (Hf : In m (List.filter (cm_is cid uid) (club_members d)))
      by (apply filter_In; done). by rewrite Hz in Hf. }
  set (l1 := List.map (promote cid uid President) (club_members d)).
  assert (Hl : List.map (promote cid (p_id adm) Officer) l1 = l1)
    by (apply map_promote_absent; subst l1; by rewrite existsb_cm_is_promote).
  unfold run_ok, run, updateMemberRole, parse_member_role, truthy_Z, bind, select, query, reply,
    next_fault, member_permission, detach.
  rewrite (proj2 (Z.eqb_neq _ _) Hu0). simpl. rewrite Hc. simpl.
  rewrite filter_all_false by (intros m Hi; exact (proj1 (existsb_false_forall _ _) Hna m Hi)). simpl.
  rewrite (bool_decide_eq_true_2 (p_role adm = Admin)) by done. rewrite andb_false_r. simpl.
  rewrite Hn. simpl. replace (map _ (club_members d)) with l1 by reflexivity.
  destruct (transfer_presidency_db cid (p_id adm) uid (set_cm l1 d) c vu) as [Hcm Hcl];
    [exact Hc | exact Hu | exact Hne' | simpl; unfold l1; by rewrite existsb_cm_is_promote |].
  rewrite Hcl. split; [done|]. rewrite !elem_presidents, Hcm. simpl. unfold l1. setoid_rewrite elem_of_List_map.
  split; [|split; [|done]].
  - apply elem_presidents in Hp as (m & Hm' & Hc' & Hr & <-). exists m. split; [|done].
    exists m. split; [|done]. unfold promote, cm_is. apply Z.eqb_neq in Hne. by rewrite Hne, andb_false_r.
  - apply existsb_exists in Hm as (m & Hm' & Hi).
    assert (Hpm : promote cid uid President m = mkCM (cm_id m) (cm_user m) (cm_club m) President (cm_joined m))
      by (unfold promote; by rewrite Hi).
    exists (promote cid uid President m). split; [exists m; split; [done | by apply list_elem_of_In]|].
    rewrite Hpm. unfold cm_is in Hi. apply andb_true_iff in Hi as [Hi1 Hi2%Z.eqb_eq]. unfold cm_of. simpl.
    by rewrite Hi1.
Qed.

(** The system admin makes alice president of the sample club, whose
    president is the club admin 10. *)
Lemma admin_transfer_two_presidents_witness :
  (p_role Sample.root = Admin /\ clubs club_db !! 1 = Some Sample.club1 /\ 1 <> 0
   /\ existsb (cm_is 1 (p_id Sample.root)) (club_members club_db) = false
   /\ existsb (cm_is 1 1) (club_members club_db) = true
   /\ 10 ∈ presidents 1 club_db /\ 10 <> 1 /\ users club_db !! 1 = Some (Sample.student "alice" 1))
  /\ let '(r, d') := run_ok (updateMemberRole Sample.root 1 (Some 1) (Some "president")) club_db in
     r = mkResp 200 MMemberRoleUpdated
     /\ 10 ∈ presidents 1 d' /\ 1 ∈ presidents 1 d'
     /\ (c_admin <$> clubs d' !! 1) = Some (Some 1).
Proof.
  assert (H0 : p_role Sample.root = Admin) by reflexivity.
  assert (H1 : clubs club_db !! 1 = Some Sample.club1) by (vm_compute; reflexivity).
  assert (H2 : existsb (cm_is 1 (p_id Sample.root)) (club_members club_db) = false) by reflexivity.
  assert (H3 : existsb (cm_is 1 1) (club_members club_db) = true) by reflexivity.
  assert (H4 : 10 ∈ presidents 1 club_db) by (vm_compute; left).
  assert (H5 : users club_db !! 1 = Some (Sample.student "alice" 1)) by (vm_compute; reflexivity).
  split; [repeat split; first [assumption | lia] |].
  exact (admin_transfer_two_presidents Sample.root 1 _ 10 1 _ club_db H0 H1 ltac:(lia) H2 H3 H4 ltac:(lia) H5).
Defined.

(** A president can demote themselves and then leave: the club is
    left with no president and an administrator who is no longer a
    member (leaveClub only refuses a caller whose row says president). *)
Theorem president_abandons_club :
  let '(r1, d1) := run_ok (updateMemberRole Sample.leader 1 (Some 10) (Some "member")) club_db in
  let '(r2, d2) := run_ok (leaveClub Sample.leader 1) d1 in
  r1 = mkResp 200 MMemberRoleUpdated /\ r2 = mkResp 200 MClubLeft
  /\ presidents 1 d2 = []
  /\ (c_admin <$> clubs d2 !! 1) = Some (Some 10)
  /\ existsb (cm_is 1 10) (club_members d2) = false.
Proof. vm_compute. repeat split. Qed.

(** The presidency transfer runs after the 200 answer: when its
    first statement (the club's new administrator) fails, the caller is
    still told the role was updated, alice's row says president, and the
    club keeps its old administrator and president. *)
Theorem transfer_failure_answered_ok :
  let '(r, s) := run (updateMemberRole Sample.leader 1 (Some 1) (Some "president"))
                     (mkSys club_db [false; false; true]) in
  r = mkResp 200 MMemberRoleUpdated
  /\ presidents 1 (sys_db s) = [10; 1]
  /\ (c_admin <$> clubs (sys_db s) !! 1) = Some (Some 10).
Proof. vm_compute. repeat split. Qed.

Lemma existsb_filter_negb {A} (p : A -> bool) l : existsb p (List.filter (fun x => negb (p x)) l) = false.
Proof. induction l as [|x l IH]; simpl; [done|]. destruct (p x) eqn:E; simpl; rewrite ?E; done. Qed.

(** The evaluation of [deleteClub] on every branch, shared by the club
    pages' proofs. *)
Lemma deleteClub_run u cid d :
  let '(r, d') := run_ok (deleteClub u cid) d in
  match clubs d !! cid with
  | None => r = mkResp 404 MClubNotFound /\ d' = d
  | Some c =>
      if negb (is_club_admin c (p_id u)) && negb (bool_decide (p_role u = Admin))
      then r = mkResp 403 MNoClubDeleteRight /\ d' = d
      else if negb (Nat.eqb (activity_count cid d) 0)
      then r = mkResp 400 (MClubHasActivities (activity_count cid d)) /\ d' = d
      else r = mkResp 200 (MClubDeleted (member_count cid d))
           /\ clubs d' = delete cid (clubs d)
           /\ club_members d' = List.filter (fun m => negb (cm_of cid m)) (club_members d)
           /\ users d' = users d /\ activities d' = activities d
           /\ user_activities d' = user_activities d
  end.
Proof.
  unfold run_ok, run, deleteClub, bind, select, query, reply, ret, next_fault.
  cbn -[lookup activity_count member_count].
  destruct (clubs d !! cid) as [c|]; cbn -[lookup activity_count member_count]; [|done].
  destruct (negb _ && negb _); cbn -[lookup activity_count member_count]; [done|].
  destruct (Nat.eqb (activity_count cid d) 0) eqn:Ea; cbn -[lookup activity_count member_count]; [|done].
  unfold delete_members, delete_club_row. cbn -[lookup activity_count member_count].
  rewrite existsb_filter_negb. unfold activity_count in *. simpl.
  apply Nat.eqb_eq in Ea. rewrite (bool_decide_eq_true_2 _ Ea). simpl. repeat split.
Qed.

(** C25: [deleteClub] with no failing query: 404 for an unknown club,
    403 for a caller who is neither its administrator nor a system
    admin, 400 with the activity count while activities reference it,
    all with the database unchanged; otherwise 200 with the number of
    members, the memberships and the club removed and nothing else
    touched. *)
Theorem deleteClub_spec u cid d :
  let '(r, d') := run_ok (deleteClub u cid) d in
  match clubs d !! cid with
  | None => r = mkResp 404 MClubNotFound /\ d' = d
  | Some c =>
      if negb (is_club_admin c (p_id u)) && negb (bool_decide (p_role u = Admin))
      then r = mkResp 403 MNoClubDeleteRight /\ d' = d
      else if negb (Nat.eqb (activity_count cid d) 0)
      then r = mkResp 400 (MClubHasActivities (activity_count cid d)) /\ d' = d
      else r = mkResp 200 (MClubDeleted (member_count cid d))
           /\ clubs d' = delete cid (clubs d)
           /\ club_members d' = List.filter (fun m => negb (cm_of cid m)) (club_members d)
           /\ users d' = users d /\ activities d' = activities d
           /\ user_activities d' = user_activities d
  end.
Proof. exact (deleteClub_run u cid d). Qed.

End Clubs.
