(* ===== verification/Users.v ===== *)
(** User management: the handlers of [server/controllers/userController.js]
    behind [server/routes/userRoutes.js].  Strings are JavaScript strings
    whose code units are below 256 (one [ascii] per code unit), so
    [.length], the regular expressions and [parseInt] read them as the
    engine does.  bcrypt is the interface [Hasher]: a hash and a check
    that accepts the hash of the same password. *)

From S2P Require Import Prelude Schema Handler.
From Stdlib Require Import Ascii.

(** The password hashing the controllers call ([bcrypt.hash],
    [bcrypt.compare]). *)
Class Hasher := {
  hash : string -> string;
  verify : string -> string -> bool;
  verify_hash : forall p, verify p (hash p) = true
}.

(** The hasher of the sample database: the stored password is the
    password itself. *)
#[export] Program Instance plain_hasher : Hasher := {
  hash p := p;
  verify p h := String.eqb p h
}.
Next Obligation. intros p. apply String.eqb_refl. Qed.

Module Users.

(** ** JavaScript string functions *)

(** The characters of [\s] and of [parseInt]'s leading white space
    below 256: tab, line feed, vertical tab, form feed, carriage return,
    space and no-break space. *)
Definition is_js_ws (c : ascii) : bool :=
  let n := nat_of_ascii c in
  (Nat.leb 9 n && Nat.leb n 13) || Nat.eqb n 32 || Nat.eqb n 160.

Definition is_digit (c : ascii) : bool :=
  let n := nat_of_ascii c in Nat.leb 48 n && Nat.leb n 57.

(** The value of a digit in radix 10 or 16. *)
Definition digit_val (radix : Z) (c : ascii) : option Z :=
  let n := Z.of_nat (nat_of_ascii c) in
  if (48 <=? n) && (n <=? 57) then Some (n - 48)
  else if radix =? 16 then
    if (97 <=? n) && (n <=? 102) then Some (n - 87)
    else if (65 <=? n) && (n <=? 70) then Some (n - 55)
    else None
  else None.

Fixpoint skip_ws (l : list ascii) : list ascii :=
  match l with
  | c :: t => if is_js_ws c then skip_ws t else l
  | [] => []
  end.

(** The longest prefix of digits, [None] when there is none. *)
Fixpoint digits_acc (radix acc : Z) (seen : bool) (l : list ascii) : option Z :=
  match l with
  | c :: t =>
      match digit_val radix c with
      | Some v => digits_acc radix (acc * radix + v) true t
      | None => if seen then Some acc else None
      end
  | [] => if seen then Some acc else None
  end.

(** [parseInt(s)] with no radix: white space, a sign, a [0x] prefix for
    radix 16, then the longest run of digits; [None] is [NaN]. *)
Definition parse_sign (l : list ascii) : Z * list ascii :=
  match l with
  | "-"%char :: t => (-1, t)
  | "+"%char :: t => (1, t)
  | _ => (1, l)
  end.

Definition parse_radix (l : list ascii) : Z * list ascii :=
  match l with
  | "0"%char :: "x"%char :: t | "0"%char :: "X"%char :: t => (16, t)
  | _ => (10, l)
  end.

Definition parseInt (s : string) : option Z :=
  let l := skip_ws (String.list_ascii_of_string s) in
  let '(sign, l) := parse_sign l in
  let '(radix, l) := parse_radix l in
  option_map (Z.mul sign) (digits_acc radix 0 false l).

(** [/^[^\s@]+@[^\s@]+\.[^\s@]+$/.test(email)]: no white space, exactly
    one [@] with a non-empty part before it, and after it a [.] that is
    neither its first nor its last character. *)
Definition email_char (c : ascii) : bool := negb (is_js_ws c) && negb (Ascii.eqb c "@").

Fixpoint split_at_at (l : list ascii) : option (list ascii * list ascii) :=
  match l with
  | [] => None
  | c :: t =>
      if Ascii.eqb c "@" then Some ([], t)
      else option_map (fun p => (c :: p.1, p.2)) (split_at_at t)
  end.

Definition email_ok (s : string) : bool :=
  let l := String.list_ascii_of_string s in
  match split_at_at l with
  | Some (a, dom) =>
      forallb email_char a && forallb email_char dom && negb (bool_decide (a = []))
      && match dom with
         | _ :: t => existsb (fun c => Ascii.eqb c ".") (removelast t)
         | [] => false
         end
  | None => false
  end.

(** [/^\d{8,12}$/.test(student_id)]. *)
Definition student_id_ok (s : string) : bool :=
  forallb is_digit (String.list_ascii_of_string s)
  && Nat.leb 8 (String.length s) && Nat.leb (String.length s) 12.

(** [s.includes(p)]. *)
Definition includes (s p : string) : bool :=
  match String.index 0 p s with Some _ => true | None => false end.

(** The range of an [INT] column: a value outside it makes the statement
    fail (strict SQL mode). *)
Definition int_min : Z := -2147483648.
Definition int_max : Z := 2147483647.
Definition fits_int (z : Z) : bool := (int_min <=? z) && (z <=? int_max).

(** ** Statements *)

Section Handlers.
Context `{Hasher}.

(** The [sqlMessage] of a duplicate key: [Duplicate entry '<v>' for key
    'users.<key>']. *)
Definition dup_msg (v key : string) : string :=
  "Duplicate entry '" +:+ v +:+ "' for key 'users." +:+ key +:+ "'".

(** Another user than [self] holds a value equal to [v] under the
    collation in a UNIQUE column; a NULL equals nothing. *)
Definition taken (col : User -> option string) (v : option string) (self : option Z) (d : DB) : bool :=
  match v with
  | None => false
  | Some x => existsb (fun p => match col p.2 with Some y => ci_eqb y x | None => false end
                                && negb (bool_decide (Some p.1 = self)))
                (map_to_list (users d))
  end.

(** The UNIQUE keys of [users] in index order. *)
Definition unique_violation (n : string) (sid email : option string) (self : option Z) (d : DB)
    : option SqlErr :=
  if taken (fun u => Some (u_name u)) (Some n) self d then Some (ErDupEntry (dup_msg n "username"))
  else if taken u_student_id sid self d then Some (ErDupEntry (dup_msg (default "" sid) "student_id"))
  else if taken u_email email self d then Some (ErDupEntry (dup_msg (default "" email) "email"))
  else None.

(** [INSERT INTO users (username, password, avatar, student_id, bio,
    email, role)]: [points] and [created_at] take their defaults. *)
Definition insert_user (now : Z) (u : User) (d : DB) : SqlErr + (Z * DB) :=
  match unique_violation (u_name u) (u_student_id u) (u_email u) None d with
  | Some e => inl e
  | None =>
      let id := next_user d in
      inr (id, set_next_user (id + 1) (set_users (<[id := u]> (users d)) d))
  end.

(** The user [username = ?] under the collation (a UNIQUE column: at
    most one). *)
Definition find_by_name (n : string) (d : DB) : option (Z * User) :=
  head (List.filter (fun p => ci_eqb (u_name p.2) n) (map_to_list (users d))).

(** ** Handlers *)

(** [register] (lines 15-103): [body] is whether [req.body] is set. *)
Definition register (now : Z) (body : bool) (username password student_id email bio : option string)
    (file : option string) : M Resp :=
  if negb body then reply 400 MEmptyBody else
  if negb (truthy_str username && truthy_str password && truthy_str student_id && truthy_str email)
  then reply 400 MRegisterFields else
  let avatar := match file with Some f => f | None => "/uploads/default-avatar.png" end in
  let row := mkUser (default "" username) (hash (default "" password)) (Some avatar)
               student_id (Some (match bio with Some b => if truthy_str bio then b else "" | None => "" end))
               email Student 0 now in
  id <- query_or (insert_user now row)
          (fun e => match e with
                    | ErDupEntry m =>
                        if includes m "username" then reply 400 MUsernameTaken
                        else if includes m "email" then reply 400 MEmailTaken
                        else if includes m "student_id" then reply 400 MStudentIdTaken
                        else reply 400 MInfoTaken
                    | ErOther => reply 500 MDbError
                    end) ;;
  _ <- query_or (fun d => inr (users d !! id, d)) (fun _ => reply 201 (MRegistered id)) ;;
  reply 201 (MRegistered id).

(** [login] (lines 106-166): the token carries the user's id and role. *)
Definition login (body : bool) (username password : option string) : M Resp :=
  if negb body then reply 400 MEmptyBody else
  if negb (truthy_str username && truthy_str password) then reply 400 MLoginFields else
  found <- select (find_by_name (default "" username)) ;;
  match found with
  | None => reply 401 MBadCredentials
  | Some (id, u) =>
      if verify (default "" password) (u_password u)
      then reply 200 (MLoggedIn (mkPrincipal id (u_role u)))
      else reply 401 MBadCredentials
  end.

(** [getCurrentUser] (lines 169-183). *)
Definition getCurrentUser (u : Principal) : M User :=
  found <- select (fun d => users d !! p_id u) ;;
  match found with
  | None => reply 404 MUserNotFound
  | Some v => ret v
  end.

(** The body of [updateUser]: [bio] and [points] are [Some] when not
    [undefined]; [avatar] is the uploaded file. *)
Record UserUpdate := mkUpdate {
  uu_username : option string;
  uu_bio : option string;
  uu_email : option string;
  uu_role : option string;
  uu_student_id : option string;
  uu_points : option string;
  uu_avatar : option string
}.

(** The columns the UPDATE sets. *)
Record Changes := mkChanges {
  ch_email : option string;
  ch_username : option string;
  ch_student_id : option string;
  ch_bio : option string;
  ch_avatar : option string;
  ch_role : option Role;
  ch_points : option Z
}.

(** [['admin', 'club_admin', 'student'].includes(role)]. *)
Definition parse_role (r : option string) : option Role :=
  match r with
  | Some "admin" => Some Admin
  | Some "club_admin" => Some ClubAdmin
  | Some "student" => Some Student
  | _ => None
  end.

Definition is_empty (c : Changes) : bool :=
  match c with mkChanges None None None None None None None => true | _ => false end.

(** The validation of [updateUser] (lines 197-247), in the source's
    order: the first failing check answers 400. *)
Definition user_changes (caller : Principal) (b : UserUpdate) : Msg + Changes :=
  if truthy_str (uu_email b) && negb (email_ok (default "" (uu_email b))) then inl MBadEmail else
  if truthy_str (uu_username b) &&
     (Nat.ltb (String.length (default "" (uu_username b))) 2
      || Nat.ltb 50 (String.length (default "" (uu_username b))))
  then inl MBadUsernameLength else
  if truthy_str (uu_student_id b) && negb (student_id_ok (default "" (uu_student_id b)))
  then inl MBadStudentId else
  let admin := bool_decide (p_role caller = Admin) in
  let role := if admin then parse_role (uu_role b) else None in
  let pts := if admin then option_map parseInt (uu_points b) else None in
  match pts with
  | Some None => inl MPointsNaN
  | _ =>
      let c := mkChanges
                 (if truthy_str (uu_email b) then uu_email b else None)
                 (if truthy_str (uu_username b) then uu_username b else None)
                 (if truthy_str (uu_student_id b) then uu_student_id b else None)
                 (uu_bio b)
                 (if truthy_str (uu_avatar b) then uu_avatar b else None)
                 role
                 (match pts with Some (Some z) => Some z | _ => None end) in
      if is_empty c then inl MNoFields else inr c
  end.

Definition apply_changes (c : Changes) (v : User) : User :=
  mkUser (default (u_name v) (ch_username c)) (u_password v)
    (match ch_avatar c with Some a => Some a | None => u_avatar v end)
    (match ch_student_id c with Some x => Some x | None => u_student_id v end)
    (match ch_bio c with Some x => Some x | None => u_bio v end)
    (match ch_email c with Some x => Some x | None => u_email v end)
    (default (u_role v) (ch_role c)) (default (u_points v) (ch_points c)) (u_created v).

(** [UPDATE users SET .. WHERE id = ?]: the number of matched rows, an
    out-of-range [points] or a duplicate key failing the statement. *)
Definition update_user (target : Z) (c : Changes) (d : DB) : SqlErr + (nat * DB) :=
  match users d !! target with
  | None => inr (O, d)
  | Some v =>
      let v' := apply_changes c v in
      if negb (fits_int (u_points v')) then inl ErOther else
      match unique_violation (u_name v') (u_student_id v') (u_email v') (Some target) d with
      | Some e => inl e
      | None => inr (1%nat, set_users (<[target := v']> (users d)) d)
      end
  end.

(** [updateUser] (lines 186-297). *)
Definition updateUser (caller : Principal) (target : Z) (b : UserUpdate) : M Resp :=
  if negb (Z.eqb (p_id caller) target) && negb (bool_decide (p_role caller = Admin))
  then reply 403 MNoUserUpdateRight else
  match user_changes caller b with
  | inl m => reply 400 m
  | inr c =>
      (if truthy_str (ch_email c)
       then used <- select (taken u_email (ch_email c) (Some target)) ;;
            if used then reply 400 MEmailInUse else ret tt
       else ret tt) ;;;
      n <- query_or (update_user target c)
             (fun e => match e with
                       | ErDupEntry _ => reply 400 MUserDupEntry
                       | ErOther => reply 500 MDbError
                       end) ;;
      if Nat.eqb n 0 then reply 404 MUserNotFound else
      _ <- query_or (fun d => inr (users d !! target, d)) (fun _ => reply 200 MUserUpdated) ;;
      reply 200 MUserUpdated
  end.

(** [UPDATE users SET role = ? WHERE id = ?]. *)
Definition update_role (target : Z) (r : Role) (d : DB) : option (nat * DB) :=
  match users d !! target with
  | None => Some (O, d)
  | Some v => Some (1%nat, set_users (<[target := with_role r v]> (users d)) d)
  end.

(** [changeUserRole] (lines 314-336). *)
Definition changeUserRole (target : Z) (role : option string) : M Resp :=
  match parse_role role with
  | None => reply 400 MBadRole
  | Some r =>
      n <- query (update_role target r) ;;
      if Nat.eqb n 0 then reply 404 MUserNotFound else reply 200 MRoleChanged
  end.

(** The three counts of [checkRelationsQuery]. *)
Definition user_relations (uid : Z) (d : DB) : nat * nat * nat :=
  (length (List.filter (fun m => Z.eqb (cm_user m) uid) (club_members d)),
   length (List.filter (fun r => Z.eqb (ua_user r) uid) (user_activities d)),
   length (List.filter (fun p => bool_decide (c_admin p.2 = Some uid)) (map_to_list (clubs d)))).

(** [DELETE FROM users WHERE id = ?]: refused while a row references the
    user. *)
Definition delete_user_row (uid : Z) (d : DB) : option (unit * DB) :=
  if bool_decide (user_relations uid d = (O, O, O))
  then Some (tt, set_users (delete uid (users d)) d) else None.

(** [deleteUser] (lines 339-400). *)
Definition deleteUser (caller : Principal) (target : Z) : M Resp :=
  if Z.eqb (p_id caller) target then reply 400 MSelfDelete else
  found <- select (fun d => users d !! target) ;;
  match found with
  | None => reply 404 MUserNotFound
  | Some _ =>
      rel <- select (user_relations target) ;;
      if bool_decide (rel = (O, O, O)) then
        query (delete_user_row target) ;;; reply 200 MUserDeleted
      else reply 400 MUserHasRelations
  end.

(** [createUser] (lines 432-491): an unknown [role] string is refused by
    the ENUM column (strict SQL mode) and answers 500. *)
Definition createUser (now : Z) (caller : Principal) (body : bool)
    (username password email student_id role bio file : option string) : M Resp :=
  if negb body then reply 400 MEmptyBody else
  if negb (truthy_str username && truthy_str password && truthy_str email && truthy_str student_id)
  then reply 400 MCreateUserFields else
  let role_str := if truthy_str role then role else Some "student" in
  let role_str := if bool_decide (role_str = Some "admin") && negb (bool_decide (p_role caller = Admin))
                  then Some "student" else role_str in
  let row r := mkUser (default "" username) (hash (default "" password)) file student_id
                 (if truthy_str bio then bio else None) email r 0 now in
  id <- query_or (fun d => match parse_role role_str with
                           | Some r => insert_user now (row r) d
                           | None => inl ErOther
                           end)
          (fun e => match e with
                    | ErDupEntry _ => reply 400 MUserInfoTaken
                    | ErOther => reply 500 MDbError
                    end) ;;
  reply 201 (MUserCreated id (default Student (parse_role role_str))).

(** [LIKE] with [%], [_] and the escape [\], comparing letters without
    case ([fold_case], the column's default collation); [LIKE] compares
    character by character, without the padding of [=]. *)
Definition char_eq (a b : ascii) : bool := Ascii.eqb (fold_case a) (fold_case b).

Fixpoint like (p s : list ascii) : bool :=
  match p with
  | [] => match s with [] => true | _ => false end
  | "%"%char :: p' =>
      (fix any (s : list ascii) : bool :=
         like p' s || match s with [] => false | _ :: s' => any s' end) s
  | "_"%char :: p' => match s with [] => false | _ :: s' => like p' s' end
  | "\"%char :: c :: p' => match s with [] => false | c' :: s' => char_eq c c' && like p' s' end
  | c :: p' => match s with [] => false | c' :: s' => char_eq c c' && like p' s' end
  end.

(** [col LIKE '%search%']; a NULL column matches nothing. *)
Definition like_search (search : string) (col : option string) : bool :=
  match col with
  | Some v => like (String.list_ascii_of_string ("%" +:+ search +:+ "%")) (String.list_ascii_of_string v)
  | None => false
  end.

(** [getPointsRanking] (lines 403-429): [WHERE username LIKE ? OR email
    LIKE ? OR student_id LIKE ?] when [search] is truthy,
    [ORDER BY points DESC LIMIT 100]. *)
Definition getPointsRanking (search : option string) : M (list (Z * User)) :=
  select (fun d =>
    take 100 (order_desc (fun p => u_points p.2)
      (List.filter (fun p => if truthy_str search
                             then like_search (default "" search) (Some (u_name p.2))
                                  || like_search (default "" search) (u_email p.2)
                                  || like_search (default "" search) (u_student_id p.2)
                             else true)
         (map_to_list (users d))))).

(** [getAllUsers] (lines 300-311). *)
Definition getAllUsers : M (list (Z * User)) := select (fun d => map_to_list (users d)).

(** ** Routes of routes/userRoutes.js (lines 30-58) *)

Definition route_register now body username password sid email bio file : M Resp :=
  register now body username password sid email bio file.
Definition route_login body username password : M Resp := login body username password.
Definition route_update_user tok target b : M Resp :=
  verifyToken tok (fun u => updateUser u target b).
Definition route_change_role tok target role : M Resp :=
  verifyToken tok (fun u => isAdmin u (changeUserRole target role)).
Definition route_create_user now tok body username password email sid role bio file : M Resp :=
  verifyToken tok (fun u => isAdmin u (createUser now u body username password email sid role bio file)).
Definition route_delete_user tok target : M Resp :=
  verifyToken tok (fun u => isAdmin u (deleteUser u target)).

End Handlers.

(** ** Properties *)

(** The ranking read with no failing query. *)
Lemma getPointsRanking_ok search d :
  fst (getPointsRanking search (mkSys d [])) =
  Cont (take 100 (order_desc (fun p => u_points p.2)
      (List.filter (fun p => if truthy_str search
                             then like_search (default "" search) (Some (u_name p.2))
                                  || like_search (default "" search) (u_email p.2)
                                  || like_search (default "" search) (u_student_id p.2)
                             else true)
         (map_to_list (users d))))).
Proof. reflexivity. Qed.


Section Properties.
Context `{Hasher}.

Lemma prefix_app_self p s : String.prefix p (p +:+ s) = true.
Proof.
  induction p as [|a p IH]; [by destruct s|]. simpl.
  destruct (Ascii.ascii_dec a a); [exact IH | done].
Qed.

Lemma index_app_l p s : String.index 0 p (p +:+ s) <> None.
Proof.
  destruct p as [|a p]; [destruct s; simpl; discriminate|].
  pose proof (prefix_app_self (String a p) s) as Hp. simpl in Hp |- *. rewrite Hp. discriminate.
Qed.

Lemma index_app_r p s1 s : String.index 0 p s <> None -> String.index 0 p (s1 +:+ s) <> None.
Proof.
  intros Hs. induction s1 as [|a s1 IH]; simpl; [done|].
  case_match; [discriminate|]. by destruct (String.index 0 p (s1 +:+ s)).
Qed.

(** The message of a duplicate username names the key [users.username]. *)
Lemma includes_dup_username n : includes (dup_msg n "username") "username" = true.
Proof.
  unfold includes, dup_msg.
  destruct (String.index 0 _ _) eqn:E; [done|]. exfalso. revert E.
  apply index_app_r, index_app_r, index_app_r, index_app_l.
Qed.

(** A user whose name equals [n] under the collation makes [n] taken. *)
Lemma taken_name_collates n d id v self :
  users d !! id = Some v -> ci_eqb (u_name v) n = true -> Some id <> self ->
  taken (fun u => Some (u_name u)) (Some n) self d = true.
Proof.
  intros Hv Hc Hs. apply existsb_exists. exists (id, v).
  split; [by apply list_elem_of_In, elem_of_map_to_list|]. simpl. rewrite Hc. simpl.
  by rewrite bool_decide_eq_false_2.
Qed.

(** The only user named [n] after inserting one into a table where no
    one had the name. *)
Lemma find_by_name_insert n id v d d' :
  users d' = <[id := v]> (users d) -> users d !! id = None -> u_name v = n ->
  taken (fun u => Some (u_name u)) (Some n) None d = false ->
  find_by_name n d' = Some (id, v).
Proof.
  intros Hd' Hid Hn Ht. unfold find_by_name. rewrite Hd'.
  assert (Hp : List.filter (fun p => ci_eqb (u_name p.2) n) (map_to_list (<[id:=v]> (users d)))
               ≡ₚ [(id, v)]).
  { rewrite (List_filter_perm _ _ _ (map_to_list_insert _ _ _ Hid)). simpl.
    rewrite Hn, ci_eqb_refl, filter_all_false; [done|].
    intros [j w] Hin. simpl.
    unfold taken in Ht. apply existsb_false_forall with (x := (j, w)) in Ht; [|done].
    simpl in Ht. by rewrite andb_true_r in Ht. }
  apply Permutation_singleton_r in Hp. by rewrite Hp.
Qed.

(** C8: The UNIQUE key on [username] compares under the column's
    collation: registering a name that equals an existing user's name up
    to letter case or trailing spaces is refused with 400 "username
    taken", whatever the password, student id and email, and the
    database is unchanged (with no failing query). *)
Theorem register_collation_refused now n pw sid email bio file d id v :
  n <> "" -> pw <> "" -> sid <> "" -> email <> "" ->
  users d !! id = Some v -> ci_eqb (u_name v) n = true ->
  run_ok (register now true (Some n) (Some pw) (Some sid) (Some email) bio file) d
  = (mkResp 400 MUsernameTaken, d).
Proof.
  intros Hn Hpw Hsid Hem Hv Hc.
  unfold run_ok, run, register, bind, query_or, reply, next_fault, truthy_str.
  rewrite (proj2 (String.eqb_neq _ _) Hn), (proj2 (String.eqb_neq _ _) Hpw),
    (proj2 (String.eqb_neq _ _) Hsid), (proj2 (String.eqb_neq _ _) Hem). simpl.
  assert (Huv : unique_violation n (Some sid) (Some email) None d = Some (ErDupEntry (dup_msg n "username")))
    by (unfold unique_violation; by rewrite (taken_name_collates n d id v None Hv Hc)).
  unfold insert_user. cbn [u_name u_student_id u_email]. rewrite Huv. simpl.
  by rewrite includes_dup_username.
Qed.

(** Registering and then logging in with the same name and password
    succeeds: with no failing query, a fresh name, student id and email,
    register answers 201 with the next user id, and login answers 200
    with a token for that id and the role student. *)
Theorem register_login_roundtrip now n pw sid email bio file d :
  n <> "" -> pw <> "" -> sid <> "" -> email <> "" ->
  users d !! next_user d = None ->
  unique_violation n (Some sid) (Some email) None d = None ->
  let '(r1, d1) := run_ok (register now true (Some n) (Some pw) (Some sid) (Some email) bio file) d in
  let '(r2, d2) := run_ok (login true (Some n) (Some pw)) d1 in
  r1 = mkResp 201 (MRegistered (next_user d))
  /\ r2 = mkResp 200 (MLoggedIn (mkPrincipal (next_user d) Student)) /\ d2 = d1.
Proof.
  intros Hn Hpw Hsid Hem Hfree Huv.
  assert (Htn : taken (fun u => Some (u_name u)) (Some n) None d = false).
  { unfold unique_violation in Huv. by destruct (taken _ (Some n) None d). }
  unfold run_ok, run, register, login, bind, query_or, select, query, reply, ret, next_fault, truthy_str.
  cbn -[lookup insert find_by_name unique_violation].
  destruct n, pw, sid, email; try done. cbn -[lookup insert find_by_name unique_violation].
  unfold insert_user. simpl u_name. simpl u_student_id. simpl u_email. rewrite Huv.
  cbn -[lookup insert find_by_name unique_violation].
  erewrite find_by_name_insert; [| reflexivity | exact Hfree | reflexivity | exact Htn].
  cbn. rewrite verify_hash. done.
Qed.

(** For a caller who is not a system admin, the changes never set the
    role or the points. *)
Lemma user_changes_non_admin caller b c :
  p_role caller <> Admin -> user_changes caller b = inr c -> ch_role c = None /\ ch_points c = None.
Proof.
  intros Hr. unfold user_changes. rewrite bool_decide_eq_false_2 by done. simpl.
  intros Hc. repeat case_match; simplify_eq; auto.
Qed.

(** What a request by [caller] may change, relative to the database
    [d0] it started from: no role, no points, no row of another user. *)
Definition self_edit_only (caller : Principal) (d0 d : DB) : Prop :=
  forall id, (u_role <$> users d !! id) = (u_role <$> users d0 !! id)
             /\ (u_points <$> users d !! id) = (u_points <$> users d0 !! id)
             /\ (id <> p_id caller -> users d !! id = users d0 !! id).

Lemma update_user_self_edit caller c d d' n :
  ch_role c = None -> ch_points c = None ->
  update_user (p_id caller) c d = inr (n, d') -> forall d0,
  self_edit_only caller d0 d -> self_edit_only caller d0 d'.
Proof.
  intros Hcr Hcp Hu d0 HI. unfold update_user in Hu.
  destruct (users d !! p_id caller) as [v|] eqn:Ev; [|by injection Hu as _ <-].
  destruct (negb _); [done|]. destruct (unique_violation _ _ _ _ _); [done|].
  injection Hu as _ <-. intros id. simpl. destruct (decide (id = p_id caller)) as [->|Hne].
  - rewrite lookup_insert_eq. destruct (HI (p_id caller)) as (Hro & Hpo & _).
    rewrite Ev in Hro, Hpo. simpl. unfold apply_changes. rewrite Hcr, Hcp. simpl.
    split; [exact Hro|]. split; [exact Hpo|]. done.
  - rewrite lookup_insert_ne by done. apply HI.
Qed.

Lemma updateUser_self_edit caller target b d0 :
  p_role caller <> Admin -> keeps (self_edit_only caller d0) (updateUser caller target b).
Proof.
  intros Hr. unfold updateUser.
  destruct (negb (Z.eqb (p_id caller) target) && _) eqn:E; [apply keeps_reply|].
  rewrite bool_decide_eq_false_2 in E by done. rewrite andb_true_r, negb_false_iff in E.
  apply Z.eqb_eq in E. subst target.
  destruct (user_changes caller b) as [m|c] eqn:Ec; [apply keeps_reply|].
  destruct (user_changes_non_admin _ _ _ Hr Ec) as [Hcr Hcp].
  apply keeps_bind.
  { destruct (truthy_str _); [|apply keeps_ret]. apply keeps_bind; [apply keeps_select|].
    intros [|]; [apply keeps_reply | apply keeps_ret]. }
  intros u0.
  apply keeps_bind.
  { apply keeps_query_or; [|intros []; apply keeps_reply].
    intros d n d' Hu HI. eapply update_user_self_edit; eauto. }
  intros n. destruct (Nat.eqb n 0); [apply keeps_reply|].
  apply keeps_bind; [|intros; apply keeps_reply].
  apply keeps_query_or; [by intros d a d' [= _ <-] | intros; apply keeps_reply].
Qed.

(** C22: Whatever queries fail, an update request by a caller who is not
    a system admin changes no user's role or points and no row of
    another user: only administrators override points (§3 of the
    design) and roles. *)
Theorem updateUser_non_admin caller target b s :
  p_role caller <> Admin ->
  let d' := sys_db (snd (run (updateUser caller target b) s)) in
  forall id, (u_role <$> users d' !! id) = (u_role <$> users (sys_db s) !! id)
             /\ (u_points <$> users d' !! id) = (u_points <$> users (sys_db s) !! id)
             /\ (id <> p_id caller -> users d' !! id = users (sys_db s) !! id).
Proof.
  intros Hr. apply (keeps_run_db (self_edit_only caller (sys_db s))).
  - by apply updateUser_self_edit.
  - intros id. done.
Qed.

End Properties.

(** ** Witnesses and scenarios *)

(** Dave registers on the sample database with fresh data. *)
Lemma register_login_roundtrip_witness :
  ("dave" <> "" /\ "pw1" <> "" /\ "20230001" <> "" /\ "d@x.io" <> ""
   /\ users Sample.db0 !! next_user Sample.db0 = None
   /\ unique_violation "dave" (Some "20230001") (Some "d@x.io") None Sample.db0 = None)
  /\ (let '(r1, d1) := run_ok (register 0 true (Some "dave") (Some "pw1") (Some "20230001")
                                 (Some "d@x.io") None None) Sample.db0 in
      let '(r2, d2) := run_ok (login true (Some "dave") (Some "pw1")) d1 in
      r1 = mkResp 201 (MRegistered (next_user Sample.db0))
      /\ r2 = mkResp 200 (MLoggedIn (mkPrincipal (next_user Sample.db0) Student)) /\ d2 = d1).
Proof.
  split; [repeat split; try discriminate; vm_compute; reflexivity|].
  apply register_login_roundtrip; try discriminate; vm_compute; reflexivity.
Defined.

(** "Alice " registers while alice exists. *)
Lemma register_collation_refused_witness :
  ("Alice " <> "" /\ "pw" <> "" /\ "20230009" <> "" /\ "a2@x.io" <> ""
   /\ users Sample.db0 !! 1 = Some (Sample.student "alice" 1)
   /\ ci_eqb (u_name (Sample.student "alice" 1)) "Alice " = true)
  /\ run_ok (register 0 true (Some "Alice ") (Some "pw") (Some "20230009") (Some "a2@x.io") None None) Sample.db0
     = (mkResp 400 MUsernameTaken, Sample.db0).
Proof.
  assert (Hv : users Sample.db0 !! 1 = Some (Sample.student "alice" 1)) by (vm_compute; reflexivity).
  assert (Hc : ci_eqb (u_name (Sample.student "alice" 1)) "Alice " = true) by (vm_compute; reflexivity).
  split; [repeat split; first [discriminate | exact Hv | exact Hc]|].
  exact (register_collation_refused 0 "Alice " "pw" "20230009" "a2@x.io" None None Sample.db0 1 _
           ltac:(discriminate) ltac:(discriminate) ltac:(discriminate) ltac:(discriminate) Hv Hc).
Defined.

(** Alice, a student, tries to give herself admin rights and 1000
    points while editing her bio. *)
Definition alice_grab : UserUpdate :=
  mkUpdate None (Some "hi") None (Some "admin") None (Some "1000") None.

Lemma updateUser_non_admin_witness :
  p_role Sample.alice <> Admin /\
  (let d' := sys_db (snd (run (updateUser Sample.alice 1 alice_grab) (mkSys Sample.db0 []))) in
   forall id, (u_role <$> users d' !! id) = (u_role <$> users Sample.db0 !! id)
              /\ (u_points <$> users d' !! id) = (u_points <$> users Sample.db0 !! id)
              /\ (id <> p_id Sample.alice -> users d' !! id = users Sample.db0 !! id)).
Proof. split; [discriminate|]. apply (updateUser_non_admin Sample.alice 1 alice_grab (mkSys Sample.db0 [])). discriminate. Defined.

(** The sample database with a second system admin, user 98. *)
Definition two_admins_db : DB :=
  set_users (<[98 := with_role Admin (Sample.student "ops" 0)]> (users Sample.db0)) Sample.db0.

(** Authorisation reads the role in the token, fixed at login for
    24 hours: after root demotes user 98 to student, 98's earlier token
    still passes [isAdmin], and 98 demotes root in turn. *)
Theorem stale_token_role :
  let ops_token := mkPrincipal 98 Admin in
  let '(r1, d1) := run_ok (route_change_role (Some Sample.root) 98 (Some "student")) two_admins_db in
  let '(r2, d2) := run_ok (route_change_role (Some ops_token) 99 (Some "student")) d1 in
  r1 = mkResp 200 MRoleChanged /\ (u_role <$> users d1 !! 98) = Some Student
  /\ r2 = mkResp 200 MRoleChanged /\ (u_role <$> users d2 !! 99) = Some Student.
Proof. vm_compute. repeat split. Qed.

(** The sample database where alice's e-mail is [username@x.io]. *)
Definition email_db : DB :=
  set_users (<[1 := mkUser "alice" "alice" None None None (Some "username@x.io") Student 0 1]>
               (users Sample.db0)) Sample.db0.

(** Register classifies a duplicate key by searching the SQL
    message, which quotes the duplicated value: dave, whose name is free,
    registering with an e-mail already taken that contains "username", is
    told the user name exists. *)
Theorem duplicate_email_reported_as_username :
  let '(r, d) := run_ok (register 0 true (Some "dave") (Some "pw1") (Some "20230001")
                           (Some "username@x.io") None None) email_db in
  r = mkResp 400 MUsernameTaken /\ d = email_db
  /\ find_by_name "dave" email_db = None.
Proof. vm_compute. repeat split. Qed.

(** The points an admin types are read with [parseInt]: "1e3"
    stores 1 and "0x10" stores 16, while "3000000000", beyond the INT
    column, fails the statement with 500. *)
Theorem points_parse_lenient :
  let upd p := mkUpdate None None None None None (Some p) None in
  let '(r1, d1) := run_ok (updateUser Sample.root 1 (upd "1e3")) Sample.db0 in
  let '(r2, d2) := run_ok (updateUser Sample.root 1 (upd "0x10")) Sample.db0 in
  let '(r3, d3) := run_ok (updateUser Sample.root 1 (upd "3000000000")) Sample.db0 in
  r1 = mkResp 200 MUserUpdated /\ (u_points <$> users d1 !! 1) = Some 1
  /\ r2 = mkResp 200 MUserUpdated /\ (u_points <$> users d2 !! 1) = Some 16
  /\ r3 = err500 /\ d3 = Sample.db0.
Proof. vm_compute. repeat split. Qed.

End Users.
