(* ===== verification/Settlement.v ===== *)
(** The point settlement of [activityController.js]: [completeActivity]
    (567-660).  Three writes in sequence: the registrants are marked
    completed with the activity's points, the users are credited by a
    multi-table UPDATE, and the activity's stored status becomes
    [completed] by a statement whose error is only logged. *)

From S2P Require Import Prelude Schema Handler TimeWindow Registration.

Module Settlement.
Import Registration.

(** [user_id IN (?)] with the array of ids. *)
Definition in_ids (uids : list Z) (uid : Z) : bool := existsb (Z.eqb uid) uids.

(** [WHERE activity_id = ? AND user_id IN (?) AND status IN ('registered',
    'participated')]. *)
Definition settle_eligible (aid : Z) (uids : list Z) (r : UserActivity) : bool :=
  ua_of aid r && in_ids uids (ua_user r)
  && match ua_status r with Registered | Participated => true | RegCompleted => false end.

(** [SET status = 'completed', earned_points = ?] on an eligible row. *)
Definition settle_row (pts aid : Z) (uids : list Z) (r : UserActivity) : UserActivity :=
  if settle_eligible aid uids r
  then mkUA (ua_id r) (ua_user r) (ua_activity r) RegCompleted pts (ua_created r)
  else r.

(** The first UPDATE; its [affectedRows] is the number of eligible rows. *)
Definition update_participants (pts aid : Z) (uids : list Z) (d : DB) : option (nat * DB) :=
  Some (length (List.filter (settle_eligible aid uids) (user_activities d)),
        set_ua (List.map (settle_row pts aid uids) (user_activities d)) d).

(** [WHERE ua.activity_id = ? AND ua.user_id IN (?) AND ua.status =
    'completed'] of the second UPDATE. *)
Definition credit_row (aid : Z) (uids : list Z) (r : UserActivity) : bool :=
  ua_of aid r && in_ids uids (ua_user r)
  && match ua_status r with RegCompleted => true | _ => false end.

(** In a multi-table UPDATE MySQL updates each [users] row at most once,
    from one of the joined rows; the model takes the first in table
    order. *)
Definition credit_of (aid : Z) (uids : list Z) (l : list UserActivity) (uid : Z) : option Z :=
  match List.find (fun r => credit_row aid uids r && Z.eqb (ua_user r) uid) l with
  | Some r => Some (ua_earned r)
  | None => None
  end.

Definition credit_user (aid : Z) (uids : list Z) (l : list UserActivity) (uid : Z) (u : User) : User :=
  match credit_of aid uids l uid with
  | Some e => with_points (u_points u + e) u
  | None => u
  end.

(** [UPDATE users u JOIN user_activities ua ON u.id = ua.user_id
    SET u.points = u.points + ua.earned_points WHERE ...]. *)
Definition credit_points (aid : Z) (uids : list Z) (d : DB) : option (unit * DB) :=
  Some (tt, set_users (map_imap (fun uid u => Some (credit_user aid uids (user_activities d) uid u))
                         (users d)) d).

(** [UPDATE activities SET status = ? WHERE id = ?]: no row, no change. *)
Definition set_activity_status (aid : Z) (st : ActStatus) (d : DB) : option DB :=
  match activities d !! aid with
  | Some a => Some (set_activities (<[aid := with_status st a]> (activities d)) d)
  | None => Some d
  end.

(** [completeActivity]: [user_ids] is [None] when it is missing or not an
    array. *)
Definition completeActivity (u : Principal) (aid : Z) (user_ids : option (list Z)) : M Resp :=
  match user_ids with
  | None | Some [] => reply 400 MNoUserIds
  | Some uids =>
      r <- select (find_approved aid) ;;
      match r with
      | None => reply 404 MActivityNotApproved
      | Some a =>
          c <- select (fun d => clubs d !! a_club a) ;;
          match c with
          | None => reply 404 MClubNotFound
          | Some club =>
              if negb (bool_decide (p_role u = Admin)) && negb (is_club_admin club (p_id u))
              then reply 403 MNoCompleteRight else
              n <- query (update_participants (a_points a) aid uids) ;;
              if (0 <? n)%nat then
                query (credit_points aid uids) ;;;
                query_quiet (set_activity_status aid Completed) ;;;
                reply 200 (MCompleted n)
              else reply 400 MNoEligible
          end
      end
  end.

(** ActivityRoutes.js 81. *)
Definition route_complete (p : option Principal) (aid : Z) (user_ids : option (list Z)) : M Resp :=
  verifyToken p (fun u => isClubAdminOrAdmin u (completeActivity u aid user_ids)).

(** The caller may settle: a system admin, or the club's admin. *)
Definition may_settle (u : Principal) (club : Club) : bool :=
  bool_decide (p_role u = Admin) || is_club_admin club (p_id u).

(** The number of registrations a settlement would complete. *)
Definition eligible_count (aid : Z) (uids : list Z) (d : DB) : nat :=
  length (List.filter (settle_eligible aid uids) (user_activities d)).

(** ** Lemmas *)

Lemma set_ua_id d : set_ua (user_activities d) d = d.
Proof. by destruct d. Qed.

Lemma settle_rows_none pts aid uids l :
  length (List.filter (settle_eligible aid uids) l) = 0%nat ->
  List.map (settle_row pts aid uids) l = l.
Proof.
  induction l as [|x l IH]; simpl; [done|]. unfold settle_row at 1.
  destruct (settle_eligible aid uids x); simpl; [lia|]. intros H. by rewrite IH.
Qed.

Lemma authorized_iff u club :
  (negb (bool_decide (p_role u = Admin)) && negb (is_club_admin club (p_id u)))%bool
  = negb (may_settle u club).
Proof. unfold may_settle. by rewrite negb_orb. Qed.

Lemma lookup_set_activity_status aid st d a :
  activities d !! aid = Some a ->
  set_activity_status aid st d = Some (set_activities (<[aid := with_status st a]> (activities d)) d).
Proof. unfold set_activity_status. by intros ->. Qed.

(** The credit of a listed user whose first registration for the
    activity was already completed is that row's earned points: a
    settlement leaves completed rows as they are, and the credit reads
    the first completed row. *)
Lemma credit_of_settled pts aid uids l x rx :
  in_ids uids x = true -> List.find (ua_is x aid) l = Some rx -> ua_status rx = RegCompleted ->
  credit_of aid uids (List.map (settle_row pts aid uids) l) x = Some (ua_earned rx).
Proof.
  intros Hx. unfold credit_of. induction l as [|r l IH]; simpl; [done|].
  destruct (ua_is x aid r) eqn:E.
  - intros [= ->] Hs. unfold settle_row, settle_eligible. rewrite Hs, andb_false_r. simpl.
    unfold ua_is in E. apply andb_true_iff in E as [E1 E2]. apply Z.eqb_eq in E1.
    unfold credit_row, ua_of. by rewrite E2, E1, Hx, Hs, Z.eqb_refl.
  - intros Hf Hs. unfold ua_is in E.
    assert (Hr : credit_row aid uids (settle_row pts aid uids r) && (ua_user (settle_row pts aid uids r) =? x) = false).
    { unfold settle_row, credit_row, ua_of.
      destruct (settle_eligible aid uids r); simpl;
        destruct (ua_user r =? x), (ua_activity r =? aid); simpl in *; by rewrite ?andb_false_r. }
    rewrite Hr. by apply IH.
Qed.

(** ** Properties *)

(** The database after the three writes of a settlement that succeeds. *)
Definition settled_db (aid : Z) (uids : list Z) (a : Activity) (d : DB) : DB :=
  let d1 := set_ua (List.map (settle_row (a_points a) aid uids) (user_activities d)) d in
  let d2 := set_users (map_imap (fun uid u => Some (credit_user aid uids (user_activities d1) uid u))
                         (users d1)) d1 in
  set_activities (<[aid := with_status Completed a]> (activities d2)) d2.

Lemma complete_run_ok u aid uids d a club :
  uids <> [] -> find_approved aid d = Some a -> clubs d !! a_club a = Some club ->
  may_settle u club = true -> (0 < eligible_count aid uids d)%nat ->
  run_ok (completeActivity u aid (Some uids)) d
  = (mkResp 200 (MCompleted (eligible_count aid uids d)), settled_db aid uids a d).
Proof.
  intros Hne Hf Hc Hauth Hn.
  pose proof (proj1 (find_approved_Some _ _ _) Hf) as [Ha _].
  assert (Hg : negb (bool_decide (p_role u = Admin)) && negb (is_club_admin club (p_id u)) = false)
    by (rewrite authorized_iff, Hauth; done).
  apply Nat.ltb_lt in Hn. unfold eligible_count in *.
  destruct uids as [|x uids]; [done|].
  unfold run_ok, run, completeActivity, bind, select, query, query_quiet, reply, next_fault,
    update_participants, credit_points.
  hrun. by rewrite (lookup_set_activity_status _ _ _ a) by exact Ha.
Qed.

(** C6: With no failing query, a settlement by an authorised caller of
    an approved activity with at least one eligible registrant answers
    200 with the number of eligible rows; every eligible row becomes
    completed with the activity's points, each user is credited by the
    earned points of its first completed registration for the listed ids,
    and the activity is stored as completed. *)
Theorem complete_settles u aid uids d a club :
  uids <> [] -> find_approved aid d = Some a -> clubs d !! a_club a = Some club ->
  may_settle u club = true -> (0 < eligible_count aid uids d)%nat ->
  let '(r, d') := run_ok (completeActivity u aid (Some uids)) d in
  let l' := List.map (settle_row (a_points a) aid uids) (user_activities d) in
  r = mkResp 200 (MCompleted (eligible_count aid uids d))
  /\ user_activities d' = l'
  /\ (forall uid, users d' !! uid = credit_user aid uids l' uid <$> users d !! uid)
  /\ activities d' !! aid = Some (with_status Completed a).
Proof.
  intros. rewrite (complete_run_ok u aid uids d a club) by done. unfold settled_db. simpl.
  split; [done|]. split; [done|]. split; [|by rewrite lookup_insert_eq].
  intros uid. by rewrite map_lookup_imap.
Qed.

(** A settlement cannot be repeated: after a successful settlement
    (no failing query), the same request is refused as "not found or not
    approved" and changes nothing, so no registrant is credited twice by
    a resubmission.  (The design expects [NoEligibleParticipants] here.) *)
Theorem complete_twice_refused u aid uids d a club :
  uids <> [] -> find_approved aid d = Some a -> clubs d !! a_club a = Some club ->
  may_settle u club = true -> (0 < eligible_count aid uids d)%nat ->
  let d1 := snd (run_ok (completeActivity u aid (Some uids)) d) in
  run_ok (completeActivity u aid (Some uids)) d1 = (mkResp 404 MActivityNotApproved, d1).
Proof.
  intros Hne Hf Hc Hauth Hn d1.
  assert (Hd1 : d1 = settled_db aid uids a d)
    by (unfold d1; rewrite (complete_run_ok u aid uids d a club) by done; done).
  assert (Hf1 : find_approved aid d1 = None).
  { rewrite Hd1. unfold find_approved, settled_db. simpl. by rewrite lookup_insert_eq. }
  destruct uids as [|x uids]; [done|].
  unfold run_ok, run, completeActivity, bind, select, query, reply, next_fault. by hrun.
Qed.

(** C7: When no registration is eligible (none of the listed users is
    registered or participated), a settlement changes nothing, whichever
    of its queries fail: the registrations, the users' points and the
    activity's stored status are all as before, and the answer is not a
    success. *)
Theorem complete_no_eligible_no_change u aid uids s :
  eligible_count aid uids (sys_db s) = 0%nat ->
  let '(r, s') := run (completeActivity u aid (Some uids)) s in
  sys_db s' = sys_db s /\ code r <> 200.
Proof.
  intros Hn. destruct s as [d fs]. simpl in Hn. unfold eligible_count in Hn.
  destruct uids as [|x uids]; [done|].
  unfold run, completeActivity, bind, select, query, query_quiet, reply, update_participants.
  repeat (simpl; hstep).
  all: simpl; try (split; [done | done]).
  all: try (rewrite Hn in *; discriminate).
  all: rewrite settle_rows_none, set_ua_id by exact Hn; done.
Qed.

(** The settlement is not atomic.  When the point credit (the
    second UPDATE) fails after the registrants were marked completed, the
    caller gets 500, both registrations stay completed with 10 earned
    points, no user is credited, and the activity stays approved. *)
Theorem settlement_partial_write :
  let '(r, s') := run (completeActivity Sample.leader 1 (Some [1; 2]))
                      (mkSys Sample.db1 [false; false; false; true]) in
  r = err500
  /\ List.map (fun x => (ua_status x, ua_earned x)) (user_activities (sys_db s'))
     = [(RegCompleted, 10); (RegCompleted, 10)]
  /\ (u_points <$> users (sys_db s') !! 1) = Some 0
  /\ (u_points <$> users (sys_db s') !! 2) = Some 0
  /\ (a_status <$> activities (sys_db s') !! 1) = Some Approved.
Proof. vm_compute. repeat split. Qed.

(** ** Witnesses on the sample database *)

Lemma complete_settles_witness :
  (([1; 2] : list Z) <> [] /\ find_approved 1 Sample.db1 = Some Sample.act1
   /\ clubs Sample.db1 !! a_club Sample.act1 = Some Sample.club1
   /\ may_settle Sample.leader Sample.club1 = true
   /\ (0 < eligible_count 1 [1%Z; 2%Z] Sample.db1)%nat)
  /\ let '(r, d') := run_ok (completeActivity Sample.leader 1 (Some [1; 2])) Sample.db1 in
     let l' := List.map (settle_row (a_points Sample.act1) 1 [1; 2]) (user_activities Sample.db1) in
     r = mkResp 200 (MCompleted (eligible_count 1 [1; 2] Sample.db1))
     /\ user_activities d' = l'
     /\ (forall uid, users d' !! uid = credit_user 1 [1; 2] l' uid <$> users Sample.db1 !! uid)
     /\ activities d' !! 1 = Some (with_status Completed Sample.act1).
Proof.
  assert (H1 : ([1; 2] : list Z) <> []) by done.
  assert (H2 : find_approved 1 Sample.db1 = Some Sample.act1) by (vm_compute; reflexivity).
  assert (H3 : clubs Sample.db1 !! a_club Sample.act1 = Some Sample.club1) by (vm_compute; reflexivity).
  assert (H4 : may_settle Sample.leader Sample.club1 = true) by (vm_compute; reflexivity).
  assert (H5 : (0 < eligible_count 1 [1%Z; 2%Z] Sample.db1)%nat) by (vm_compute; lia).
  split; [tauto|].
  exact (complete_settles Sample.leader 1 [1; 2] Sample.db1 Sample.act1 Sample.club1 H1 H2 H3 H4 H5).
Defined.

Lemma complete_no_eligible_no_change_witness :
  let s := mkSys Sample.db0 [] in
  eligible_count 1 [1; 2] (sys_db s) = O
  /\ let '(r, s') := run (completeActivity Sample.leader 1 (Some [1; 2])) s in
     sys_db s' = sys_db s /\ code r <> 200.
Proof.
  intros s.
  assert (H : eligible_count 1 [1; 2] (sys_db s) = O) by (vm_compute; reflexivity).
  split; [exact H|]. exact (complete_no_eligible_no_change Sample.leader 1 [1; 2] s H).
Defined.

Lemma complete_twice_refused_witness :
  (([1; 2] : list Z) <> [] /\ find_approved 1 Sample.db1 = Some Sample.act1
   /\ clubs Sample.db1 !! a_club Sample.act1 = Some Sample.club1
   /\ may_settle Sample.leader Sample.club1 = true
   /\ (0 < eligible_count 1 [1%Z; 2%Z] Sample.db1)%nat)
  /\ let d1 := snd (run_ok (completeActivity Sample.leader 1 (Some [1; 2])) Sample.db1) in
     run_ok (completeActivity Sample.leader 1 (Some [1; 2])) d1 = (mkResp 404 MActivityNotApproved, d1).
Proof.
  assert (H1 : ([1; 2] : list Z) <> []) by done.
  assert (H2 : find_approved 1 Sample.db1 = Some Sample.act1) by (vm_compute; reflexivity).
  assert (H3 : clubs Sample.db1 !! a_club Sample.act1 = Some Sample.club1) by (vm_compute; reflexivity).
  assert (H4 : may_settle Sample.leader Sample.club1 = true) by (vm_compute; reflexivity).
  assert (H5 : (0 < eligible_count 1 [1%Z; 2%Z] Sample.db1)%nat) by (vm_compute; lia).
  split; [tauto|].
  exact (complete_twice_refused Sample.leader 1 [1; 2] Sample.db1 Sample.act1 Sample.club1 H1 H2 H3 H4 H5).
Defined.

End Settlement.
