(* ===== verification/Lifecycle.v ===== *)
(** The review and lifecycle controller of [activityController.js]:
    [createActivity] (83-150), [updateActivity] (301-442),
    [reviewActivity] (444-472), [deleteActivity] with
    [deleteActivityRecord] (683-767), their routes, and the design's
    lifecycle of the stored status, which the review leaves. *)

From S2P Require Import Prelude Schema Handler TimeWindow Registration Settlement.

Module Lifecycle.
Import Registration Settlement.

(** The fields of [req.body] the create and update handlers read; a
    missing field is [None].  Times are the parsed [start_time] and
    [end_time]; an empty string is modelled as a missing field. *)
Record ActivityInput := mkInput {
  in_title : option string;
  in_description : option string;
  in_club : option Z;
  in_location : option string;
  in_start : option Z;
  in_end : option Z;
  in_points : option Z;
  in_max : option Z
}.

Definition present (x : option Z) : bool := match x with Some _ => true | None => false end.

(** ** createActivity *)

(** The row [INSERT INTO activities (...) VALUES (...)] adds, with
    [points || 0] and [max_participants || 100]. *)
Definition new_activity (now : Z) (b : ActivityInput) (cid : Z) (start end_ : Z)
    (st : ActStatus) (img : option string) : Activity :=
  mkActivity (default "" (in_title b)) (default "" (in_description b)) cid
    (default "" (in_location b)) start end_
    (field_or (in_points b) 0) (field_or (in_max b) 100) st img None now.

Definition insert_activity (a : Activity) (d : DB) : option (Z * DB) :=
  match clubs d !! a_club a with
  | Some _ =>
      let id := next_activity d in
      Some (id, set_next_activity (id + 1) (set_activities (<[id := a]> (activities d)) d))
  | None => None
  end.

Definition createActivity (now : Z) (u : Principal) (body : option ActivityInput)
    (img : option string) : M Resp :=
  match body with
  | None => reply 400 MEmptyBody
  | Some b =>
      match in_club b, in_start b, in_end b with
      | Some cid, Some start, Some end_ =>
          if negb (truthy_str (in_title b) && truthy_str (in_description b)
                   && truthy_Z (Some cid) && truthy_str (in_location b))
          then reply 400 MMissingFields else
          c <- select (fun d => clubs d !! cid) ;;
          match c with
          | None => reply 404 MClubNotFound
          | Some club =>
              if negb (bool_decide (p_role u = Admin)) && negb (bool_decide (p_role u = ClubAdmin))
              then reply 403 MNoCreateRole else
              if bool_decide (p_role u = ClubAdmin) && negb (is_club_admin club (p_id u))
              then reply 403 MNotClubAdmin else
              let st := if bool_decide (p_role u = Admin) then Approved else Pending in
              id <- query (insert_activity (new_activity now b cid start end_ st img)) ;;
              reply 201 (MCreated id st)
          end
      | _, _, _ => reply 400 MMissingFields
      end
  end.

(** ** updateActivity *)

(** [if (title) ...]: a truthy string replaces the column. *)
Definition upd_str (x : option string) (old : string) : string :=
  if truthy_str x then default old x else old.

(** [if (club_id) ...]: a non-zero id replaces the column. *)
Definition upd_id (x : option Z) (old : Z) : Z := if truthy_Z x then default old x else old.

(** [if (points !== undefined) ...] and the time fields. *)
Definition upd_val (x : option Z) (old : Z) : Z := default old x.

(** [updateFields.length === 0]. *)
Definition no_update_fields (b : ActivityInput) (img : option string) : bool :=
  negb (truthy_str (in_title b) || truthy_str (in_description b) || truthy_Z (in_club b)
        || truthy_str (in_location b) || present (in_start b) || present (in_end b)
        || present (in_points b) || present (in_max b)
        || match img with Some _ => true | None => false end).

(** The updated row; [demote] is [req.user.role !== 'admin'], which adds
    [status = 'pending']. *)
Definition apply_update (b : ActivityInput) (img : option string) (demote : bool)
    (a : Activity) : Activity :=
  mkActivity (upd_str (in_title b) (a_title a)) (upd_str (in_description b) (a_description a))
    (upd_id (in_club b) (a_club a)) (upd_str (in_location b) (a_location a))
    (upd_val (in_start b) (a_start a)) (upd_val (in_end b) (a_end a))
    (upd_val (in_points b) (a_points a)) (upd_val (in_max b) (a_max a))
    (if demote then Pending else a_status a)
    (match img with Some i => Some i | None => a_image a end)
    (a_feedback a) (a_created a).

(** [UPDATE activities SET ... WHERE id = ?], rejected by the foreign key
    when the new [club_id] names no club. *)
Definition update_activity_row (aid : Z) (f : Activity -> Activity) (d : DB) : option (unit * DB) :=
  match activities d !! aid with
  | Some a =>
      let a' := f a in
      match clubs d !! a_club a' with
      | Some _ => Some (tt, set_activities (<[aid := a']> (activities d)) d)
      | None => None
      end
  | None => Some (tt, d)
  end.

(** [SELECT a.*, c.admin_id FROM activities a JOIN clubs c ON a.club_id =
    c.id WHERE a.id = ?]. *)
Definition activity_with_club (aid : Z) (d : DB) : option (Activity * Club) :=
  match activities d !! aid with
  | Some a => match clubs d !! a_club a with Some c => Some (a, c) | None => None end
  | None => None
  end.

Definition updateActivity (u : Principal) (aid : Z) (body : option ActivityInput)
    (img : option string) : M Resp :=
  match body with
  | None => reply 400 MEmptyBody
  | Some b =>
      r <- select (activity_with_club aid) ;;
      match r with
      | None => reply 404 MActivityNotFound
      | Some (a, club) =>
          if negb (bool_decide (p_role u = Admin))
             && (negb (bool_decide (p_role u = ClubAdmin)) || negb (is_club_admin club (p_id u)))
          then reply 403 MNoUpdateRight else
          if no_update_fields b img then reply 400 MNoFields else
          let demote := negb (bool_decide (p_role u = Admin)) in
          query (update_activity_row aid (apply_update b img demote)) ;;;
          reply 200 (MUpdated aid)
      end
  end.

(** ** reviewActivity *)

(** [UPDATE activities SET status = ?, feedback = ? WHERE id = ?];
    [affectedRows] counts the matched row. *)
Definition review_row (aid : Z) (st : ActStatus) (fb : option string) (d : DB) : option (nat * DB) :=
  match activities d !! aid with
  | Some a =>
      let a' := mkActivity (a_title a) (a_description a) (a_club a) (a_location a)
                  (a_start a) (a_end a) (a_points a) (a_max a) st (a_image a) fb (a_created a) in
      Some (1%nat, set_activities (<[aid := a']> (activities d)) d)
  | None => Some (0%nat, d)
  end.

(** [reviewActivity]: the body's [status] must be ['approved'] or
    ['rejected'] ([None] models a missing or other value); the current
    status of the activity is not consulted. *)
Definition reviewActivity (aid : Z) (status : option ActStatus) (feedback : option string) : M Resp :=
  match status with
  | Some st =>
      if bool_decide (st = Approved) || bool_decide (st = Rejected) then
        n <- query (review_row aid st (if truthy_str feedback then feedback else None)) ;;
        if (n =? 0)%nat then reply 404 MActivityNotFound else reply 200 (MReviewed st)
      else reply 400 MBadReviewStatus
  | None => reply 400 MBadReviewStatus
  end.

(** ** deleteActivity *)

(** [DELETE FROM user_activities WHERE activity_id = ?]. *)
Definition delete_participants (aid : Z) (d : DB) : option (unit * DB) :=
  Some (tt, set_ua (List.filter (fun r => negb (ua_of aid r)) (user_activities d)) d).

(** [DELETE FROM activities WHERE id = ?], rejected by the foreign key of
    [user_activities.activity_id] while a registration references it. *)
Definition delete_activity_row (aid : Z) (d : DB) : option (unit * DB) :=
  if existsb (ua_of aid) (user_activities d) then None
  else Some (tt, set_activities (delete aid (activities d)) d).

(** [deleteActivityRecord]. *)
Definition deleteActivityRecord (aid : Z) (n : nat) : M Resp :=
  query (delete_activity_row aid) ;;;
  reply 200 (MDeleted n).

Definition deleteActivity (u : Principal) (aid : Z) : M Resp :=
  r <- select (activity_with_club aid) ;;
  match r with
  | None => reply 404 MActivityNotFound
  | Some (a, club) =>
      if negb (bool_decide (p_role u = Admin)) && negb (is_club_admin club (p_id u))
      then reply 403 MNoDeleteRight else
      n <- select (count_participants aid) ;;
      if (0 <? n)%nat then
        query (delete_participants aid) ;;;
        deleteActivityRecord aid n
      else deleteActivityRecord aid 0
  end.

(** ** Routes of activityRoutes.js *)

Definition route_create (now : Z) (p : option Principal) (body : option ActivityInput)
    (img : option string) : M Resp :=
  verifyToken p (fun u => isClubAdminOrAdmin u (createActivity now u body img)).
Definition route_update (p : option Principal) (aid : Z) (body : option ActivityInput)
    (img : option string) : M Resp :=
  verifyToken p (fun u => updateActivity u aid body img).
Definition route_review (p : option Principal) (aid : Z) (st : option ActStatus)
    (fb : option string) : M Resp :=
  verifyToken p (fun u => isAdmin u (reviewActivity aid st fb)).
Definition route_delete (p : option Principal) (aid : Z) : M Resp :=
  verifyToken p (fun u => isClubAdminOrAdmin u (deleteActivity u aid)).

(** ** The design's lifecycle *)

(** The design's lifecycle (§4.4): review of a pending activity, re-review
    after a club admin edits a pending or approved activity, settlement
    of an approved one; nothing leaves rejected or completed. *)
Inductive spec_step : ActStatus -> ActStatus -> Prop :=
  | ss_approve : spec_step Pending Approved
  | ss_reject : spec_step Pending Rejected
  | ss_edit_pending : spec_step Pending Pending
  | ss_edit_approved : spec_step Approved Pending
  | ss_settle : spec_step Approved Completed.

(** ** Effects of the handlers on the database *)

(** A review writes at most its one row, and only with approved or
    rejected. *)
Lemma review_effect aid st fb s :
  let '(r, s') := run (reviewActivity aid st fb) s in
  sys_db s' = sys_db s
  \/ exists st0 fb' n, st = Some st0 /\ (st0 = Approved \/ st0 = Rejected)
      /\ review_row aid st0 fb' (sys_db s) = Some (n, sys_db s').
Proof.
  destruct s as [d fs]. unfold run, reviewActivity, bind, query, reply.
  repeat (simpl; hstep); simpl; auto.
  all: right; eexists _, _, _; split; [done|]; split; [|done].
  all: apply orb_true_iff in E0 as [E0|E0]; apply bool_decide_eq_true in E0; auto.
Qed.

(** An update writes at most its one row. *)
Lemma update_effect u aid b img s :
  let '(r, s') := run (updateActivity u aid b img) s in
  sys_db s' = sys_db s
  \/ exists b0, b = Some b0 /\
      update_activity_row aid (apply_update b0 img (negb (bool_decide (p_role u = Admin))))
        (sys_db s) = Some (tt, sys_db s').
Proof.
  destruct s as [d fs]. unfold run, updateActivity, bind, select, query, reply.
  repeat (simpl; hstep); simpl; auto.
  all: right; by eexists.
Qed.

(** A system admin's review of an existing activity as approved or
    rejected, with no failing query: 200, the row rewritten with the new
    status and the feedback, whatever its stored status. *)
Definition reviewed (a : Activity) (st : ActStatus) (fb : option string) : Activity :=
  mkActivity (a_title a) (a_description a) (a_club a) (a_location a)
    (a_start a) (a_end a) (a_points a) (a_max a) st (a_image a) fb (a_created a).

Lemma review_run_ok u aid a st fb d :
  p_role u = Admin -> activities d !! aid = Some a -> st = Approved \/ st = Rejected ->
  run_ok (route_review (Some u) aid (Some st) fb) d
  = (mkResp 200 (MReviewed st),
     set_activities (<[aid := reviewed a st (if truthy_str fb then fb else None)]> (activities d)) d).
Proof.
  intros Hu Ha Hst. unfold route_review, verifyToken, isAdmin. rewrite decide_True by done.
  assert (Hb : bool_decide (st = Approved) || bool_decide (st = Rejected) = true)
    by (destruct Hst as [-> | ->]; reflexivity).
  unfold run_ok, run, reviewActivity, bind, query, reply, review_row. rewrite Hb. hrun. reflexivity.
Qed.


(** ** Deletion and creation *)

Lemma existsb_ua_of_removed aid l :
  existsb (ua_of aid) (List.filter (fun r => negb (ua_of aid r)) l) = false.
Proof. induction l as [|x l IH]; simpl; [done|]. destruct (ua_of aid x) eqn:E; simpl; rewrite ?E; auto. Qed.

Lemma filter_no_participants aid l :
  length (List.filter (ua_of aid) l) = 0%nat ->
  List.filter (fun r => negb (ua_of aid r)) l = l /\ existsb (ua_of aid) l = false.
Proof.
  induction l as [|x l IH]; simpl; [done|].
  destruct (ua_of aid x); simpl; [lia|]. intros H. destruct (IH H) as [-> ->]. done.
Qed.

(** C19: With no failing query, deleting an existing activity as a
    system admin or as its club's admin removes every registration of the
    activity, keeps every other registration in order, removes the
    activity and no other, and reports how many registrations it removed. *)
Theorem delete_cascades u aid d a club :
  activity_with_club aid d = Some (a, club) -> may_settle u club = true ->
  let '(r, d') := run_ok (deleteActivity u aid) d in
  r = mkResp 200 (MDeleted (count_participants aid d))
  /\ user_activities d' = List.filter (fun r => negb (ua_of aid r)) (user_activities d)
  /\ activities d' !! aid = None
  /\ (forall x, x <> aid -> activities d' !! x = activities d !! x).
Proof.
  intros Hac Hauth.
  assert (Hg : negb (bool_decide (p_role u = Admin)) && negb (is_club_admin club (p_id u)) = false)
    by (rewrite authorized_iff, Hauth; done).
  unfold run_ok, run, deleteActivity, deleteActivityRecord, bind, select, query, reply,
    next_fault, delete_participants, delete_activity_row.
  hrun. unfold count_participants.
  destruct (0 <? length (List.filter (ua_of aid) (user_activities d)))%nat eqn:Ec; simpl.
  - rewrite existsb_ua_of_removed. simpl.
    split; [done|]. split; [done|]. split; [apply lookup_delete_eq|].
    intros x Hx. by apply lookup_delete_ne.
  - apply Nat.ltb_ge in Ec. assert (Hz : length (List.filter (ua_of aid) (user_activities d)) = 0%nat) by lia.
    destruct (filter_no_participants aid _ Hz) as [Hf He]. rewrite He. simpl.
    rewrite Hz, Hf. split; [done|]. split; [done|]. split; [apply lookup_delete_eq|].
    intros x Hx. by apply lookup_delete_ne.
Qed.

(** The cascade is not atomic.  When deleting the activity row
    fails after its registrations were deleted, the caller gets 500, the
    registrations are gone and the activity is still there. *)
Theorem delete_partial_write :
  let '(r, s') := run (deleteActivity Sample.leader 1) (mkSys Sample.db1 [false; false; false; true]) in
  r = err500 /\ user_activities (sys_db s') = []
  /\ (a_status <$> activities (sys_db s') !! 1) = Some Approved.
Proof. vm_compute. repeat split. Qed.

(** C20: With no failing query, a create request with every required
    field, for an existing club, by a system admin or by that club's
    admin, stores the new activity under the next id, approved when a
    system admin created it and pending otherwise, with [points || 0]
    and [max_participants || 100]; nothing relates the start to the end
    or bounds the points. *)
Theorem create_stores now u b img d cid start end_ club :
  in_club b = Some cid -> in_start b = Some start -> in_end b = Some end_ ->
  (truthy_str (in_title b) && truthy_str (in_description b) && truthy_Z (Some cid)
   && truthy_str (in_location b))%bool = true ->
  clubs d !! cid = Some club ->
  p_role u = Admin \/ (p_role u = ClubAdmin /\ is_club_admin club (p_id u) = true) ->
  let st := if bool_decide (p_role u = Admin) then Approved else Pending in
  let '(r, d') := run_ok (createActivity now u (Some b) img) d in
  r = mkResp 201 (MCreated (next_activity d) st)
  /\ activities d' !! next_activity d
     = Some (mkActivity (default "" (in_title b)) (default "" (in_description b)) cid
               (default "" (in_location b)) start end_ (field_or (in_points b) 0)
               (field_or (in_max b) 100) st img None now)
  /\ user_activities d' = user_activities d.
Proof.
  intros Hc Hs He Hf Hcl Hrole st.
  assert (Hr1 : negb (bool_decide (p_role u = Admin)) && negb (bool_decide (p_role u = ClubAdmin)) = false).
  { destruct Hrole as [->|[-> _]]; done. }
  assert (Hr2 : bool_decide (p_role u = ClubAdmin) && negb (is_club_admin club (p_id u)) = false).
  { destruct Hrole as [->|[-> ->]]; done. }
  unfold run_ok, run, createActivity, bind, select, query, reply, next_fault, insert_activity.
  rewrite Hc, Hs, He. simpl in Hf |- *. rewrite Hf. hrun. fold st. simpl.
  split; [done|]. split; [|done]. by rewrite lookup_insert_eq.
Qed.

(** ** Witnesses *)


Lemma delete_cascades_witness :
  (activity_with_club 1 Sample.db1 = Some (Sample.act1, Sample.club1)
   /\ may_settle Sample.leader Sample.club1 = true)
  /\ let '(r, d') := run_ok (deleteActivity Sample.leader 1) Sample.db1 in
     r = mkResp 200 (MDeleted (count_participants 1 Sample.db1))
     /\ user_activities d' = List.filter (fun r => negb (ua_of 1 r)) (user_activities Sample.db1)
     /\ activities d' !! 1 = None
     /\ (forall x, x <> 1 -> activities d' !! x = activities Sample.db1 !! x).
Proof.
  assert (H1 : activity_with_club 1 Sample.db1 = Some (Sample.act1, Sample.club1)) by (vm_compute; reflexivity).
  assert (H2 : may_settle Sample.leader Sample.club1 = true) by (vm_compute; reflexivity).
  split; [tauto|]. exact (delete_cascades Sample.leader 1 Sample.db1 _ _ H1 H2).
Defined.

(** The input of the witness: an activity whose start is after its end,
    with negative points. *)
Definition inverted_input : ActivityInput :=
  mkInput (Some "Late") (Some "Backwards") (Some 1) (Some "Hall")
    (Some (2 * Sample.T)) (Some Sample.T) (Some (-5)) None.

Lemma create_stores_witness :
  (in_club inverted_input = Some 1 /\ in_start inverted_input = Some (2 * Sample.T)
   /\ in_end inverted_input = Some Sample.T
   /\ (truthy_str (in_title inverted_input) && truthy_str (in_description inverted_input)
       && truthy_Z (Some 1) && truthy_str (in_location inverted_input))%bool = true
   /\ clubs Sample.db0 !! 1 = Some Sample.club1
   /\ (p_role Sample.root = Admin
       \/ (p_role Sample.root = ClubAdmin /\ is_club_admin Sample.club1 (p_id Sample.root) = true)))
  /\ let st := if bool_decide (p_role Sample.root = Admin) then Approved else Pending in
     let '(r, d') := run_ok (createActivity 0 Sample.root (Some inverted_input) None) Sample.db0 in
     r = mkResp 201 (MCreated (next_activity Sample.db0) st)
     /\ activities d' !! next_activity Sample.db0
        = Some (mkActivity (default "" (in_title inverted_input))
                  (default "" (in_description inverted_input)) 1
                  (default "" (in_location inverted_input)) (2 * Sample.T) Sample.T
                  (field_or (in_points inverted_input) 0)
                  (field_or (in_max inverted_input) 100) st None None 0)
     /\ user_activities d' = user_activities Sample.db0.
Proof.
  assert (H1 : in_club inverted_input = Some 1) by reflexivity.
  assert (H2 : in_start inverted_input = Some (2 * Sample.T)) by reflexivity.
  assert (H3 : in_end inverted_input = Some Sample.T) by reflexivity.
  assert (H4 : (truthy_str (in_title inverted_input) && truthy_str (in_description inverted_input)
       && truthy_Z (Some 1) && truthy_str (in_location inverted_input))%bool = true) by reflexivity.
  assert (H5 : clubs Sample.db0 !! 1 = Some Sample.club1) by (vm_compute; reflexivity).
  assert (H6 : p_role Sample.root = Admin
       \/ (p_role Sample.root = ClubAdmin /\ is_club_admin Sample.club1 (p_id Sample.root) = true))
    by (left; reflexivity).
  split; [tauto|].
  exact (create_stores 0 Sample.root inverted_input None Sample.db0 1 _ _ Sample.club1 H1 H2 H3 H4 H5 H6).
Defined.

End Lifecycle.
