(* ===== verification/Concurrency.v ===== *)
(** Interleaved requests.  Node answers each request by a chain of
    asynchronous queries, so two requests for the same activity can have
    their queries interleaved: the server serialises nothing.  Here the
    join handler is cut at its query boundaries into a small-step machine
    [join_step] whose every step issues exactly one query of
    [joinActivity]; running it alone is the handler, and a schedule
    decides which of two requests issues the next query. *)

From S2P Require Import Prelude Schema Handler TimeWindow Registration.

Module Concurrency.
Import TimeWindow Registration.

(** Where a join request is: before each of its four queries, or
    answered. *)
Inductive JoinPC :=
  | JStart
  | JCount (a : Activity)
  | JExists (a : Activity)
  | JInsert
  | JDone (r : Resp).

(** One query of [joinActivity] and the callback code after it. *)
Definition join_step (now : Z) (u : Principal) (aid : Z) (pc : JoinPC) (d : DB) : JoinPC * DB :=
  match pc with
  | JStart =>
      match find_approved aid d with
      | None => (JDone (mkResp 404 MActivityNotApproved), d)
      | Some a =>
          match join_window a now with
          | Some m => (JDone (mkResp 400 m), d)
          | None => (JCount a, d)
          end
      end
  | JCount a =>
      if a_max a <=? Z.of_nat (count_participants aid d)
      then (JDone (mkResp 400 MFull), d) else (JExists a, d)
  | JExists a =>
      if is_registered (p_id u) aid d then (JDone (mkResp 400 MAlreadyJoined), d)
      else (JInsert, d)
  | JInsert =>
      match insert_registration now (p_id u) aid d with
      | Some (_, d') => (JDone (mkResp 200 MJoined), d')
      | None => (JDone err500, d)
      end
  | JDone r => (JDone r, d)
  end.

(** Run one request alone for [n] steps. *)
Fixpoint join_run (n : nat) (now : Z) (u : Principal) (aid : Z) (pc : JoinPC) (d : DB)
    : JoinPC * DB :=
  match n with
  | O => (pc, d)
  | S n' => let '(pc', d') := join_step now u aid pc d in join_run n' now u aid pc' d'
  end.

(** A join request: its time, its principal, its activity. *)
Record JoinReq := mkJoinReq { jr_now : Z; jr_user : Principal; jr_aid : Z }.

(** Two requests under a schedule: [true] lets the first issue its next
    query, [false] the second. *)
Fixpoint interleave (sched : list bool) (r1 r2 : JoinReq) (p1 p2 : JoinPC) (d : DB)
    : JoinPC * JoinPC * DB :=
  match sched with
  | [] => (p1, p2, d)
  | true :: sched' =>
      let '(p1', d') := join_step (jr_now r1) (jr_user r1) (jr_aid r1) p1 d in
      interleave sched' r1 r2 p1' p2 d'
  | false :: sched' =>
      let '(p2', d') := join_step (jr_now r2) (jr_user r2) (jr_aid r2) p2 d in
      interleave sched' r1 r2 p1 p2' d'
  end.

(** ** Properties *)

(** An answered request stays answered. *)
Lemma join_run_done n now u aid r d : join_run n now u aid (JDone r) d = (JDone r, d).
Proof. induction n; simpl; auto. Qed.

(** The small-step machine is the handler: four steps of a request
    running alone give exactly the answer and the database of
    [joinActivity] with no failing query, on every branch. *)
Theorem join_run_refines now u aid d :
  join_run 4 now u aid JStart d =
  let '(r, d') := run_ok (joinActivity now u aid) d in (JDone r, d').
Proof.
  unfold run_ok, run, joinActivity, bind, select, query, reply, next_fault. simpl.
  destruct (find_approved aid d) as [a|]; simpl; [|done].
  destruct (join_window a now); simpl; [done|].
  destruct (a_max a <=? Z.of_nat (count_participants aid d)); simpl; [done|].
  destruct (is_registered (p_id u) aid d); simpl; [done|].
  by destruct (insert_registration now (p_id u) aid d) as [[[] d']|].
Qed.

(** The schedule in which both requests pass their checks before either
    inserts. *)
Definition check_then_insert : list bool :=
  [true; false; true; false; true; false; true; false].

(** An insert whose foreign keys hold succeeds, touches neither
    [users] nor [activities], and adds one row to the count. *)
Lemma insert_registration_ok now uid aid d v a :
  users d !! uid = Some v -> activities d !! aid = Some a ->
  exists d', insert_registration now uid aid d = Some (tt, d')
    /\ users d' = users d /\ activities d' = activities d
    /\ count_participants aid d' = S (count_participants aid d).
Proof.
  intros Hu Ha. unfold insert_registration. rewrite Hu, Ha.
  eexists. split; [reflexivity|]. split; [done|]. split; [done|].
  apply count_participants_register.
Qed.

(** C12: Two joins of an activity with a free place, interleaved so
    that each reads the count and the existing registrations before the
    other inserts, both succeed on every database: the count grows by
    two, so at the last free place the activity ends past its capacity.
    The two requests may come from the same user. *)
Theorem concurrent_joins_exceed_capacity r1 r2 a d :
  jr_aid r2 = jr_aid r1 -> find_approved (jr_aid r1) d = Some a ->
  join_window a (jr_now r1) = None -> join_window a (jr_now r2) = None ->
  is_registered (p_id (jr_user r1)) (jr_aid r1) d = false ->
  is_registered (p_id (jr_user r2)) (jr_aid r1) d = false ->
  is_Some (users d !! p_id (jr_user r1)) -> is_Some (users d !! p_id (jr_user r2)) ->
  Z.of_nat (count_participants (jr_aid r1) d) < a_max a ->
  let '(p1, p2, d') := interleave check_then_insert r1 r2 JStart JStart d in
  p1 = JDone (mkResp 200 MJoined) /\ p2 = JDone (mkResp 200 MJoined)
  /\ count_participants (jr_aid r1) d' = (count_participants (jr_aid r1) d + 2)%nat
  /\ (Z.of_nat (count_participants (jr_aid r1) d) + 1 = a_max a ->
      Z.of_nat (count_participants (jr_aid r1) d') > a_max a).
Proof.
  intros E Hf Hw1 Hw2 Hr1 Hr2 [v1 Hu1] [v2 Hu2] Hc.
  destruct r1 as [t1 u1 aid], r2 as [t2 u2 aid2]; simpl in *; subst aid2.
  pose proof (proj1 (proj1 (find_approved_Some _ _ _) Hf)) as Ha.
  destruct (insert_registration_ok t1 (p_id u1) aid d v1 a Hu1 Ha) as (d1 & Hi1 & Hu & Ha' & Hc1).
  rewrite <- Hu in Hu2. rewrite <- Ha' in Ha.
  destruct (insert_registration_ok t2 (p_id u2) aid d1 v2 a Hu2 Ha) as (d2 & Hi2 & _ & _ & Hc2).
  unfold check_then_insert. cbn [interleave join_step].
  rewrite Hf, Hw1. cbn [interleave join_step]. rewrite Hf, Hw2. cbn [interleave join_step].
  rewrite (proj2 (Z.leb_gt _ _) Hc). cbn [interleave join_step].
  rewrite (proj2 (Z.leb_gt _ _) Hc). cbn [interleave join_step].
  rewrite Hr1. cbn [interleave join_step]. rewrite Hr2. cbn [interleave join_step].
  rewrite Hi1. cbn [interleave join_step]. rewrite Hi2. cbn [interleave].
  split; [done|]. split; [done|]. rewrite Hc2, Hc1. split; [lia|]. lia.
Qed.

(** Two joins of the same user interleaved the same way both
    succeed and leave two registrations for one (user, activity) pair:
    the schema has no UNIQUE key to reject the second insert. *)
Theorem concurrent_joins_duplicate :
  let ra := mkJoinReq (Sample.T - hour_ms) Sample.alice 1 in
  let '(p1, p2, d') := interleave check_then_insert ra ra JStart JStart Sample.db0 in
  p1 = JDone (mkResp 200 MJoined) /\ p2 = JDone (mkResp 200 MJoined)
  /\ length (List.filter (ua_is 1 1) (user_activities d')) = 2%nat.
Proof. vm_compute. repeat split. Qed.

(** Bob and carol join the sample hike, capacity 2, at its last place
    (alice registered). *)
Definition hike_db : DB := snd (join_run 4 (Sample.T - hour_ms) Sample.alice 1 JStart Sample.db0).
Definition bob_join : JoinReq := mkJoinReq (Sample.T - hour_ms) Sample.bob 1.
Definition carol_join : JoinReq := mkJoinReq (Sample.T - hour_ms) Sample.carol 1.

Lemma concurrent_joins_exceed_capacity_witness :
  Z.of_nat (count_participants 1 hike_db) + 1 = a_max Sample.act1
  /\ let '(p1, p2, d') := interleave check_then_insert bob_join carol_join JStart JStart hike_db in
     p1 = JDone (mkResp 200 MJoined) /\ p2 = JDone (mkResp 200 MJoined)
     /\ count_participants 1 d' = (count_participants 1 hike_db + 2)%nat
     /\ (Z.of_nat (count_participants 1 hike_db) + 1 = a_max Sample.act1 ->
         Z.of_nat (count_participants 1 d') > a_max Sample.act1).
Proof.
  assert (Hm : Z.of_nat (count_participants 1 hike_db) + 1 = a_max Sample.act1) by (vm_compute; reflexivity).
  split; [exact Hm|].
  apply (concurrent_joins_exceed_capacity bob_join carol_join Sample.act1 hike_db);
    first [reflexivity | (vm_compute; reflexivity) | (eexists; vm_compute; reflexivity) | (vm_compute; lia)].
Defined.

End Concurrency.
