(* ===== verification/System.v ===== *)
(** The server as a whole: every route of the activity engine as one
    request type, a step relation on databases (any request, any
    principal, any failing queries), and the invariants every reachable
    database keeps, proved by induction on the steps. *)

From S2P Require Import Prelude Schema Handler TimeWindow Registration Settlement Lifecycle.

Module System.
Import Registration Settlement Lifecycle.

(** The requests of activityRoutes.js that write. *)
Inductive Request :=
  | RJoin (now : Z) (p : option Principal) (aid : Z)
  | RLeave (now : Z) (p : option Principal) (aid : Z)
  | RComplete (p : option Principal) (aid : Z) (ids : option (list Z))
  | RCreate (now : Z) (p : option Principal) (b : option ActivityInput) (img : option string)
  | RUpdate (p : option Principal) (aid : Z) (b : option ActivityInput) (img : option string)
  | RReview (p : option Principal) (aid : Z) (st : option ActStatus) (fb : option string)
  | RDelete (p : option Principal) (aid : Z).

(** The router: each request through its middleware to its handler. *)
Definition handle (rq : Request) : M Resp :=
  match rq with
  | RJoin now p aid => route_join now p aid
  | RLeave now p aid => route_leave now p aid
  | RComplete p aid ids => route_complete p aid ids
  | RCreate now p b img => route_create now p b img
  | RUpdate p aid b img => route_update p aid b img
  | RReview p aid st fb => route_review p aid st fb
  | RDelete p aid => route_delete p aid
  end.

(** One request runs to its answer against the database, with the given
    query failures. *)
Inductive step : DB -> DB -> Prop :=
  | step_request rq fs d : step d (sys_db (snd (run (handle rq) (mkSys d fs)))).

Definition reachable (d0 d : DB) : Prop := rtc step d0 d.

(** ** Referential integrity *)

(** Every registration names an existing activity and user (the foreign
    keys of [user_activities]). *)
Definition rows_fk (d : DB) (l : list UserActivity) : Prop :=
  forall r, In r l -> is_Some (activities d !! ua_activity r) /\ is_Some (users d !! ua_user r).

(** Every activity names an existing club (the foreign key of
    [activities.club_id]). *)
Definition acts_fk (d : DB) : Prop :=
  forall aid a, activities d !! aid = Some a -> is_Some (clubs d !! a_club a).

Definition fk_ok (d : DB) : Prop := rows_fk d (user_activities d) /\ acts_fk d.

Lemma rows_fk_filter d l (p : UserActivity -> bool) : rows_fk d l -> rows_fk d (List.filter p l).
Proof. intros H r Hr. apply filter_In in Hr as [Hr _]. auto. Qed.

Lemma rows_fk_settle d l pts aid uids :
  rows_fk d l -> rows_fk d (List.map (settle_row pts aid uids) l).
Proof.
  intros H r Hr. apply in_map_iff in Hr as (r0 & <- & Hr0).
  unfold settle_row. destruct (settle_eligible aid uids r0); simpl; auto.
Qed.

Lemma rows_fk_mono d d' l :
  (forall x, is_Some (activities d !! x) -> is_Some (activities d' !! x)) ->
  (forall x, is_Some (users d !! x) -> is_Some (users d' !! x)) ->
  rows_fk d l -> rows_fk d' l.
Proof. intros Ha Hu H r Hr. destruct (H r Hr). auto. Qed.

Lemma is_Some_insert {A} (m : gmap Z A) i x j : is_Some (m !! j) -> is_Some (<[i := x]> m !! j).
Proof. rewrite lookup_insert_is_Some'. auto. Qed.

#[export] Hint Resolve rows_fk_filter rows_fk_settle is_Some_insert : ltf.

(** An activity row replaced at an existing key with the same club, or
    with a club that exists. *)
Lemma acts_fk_insert d aid a :
  acts_fk d -> is_Some (clubs d !! a_club a) ->
  acts_fk (set_activities (<[aid := a]> (activities d)) d).
Proof.
  intros H Hc x b. simpl. rewrite lookup_insert. case_decide; [intros [= <-]; done | apply H].
Qed.

(** *** Each write keeps the foreign keys *)

Lemma fk_insert_registration now uid aid d x d' :
  insert_registration now uid aid d = Some (x, d') -> fk_ok d -> fk_ok d'.
Proof.
  unfold insert_registration.
  destruct (users d !! uid) eqn:Hu, (activities d !! aid) eqn:Ha; intros; simplify_eq.
  destruct H0 as [Hr Hacts]. split; [|done]. intros r Hin. simpl in Hin.
  apply in_app_iff in Hin as [Hin|[<-|[]]]; [by apply Hr|]. simpl. rewrite Ha, Hu. done.
Qed.

Lemma fk_filter_rows d p : fk_ok d -> fk_ok (set_ua (List.filter p (user_activities d)) d).
Proof. intros [Hr Ha]. split; [by apply rows_fk_filter | done]. Qed.

Lemma fk_update_participants pts aid uids d n d' :
  update_participants pts aid uids d = Some (n, d') -> fk_ok d -> fk_ok d'.
Proof. intros [= _ <-] [Hr Ha]. split; [by apply rows_fk_settle | done]. Qed.

Lemma fk_credit_points aid uids d x d' :
  credit_points aid uids d = Some (x, d') -> fk_ok d -> fk_ok d'.
Proof.
  intros [= _ <-] [Hr Ha]. split; [|done].
  apply (rows_fk_mono d); [by intros ? | | exact Hr]. intros y. simpl. rewrite map_lookup_imap.
  intros [u ->]. simpl. by eexists.
Qed.

Lemma fk_set_activity_status aid st d d' :
  set_activity_status aid st d = Some d' -> fk_ok d -> fk_ok d'.
Proof.
  unfold set_activity_status. destruct (activities d !! aid) as [a|] eqn:Ha; intros [= <-]; [|done].
  intros [Hr Hacts]. split.
  - apply (rows_fk_mono d); [| by intros ? | exact Hr]. intros y. simpl. apply is_Some_insert.
  - apply acts_fk_insert; [done|]. simpl. exact (Hacts aid a Ha).
Qed.

Lemma fk_insert_activity a d id d' :
  insert_activity a d = Some (id, d') -> fk_ok d -> fk_ok d'.
Proof.
  unfold insert_activity. destruct (clubs d !! a_club a) eqn:Hc; intros; simplify_eq.
  destruct H0 as [Hr Hacts]. split.
  - apply (rows_fk_mono d); [| by intros ? | exact Hr]. intros y. simpl. apply is_Some_insert.
  - intros x b. simpl. rewrite lookup_insert. case_decide; [intros [= <-]; by rewrite Hc|].
    apply Hacts.
Qed.

Lemma fk_update_activity_row aid f d x d' :
  update_activity_row aid f d = Some (x, d') -> fk_ok d -> fk_ok d'.
Proof.
  unfold update_activity_row.
  destruct (activities d !! aid) as [a|] eqn:Ha; [|by intros [= _ <-]].
  destruct (clubs d !! a_club (f a)) eqn:Hc; intros; simplify_eq.
  destruct H0 as [Hr Hacts]. split.
  - apply (rows_fk_mono d); [| by intros ? | exact Hr]. intros y. simpl. apply is_Some_insert.
  - apply acts_fk_insert; [done|]. by rewrite Hc.
Qed.

Lemma fk_review_row aid st fb d n d' :
  review_row aid st fb d = Some (n, d') -> fk_ok d -> fk_ok d'.
Proof.
  unfold review_row. destruct (activities d !! aid) as [a|] eqn:Ha; intros; simplify_eq; [|done].
  destruct H0 as [Hr Hacts]. split.
  - apply (rows_fk_mono d); [| by intros ? | exact Hr]. intros y. simpl. apply is_Some_insert.
  - apply acts_fk_insert; [done|]. simpl. exact (Hacts aid a Ha).
Qed.

Lemma fk_delete_activity_row aid d x d' :
  delete_activity_row aid d = Some (x, d') -> fk_ok d -> fk_ok d'.
Proof.
  unfold delete_activity_row. destruct (existsb (ua_of aid) (user_activities d)) eqn:He;
    intros; simplify_eq.
  destruct H0 as [Hr Hacts]. split.
  - intros r Hin. simpl. destruct (Hr r Hin) as [Ha Hu]. split; [|done].
    apply lookup_delete_is_Some. split; [|done]. intros ->.
    pose proof (proj1 (existsb_false_forall _ _) He r Hin). unfold ua_of in H.
    by rewrite Z.eqb_refl in H.
  - intros y b. simpl. rewrite lookup_delete_Some. intros [_ Hb]. by apply (Hacts y).
Qed.

#[export] Hint Resolve fk_insert_registration fk_update_participants fk_credit_points
  fk_insert_activity fk_update_activity_row fk_review_row fk_delete_activity_row : ltf.

(** Every request keeps the foreign keys, whichever queries fail. *)
Lemma handle_keeps_fk rq : keeps fk_ok (handle rq).
Proof.
  destruct rq; simpl; unfold route_join, route_leave, route_complete, route_create,
    route_update, route_review, route_delete, joinActivity, leaveActivity, completeActivity,
    createActivity, updateActivity, reviewActivity, deleteActivity, deleteActivityRecord;
    keeps_chain.
  all: first [ apply keeps_query; intros ???; eauto with ltf
             | apply keeps_quiet; intros ??; eauto using fk_set_activity_status ].
  all: unfold delete_registration, delete_participants; intros [= _ <-]; apply fk_filter_rows.
Qed.

(** ** At most one registration per (user, activity) *)

Definition ua_key (r : UserActivity) : Z * Z := (ua_user r, ua_activity r).

Definition unique_pairs (d : DB) : Prop := NoDup (List.map ua_key (user_activities d)).

Lemma NoDup_map_filter (p : UserActivity -> bool) l :
  NoDup (List.map ua_key l) -> NoDup (List.map ua_key (List.filter p l)).
Proof.
  induction l as [|x l IH]; simpl; [done|]. intros Hnd. apply NoDup_cons in Hnd as [Hx Hl].
  destruct (p x); simpl; [|by apply IH]. apply NoDup_cons. split; [|by apply IH].
  intros Hin. apply Hx. apply list_elem_of_In in Hin. apply list_elem_of_In.
  apply in_map_iff in Hin as (y & Hy & Hin). apply filter_In in Hin as [Hin _].
  apply in_map_iff. eauto.
Qed.

Lemma map_key_settle pts aid uids l :
  List.map ua_key (List.map (settle_row pts aid uids) l) = List.map ua_key l.
Proof.
  induction l as [|x l IH]; simpl; [done|]. rewrite IH. f_equal.
  unfold settle_row. by destruct (settle_eligible aid uids x).
Qed.

Lemma unique_append now uid aid d :
  unique_pairs d -> is_registered uid aid d = false ->
  NoDup (List.map ua_key (user_activities d ++ [new_registration now uid aid d])).
Proof.
  intros Hnd Hreg. rewrite map_app. apply NoDup_app. split; [done|]. split; [|apply NoDup_singleton].
  intros k Hk Hk2. apply list_elem_of_singleton in Hk2. subst k.
  apply list_elem_of_In, in_map_iff in Hk as (r & Hr & Hin).
  pose proof (proj1 (existsb_false_forall _ _) Hreg r Hin) as H.
  unfold ua_is, ua_key in *. simpl in Hr. injection Hr as E1 E2. rewrite E1, E2 in H.
  by rewrite !Z.eqb_refl in H.
Qed.

Lemma run_state (h : M Resp) s : snd (run h s) = snd (h s).
Proof. unfold run. by destruct (h s) as [[]]. Qed.

Lemma keeps_unique_join now u aid : keeps unique_pairs (joinActivity now u aid).
Proof.
  intros s Hu. rewrite <- run_state. pose proof (joinActivity_cases now u aid s) as H.
  destruct (run (joinActivity now u aid) s) as [r s']. simpl.
  destruct H as [[_ ->] | (_ & Hins & a & _ & _ & _ & Hreg)]; [done|].
  unfold insert_registration in Hins.
  destruct (users (sys_db s) !! p_id u), (activities (sys_db s) !! aid); simplify_eq.
  rewrite <- Hins. unfold unique_pairs. simpl. by apply unique_append.
Qed.

Lemma unique_set_users m d : unique_pairs d -> unique_pairs (set_users m d).
Proof. done. Qed.
Lemma unique_set_activities m d : unique_pairs d -> unique_pairs (set_activities m d).
Proof. done. Qed.

(** Every request keeps at most one registration per pair, whichever
    queries fail, when requests run one at a time. *)
Lemma handle_keeps_unique rq : keeps unique_pairs (handle rq).
Proof.
  destruct rq; simpl.
  { unfold route_join. apply keeps_verifyToken. intros u. apply keeps_unique_join. }
  all: unfold route_leave, route_complete, route_create, route_update, route_review,
    route_delete, leaveActivity, completeActivity, createActivity, updateActivity,
    reviewActivity, deleteActivity, deleteActivityRecord; keeps_chain.
  all: first [ apply keeps_query | apply keeps_quiet ].
  all: unfold delete_registration, delete_participants, update_participants, credit_points,
    insert_activity, update_activity_row, review_row, delete_activity_row, set_activity_status.
  all: intros; repeat case_match; simplify_eq; unfold unique_pairs in *; simpl; try done.
  all: try (apply NoDup_map_filter; done).
  all: by rewrite map_key_settle.
Qed.

(** ** Invariants of reachable databases *)

(** Referential integrity of the activity tables holds in every
    database reachable by activity requests from one where it holds
    ([Server.sreachable_fk] extends it to the whole server). *)
Theorem reachable_fk d0 d : fk_ok d0 -> reachable d0 d -> fk_ok d.
Proof.
  intros H0 Hr. induction Hr as [|x y z Hxy _ IH]; [done|].
  apply IH. destruct Hxy as [rq fs x]. rewrite run_state.
  apply (handle_keeps_fk rq (mkSys x fs) H0).
Qed.

(** Activity requests run one at a time never create two registrations
    for the same (user, activity) pair ([Server.sreachable_unique]
    extends it to the whole server). *)
Theorem reachable_unique d0 d : unique_pairs d0 -> reachable d0 d -> unique_pairs d.
Proof.
  intros H0 Hr. induction Hr as [|x y z Hxy _ IH]; [done|].
  apply IH. destruct Hxy as [rq fs x]. rewrite run_state.
  apply (handle_keeps_unique rq (mkSys x fs) H0).
Qed.

(** ** Progress of the lifecycle *)

Lemma step_run_ok rq d : step d (snd (run_ok (handle rq) d)).
Proof.
  unfold run_ok. pose proof (step_request rq [] d) as Hs.
  destruct (run (handle rq) (mkSys d [])). exact Hs.
Qed.

(** An admin's approval stores the activity as approved and touches
    nothing else the settlement reads. *)
Lemma approve_run u aid a fb d :
  p_role u = Admin -> activities d !! aid = Some a ->
  let d' := snd (run_ok (handle (RReview (Some u) aid (Some Approved) fb)) d) in
  (exists a', activities d' !! aid = Some a' /\ a_status a' = Approved /\ a_club a' = a_club a)
  /\ clubs d' = clubs d /\ user_activities d' = user_activities d.
Proof.
  intros Hu Ha. simpl. autorewrite with ltf_rw. rewrite decide_True by done.
  unfold run_ok, run, reviewActivity, bind, query, reply, next_fault, review_row; simpl.
  rewrite Ha. simpl. split; [|done]. eexists. by rewrite lookup_insert_eq.
Qed.

(** The registrations of a user the settlement lists are completed once
    it has run. *)
Lemma settled_rows_completed pts aid uid l r' :
  r' ∈ List.map (settle_row pts aid [uid]) l -> ua_activity r' = aid -> ua_user r' = uid ->
  ua_status r' = RegCompleted.
Proof.
  intros (r & -> & _)%elem_of_List_map. unfold settle_row, settle_eligible, in_ids, ua_of.
  destruct (_ && _ && _) eqn:E; simpl; [by intros|]. intros Ha Hu. rewrite Ha, Hu in E.
  simpl in E. rewrite ?Z.eqb_refl in E. destruct (ua_status r); simpl in E; try done.
Qed.

Lemma eligible_count_pos aid r d :
  r ∈ user_activities d -> ua_activity r = aid -> ua_status r <> RegCompleted ->
  (0 < eligible_count aid [ua_user r] d)%nat.
Proof.
  intros Hin Ha Hs. unfold eligible_count.
  assert (Hr : r ∈ List.filter (settle_eligible aid [ua_user r]) (user_activities d)).
  { apply elem_of_List_filter. split; [|done]. unfold settle_eligible, in_ids, ua_of.
    rewrite Ha, !Z.eqb_refl. simpl. rewrite Z.eqb_refl. destruct (ua_status r); done. }
  destruct (List.filter _ _); [by apply not_elem_of_nil in Hr | simpl; lia].
Qed.




End System.
