(* ===== verification/Server.v ===== *)
(** The whole server: the writing requests of the three routers
    (activityRoutes.js, clubRoutes.js, userRoutes.js) as one request
    type, the step relation over databases, and the referential
    integrity of all five tables in every reachable database.  Read-only
    requests (the GET routes and login) leave the database unchanged and
    are left out of the step relation. *)

From S2P Require Import Prelude Schema Handler TimeWindow Registration Settlement Lifecycle System Clubs Users.

Module Server.
Import Registration Settlement Lifecycle System Clubs Users.

(** The writing requests of clubRoutes.js. *)
Inductive ClubRequest :=
  | CCreate (now : Z) (p : option Principal) (name desc logo : option string)
  | CUpdate (p : option Principal) (cid : Z) (name desc logo : option string)
  | CJoin (now : Z) (p : option Principal) (cid : Z)
  | CLeave (p : option Principal) (cid : Z)
  | CRole (p : option Principal) (cid : Z) (userId : option Z) (role : option string)
  | CDelete (p : option Principal) (cid : Z).

(** The writing requests of userRoutes.js. *)
Inductive UserRequest :=
  | URegister (now : Z) (body : bool) (username password sid email bio file : option string)
  | UUpdate (p : option Principal) (target : Z) (b : UserUpdate)
  | URole (p : option Principal) (target : Z) (role : option string)
  | UCreate (now : Z) (p : option Principal) (body : bool)
      (username password email sid role bio file : option string)
  | UDelete (p : option Principal) (target : Z).

Inductive ServerRequest :=
  | SActivity (rq : Request)
  | SClub (rq : ClubRequest)
  | SUser (rq : UserRequest).

Section Router.
Context `{Hasher}.

Definition handle_club (rq : ClubRequest) : M Resp :=
  match rq with
  | CCreate now p n ds l => route_create_club now p n ds l
  | CUpdate p cid n ds l => route_update_club p cid n ds l
  | CJoin now p cid => route_join_club now p cid
  | CLeave p cid => route_leave_club p cid
  | CRole p cid uid r => route_member_role p cid uid r
  | CDelete p cid => route_delete_club p cid
  end.

Definition handle_user (rq : UserRequest) : M Resp :=
  match rq with
  | URegister now b n pw sid em bio f => route_register now b n pw sid em bio f
  | UUpdate p t b => route_update_user p t b
  | URole p t r => route_change_role p t r
  | UCreate now p b n pw em sid r bio f => route_create_user now p b n pw em sid r bio f
  | UDelete p t => route_delete_user p t
  end.

(** The server's router: [app.use('/api/activities' | '/api/clubs' |
    '/api/users', ..)] of index.js. *)
Definition serve (rq : ServerRequest) : M Resp :=
  match rq with
  | SActivity r => handle r
  | SClub r => handle_club r
  | SUser r => handle_user r
  end.

Inductive sstep : DB -> DB -> Prop :=
  | sstep_request rq fs d : sstep d (sys_db (snd (run (serve rq) (mkSys d fs)))).

Definition sreachable (d0 d : DB) : Prop := rtc sstep d0 d.

End Router.

(** ** Referential integrity of the club tables *)

(** [club_members.user_id] and [club_members.club_id]. *)
Definition cm_fk (d : DB) : Prop :=
  forall m, In m (club_members d) -> is_Some (users d !! cm_user m) /\ is_Some (clubs d !! cm_club m).

(** [clubs.admin_id]. *)
Definition admin_fk (d : DB) : Prop :=
  forall cid c uid, clubs d !! cid = Some c -> c_admin c = Some uid -> is_Some (users d !! uid).

(** All the foreign keys of the schema. *)
Definition db_fk (d : DB) : Prop := fk_ok d /\ cm_fk d /\ admin_fk d.

(** [m'] has every key of [m]. *)
Definition grows {A} (m m' : gmap Z A) : Prop := forall x, is_Some (m !! x) -> is_Some (m' !! x).

Lemma grows_refl {A} (m : gmap Z A) : grows m m.
Proof. by intros x. Qed.
Lemma grows_insert {A} (m : gmap Z A) i x : grows m (<[i := x]> m).
Proof. intros j. apply is_Some_insert. Qed.

#[export] Hint Resolve grows_refl grows_insert : ltf.

Lemma fk_frame d d' :
  user_activities d' = user_activities d -> activities d' = activities d ->
  grows (users d) (users d') -> grows (clubs d) (clubs d') -> fk_ok d -> fk_ok d'.
Proof.
  intros Hua Hact Hu Hc [Hr Ha]. split.
  - rewrite Hua. apply (rows_fk_mono d); [by rewrite Hact | exact Hu | exact Hr].
  - intros aid a. rewrite Hact. intros Hl. apply Hc. exact (Ha aid a Hl).
Qed.

Lemma club_fk_frame d d' :
  club_members d' = club_members d -> clubs d' = clubs d -> grows (users d) (users d') ->
  cm_fk d /\ admin_fk d -> cm_fk d' /\ admin_fk d'.
Proof.
  intros Hm Hc Hu [Hcm Had]. split.
  - intros m. rewrite Hm, Hc. intros Hin. destruct (Hcm m Hin). auto.
  - intros cid c uid. rewrite Hc. intros ??. apply Hu. eauto.
Qed.

Lemma grows_imap {A} (m : gmap Z A) (g : Z -> A -> A) : grows m (map_imap (fun i x => Some (g i x)) m).
Proof. intros x. rewrite map_lookup_imap. intros [u ->]. simpl. by eexists. Qed.

#[export] Hint Resolve grows_imap : ltf.

(** The activity routes never write [club_members] or [clubs] and never
    remove a user. *)
Lemma handle_keeps_club_fk rq : keeps (fun d => cm_fk d /\ admin_fk d) (handle rq).
Proof.
  destruct rq; simpl; unfold route_join, route_leave, route_complete, route_create,
    route_update, route_review, route_delete, joinActivity, leaveActivity, completeActivity,
    createActivity, updateActivity, reviewActivity, deleteActivity, deleteActivityRecord;
    keeps_chain.
  all: first [ apply keeps_query; intros d ?? Hq | apply keeps_quiet; intros d ? Hq ].
  all: unfold insert_registration, delete_registration, delete_participants, update_participants,
    insert_activity, update_activity_row, review_row, delete_activity_row, set_activity_status,
    credit_points in Hq.
  all: try (injection Hq as _ <-; apply club_fk_frame; [done|done|]; simpl; auto with ltf; fail).
  all: try (injection Hq as <-; apply club_fk_frame; [done|done|]; simpl; auto with ltf; fail).
  all: repeat case_match; simplify_eq; apply club_fk_frame; simpl; auto with ltf.
Qed.

(** *** The club and user statements keep all the foreign keys *)

(** A write to [users] that removes no user. *)
Lemma db_fk_users d d' :
  user_activities d' = user_activities d -> activities d' = activities d ->
  club_members d' = club_members d -> clubs d' = clubs d -> grows (users d) (users d') ->
  db_fk d -> db_fk d'.
Proof.
  intros Hua Ha Hm Hc Hu [Hf Hcl]. split; [|by apply (club_fk_frame d)].
  apply (fk_frame d); try done. rewrite Hc; apply grows_refl.
Qed.

(** A write to [clubs] that removes no club and names existing users. *)
Lemma db_fk_clubs d d' :
  users d' = users d -> user_activities d' = user_activities d -> activities d' = activities d ->
  club_members d' = club_members d -> grows (clubs d) (clubs d') ->
  (forall cid c uid, clubs d' !! cid = Some c -> c_admin c = Some uid ->
     (exists c0, clubs d !! cid = Some c0 /\ c_admin c0 = Some uid) \/ is_Some (users d !! uid)) ->
  db_fk d -> db_fk d'.
Proof.
  intros Hu Hua Ha Hm Hc Had [Hf [Hcm Hadm]]. split; [apply (fk_frame d); rewrite ?Hu; auto with ltf|].
  split.
  - intros m. rewrite Hm, Hu. intros Hin. destruct (Hcm m Hin). auto.
  - intros cid c uid Hl Hc'. rewrite Hu. destruct (Had cid c uid Hl Hc') as [(c0 & ? & ?)|]; eauto.
Qed.

(** A write to [club_members] whose new rows name existing users and
    clubs. *)
Lemma db_fk_members d d' :
  users d' = users d -> user_activities d' = user_activities d -> activities d' = activities d ->
  clubs d' = clubs d ->
  (forall m, In m (club_members d') ->
     In m (club_members d) \/ (is_Some (users d !! cm_user m) /\ is_Some (clubs d !! cm_club m))) ->
  db_fk d -> db_fk d'.
Proof.
  intros Hu Hua Ha Hc Hm [Hf [Hcm Hadm]]. split; [apply (fk_frame d); rewrite ?Hu, ?Hc; auto with ltf|].
  split.
  - intros m Hin. rewrite Hu, Hc. destruct (Hm m Hin); auto.
  - intros cid c uid. rewrite Hu, Hc. apply Hadm.
Qed.

Lemma fk_insert_club now n desc logo uid d id d' :
  insert_club now n desc logo uid d = inr (id, d') -> db_fk d -> db_fk d'.
Proof.
  unfold insert_club. case_bool_decide as Hu; [done|]. destruct (name_taken _ _ _); [done|].
  intros [= _ <-]. apply (db_fk_clubs d); simpl; auto with ltf.
  intros cid c u. rewrite lookup_insert. case_decide; [intros [= <-] [= <-]; right|left; eauto].
  by apply not_eq_None_Some.
Qed.

Lemma fk_insert_member now cid uid r d x d' :
  insert_member now cid uid r d = Some (x, d') -> db_fk d -> db_fk d'.
Proof.
  unfold insert_member. destruct (bool_decide _ && bool_decide _) eqn:E; [|done].
  apply andb_true_iff in E as [E1 E2]. apply bool_decide_eq_true in E1, E2.
  intros [= _ <-]. apply (db_fk_members d); try done. intros m. simpl.
  rewrite in_app_iff. intros [Hin|[<-|[]]]; auto.
Qed.

Lemma fk_set_user_role uid r d d' : set_user_role uid r d = Some d' -> db_fk d -> db_fk d'.
Proof.
  unfold set_user_role. destruct (users d !! uid); intros [= <-]; [|done].
  apply (db_fk_users d); simpl; auto with ltf.
Qed.

Lemma fk_update_club cid n ds l d x d' : update_club cid n ds l d = inr (x, d') -> db_fk d -> db_fk d'.
Proof.
  unfold update_club. destruct (clubs d !! cid) as [c|] eqn:Ec; [|by intros [= _ <-]].
  destruct (_ && _); [done|]. intros [= _ <-]. apply (db_fk_clubs d); simpl; auto with ltf.
  intros cid' c' u. rewrite lookup_insert. case_decide as Hcid; [|left; eauto].
  subst. intros [= <-] Ha. left. eauto.
Qed.

Lemma fk_filter_members p d : db_fk d -> db_fk (set_cm (List.filter p (club_members d)) d).
Proof.
  apply (db_fk_members d); try done. intros m Hin. left. simpl in Hin. by apply filter_In in Hin as [? _].
Qed.

Lemma fk_set_member_role cid uid r d n d' : set_member_role cid uid r d = Some (n, d') -> db_fk d -> db_fk d'.
Proof.
  intros [= _ <-] Hfk. apply (db_fk_members d); try done. intros m Hin. simpl in Hin.
  apply in_map_iff in Hin as (m0 & <- & Hin). destruct (cm_is cid uid m0); [|by left].
  right. destruct Hfk as [_ [Hcm _]]. destruct (Hcm m0 Hin). simpl. auto.
Qed.

Lemma fk_set_club_admin cid uid d x d' : set_club_admin cid uid d = Some (x, d') -> db_fk d -> db_fk d'.
Proof.
  unfold set_club_admin. case_bool_decide as Hu; [done|].
  destruct (clubs d !! cid) as [c|] eqn:Ec; intros [= _ <-]; [|done].
  apply (db_fk_clubs d); simpl; auto with ltf.
  intros cid' c' u. rewrite lookup_insert. case_decide; [intros [= <-] [= <-]; right|left; eauto].
  by apply not_eq_None_Some.
Qed.

Lemma fk_demote_caller cid caller uid d d' : demote_caller cid caller uid d = Some d' -> db_fk d -> db_fk d'.
Proof.
  unfold demote_caller. destruct (Z.eqb caller uid); [by intros [= <-]|].
  unfold set_member_role. simpl. intros [= <-]. apply (fk_set_member_role cid caller Officer d _ _ eq_refl).
Qed.

Lemma fk_delete_club_row cid d x d' : delete_club_row cid d = Some (x, d') -> db_fk d -> db_fk d'.
Proof.
  unfold delete_club_row. destruct (bool_decide _ && _) eqn:E; [|done].
  apply andb_true_iff in E as [Ea Em]. apply bool_decide_eq_true in Ea. apply negb_true_iff in Em.
  intros [= _ <-] [[Hr Hacts] [Hcm Hadm]]. split; [split|split].
  - exact Hr.
  - intros aid a Ha. simpl. apply lookup_delete_is_Some. split; [|exact (Hacts aid a Ha)].
    intros Heq. unfold activity_count in Ea. apply length_zero_iff_nil in Ea.
    assert (Hin : In (aid, a) (map_to_list (activities d))) by (apply list_elem_of_In, elem_of_map_to_list, Ha).
    assert (Hf : In (aid, a) (List.filter (fun p => Z.eqb (a_club p.2) cid) (map_to_list (activities d)))).
    { apply filter_In. split; [done|]. simpl. rewrite Heq. apply Z.eqb_refl. }
    by rewrite Ea in Hf.
  - intros m Hin. simpl. destruct (Hcm m Hin) as [Hu Hc]. split; [done|].
    apply lookup_delete_is_Some. split; [|done]. intros Heq.
    pose proof (proj1 (existsb_false_forall _ _) Em m Hin) as Hm. unfold cm_of in Hm.
    rewrite Heq, Z.eqb_refl in Hm. done.
  - intros cid' c uid. simpl. rewrite lookup_delete_Some. intros [_ Hl] Ha. exact (Hadm cid' c uid Hl Ha).
Qed.


Lemma fk_insert_user now u d id d' : insert_user now u d = inr (id, d') -> db_fk d -> db_fk d'.
Proof.
  unfold insert_user. destruct (unique_violation _ _ _ _ _); [done|].
  intros [= _ <-]. apply (db_fk_users d); simpl; auto with ltf.
Qed.

Lemma fk_update_user target c d n d' : update_user target c d = inr (n, d') -> db_fk d -> db_fk d'.
Proof.
  unfold update_user. destruct (users d !! target); [|by intros [= _ <-]].
  destruct (negb _); [done|]. destruct (unique_violation _ _ _ _ _); [done|].
  intros [= _ <-]. apply (db_fk_users d); simpl; auto with ltf.
Qed.

Lemma fk_update_role target r d n d' : update_role target r d = Some (n, d') -> db_fk d -> db_fk d'.
Proof.
  unfold update_role. destruct (users d !! target); intros [= _ <-]; [|done].
  apply (db_fk_users d); simpl; auto with ltf.
Qed.

Lemma fk_delete_user_row uid d x d' : delete_user_row uid d = Some (x, d') -> db_fk d -> db_fk d'.
Proof.
  unfold delete_user_row, user_relations. case_bool_decide as E; [|done].
  injection E as Em Eua Eadm. apply length_zero_iff_nil in Em, Eua, Eadm.
  intros [= _ <-] [[Hr Hacts] [Hcm Hadm]].
  assert (Hne : forall (A : Type) (p : A -> bool) l y, List.filter p l = [] -> In y l -> p y = false).
  { intros A p l y Hf Hin. destruct (p y) eqn:Hp; [|done].
    assert (In y (List.filter p l)) by (apply filter_In; auto). by rewrite Hf in H. }
  split; [split|split]; simpl.
  - intros r Hin. destruct (Hr r Hin) as [Ha Hu]. split; [done|].
    apply lookup_delete_is_Some. split; [|done]. intros Heq.
    pose proof (Hne _ _ _ r Eua Hin) as Hp. simpl in Hp. by rewrite <- Heq, Z.eqb_refl in Hp.
  - exact Hacts.
  - intros m Hin. destruct (Hcm m Hin) as [Hu Hc]. split; [|done].
    apply lookup_delete_is_Some. split; [|done]. intros Heq.
    pose proof (Hne _ _ _ m Em Hin) as Hp. simpl in Hp. by rewrite <- Heq, Z.eqb_refl in Hp.
  - intros cid c u Hl Ha. apply lookup_delete_is_Some. split; [|exact (Hadm cid c u Hl Ha)].
    intros ->.
    assert (Hin : In (cid, c) (map_to_list (clubs d))) by (apply list_elem_of_In, elem_of_map_to_list, Hl).
    pose proof (Hne _ _ _ (cid, c) Eadm Hin) as Hp. simpl in Hp.
    by rewrite bool_decide_eq_true_2 in Hp.
Qed.

Lemma fk_remove_member cid uid d x d' : remove_member cid uid d = Some (x, d') -> db_fk d -> db_fk d'.
Proof. intros [= _ <-]. apply fk_filter_members. Qed.
Lemma fk_delete_members cid d x d' : delete_members cid d = Some (x, d') -> db_fk d -> db_fk d'.
Proof. intros [= _ <-]. apply fk_filter_members. Qed.

#[export] Hint Resolve fk_remove_member fk_delete_members fk_insert_club fk_insert_member fk_set_user_role fk_update_club
  fk_set_member_role fk_set_club_admin fk_demote_caller fk_delete_club_row fk_insert_user
  fk_update_user fk_update_role fk_delete_user_row : ltf.

Ltac fk_write :=
  first
    [ apply keeps_query; intros db0 r0 db1 Hq
    | apply keeps_quiet; intros db0 db1 Hq
    | intros db0 r0 db1 Hq ];
  first
    [ solve [eauto with ltf]
    | solve [repeat case_match; simplify_eq; eauto with ltf] ].

Lemma handle_club_keeps_fk rq : keeps db_fk (handle_club rq).
Proof.
  destruct rq; simpl; unfold route_create_club, route_update_club, route_join_club,
    route_leave_club, route_member_role, route_delete_club, createClub, updateClub, joinClub,
    leaveClub, updateMemberRole, transfer_presidency, deleteClub, club_write_err;
    keeps_chain.
  all: fk_write.
Qed.

Lemma handle_user_keeps_fk `{Hasher} rq : keeps db_fk (handle_user rq).
Proof.
  destruct rq; simpl; unfold route_register, route_update_user, route_change_role,
    route_create_user, route_delete_user, register, updateUser, changeUserRole, createUser,
    deleteUser; keeps_chain.
  all: fk_write.
Qed.

(** Every writing request of the server keeps all the foreign keys,
    whichever of its queries fail. *)
Lemma serve_keeps_fk `{Hasher} rq : keeps db_fk (serve rq).
Proof.
  destruct rq as [r|r|r]; simpl.
  - apply (keeps_and fk_ok (fun d => cm_fk d /\ admin_fk d)); [apply handle_keeps_fk | apply handle_keeps_club_fk].
  - apply handle_club_keeps_fk.
  - apply handle_user_keeps_fk.
Qed.

(** No club or user request writes [user_activities]. *)
Lemma serve_keeps_unique `{Hasher} rq : keeps unique_pairs (serve rq).
Proof.
  destruct rq as [r|r|r]; simpl; [apply handle_keeps_unique| |].
  all: destruct r; simpl; unfold route_create_club, route_update_club, route_join_club,
    route_leave_club, route_member_role, route_delete_club, createClub, updateClub, joinClub,
    leaveClub, updateMemberRole, transfer_presidency, deleteClub, club_write_err,
    route_register, route_update_user, route_change_role, route_create_user, route_delete_user,
    register, updateUser, changeUserRole, createUser, deleteUser; keeps_chain.
  all: first [ apply keeps_query; intros db0 r0 db1 Hq | apply keeps_quiet; intros db0 db1 Hq
             | intros db0 r0 db1 Hq ].
  all: unfold insert_club, insert_member, set_user_role, update_club, remove_member,
    set_member_role, set_club_admin, demote_caller, delete_members, delete_club_row, insert_user,
    update_user, update_role, delete_user_row, set_member_role in Hq.
  all: repeat case_match; simpl in *; simplify_eq; done.
Qed.

(** ** Invariants of every reachable database *)

(** Referential integrity of the whole schema holds in every
    database reachable from one where it holds: whatever requests of the
    three routers run, by whomever, and whichever of their queries fail,
    every registration names an existing activity and user, every
    activity an existing club, every membership an existing user and
    club, and every club administrator an existing user. *)
Theorem sreachable_fk `{Hasher} d0 d : db_fk d0 -> sreachable d0 d -> db_fk d.
Proof.
  intros H0 Hr. induction Hr as [|x y z Hxy _ IH]; [done|].
  apply IH. destruct Hxy as [rq fs x]. rewrite run_state.
  apply (serve_keeps_fk rq (mkSys x fs) H0).
Qed.

(** C9: Requests run one at a time never create two registrations for
    the same (user, activity) pair, whichever requests of the three
    routers run and whichever queries fail (contrast
    [Concurrency.concurrent_joins_duplicate]). *)
Theorem sreachable_unique `{Hasher} d0 d : unique_pairs d0 -> sreachable d0 d -> unique_pairs d.
Proof.
  intros H0 Hr. induction Hr as [|x y z Hxy _ IH]; [done|].
  apply IH. destruct Hxy as [rq fs x]. rewrite run_state.
  apply (serve_keeps_unique rq (mkSys x fs) H0).
Qed.

(** The sample database satisfies every foreign key. *)
Lemma db_fk_sample : db_fk Sample.db0.
Proof.
  split; [split|split].
  - intros r [].
  - intros aid a. simpl. rewrite lookup_insert. case_decide; [intros [= <-]; by eexists|].
    by rewrite lookup_empty.
  - intros m [].
  - intros cid c uid. simpl. rewrite lookup_insert. case_decide; [|by rewrite lookup_empty].
    intros [= <-] [= <-]. by eexists.
Qed.

(** The sample database after alice joins the club and the activity. *)
Definition sample_run : DB :=
  let d1 := sys_db (snd (run (serve (SClub (CJoin 0 (Some Sample.alice) 1))) (mkSys Sample.db0 []))) in
  sys_db (snd (run (serve (SActivity (RJoin (Sample.T - hour_ms) (Some Sample.alice) 1))) (mkSys d1 []))).

Lemma sreachable_sample_run : sreachable Sample.db0 sample_run.
Proof. eapply rtc_l; [constructor|]. apply rtc_once. constructor. Qed.

Lemma sreachable_fk_witness :
  (db_fk Sample.db0 /\ sreachable Sample.db0 sample_run) /\ db_fk sample_run.
Proof.
  pose proof db_fk_sample as H1. pose proof sreachable_sample_run as H2.
  split; [tauto|]. exact (sreachable_fk Sample.db0 sample_run H1 H2).
Defined.

Lemma sreachable_unique_witness :
  (unique_pairs Sample.db0 /\ sreachable Sample.db0 sample_run) /\ unique_pairs sample_run.
Proof.
  assert (H1 : unique_pairs Sample.db0) by constructor.
  pose proof sreachable_sample_run as H2.
  split; [tauto|]. exact (sreachable_unique Sample.db0 sample_run H1 H2).
Defined.

End Server.
