(* ===== verification/Counters.v ===== *)
(** The AUTO_INCREMENT counters of the five tables.  [insertId] is the
    table's counter, which the INSERT then advances; the invariant
    [fresh] says every stored id is below its table's counter, so an
    INSERT never lands on an existing row.  Every request of the server
    keeps it, whichever of its queries fail, and on every database
    reachable from a fresh one a new account can sign in. *)

From S2P Require Import Prelude Schema Handler TimeWindow Registration Settlement Lifecycle System Clubs Users Server.

Module Counters.
Import Registration Settlement Lifecycle System Clubs Users Server.

Create HintDb cnt discriminated.

(** Every key of [m] is below [n]. *)
Definition ids_below {A} (m : gmap Z A) (n : Z) : Prop := forall id, is_Some (m !! id) -> id < n.

Definition fresh (d : DB) : Prop :=
  ids_below (users d) (next_user d) /\ ids_below (clubs d) (next_club d)
  /\ ids_below (activities d) (next_activity d)
  /\ Forall (fun r => ua_id r < next_ua d) (user_activities d)
  /\ Forall (fun m => cm_id m < next_cm d) (club_members d).

(** ** The table operations keep their keys below the counters *)

Lemma ids_below_insert_at {A} (m : gmap Z A) i x n :
  is_Some (m !! i) -> ids_below m n -> ids_below (<[i := x]> m) n.
Proof.
  intros Hi Hm id. destruct (decide (id = i)) as [->|Hne]; [by intros; apply Hm|].
  rewrite lookup_insert_ne by done. apply Hm.
Qed.

Lemma ids_below_insert_next {A} (m : gmap Z A) x n :
  ids_below m n -> ids_below (<[n := x]> m) (n + 1).
Proof.
  intros Hm id. destruct (decide (id = n)) as [->|Hne]; [lia|].
  rewrite lookup_insert_ne by done. intros H. specialize (Hm id H). lia.
Qed.

Lemma ids_below_delete {A} (m : gmap Z A) i n : ids_below m n -> ids_below (delete i m) n.
Proof.
  intros Hm id. destruct (decide (id = i)) as [->|Hne].
  - by rewrite lookup_delete_eq; intros [].
  - rewrite lookup_delete_ne by done. apply Hm.
Qed.

Lemma ids_below_imap {A} (m : gmap Z A) (g : Z -> A -> A) n :
  ids_below m n -> ids_below (map_imap (fun i x => Some (g i x)) m) n.
Proof.
  intros Hm id. rewrite map_lookup_imap. intros H. apply Hm.
  destruct (m !! id); [by eexists | by destruct H].
Qed.

Lemma Forall_filter_sub {A} (P : A -> Prop) (f : A -> bool) l :
  Forall P l -> Forall P (List.filter f l).
Proof. rewrite !Forall_forall. intros H x Hx. apply elem_of_List_filter in Hx as [_ Hx]. auto. Qed.

Lemma Forall_snoc_next {A} (key : A -> Z) l x n :
  Forall (fun r => key r < n) l -> key x = n -> Forall (fun r => key r < n + 1) (l ++ [x]).
Proof.
  intros Hl Hx. apply Forall_app; split; [|constructor; [lia | constructor]].
  eapply Forall_impl; [exact Hl | simpl; lia].
Qed.

Lemma Forall_map_key {A} (key : A -> Z) (g : A -> A) (P : Z -> Prop) l :
  (forall x, key (g x) = key x) -> Forall (fun r => P (key r)) l -> Forall (fun r => P (key r)) (List.map g l).
Proof. intros Hg Hl. apply Forall_map. eapply Forall_impl; [exact Hl|]. intros x. by rewrite Hg. Qed.

#[export] Hint Resolve ids_below_insert_next ids_below_delete ids_below_imap Forall_filter_sub : cnt.


Lemma ids_below_insert_some {A} (m : gmap Z A) i x y n :
  m !! i = Some y -> ids_below m n -> ids_below (<[i := x]> m) n.
Proof. intros Hi. apply ids_below_insert_at. by eexists. Qed.

#[export] Hint Resolve ids_below_insert_some : cnt.

Ltac fresh_tac :=
  repeat match goal with H : fresh _ |- _ => destruct H as (? & ? & ? & ? & ?) end;
  repeat split; simpl in *; eauto with cnt.

(** ** Every write statement keeps [fresh] *)

Lemma fresh_insert_registration now uid aid d x d' :
  insert_registration now uid aid d = Some (x, d') -> fresh d -> fresh d'.
Proof.
  unfold insert_registration. repeat case_match; intros; simplify_eq; fresh_tac.
  by apply (Forall_snoc_next ua_id).
Qed.

Lemma fresh_delete_registration uid aid d x d' :
  delete_registration uid aid d = Some (x, d') -> fresh d -> fresh d'.
Proof. unfold delete_registration. intros; simplify_eq; fresh_tac. Qed.

Lemma settle_row_id pts aid uids r : ua_id (settle_row pts aid uids r) = ua_id r.
Proof. unfold settle_row. by case_match. Qed.

Lemma fresh_update_participants pts aid uids d x d' :
  update_participants pts aid uids d = Some (x, d') -> fresh d -> fresh d'.
Proof.
  unfold update_participants. intros; simplify_eq; fresh_tac.
  apply (Forall_map_key ua_id _ (fun i => i < next_ua d)); [apply settle_row_id | done].
Qed.

Lemma fresh_credit_points aid uids d x d' : credit_points aid uids d = Some (x, d') -> fresh d -> fresh d'.
Proof. unfold credit_points. intros; simplify_eq; fresh_tac. Qed.

Lemma fresh_set_activity_status aid st d d' : set_activity_status aid st d = Some d' -> fresh d -> fresh d'.
Proof. unfold set_activity_status. repeat case_match; intros; simplify_eq; fresh_tac. Qed.

Lemma fresh_insert_activity a d x d' : insert_activity a d = Some (x, d') -> fresh d -> fresh d'.
Proof. unfold insert_activity. repeat case_match; intros; simplify_eq; fresh_tac. Qed.

Lemma fresh_update_activity_row aid f d x d' : update_activity_row aid f d = Some (x, d') -> fresh d -> fresh d'.
Proof. unfold update_activity_row. repeat case_match; intros; simplify_eq; fresh_tac. Qed.

Lemma fresh_review_row aid st fb d x d' : review_row aid st fb d = Some (x, d') -> fresh d -> fresh d'.
Proof. unfold review_row. repeat case_match; intros; simplify_eq; fresh_tac. Qed.

Lemma fresh_delete_participants aid d x d' : delete_participants aid d = Some (x, d') -> fresh d -> fresh d'.
Proof. unfold delete_participants. intros; simplify_eq; fresh_tac. Qed.

Lemma fresh_delete_activity_row aid d x d' : delete_activity_row aid d = Some (x, d') -> fresh d -> fresh d'.
Proof. unfold delete_activity_row. repeat case_match; intros; simplify_eq; fresh_tac. Qed.


Lemma fresh_insert_club now n ds l uid d x d' : insert_club now n ds l uid d = inr (x, d') -> fresh d -> fresh d'.
Proof. unfold insert_club. repeat case_match; intros; simplify_eq; fresh_tac. Qed.

Lemma fresh_insert_member now cid uid r d x d' : insert_member now cid uid r d = Some (x, d') -> fresh d -> fresh d'.
Proof.
  unfold insert_member. repeat case_match; intros; simplify_eq; fresh_tac.
  by apply (Forall_snoc_next cm_id).
Qed.

Lemma fresh_set_user_role uid r d d' : set_user_role uid r d = Some d' -> fresh d -> fresh d'.
Proof. unfold set_user_role. repeat case_match; intros; simplify_eq; fresh_tac. Qed.

Lemma fresh_update_club cid n ds l d x d' : update_club cid n ds l d = inr (x, d') -> fresh d -> fresh d'.
Proof. unfold update_club. repeat case_match; intros; simplify_eq; fresh_tac. Qed.

Lemma fresh_remove_member cid uid d x d' : remove_member cid uid d = Some (x, d') -> fresh d -> fresh d'.
Proof. unfold remove_member. intros; simplify_eq; fresh_tac. Qed.

Lemma fresh_set_member_role cid uid r d x d' : set_member_role cid uid r d = Some (x, d') -> fresh d -> fresh d'.
Proof.
  unfold set_member_role. intros; simplify_eq; fresh_tac.
  apply (Forall_map_key cm_id _ (fun i => i < next_cm d)); [intros m; by case_match | done].
Qed.

Lemma fresh_set_club_admin cid uid d x d' : set_club_admin cid uid d = Some (x, d') -> fresh d -> fresh d'.
Proof. unfold set_club_admin. repeat case_match; intros; simplify_eq; fresh_tac. Qed.

Lemma fresh_demote_caller cid caller uid d d' : demote_caller cid caller uid d = Some d' -> fresh d -> fresh d'.
Proof.
  unfold demote_caller. case_match; [intros; simplify_eq; done|].
  destruct (set_member_role cid caller Officer d) as [[n d1]|] eqn:E; simpl; [|done].
  intros [= <-]. exact (fresh_set_member_role _ _ _ _ _ _ E).
Qed.

Lemma fresh_delete_members cid d x d' : delete_members cid d = Some (x, d') -> fresh d -> fresh d'.
Proof. unfold delete_members. intros; simplify_eq; fresh_tac. Qed.

Lemma fresh_delete_club_row cid d x d' : delete_club_row cid d = Some (x, d') -> fresh d -> fresh d'.
Proof. unfold delete_club_row. repeat case_match; intros; simplify_eq; fresh_tac. Qed.

Lemma fresh_insert_user now u d x d' : insert_user now u d = inr (x, d') -> fresh d -> fresh d'.
Proof. unfold insert_user. repeat case_match; intros; simplify_eq; fresh_tac. Qed.

Lemma fresh_update_user target c d x d' : update_user target c d = inr (x, d') -> fresh d -> fresh d'.
Proof. unfold update_user. repeat case_match; intros; simplify_eq; fresh_tac. Qed.

Lemma fresh_update_role target r d x d' : update_role target r d = Some (x, d') -> fresh d -> fresh d'.
Proof. unfold update_role. repeat case_match; intros; simplify_eq; fresh_tac. Qed.

Lemma fresh_delete_user_row uid d x d' : delete_user_row uid d = Some (x, d') -> fresh d -> fresh d'.
Proof. unfold delete_user_row. repeat case_match; intros; simplify_eq; fresh_tac. Qed.

#[export] Hint Resolve fresh_insert_registration fresh_delete_registration fresh_update_participants
  fresh_credit_points fresh_set_activity_status fresh_insert_activity fresh_update_activity_row
  fresh_review_row fresh_delete_participants fresh_delete_activity_row fresh_insert_club
  fresh_insert_member fresh_set_user_role fresh_update_club fresh_remove_member
  fresh_set_member_role fresh_set_club_admin fresh_demote_caller fresh_delete_members
  fresh_delete_club_row fresh_insert_user fresh_update_user fresh_update_role
  fresh_delete_user_row : cnt.


(** ** Every request keeps [fresh] *)

Ltac cnt_write :=
  first
    [ apply keeps_query; intros db0 r0 db1 Hq
    | apply keeps_quiet; intros db0 db1 Hq
    | intros db0 r0 db1 Hq ];
  first
    [ solve [eauto with cnt]
    | solve [repeat case_match; simplify_eq; eauto with cnt] ].

Lemma handle_keeps_fresh rq : keeps fresh (handle rq).
Proof.
  destruct rq; simpl; unfold route_join, route_leave, route_complete, route_create,
    route_update, route_review, route_delete, joinActivity, leaveActivity, completeActivity,
    createActivity, updateActivity, reviewActivity, deleteActivity, deleteActivityRecord;
    keeps_chain.
  all: cnt_write.
Qed.

Lemma handle_club_keeps_fresh rq : keeps fresh (handle_club rq).
Proof.
  destruct rq; simpl; unfold route_create_club, route_update_club, route_join_club,
    route_leave_club, route_member_role, route_delete_club, createClub, updateClub, joinClub,
    leaveClub, updateMemberRole, transfer_presidency, deleteClub, club_write_err;
    keeps_chain.
  all: cnt_write.
Qed.

Lemma handle_user_keeps_fresh `{Hasher} rq : keeps fresh (handle_user rq).
Proof.
  destruct rq; simpl; unfold route_register, route_update_user, route_change_role,
    route_create_user, route_delete_user, register, updateUser, changeUserRole, createUser,
    deleteUser; keeps_chain.
  all: cnt_write.
Qed.

Lemma serve_keeps_fresh `{Hasher} rq : keeps fresh (serve rq).
Proof.
  destruct rq as [r|r|r]; simpl;
    [apply handle_keeps_fresh | apply handle_club_keeps_fresh | apply handle_user_keeps_fresh].
Qed.

Lemma fresh_reach `{Hasher} d0 d : fresh d0 -> sreachable d0 d -> fresh d.
Proof.
  intros H0 Hr. induction Hr as [|x y z Hxy _ IH]; [done|].
  apply IH. destruct Hxy as [rq fs x]. rewrite run_state.
  apply (serve_keeps_fresh rq (mkSys x fs) H0).
Qed.

(** Every database reachable from one whose counters are ahead of
    its ids keeps them ahead: whatever requests of the three routers
    run, by whomever, and whichever of their queries fail, every user,
    club and activity id is below its table's AUTO_INCREMENT counter and
    so is every registration and membership id; an INSERT never lands on
    an existing row. *)
Theorem sreachable_fresh `{Hasher} d0 d : fresh d0 -> sreachable d0 d -> fresh d.
Proof. exact (fresh_reach d0 d). Qed.


(** The counter of [users] names no stored user. *)
Lemma fresh_next_user d : fresh d -> users d !! next_user d = None.
Proof.
  intros (Hu & _). destruct (users d !! next_user d) eqn:E; [|done].
  assert (next_user d < next_user d) by (apply Hu; by eexists). lia.
Qed.

(** C21: On every database the server can reach from one with fresh
    counters, an account registered with a name, student id and email
    no one holds (under the collation of the UNIQUE keys) can sign in at
    once: with no failing query, register
    answers 201 with the next id and login answers 200 with a token for
    that id and the role student.  (The freshness of [next_user] that
    the round trip needs is what [sreachable_fresh] maintains.) *)
Theorem sreachable_register_login `{Hasher} d0 d now n pw sid email bio file :
  fresh d0 -> sreachable d0 d ->
  n <> "" -> pw <> "" -> sid <> "" -> email <> "" ->
  unique_violation n (Some sid) (Some email) None d = None ->
  let '(r1, d1) := run_ok (register now true (Some n) (Some pw) (Some sid) (Some email) bio file) d in
  let '(r2, d2) := run_ok (login true (Some n) (Some pw)) d1 in
  r1 = mkResp 201 (MRegistered (next_user d))
  /\ r2 = mkResp 200 (MLoggedIn (mkPrincipal (next_user d) Student)) /\ d2 = d1.
Proof.
  intros H0 Hr ????. apply register_login_roundtrip; try done.
  apply fresh_next_user. exact (fresh_reach d0 d H0 Hr).
Qed.


(** A map's keys are below [n] when its list of bindings says so. *)
Lemma ids_below_to_list {A} (m : gmap Z A) n :
  Forall (fun p => p.1 < n) (map_to_list m) -> ids_below m n.
Proof.
  rewrite Forall_forall. intros H id [x Hx].
  apply (H (id, x)). by apply elem_of_map_to_list.
Qed.

(** The sample database has fresh counters. *)
Lemma fresh_sample : fresh Sample.db0.
Proof.
  split; [|split; [|split; [|split]]]; try (apply ids_below_to_list; vm_compute; repeat constructor);
    vm_compute; repeat constructor.
Qed.

Lemma sreachable_fresh_witness :
  (fresh Sample.db0 /\ sreachable Sample.db0 sample_run) /\ fresh sample_run.
Proof.
  pose proof fresh_sample as H1. pose proof sreachable_sample_run as H2.
  split; [tauto|]. exact (sreachable_fresh Sample.db0 sample_run H1 H2).
Defined.

(** Dave registers on the database after alice's two joins. *)
Lemma sreachable_register_login_witness :
  (fresh Sample.db0 /\ sreachable Sample.db0 sample_run
   /\ "dave" <> "" /\ "pw1" <> "" /\ "20230001" <> "" /\ "d@x.io" <> ""
   /\ unique_violation "dave" (Some "20230001") (Some "d@x.io") None sample_run = None)
  /\ (let '(r1, d1) := run_ok (register 0 true (Some "dave") (Some "pw1") (Some "20230001")
                                 (Some "d@x.io") None None) sample_run in
      let '(r2, d2) := run_ok (login true (Some "dave") (Some "pw1")) d1 in
      r1 = mkResp 201 (MRegistered (next_user sample_run))
      /\ r2 = mkResp 200 (MLoggedIn (mkPrincipal (next_user sample_run) Student)) /\ d2 = d1).
Proof.
  pose proof fresh_sample as H1. pose proof sreachable_sample_run as H2.
  assert (H3 : unique_violation "dave" (Some "20230001") (Some "d@x.io") None sample_run = None)
    by (vm_compute; reflexivity).
  split.
  { split; [exact H1|]. split; [exact H2|]. repeat (split; [discriminate|]). exact H3. }
  apply (sreachable_register_login Sample.db0 sample_run); try discriminate; assumption.
Defined.

End Counters.
