(* ===== verification/Client.v ===== *)
(** The browser client (client/src) run against the server model.  A
    browser holds [localStorage] ([token], [user], [joinedClubs]) and the
    state of [AuthProvider] (contexts/AuthContext.tsx).  Each client
    operation is the source's async function: AuthContext's session
    operations, the membership handlers of ClubDetail and ClubList, the
    filters, buttons and join/leave handlers of the activity pages, and
    MemberManagement's form.  The server's answer is computed by the
    server's handlers on the shared database.  axios rejects every answer
    with status 400 or more, so the source's [catch] branch is taken
    exactly for those.  The theorems are the storage invariant along a
    browser's runs and the client's disagreements with the server. *)

From Stdlib Require Import Ascii.
From S2P Require Import Prelude Schema Handler TimeWindow Registration Reads Clubs Users.

Module Client.
Import TimeWindow Registration Reads Clubs Users.

(** ** Tokens *)

(** A JWT as [jwt.sign(payload, JWT_SECRET, { expiresIn: '24h' })]
    issues it: the payload and the expiry time. *)
Record Token := mkToken { tk_principal : Principal; tk_exp : Z }.

Definition day_ms : Z := 86400000.

Definition sign (now : Z) (p : Principal) : Token := mkToken p (now + day_ms).

(** [jwt.verify(token, JWT_SECRET)] in authenticateToken
    (middleware/auth.js lines 14-21): an expired token is refused. *)
Definition jwt_verify (now : Z) (t : option Token) : option Principal :=
  match t with
  | Some tk => if now <? tk_exp tk then Some (tk_principal tk) else None
  | None => None
  end.

(** ** The browser *)

(** [localStorage] and the state of [AuthProvider]; the signed-in user
    is kept as the id and role the client reads from it. *)
Record Browser := mkBrowser {
  ls_token : option Token;
  ls_user : option Principal;
  ls_joined : list Z;
  b_token : option Token;
  b_user : option Principal;
  b_initialized : bool
}.

Definition set_auth (t : option Token) (u : option Principal) (b : Browser) : Browser :=
  mkBrowser (ls_token b) (ls_user b) (ls_joined b) t u (b_initialized b).
Definition set_storage (t : option Token) (u : option Principal) (b : Browser) : Browser :=
  mkBrowser t u (ls_joined b) (b_token b) (b_user b) (b_initialized b).
Definition set_joined (l : list Z) (b : Browser) : Browser :=
  mkBrowser (ls_token b) (ls_user b) l (b_token b) (b_user b) (b_initialized b).
Definition set_initialized (i : bool) (b : Browser) : Browser :=
  mkBrowser (ls_token b) (ls_user b) (ls_joined b) (b_token b) (b_user b) i.

(** [isAuthenticated], [isAdmin], [isClubAdmin] (lines 62-64). *)
Definition isAuthenticated (b : Browser) : bool :=
  bool_decide (is_Some (b_token b)) && bool_decide (is_Some (b_user b)).
Definition isAdmin_ui (b : Browser) : bool :=
  match b_user b with Some u => bool_decide (p_role u = Admin) | None => false end.
Definition isClubAdmin_ui (b : Browser) : bool :=
  match b_user b with
  | Some u => bool_decide (p_role u = ClubAdmin) || bool_decide (p_role u = Admin)
  | None => false
  end.

(** The provider's first render (lines 52-59): the state is read back
    from [localStorage]; it counts as initialised when there is no token
    or a stored user. *)
Definition load (b : Browser) : Browser :=
  mkBrowser (ls_token b) (ls_user b) (ls_joined b) (ls_token b) (ls_user b)
    (negb (bool_decide (is_Some (ls_token b))) || bool_decide (is_Some (ls_user b))).

(** An answer axios resolves (below 400). *)
Definition ok (r : Resp) : bool := code r <? 400.

Section Client.
Context `{Hasher}.

(** [GET /api/users/me] (userRoutes.js line 41): verifyToken, then
    getCurrentUser. *)
Definition get_me (now : Z) (t : option Token) (d : DB) : option Principal :=
  match jwt_verify now t with
  | Some p =>
      match fst (getCurrentUser p (mkSys d [])) with
      | Cont v => Some (mkPrincipal (p_id p) (u_role v))
      | Done _ => None
      end
  | None => None
  end.

(** [token && (!user || !initialized)] (line 78). *)
Definition fetch_guard (b : Browser) : bool :=
  bool_decide (is_Some (b_token b)) && (negb (bool_decide (is_Some (b_user b))) || negb (b_initialized b)).

(** [fetchCurrentUser] (lines 76-118): it runs only with a token and no
    user or an uninitialised provider; a failure clears [token] and
    [user] from the storage and the state, but not [joinedClubs]. *)
Definition fetchCurrentUser (now : Z) (d : DB) (b : Browser) : Browser :=
  if fetch_guard b
  then match get_me now (b_token b) d with
       | Some u => set_initialized true (set_auth (b_token b) (Some u) (set_storage (ls_token b) (Some u) b))
       | None => set_initialized true (set_auth None None (set_storage None None b))
       end
  else set_initialized true b.

(** The effect of lines 76-118 runs again after a render in which one
    of its dependencies [[token, user, initialized]] changed by
    [Object.is].  A run that takes the guarded branch calls [setUser]
    with the fresh object of the answer, or [setToken(null)] on a token
    that was set, so it always changes one; the other branch only calls
    [setInitialized(true)], a change when the provider was not yet
    initialised. *)
Definition effect_rerenders (b : Browser) : bool := fetch_guard b || negb (b_initialized b).

(** React's rerun of the effect, for at most [fuel] runs: [None] when
    the runs have not settled. *)
Fixpoint provider_effects (fuel : nat) (now : Z) (d : DB) (b : Browser) : option Browser :=
  match fuel with
  | O => None
  | S f =>
      let b' := fetchCurrentUser now d b in
      if effect_rerenders b then provider_effects f now d b' else Some b'
  end.

(** [login] (lines 121-149): the server's answer carries the token and
    the user; a refused login leaves the browser as it was. *)
Definition client_login (now : Z) (n pw : string) (d : DB) : Browser -> Browser := fun b =>
  match run_ok (login true (Some n) (Some pw)) d with
  | (mkResp 200 (MLoggedIn p), _) =>
      let t := Some (sign now p) in set_auth t (Some p) (set_storage t (Some p) b)
  | _ => b
  end.

(** [logout] (lines 178-190). *)
Definition logout (b : Browser) : Browser :=
  mkBrowser None None [] None None (b_initialized b).

(** [register] (lines 152-175): the form data is posted, then the new
    user is signed in with the same name and password. *)
Definition client_register (now : Z) (n pw sid email : string) (bio file : option string) (d : DB)
    (b : Browser) : DB * Browser :=
  let '(r, d') := run_ok (register now true (Some n) (Some pw) (Some sid) (Some email) bio file) d in
  if ok r then (d', client_login now n pw d' b) else (d', b).

(** [updateUser] (lines 193-216): PUT with the stored token, then
    [GET /users/me]; the user is replaced when both succeed. *)
Definition client_update_user (now : Z) (target : Z) (body : UserUpdate) (d : DB) (b : Browser)
    : DB * Browser :=
  let '(r, d') := run_ok (route_update_user (jwt_verify now (b_token b)) target body) d in
  if ok r then
    match get_me now (b_token b) d' with
    | Some u => (d', set_auth (b_token b) (Some u) (set_storage (ls_token b) (Some u) b))
    | None => (d', b)
    end
  else (d', b).

(** ** The club pages *)

(** [fetchClubDetails] of pages/ClubDetail.tsx (lines 64-95): the
    page's [isJoined].  The server's [is_joined] is used when true,
    otherwise [joinedClubs] decides for a signed-in user. *)
Definition detail_is_joined (cid : Z) (d : DB) (b : Browser) : bool :=
  match fst (route_get_club (jwt_verify 0 (b_token b)) cid (mkSys d [])) with
  | Cont det =>
      if cd_is_joined det then true
      else if bool_decide (is_Some (b_user b)) then bool_decide (cid ∈ ls_joined b) else false
  | Done _ => false
  end.

(** [joinedClubs.push(id)] unless present, and [joinedClubs.filter]. *)
Definition cache_add (cid : Z) (l : list Z) : list Z := if bool_decide (cid ∈ l) then l else l ++ [cid].
Definition cache_remove (cid : Z) (l : list Z) : list Z := List.filter (fun x => negb (Z.eqb x cid)) l.

(** [handleJoinLeave] of ClubDetail.tsx (lines 101-241), the leave
    confirmed: by the page's [isJoined], a leave or a join with the
    stored token; on success [joinedClubs] follows.  No request is sent
    ([None]) without a signed-in user. *)
Definition detail_join_leave (now cid : Z) (is_joined : bool) (d : DB) (b : Browser)
    : option Resp * DB * Browser :=
  if negb (bool_decide (is_Some (b_user b))) then (None, d, b) else
  if is_joined then
    let '(r, d') := run_ok (route_leave_club (jwt_verify now (b_token b)) cid) d in
    (Some r, d', if ok r then set_joined (cache_remove cid (ls_joined b)) b else b)
  else
    let '(r, d') := run_ok (route_join_club now (jwt_verify now (b_token b)) cid) d in
    (Some r, d', if ok r then set_joined (cache_add cid (ls_joined b)) b else b).

(** A club as ClubList shows it: id, [is_member], [member_count]. *)
Record ClubCard := mkCard { card_id : Z; card_member : bool; card_count : nat }.

(** [fetchClubs] of pages/ClubList.tsx (lines 38-59): [is_member] is
    read from [response.data.user_joined_clubs], a field the server does
    not send ([= []]). *)
Definition list_fetch (d : DB) (b : Browser) : list ClubCard :=
  match fst (route_get_clubs (jwt_verify 0 (b_token b)) (mkSys d [])) with
  | Cont rows =>
      let user_joined_clubs : list Z := [] in
      List.map (fun r => mkCard (cr_id r) (isAuthenticated b && bool_decide (cr_id r ∈ user_joined_clubs))
                                (cr_members r)) rows
  | Done _ => []
  end.

(** [handleJoinClub] and [handleLeaveClub] (lines 79-183): the card is
    updated with [response.data.member_count || 0], a field the server
    sends inside [club], so 0. *)
Definition list_join (now cid : Z) (cards : list ClubCard) (d : DB) (b : Browser)
    : list ClubCard * DB * Browser :=
  if negb (isAuthenticated b) then (cards, d, b) else
  let '(r, d') := run_ok (route_join_club now (jwt_verify now (b_token b)) cid) d in
  if ok r then
    let member_count := 0%nat in
    (List.map (fun c => if Z.eqb (card_id c) cid then mkCard cid true member_count else c) cards,
     d', set_joined (cache_add cid (ls_joined b)) b)
  else (cards, d', b).

Definition list_leave (now cid : Z) (cards : list ClubCard) (d : DB) (b : Browser)
    : list ClubCard * DB * Browser :=
  if negb (isAuthenticated b) then (cards, d, b) else
  let '(r, d') := run_ok (route_leave_club (jwt_verify now (b_token b)) cid) d in
  if ok r then
    let member_count := 0%nat in
    (List.map (fun c => if Z.eqb (card_id c) cid then mkCard cid false member_count else c) cards,
     d', set_joined (cache_remove cid (ls_joined b)) b)
  else (cards, d', b).

End Client.


(** ** The activity list *)

(** [String.prototype.toLowerCase] on Latin-1 code units: [A-Z] and
    [\u00C0-\u00DE] except [\u00D7] map 32 places up. *)
Definition js_lower_char (c : ascii) : ascii :=
  let n := nat_of_ascii c in
  if (Nat.leb 65 n && Nat.leb n 90) || (Nat.leb 192 n && Nat.leb n 222 && negb (Nat.eqb n 215))
  then ascii_of_nat (n + 32) else c.
Definition js_lower (s : string) : string :=
  String.string_of_list_ascii (List.map js_lower_char (String.list_ascii_of_string s)).

(** [s.trim()] is truthy: a character that is not white space. *)
Definition trim_nonempty (s : string) : bool :=
  existsb (fun c => negb (is_js_ws c)) (String.list_ascii_of_string s).

(** [activity.status] as the JSON answer carries it. *)
Definition status_json (s : Status) : string :=
  match s with
  | SPending => "pending" | SApproved => "approved" | SRejected => "rejected"
  | SCompleted => "completed" | SUpcoming => "upcoming" | SOngoing => "ongoing"
  end.

(** Dayjs' [startOf('day')] and [endOf('day')], the clock in UTC. *)
Definition start_of_day (t : Z) : Z := t - t mod day_ms.
Definition end_of_day (t : Z) : Z := start_of_day t + day_ms - 1.

(** The filter state of pages/ActivityList.tsx: [searchValue],
    [statusFilter] (['all'] or a status), [clubFilter] and [dateRange]. *)
Record Filters := mkFilters {
  f_search : string;
  f_status : string;
  f_club : option Z;
  f_range : option (Z * Z)
}.

Definition search_hit (q : string) (r : ActivityRow) : bool :=
  let a := r_act r in
  includes (js_lower (a_title a)) (js_lower q)
  || includes (js_lower (a_description a)) (js_lower q)
  || includes (js_lower (a_location a)) (js_lower q).

(** [applyFilters] (lines 75-116): the four filters in turn. *)
Definition applyFilters (f : Filters) (activities : list ActivityRow) : list ActivityRow :=
  let result := activities in
  let result := if trim_nonempty (f_search f) then List.filter (search_hit (f_search f)) result else result in
  let result := if negb (String.eqb (f_status f) "all")
                then List.filter (fun r => String.eqb (status_json (r_status r)) (f_status f)) result
                else result in
  let result := match f_club f with
                | Some c => if Z.eqb c 0 then result
                            else List.filter (fun r => Z.eqb (a_club (r_act r)) c) result
                | None => result
                end in
  match f_range f with
  | Some (d0, d1) =>
      let startDate := start_of_day d0 in
      let endDate := end_of_day d1 in
      List.filter (fun r => (startDate <=? a_start (r_act r)) && (a_end (r_act r) <=? endDate)) result
  | None => result
  end.

(** [getStatusLabel] and [getStatusColor] of components/ActivityCard.tsx
    (lines 36-68); an unknown string gets the default. *)
Definition getStatusLabel (s : string) : string :=
  if String.eqb s "upcoming" then "即将开始"
  else if String.eqb s "ongoing" then "进行中"
  else if String.eqb s "completed" then "已结束"
  else if String.eqb s "pending" then "待审核"
  else if String.eqb s "rejected" then "已拒绝"
  else "未知".

Definition getStatusColor (s : string) : string :=
  if String.eqb s "upcoming" then "blue"
  else if String.eqb s "ongoing" then "green"
  else if String.eqb s "completed" then "gray"
  else if String.eqb s "pending" then "orange"
  else if String.eqb s "rejected" then "red"
  else "default".


(** ** The activity pages *)

(** The fields of an answered activity the buttons read; [is_joined]
    is [undefined], hence falsy, when the server did not set it. *)
Definition detail_view (det : ActivityDetail) : ActivityView :=
  let r := det_activity det in
  mkView (r_status r) (default false (det_is_joined det)) (Z.of_nat (r_participants r))
    (a_max (r_act r)) (a_start (r_act r)).

(** The button pages/ActivityDetail.tsx shows (lines 280-351). *)
Inductive DetailButton :=
  | BCancel | BRegistered | BJoin | BRegisteredWaiting | BFull | BEnded | BClosed | BLoginToJoin.

Definition detail_button (auth : bool) (v : ActivityView) (now : Z) : DetailButton :=
  if auth && canRegister_detail v now then
    if v_is_joined v then (if canCancelRegistration v now then BCancel else BRegistered) else BJoin
  else if auth && v_is_joined v then
    (if canCancelRegistration v now then BCancel else BRegisteredWaiting)
  else if auth && (v_max v <=? v_current v) then BFull
  else if auth && bool_decide (v_status v = SCompleted) then BEnded
  else if auth then BClosed
  else BLoginToJoin.

(** [activityAPI.getActivityById] (api/api.ts line 144): the public
    route; a failure leaves the page as it was. *)
Definition fetch_detail (now aid : Z) (b : Browser) (d : DB) : option ActivityDetail :=
  match fst (route_get_activity now (jwt_verify now (b_token b)) aid (mkSys d [])) with
  | Cont det => Some det
  | Done _ => None
  end.

(** [handleJoinActivity] and [handleLeaveActivity] of ActivityDetail.tsx
    (lines 67-142): the request with the stored token, then, on success,
    the page is read again.  Signed out, no request is sent. *)
Definition page_join (now aid : Z) (page : ActivityDetail) (d : DB) (b : Browser)
    : option Resp * ActivityDetail * DB :=
  if negb (isAuthenticated b) then (None, page, d) else
  let '(r, d') := run_ok (route_join now (jwt_verify now (b_token b)) aid) d in
  (Some r, (if ok r then default page (fetch_detail now aid b d') else page), d').

Definition page_leave (now aid : Z) (page : ActivityDetail) (d : DB) (b : Browser)
    : option Resp * ActivityDetail * DB :=
  if negb (isAuthenticated b) then (None, page, d) else
  let '(r, d') := run_ok (route_leave now (jwt_verify now (b_token b)) aid) d in
  (Some r, (if ok r then default page (fetch_detail now aid b d') else page), d').

(** The card of components/ActivityCard.tsx (lines 218-258) in the list,
    whose rows come from [getAllActivities] and carry no [is_joined]. *)
Inductive CardAction := CCancel | CJoin | CRegistered | CNone.

Definition card_action (auth : bool) (v : ActivityView) (now : Z) : CardAction :=
  if auth && canRegister_card v now then (if v_is_joined v then CCancel else CJoin)
  else if v_is_joined v then (if canCancelRegistration v now then CCancel else CRegistered)
  else CNone.

Definition card_view (r : ActivityRow) : ActivityView :=
  mkView (r_status r) false (Z.of_nat (r_participants r)) (a_max (r_act r)) (a_start (r_act r)).

(** [handleJoinActivity] and [handleLeaveActivity] of
    components/ActivityCard.tsx (lines 99-170): the request with the
    stored token; the list is read again by the parent's callback. *)
Definition card_join (now aid : Z) (d : DB) (b : Browser) : option Resp * DB :=
  if negb (isAuthenticated b) then (None, d)
  else let '(r, d') := run_ok (route_join now (jwt_verify now (b_token b)) aid) d in (Some r, d').

Definition card_leave (now aid : Z) (d : DB) (b : Browser) : option Resp * DB :=
  if negb (isAuthenticated b) then (None, d)
  else let '(r, d') := run_ok (route_leave now (jwt_verify now (b_token b)) aid) d in (Some r, d').

(** ** Numbers as strings *)

(** [String(n)] of an integer: its decimal digits, with [-] when
    negative.  [dec_rev] writes the digits least significant first; the
    fuel [log2 n + 1] bounds the number of decimal digits. *)
Definition digit_char (n : Z) : ascii := ascii_of_nat (Z.to_nat (48 + n)).

Fixpoint dec_rev (fuel : nat) (n : Z) : list ascii :=
  match fuel with
  | O => []
  | S f => digit_char (n mod 10) :: (if n <? 10 then [] else dec_rev f (n / 10))
  end.

Definition js_string_of_Z (z : Z) : string :=
  let l := rev (dec_rev (S (Z.to_nat (Z.log2 (Z.abs z)))) (Z.abs z)) in
  String.string_of_list_ascii (if z <? 0 then "-"%char :: l else l).

(** ** Member management (pages/MemberManagement.tsx) *)

(** The form's values after [form.validateFields()]: [name], [email],
    [phone], [student_id], [role] ('admin', 'club_admin' or 'member'),
    [points] (a number input, sent as a string) and [joined_clubs]. *)
Record MemberForm := mkMemberForm {
  mf_name : string; mf_email : string; mf_phone : string; mf_student_id : string;
  mf_role : string; mf_points : string; mf_clubs : list string
}.

(** The phone rule [/^1[3-9]\d{9}$/]. *)
Definition phone_ok (s : string) : bool :=
  match String.list_ascii_of_string s with
  | c0 :: c1 :: rest =>
      Ascii.eqb c0 "1" && Nat.leb 51 (nat_of_ascii c1) && Nat.leb (nat_of_ascii c1) 57
      && Nat.eqb (length rest) 9 && forallb is_digit rest
  | _ => false
  end.

(** The GET routes of routes/userRoutes.js (lines 40-60). *)
Definition user_get_routes : list string := ["/current"; "/me"; "/all"; "/rankings"].

Section Members.
Context `{Hasher}.
(** Antd's [type: 'email'] rule. *)
Variable antd_email : string -> bool.

Definition member_valid (f : MemberForm) : bool :=
  negb (String.eqb (mf_name f) "") && negb (String.eqb (mf_email f) "") && antd_email (mf_email f)
  && phone_ok (mf_phone f) && negb (String.eqb (mf_student_id f) "")
  && negb (String.eqb (mf_role f) "") && negb (String.eqb (mf_points f) "").

(** [fetchMembers] (lines 38-49): [GET /api/users], which no route of
    the user router serves, so the catch branch leaves the table empty. *)
Definition fetch_members (d : DB) : list (Z * User) :=
  if bool_decide ("/" ∈ user_get_routes) then map_to_list (users d) else [].

(** [handleSubmit] (lines 91-109): nothing is sent when a rule fails;
    an edit is [PUT /api/users/:id] with the form's fields, a new member
    [POST /api/users]; neither carries [username] or [password]. *)
Definition member_submit (now : Z) (editing : option Z) (f : MemberForm) (d : DB) (b : Browser)
    : option (Resp * DB) :=
  if negb (member_valid f) then None else
  let tok := jwt_verify now (b_token b) in
  Some (match editing with
        | Some id =>
            run_ok (route_update_user tok id
                      (mkUpdate None None (Some (mf_email f)) (Some (mf_role f))
                                (Some (mf_student_id f)) (Some (mf_points f)) None)) d
        | None =>
            run_ok (route_create_user now tok true None None (Some (mf_email f))
                      (Some (mf_student_id f)) (Some (mf_role f)) None None) d
        end).

(** The form of pages/Profile.tsx (lines 111-172): [username] and
    [email] (filled with the user's), and the three password fields. *)
Record ProfileForm := mkProfileForm {
  pf_username : string; pf_email : string;
  pf_old : string; pf_new : string; pf_confirm : string
}.

Definition profile_valid (f : ProfileForm) : bool :=
  negb (String.eqb (pf_username f) "") && negb (String.eqb (pf_email f) "")
  && antd_email (pf_email f)
  && (String.eqb (pf_confirm f) "" || String.eqb (pf_new f) (pf_confirm f)).

(** [onFinish] (lines 33-59): every non-empty field is appended to the
    form data and sent by AuthContext's [updateUser]; of these the
    server's [updateUser] reads [username] and [email], and no field
    of the body is a password. *)
Definition profile_submit (now : Z) (f : ProfileForm) (d : DB) (b : Browser) : option (DB * Browser) :=
  match b_user b with
  | None => None
  | Some u =>
      if negb (profile_valid f) then None
      else Some (client_update_user now (p_id u)
                   (mkUpdate (Some (pf_username f)) None (Some (pf_email f)) None None None None) d b)
  end.

(** [handleDelete] (lines 111-120). *)
Definition member_delete (now id : Z) (d : DB) (b : Browser) : Resp * DB :=
  run_ok (route_delete_user (jwt_verify now (b_token b)) id) d.

(** ** User management (pages/admin/UserManagement.tsx) *)

(** The form (lines 419-503): [password] only when adding; [points] is
    the text of a number input. *)
Record UserForm := mkUserForm {
  uf_username : string; uf_email : string; uf_password : string; uf_student_id : string;
  uf_bio : string; uf_role : string; uf_points : string
}.

(** The required fields and antd's email rule; [password] only for a new
    user. *)
Definition user_form_valid (adding : bool) (f : UserForm) : bool :=
  negb (String.eqb (uf_username f) "") && negb (String.eqb (uf_email f) "") && antd_email (uf_email f)
  && (negb adding || negb (String.eqb (uf_password f) ""))
  && negb (String.eqb (uf_student_id f) "") && negb (String.eqb (uf_role f) "")
  && negb (String.eqb (uf_points f) "").

(** A form field the form data carries: empty values are skipped. *)
Definition field (v : string) : option string := if String.eqb v "" then None else Some v.

(** [handleSubmit] (lines 146-207): an edit is [PUT /api/users/:id], a
    new user [POST /api/users], both with the non-empty fields and the
    chosen avatar [file]. *)
Definition um_submit (now : Z) (editing : option Z) (f : UserForm) (file : option string)
    (d : DB) (b : Browser) : option (Resp * DB) :=
  let adding := match editing with Some _ => false | None => true end in
  if negb (user_form_valid adding f) then None else
  let tok := jwt_verify now (b_token b) in
  Some (match editing with
        | Some id =>
            run_ok (route_update_user tok id
                      (mkUpdate (field (uf_username f)) (field (uf_bio f)) (field (uf_email f))
                                (field (uf_role f)) (field (uf_student_id f)) (field (uf_points f)) file)) d
        | None =>
            run_ok (route_create_user now tok true (field (uf_username f)) (field (uf_password f))
                      (field (uf_email f)) (field (uf_student_id f)) (field (uf_role f))
                      (field (uf_bio f)) file) d
        end).

(** [handleDelete] and [handleRoleChange] (lines 210-236). *)
Definition um_delete (now id : Z) (d : DB) (b : Browser) : Resp * DB :=
  run_ok (route_delete_user (jwt_verify now (b_token b)) id) d.
Definition um_role_change (now id : Z) (role : string) (d : DB) (b : Browser) : Resp * DB :=
  run_ok (route_change_role (jwt_verify now (b_token b)) id (Some role)) d.

(** The edit form of a stored user (lines 84-96). *)
Definition edit_form (u : User) : UserForm :=
  mkUserForm (u_name u) (default "" (u_email u)) "" (default "" (u_student_id u))
    (default "" (u_bio u)) (match u_role u with Admin => "admin" | ClubAdmin => "club_admin" | Student => "student" end)
    (js_string_of_Z (u_points u)).

End Members.

(** [handleSearch] (lines 69-81): name or student id containing the
    text, without case. *)
Definition um_search (value : string) (us : list (Z * User)) : list (Z * User) :=
  if negb (trim_nonempty value) then us
  else List.filter (fun p => includes (js_lower (u_name p.2)) (js_lower value)
                             || match u_student_id p.2 with
                                | Some sid => includes (js_lower sid) (js_lower value)
                                | None => false
                                end) us.


(** ** Client runs

    A browser's history: a reload of the page, the provider's
    [fetchCurrentUser], the AuthContext operations, the club pages' join
    and leave, and any write to the database made from another browser. *)
Section Runs.
Context `{Hasher}.

Inductive cstep : DB * Browser -> DB * Browser -> Prop :=
  | cs_load d b : cstep (d, b) (d, load b)
  | cs_fetch now d b : cstep (d, b) (d, fetchCurrentUser now d b)
  | cs_login now n pw d b : cstep (d, b) (d, client_login now n pw d b)
  | cs_register now n pw sid e bio f d b : cstep (d, b) (client_register now n pw sid e bio f d b)
  | cs_update now t body d b : cstep (d, b) (client_update_user now t body d b)
  | cs_logout d b : cstep (d, b) (d, logout b)
  | cs_detail now cid j d b r d' b' :
      detail_join_leave now cid j d b = (r, d', b') -> cstep (d, b) (d', b')
  | cs_list_join now cid cards d b cards' d' b' :
      list_join now cid cards d b = (cards', d', b') -> cstep (d, b) (d', b')
  | cs_list_leave now cid cards d b cards' d' b' :
      list_leave now cid cards d b = (cards', d', b') -> cstep (d, b) (d', b')
  | cs_other d d' b : cstep (d, b) (d', b).

End Runs.

(** [localStorage] holds what the provider holds. *)
Definition mirrors (b : Browser) : Prop := ls_token b = b_token b /\ ls_user b = b_user b.


(** ** The provider's state and [localStorage] *)

Lemma mirrors_load b : mirrors (load b).
Proof. split; reflexivity. Qed.

Lemma mirrors_set_joined l b : mirrors b -> mirrors (set_joined l b).
Proof. done. Qed.

Lemma mirrors_set_initialized i b : mirrors b -> mirrors (set_initialized i b).
Proof. done. Qed.

Lemma mirrors_sign_in t u b : mirrors (set_auth t u (set_storage t u b)).
Proof. split; reflexivity. Qed.

Lemma mirrors_set_user u b : mirrors b -> mirrors (set_auth (b_token b) (Some u) (set_storage (ls_token b) (Some u) b)).
Proof. intros [? ?]; split; simpl; congruence. Qed.

#[local] Hint Resolve mirrors_load mirrors_set_joined mirrors_set_initialized mirrors_sign_in mirrors_set_user : ltf.

(** A join or leave of the club pages only touches [joinedClubs]. *)
Lemma join_leave_browser b b' :
  (b' = b \/ exists l, b' = set_joined l b) -> mirrors b -> mirrors b'.
Proof. intros [-> | [l ->]]; auto with ltf. Qed.

Section RunProps.
Context `{Hasher}.

Lemma detail_join_leave_browser now cid j d b r d' b' :
  detail_join_leave now cid j d b = (r, d', b') -> b' = b \/ exists l, b' = set_joined l b.
Proof. unfold detail_join_leave; repeat case_match; intros; simplify_eq; eauto. Qed.

Lemma list_join_browser now cid cards d b cards' d' b' :
  list_join now cid cards d b = (cards', d', b') -> b' = b \/ exists l, b' = set_joined l b.
Proof. unfold list_join; repeat case_match; intros; simplify_eq; eauto. Qed.

Lemma list_leave_browser now cid cards d b cards' d' b' :
  list_leave now cid cards d b = (cards', d', b') -> b' = b \/ exists l, b' = set_joined l b.
Proof. unfold list_leave; repeat case_match; intros; simplify_eq; eauto. Qed.

Lemma cstep_mirrors x y : cstep x y -> mirrors x.2 -> mirrors y.2.
Proof.
  destruct 1 as [| | | | | | ? ? ? ? ? ? ? ? E | ? ? ? ? ? ? ? ? E | ? ? ? ? ? ? ? ? E |]; simpl; intros Hm.
  - auto with ltf.
  - unfold fetchCurrentUser, fetch_guard; repeat case_match; auto with ltf.
  - unfold client_login; repeat case_match; auto with ltf.
  - unfold client_register, client_login; repeat case_match; simplify_eq; simpl; auto with ltf.
  - unfold client_update_user; repeat case_match; simplify_eq; simpl; auto with ltf.
  - split; reflexivity.
  - exact (join_leave_browser _ _ (detail_join_leave_browser _ _ _ _ _ _ _ _ E) Hm).
  - exact (join_leave_browser _ _ (list_join_browser _ _ _ _ _ _ _ _ E) Hm).
  - exact (join_leave_browser _ _ (list_leave_browser _ _ _ _ _ _ _ _ E) Hm).
  - exact Hm.
Qed.

(** C28: Along every run of a browser opened on any stored state, the
    token and user kept in [localStorage] are the ones the provider
    holds: every operation of AuthContext writes both or neither, and
    the club pages write only [joinedClubs]. *)
Theorem reachable_mirrors d0 b0 d b :
  rtc cstep (d0, load b0) (d, b) -> mirrors b.
Proof.
  intros Hr.
  change b with (d, b).2.
  remember (d0, load b0) as x eqn:Ex.
  assert (mirrors x.2) as Hx by (subst x; apply mirrors_load).
  clear Ex. induction Hr; eauto using cstep_mirrors.
Qed.

End RunProps.


(** The club page's [isJoined] never depends on the server's
    membership rows: the public route leaves [is_joined] false, so the
    page shows "joined" exactly when the club exists, a user is signed
    in and the club is in this browser's [joinedClubs]. *)
Theorem detail_is_joined_spec cid d b :
  detail_is_joined cid d b =
    bool_decide (is_Some (clubs d !! cid)) && bool_decide (is_Some (b_user b))
    && bool_decide (cid ∈ ls_joined b).
Proof.
  unfold detail_is_joined, route_get_club, getClubById, bind, select, query, next_fault; simpl.
  destruct (clubs d !! cid), (b_user b); reflexivity.
Qed.

(** ClubList never marks a club as joined: [is_member] is read from
    [user_joined_clubs], which no answer of the server carries. *)
Theorem club_list_never_member d b :
  Forall (fun c => card_member c = false) (list_fetch d b).
Proof.
  unfold list_fetch; destruct (fst _); [| constructor].
  apply Forall_forall; intros c Hc.
  apply list_elem_of_fmap in Hc as [r [-> _]]; simpl.
  apply andb_false_r.
Qed.

(** A run of the effect leaves the provider initialised, with the
    guard of line 78 false. *)
Lemma fetch_settles now d b : effect_rerenders (fetchCurrentUser now d b) = false.
Proof.
  unfold effect_rerenders, fetchCurrentUser, fetch_guard.
  destruct (b_token b) eqn:Ht, (b_user b) eqn:Hu, (b_initialized b) eqn:Hi; simpl;
    rewrite ?Ht, ?Hu, ?Hi; simpl; try done.
  all: destruct (get_me now (Some t) d); simpl; by rewrite ?bool_decide_true.
Qed.

(** On a settled provider the effect changes nothing. *)
Lemma fetch_idle now d b : effect_rerenders b = false -> fetchCurrentUser now d b = b.
Proof.
  unfold effect_rerenders, fetchCurrentUser. intros [-> Hi]%orb_false_iff.
  apply negb_false_iff in Hi. destruct b; simpl in *; by subst.
Qed.

(** With a user stored, the provider's first render sends no request:
    the state read from the storage is kept as it is. *)
Lemma fetchCurrentUser_stored now d b :
  is_Some (ls_user b) -> fetchCurrentUser now d (load b) = set_initialized true (load b).
Proof.
  intros Hu. unfold fetchCurrentUser, fetch_guard, load; simpl.
  rewrite (bool_decide_true (is_Some (ls_user b))) by exact Hu.
  rewrite orb_true_r; simpl. by rewrite andb_false_r.
Qed.

(** C18: The effect of AuthContext's lines 76-118, rerun by React while
    one of its dependencies [[token, user, initialized]] changes,
    settles after at most two runs on every browser and database: the
    provider reaches a state on which the effect changes nothing and
    no further render is caused. *)
Theorem provider_effects_settle n now d b :
  (2 <= n)%nat ->
  exists b', provider_effects n now d b = Some b' /\ fetchCurrentUser now d b' = b'
    /\ effect_rerenders b' = false.
Proof.
  intros Hn. destruct n as [|[|n]]; [lia|lia|]. simpl.
  destruct (effect_rerenders b) eqn:Hr; simpl; rewrite ?fetch_settles.
  - exists (fetchCurrentUser now d b). rewrite (fetch_idle now d (fetchCurrentUser now d b)) by apply fetch_settles.
    split; [done|]. split; [done|]. apply fetch_settles.
  - rewrite fetch_idle by done. exists b. split; [done|]. split; [by apply fetch_idle|done].
Qed.


(** C30: A session whose token has expired still counts as signed in:
    with a user stored, the provider never calls [fetchCurrentUser]'s
    request, so the refused token is kept and [isAuthenticated] stays
    true. *)
Theorem expired_session_authenticated now d b :
  is_Some (ls_user b) -> jwt_verify now (ls_token b) = None -> is_Some (ls_token b) ->
  isAuthenticated (fetchCurrentUser now d (load b)) = true
  /\ b_user (fetchCurrentUser now d (load b)) = ls_user b.
Proof.
  intros Hu _ Ht. rewrite fetchCurrentUser_stored by exact Hu.
  unfold isAuthenticated, load; simpl. rewrite !bool_decide_true by assumption. split; reflexivity.
Qed.


(** ** Scenarios on [club_db] (club 1 with its president, user 10, and
    alice as a member); bob is user 2, with password "bob". *)

Definition fresh : Browser := mkBrowser None None [] None None true.

(** Bob signs in in browser A and joins club 1 from its page. *)
Definition browser_A : Browser := client_login 0 "bob" "bob" club_db fresh.
Definition joined_A : option Resp * DB * Browser :=
  detail_join_leave 1 1 (detail_is_joined 1 club_db browser_A) club_db browser_A.
Definition db_joined : DB := (joined_A.1).2.

(** Bob then signs in in browser B. *)
Definition browser_B : Browser := client_login 2 "bob" "bob" db_joined fresh.

(** A member is stuck in any other browser: after bob joined club 1
    in browser A, the club page in browser B shows him not joined, and
    its button sends a join that answers 400 "already a member" and
    changes nothing, so the leave request can only be sent from A. *)
Theorem member_stuck_in_other_browser :
  (joined_A.1).1 = Some (mkResp 200 MClubJoined)
  /\ existsb (cm_is 1 2) (club_members db_joined) = true
  /\ detail_is_joined 1 db_joined joined_A.2 = true
  /\ detail_is_joined 1 db_joined browser_B = false
  /\ detail_join_leave 3 1 false db_joined browser_B = (Some (mkResp 400 MAlreadyMember), db_joined, browser_B).
Proof. vm_compute. repeat split; reflexivity. Qed.


(** Bob joins club 1 from the club list in browser A. *)
Definition list_A : list ClubCard := list_fetch club_db browser_A.
Definition list_joined : list ClubCard * DB * Browser := list_join 1 1 list_A club_db browser_A.

(** The club list answers a successful join with a wrong card: club
    1 is listed with 2 members and not joined; after bob's join the
    server counts 3 members, and the card reads joined with 0 members
    ([response.data.member_count] is undefined). *)
Theorem list_join_shows_zero :
  list_A = [mkCard 1 false 2]
  /\ member_count 1 (list_joined.1).2 = 3%nat
  /\ (list_joined.1).1 = [mkCard 1 true 0].
Proof. vm_compute. repeat split; reflexivity. Qed.

(** An activity of club 1 from day 1, 10:00 to day 3, 10:00. *)
Definition hike : ActivityRow :=
  mkRow 1 (mkActivity "Hike" "A walk" 1 "Hill" (day_ms + 36000000) (3 * day_ms + 36000000) 5 10
             Approved None None 0)
    "Hikers" None 0 SOngoing.

(** The list's filters drop activities they should show: an
    activity under way through the chosen day is dropped by the date
    range (containment, not the overlap the comment names), and a
    search with a leading space passes the [trim()] test but is matched
    untrimmed, so "Hike" is not found by " hike". *)
Theorem activity_filters_drop :
  applyFilters (mkFilters "" "all" None (Some (2 * day_ms, 2 * day_ms))) [hike] = []
  /\ applyFilters (mkFilters "" "all" None (Some (day_ms, 3 * day_ms))) [hike] = [hike]
  /\ applyFilters (mkFilters " hike" "all" None None) [hike] = []
  /\ applyFilters (mkFilters "hike" "all" None None) [hike] = [hike].
Proof. vm_compute. repeat split; reflexivity. Qed.


Lemma In_filter_when (b : bool) (p : ActivityRow -> bool) l r :
  In r (if b then List.filter p l else l) <-> In r l /\ (b = true -> p r = true).
Proof. destruct b; rewrite ?List.filter_In; intuition congruence. Qed.

(** [applyFilters] keeps an activity exactly when it passes the
    four filters that are set: the search (when its trimmed text is not
    empty) on title, description or location, the status unless
    ['all'], a club other than 0, and a date range containing the whole
    activity. *)
Theorem applyFilters_spec f l r :
  In r (applyFilters f l) <->
  In r l
  /\ (trim_nonempty (f_search f) = true -> search_hit (f_search f) r = true)
  /\ (f_status f <> "all" -> status_json (r_status r) = f_status f)
  /\ (forall c, f_club f = Some c -> c <> 0 -> a_club (r_act r) = c)
  /\ (forall d0 d1, f_range f = Some (d0, d1) ->
        start_of_day d0 <= a_start (r_act r) /\ a_end (r_act r) <= end_of_day d1).
Proof.
  destruct f as [q st club rg]; unfold applyFilters; simpl.
  assert (Hst : forall b : bool, (negb (String.eqb st "all") = true -> b = true)
                  <-> (st <> "all" -> b = true)).
  { intros b; destruct (String.eqb_spec st "all"); simpl; intuition congruence. }
  destruct rg as [[d0 d1]|];
    [rewrite List.filter_In, andb_true_iff, !Z.leb_le|];
    (destruct club as [c|]; [destruct (Z.eqb_spec c 0)|]);
    rewrite ?List.filter_In, ?Z.eqb_eq, In_filter_when, In_filter_when, Hst, ?String.eqb_eq;
    (split; [intuition (simplify_eq; eauto) | intros (? & ? & ? & ? & Hr)]);
    try (edestruct Hr as [? ?]; [reflexivity |]); intuition (simplify_eq; eauto).
Qed.


(** Browser A of the scenario is reached from a fresh page by bob's
    sign-in. *)
Lemma reachable_mirrors_witness :
  rtc cstep (club_db, load fresh) (club_db, browser_A) /\ mirrors browser_A.
Proof.
  assert (Hr : rtc cstep (club_db, load fresh) (club_db, browser_A))
    by (apply rtc_once; exact (cs_login 0 "bob" "bob" club_db fresh)).
  split; [exact Hr | exact (reachable_mirrors club_db fresh club_db browser_A Hr)].
Defined.

(** A browser that kept bob's token of day 0 is opened on day 2. *)
Definition stale_browser : Browser :=
  mkBrowser (Some (sign 0 (mkPrincipal 2 Student))) (Some (mkPrincipal 2 Student)) [] None None false.

Lemma expired_session_authenticated_witness :
  jwt_verify (2 * day_ms) (ls_token stale_browser) = None
  /\ isAuthenticated (fetchCurrentUser (2 * day_ms) club_db (load stale_browser)) = true
  /\ b_user (fetchCurrentUser (2 * day_ms) club_db (load stale_browser)) = ls_user stale_browser.
Proof.
  split; [reflexivity |].
  apply (expired_session_authenticated (2 * day_ms) club_db stale_browser);
    [eexists; reflexivity | reflexivity | eexists; reflexivity].
Defined.


Lemma provider_effects_settle_witness :
  (2 <= 2)%nat /\
  exists b', provider_effects 2 (2 * day_ms) club_db stale_browser = Some b'
    /\ fetchCurrentUser (2 * day_ms) club_db b' = b' /\ effect_rerenders b' = false.
Proof.
  split; [lia | apply (provider_effects_settle 2 (2 * day_ms) club_db stale_browser); lia].
Defined.

(** The public detail route never sets [is_joined]. *)
Lemma fetch_detail_not_joined now aid b d det :
  fetch_detail now aid b d = Some det -> det_is_joined det = None.
Proof.
  unfold fetch_detail, route_get_activity, getActivityById, bind, select, query, next_fault; simpl.
  destruct (List.filter _ _); simpl; intros; simplify_eq; done.
Qed.

(** C29: No page of the client ever offers to cancel a registration:
    the detail page reads the public route, whose answer has no
    [is_joined], and the list's cards read rows of getAllActivities,
    which have none either; so the button of [canCancelRegistration] is
    never shown, although the server accepts a leave before the start. *)
Theorem cancel_never_offered now now' aid b d det auth :
  fetch_detail now aid b d = Some det ->
  detail_button auth (detail_view det) now' <> BCancel
  /\ card_action auth (card_view (det_activity det)) now' <> CCancel.
Proof.
  intros Hf. apply fetch_detail_not_joined in Hf.
  unfold detail_button, card_action, detail_view, card_view; rewrite Hf; simpl.
  split; repeat case_match; discriminate.
Qed.


(** Alice signs in and opens the page of activity 1 an hour before its
    start. *)
Definition browser_alice : Browser := client_login 0 "alice" "alice" Sample.db0 fresh.
Definition t_open : Z := Sample.T - hour_ms.
Definition page0 : ActivityDetail := default (mkDetail (mkRow 0 Sample.act1 "" None 0 SPending) None [])
  (fetch_detail t_open 1 browser_alice Sample.db0).
Definition joined_page : option Resp * ActivityDetail * DB := page_join t_open 1 page0 Sample.db0 browser_alice.

(** The sample's page is answered, and no cancel button is shown on it. *)
Lemma cancel_never_offered_witness :
  fetch_detail t_open 1 browser_alice Sample.db0 = Some page0
  /\ detail_button true (detail_view page0) t_open <> BCancel
  /\ card_action true (card_view (det_activity page0)) t_open <> CCancel.
Proof.
  assert (Hf : fetch_detail t_open 1 browser_alice Sample.db0 = Some page0) by (vm_compute; reflexivity).
  split; [exact Hf | exact (cancel_never_offered t_open t_open 1 browser_alice Sample.db0 page0 true Hf)].
Defined.

(** After a successful join the activity page offers the join
    again, and a second click is refused: alice's join answers 200 and
    registers her, the page read again shows "register now", the same
    button then answers 400 "already joined", while the server would
    accept her leave. *)
Theorem page_join_offers_join_again :
  let '(r1, p1, d1) := joined_page in
  r1 = Some (mkResp 200 MJoined)
  /\ is_registered 1 1 d1 = true
  /\ detail_button true (detail_view p1) t_open = BJoin
  /\ (let '(r2, p2, d2) := page_join t_open 1 p1 d1 browser_alice in
      r2 = Some (mkResp 400 MAlreadyJoined) /\ d2 = d1)
  /\ (run_ok (route_leave t_open (jwt_verify t_open (b_token browser_alice)) 1) d1).1 = mkResp 200 MLeft.
Proof. vm_compute. repeat split; reflexivity. Qed.


Section MemberProps.
Context `{Hasher}.
Variable antd_email : string -> bool.

(** Adding a member from MemberManagement never succeeds: the form has
    no username or password field, so createUser answers 400 (or the
    token middleware refuses first), and the database is unchanged. *)
Theorem member_create_refused now f d b r d' :
  member_submit antd_email now None f d b = Some (r, d') -> d' = d /\ code r <> 201.
Proof.
  unfold member_submit; destruct (member_valid antd_email f); [|done].
  intros E; injection E as E; revert E.
  unfold run_ok, run, route_create_user, verifyToken, isAdmin, createUser, reply.
  destruct (jwt_verify now (b_token b)) as [u|]; simpl; [case_decide|]; simpl;
    intros; simplify_eq; split; done.
Qed.

End MemberProps.

(** The member table of MemberManagement is always empty. *)
Lemma fetch_members_empty d : fetch_members d = [].
Proof. reflexivity. Qed.

(** The system admin signed in with a token of day 0. *)
Definition browser_root : Browser :=
  mkBrowser (Some (sign 0 Sample.root)) (Some Sample.root) [] (Some (sign 0 Sample.root))
    (Some Sample.root) true.

Definition alice_form : MemberForm :=
  mkMemberForm "Alicia" "alice@campus.edu" "13800000000" "20230001" "member" "50" [].

(** An admin's edit of alice from MemberManagement answers 200 but the
    new name is not sent and the role 'member' is not a user role: only
    the email, student id and points change. *)
Lemma member_edit_drops_name_and_role :
  match member_submit email_ok 1 (Some 1) alice_form Sample.db0 browser_root with
  | Some (r, d') =>
      r = mkResp 200 MUserUpdated
      /\ (u_name <$> users d' !! 1) = Some "alice"
      /\ (u_role <$> users d' !! 1) = Some Student
      /\ (u_points <$> users d' !! 1) = Some 50
  | None => False
  end.
Proof. vm_compute. repeat split; reflexivity. Qed.


(** ** No request of the client changes a password *)

Definition passwords_as (d0 d : DB) : Prop :=
  forall id, u_password <$> users d !! id = u_password <$> users d0 !! id.

Lemma update_user_passwords target c d n d' d0 :
  update_user target c d = inr (n, d') -> passwords_as d0 d -> passwords_as d0 d'.
Proof.
  unfold update_user. intros Hu HI id.
  destruct (users d !! target) as [v|] eqn:Ev; [|by injection Hu as _ <-].
  destruct (negb _); [done|]. destruct (unique_violation _ _ _ _ _); [done|].
  injection Hu as _ <-. simpl. destruct (decide (id = target)) as [->|Hne].
  - rewrite lookup_insert_eq. rewrite <- (HI target), Ev. done.
  - rewrite lookup_insert_ne by done. apply HI.
Qed.

Section PasswordProps.
Context `{Hasher}.

Lemma updateUser_keeps_passwords caller target b d0 :
  keeps (passwords_as d0) (updateUser caller target b).
Proof.
  unfold updateUser. keeps_chain.
  - intros d n d' Hu HI. eapply update_user_passwords; eauto.
  - by intros d x d' [= _ <-].
Qed.

Lemma client_update_user_passwords now target body d b d' b' :
  client_update_user now target body d b = (d', b') -> passwords_as d d'.
Proof.
  unfold client_update_user, run_ok.
  assert (Hk : passwords_as d (sys_db (snd (run (route_update_user (jwt_verify now (b_token b)) target body)
                                            (mkSys d []))))).
  { apply keeps_run_db; [| intros id; reflexivity].
    unfold route_update_user. apply keeps_verifyToken; intros u. apply updateUser_keeps_passwords. }
  destruct (run _ _) as [r s] eqn:E. simpl in Hk.
  repeat case_match; intros; simplify_eq; exact Hk.
Qed.

Variable antd_email : string -> bool.


End PasswordProps.


(** Alice sets the new password "newpw" on her profile page. *)
Definition alice_profile : ProfileForm :=
  mkProfileForm "alice" "alice@campus.edu" "alice" "newpw" "newpw".
Definition profile_body : UserUpdate :=
  mkUpdate (Some "alice") None (Some "alice@campus.edu") None None None None.
Definition profile_after : DB * Browser := client_update_user 1 1 profile_body Sample.db0 browser_alice.


(** The request is answered 200, so the page reports success; the new
    password is then refused and the old one still signs alice in. *)
Lemma profile_password_scenario :
  (run_ok (route_update_user (jwt_verify 1 (b_token browser_alice)) 1 profile_body) Sample.db0).1
    = mkResp 200 MUserUpdated
  /\ (run_ok (login true (Some "alice") (Some "newpw")) profile_after.1).1 = mkResp 401 MBadCredentials
  /\ code (run_ok (login true (Some "alice") (Some "alice")) profile_after.1).1 = 200.
Proof. vm_compute. repeat split; reflexivity. Qed.


(** ** [parseInt] reads back [String(n)] *)

Definition dec_value (l : list ascii) (acc : Z) : Z :=
  fold_left (fun a c => a * 10 + (Z.of_nat (nat_of_ascii c) - 48)) l acc.

Lemma digit_val_digit c : is_digit c = true -> digit_val 10 c = Some (Z.of_nat (nat_of_ascii c) - 48).
Proof.
  unfold is_digit, digit_val. intros [H1 H2]%andb_true_iff. apply Nat.leb_le in H1, H2.
  assert (E : ((48 <=? Z.of_nat (nat_of_ascii c)) && (Z.of_nat (nat_of_ascii c) <=? 57))%bool = true)
    by (apply andb_true_iff; split; apply Z.leb_le; lia).
  by rewrite E.
Qed.

Lemma digits_acc_digits l acc seen :
  Forall (fun c => is_digit c = true) l -> (l <> [] \/ seen = true) ->
  digits_acc 10 acc seen l = Some (dec_value l acc).
Proof.
  revert acc seen. induction l as [|c l IH]; intros acc seen Hl Hs; simpl.
  - destruct Hs as [[] | ->]; done.
  - inversion Hl as [|? ? Hc Hl']; subst. rewrite (digit_val_digit c Hc). apply IH; auto.
Qed.

Lemma digit_char_spec n :
  0 <= n < 10 -> is_digit (digit_char n) = true /\ Z.of_nat (nat_of_ascii (digit_char n)) - 48 = n.
Proof.
  intros Hn. unfold digit_char, is_digit. rewrite nat_ascii_embedding by lia.
  split; [apply andb_true_iff; split; apply Nat.leb_le |]; lia.
Qed.

Lemma dec_rev_small f n : 0 <= n < 10 -> rev (dec_rev (S f) n) = [digit_char n].
Proof.
  intros Hn. change (dec_rev (S f) n) with (digit_char (n mod 10) :: (if n <? 10 then [] else dec_rev f (n / 10))).
  rewrite (proj2 (Z.ltb_lt n 10)) by lia. by rewrite Z.mod_small by lia.
Qed.

Lemma dec_rev_spec f n :
  0 <= n < 10 ^ Z.of_nat (S f) ->
  rev (dec_rev (S f) n) <> [] /\ Forall (fun c => is_digit c = true) (rev (dec_rev (S f) n))
  /\ dec_value (rev (dec_rev (S f) n)) 0 = n.
Proof.
  revert n. induction f as [|f IH]; intros n Hn;
    (destruct (Z_lt_le_dec n 10) as [Hs|Hs];
     [rewrite dec_rev_small by lia; destruct (digit_char_spec n) as [Hd Hv]; [lia|];
      split; [done|]; split; [repeat constructor; exact Hd|]; unfold dec_value; simpl; lia|]).
  - rewrite Z.pow_1_r in Hn. lia.
  - change (dec_rev (S (S f)) n) with (digit_char (n mod 10) :: (if n <? 10 then [] else dec_rev (S f) (n / 10))).
    rewrite (proj2 (Z.ltb_ge n 10)) by lia. change (rev (?x :: ?l)) with (rev l ++ [x]).
    assert (Hq : 0 <= n / 10 < 10 ^ Z.of_nat (S f)).
    { split; [apply Z.div_pos; lia|]. apply Z.div_lt_upper_bound; [lia|].
      rewrite <- Z.pow_succ_r by lia. replace (Z.succ (Z.of_nat (S f))) with (Z.of_nat (S (S f))) by lia. lia. }
    destruct (IH (n / 10) Hq) as (_ & Hds & Hval).
    destruct (digit_char_spec (n mod 10)) as [Hd Hv]; [apply Z.mod_pos_bound; lia|].
    split; [intros E; apply app_eq_nil in E as [_ E]; discriminate|].
    split; [apply Forall_app; split; [exact Hds | repeat constructor; exact Hd]|].
    unfold dec_value in *. rewrite fold_left_app, Hval. simpl. rewrite Hv.
    pose proof (Z.div_mod n 10). lia.
Qed.

Lemma dec_fuel n : 0 <= n -> n < 10 ^ Z.of_nat (S (Z.to_nat (Z.log2 n))).
Proof.
  intros Hn. rewrite Nat2Z.inj_succ, Z2Nat.id by apply Z.log2_nonneg.
  apply (Z.lt_le_trans _ (2 ^ Z.succ (Z.log2 n))).
  - destruct (Z.eq_dec n 0) as [->|Hne]; [done|]. apply Z.log2_spec; lia.
  - apply Z.pow_le_mono_l. pose proof (Z.log2_nonneg n). lia.
Qed.

Lemma parse_radix_digits l : Forall (fun c => is_digit c = true) l -> l <> [] -> parse_radix l = (10, l).
Proof.
  intros Hl Hne. destruct l as [|c [|c' t]]; [done| |].
  - destruct c as [[] [] [] [] [] [] [] []]; reflexivity.
  - inversion Hl as [|? ? _ Hl']; inversion Hl' as [|? ? Hc' _]; subst.
    destruct c as [[] [] [] [] [] [] [] []]; try reflexivity.
    destruct c' as [[] [] [] [] [] [] [] []]; try reflexivity; discriminate.
Qed.

Lemma parse_sign_digit c t : is_digit c = true -> parse_sign (c :: t) = (1, c :: t).
Proof. intros Hc. destruct c as [[] [] [] [] [] [] [] []]; try reflexivity; discriminate. Qed.

Lemma digit_not_ws c : is_digit c = true -> is_js_ws c = false.
Proof.
  unfold is_digit, is_js_ws. intros [H1 H2]%andb_true_iff. apply Nat.leb_le in H1, H2.
  destruct (Nat.leb 9 _ && Nat.leb _ 13)%bool eqn:E.
  - apply andb_true_iff in E as [_ E]. apply Nat.leb_le in E. lia.
  - simpl. apply orb_false_iff. split; apply Nat.eqb_neq; lia.
Qed.

(** The digits of [String(n)] for [n >= 0]. *)
Lemma js_digits_spec n :
  0 <= n -> exists c t, rev (dec_rev (S (Z.to_nat (Z.log2 n))) n) = c :: t
  /\ Forall (fun c => is_digit c = true) (c :: t) /\ dec_value (c :: t) 0 = n.
Proof.
  intros Hn. destruct (dec_rev_spec (Z.to_nat (Z.log2 n)) n) as (Hne & Hd & Hv); [split; [lia | by apply dec_fuel]|].
  destruct (rev _) as [|c t]; [done|]. eauto.
Qed.


(** [parseInt(String(n))] is [n]: the points that UserManagement sends
    with [String(values.points)] are read back by updateUser exactly
    (for the integers [js_string_of_Z] models, below 1e21). *)
Theorem parseInt_js_string z : parseInt (js_string_of_Z z) = Some z.
Proof.
  unfold parseInt, js_string_of_Z. rewrite String.list_ascii_of_string_of_list_ascii.
  destruct (js_digits_spec (Z.abs z)) as (c & t & E & Hd & Hv); [lia|]. rewrite E.
  assert (Hc : is_digit c = true) by (inversion Hd; assumption).
  assert (Hdig : digits_acc 10 0 false (c :: t) = Some (Z.abs z))
    by (rewrite digits_acc_digits; [by rewrite Hv | exact Hd | left; discriminate]).
  destruct (Z.ltb_spec z 0).
  - cbn [skip_ws]. replace (is_js_ws "-") with false by reflexivity.
    cbn [parse_sign]. rewrite parse_radix_digits by (done || discriminate).
    rewrite Hdig. simpl. f_equal. lia.
  - cbn [skip_ws]. rewrite (digit_not_ws c Hc), (parse_sign_digit c t Hc).
    rewrite parse_radix_digits by (done || discriminate). rewrite Hdig. simpl. f_equal. lia.
Qed.


(** ** Users created from UserManagement *)

(** Every user absent from [d0] has 0 points. *)
Definition new_users_zero (d0 d : DB) : Prop :=
  forall id u, users d0 !! id = None -> users d !! id = Some u -> u_points u = 0.

Section CreateProps.
Context `{Hasher}.

Lemma createUser_keeps_new_zero now caller body un pw em sid role bio file d0 :
  keeps (new_users_zero d0) (createUser now caller body un pw em sid role bio file).
Proof.
  unfold createUser. keeps_chain.
  intros d id d' Hq HI i u Hi.
  unfold insert_user in Hq. repeat case_match; simplify_eq; simpl.
  all: destruct (decide (i = next_user d)) as [->|Hne];
    [rewrite lookup_insert_eq; intros [= <-]; reflexivity
    | rewrite lookup_insert_ne by done; exact (HI i u Hi)].
Qed.

Variable antd_email : string -> bool.

(** C15: Whatever the required points field holds, a user
    added from UserManagement starts with 0 points: createUser reads no
    [points] from the body. *)
Theorem um_create_points_zero now f file d b r d' :
  um_submit antd_email now None f file d b = Some (r, d') -> new_users_zero d d'.
Proof.
  unfold um_submit. destruct (user_form_valid antd_email true f); [|done]. intros [= E].
  unfold run_ok in E. destruct (run _ _) as [r0 s] eqn:Er. injection E as <- <-.
  change s with (snd (r0, s)). rewrite <- Er. apply keeps_run_db; [| unfold new_users_zero; simpl; congruence].
  unfold route_create_user. apply keeps_verifyToken; intros u. apply keeps_isAdmin.
  apply createUser_keeps_new_zero.
Qed.

End CreateProps.

(** ** An unchanged edit form keeps the points *)

(** The value [String(n)] is never empty. *)
Lemma js_string_nonempty z : String.eqb (js_string_of_Z z) "" = false.
Proof.
  unfold js_string_of_Z. destruct (js_digits_spec (Z.abs z)) as (c & t & E & _); [lia|].
  rewrite E. by destruct (z <? 0).
Qed.

Definition points_are (id p : Z) (d : DB) : Prop := u_points <$> users d !! id = Some p.

(** The points a body carries as [String(p)] are read back as [p] by an
    admin's update and ignored in anyone else's. *)
Lemma user_changes_points caller b p c :
  uu_points b = Some (js_string_of_Z p) -> user_changes caller b = inr c ->
  ch_points c = None \/ ch_points c = Some p.
Proof.
  intros Hp. unfold user_changes. rewrite Hp. cbn [option_map]. rewrite parseInt_js_string.
  repeat case_match; intros; simplify_eq/=; auto.
Qed.

Lemma update_user_points id target c p d n d' :
  ch_points c = None \/ ch_points c = Some p ->
  update_user target c d = inr (n, d') -> points_are id p d -> points_are id p d'.
Proof.
  unfold update_user, points_are. intros Hc Hu HI.
  destruct (users d !! target) as [v|] eqn:Ev; [|by injection Hu as _ <-].
  destruct (negb _); [done|]. destruct (unique_violation _ _ _ _ _); [done|].
  injection Hu as _ <-. simpl. destruct (decide (id = target)) as [->|Hne].
  - rewrite lookup_insert_eq. rewrite Ev in HI. injection HI as <-. simpl.
    by destruct Hc as [-> | ->].
  - rewrite lookup_insert_ne by done. apply HI.
Qed.

Section EditProps.
Context `{Hasher}.

Lemma updateUser_keeps_points caller id target b p :
  uu_points b = Some (js_string_of_Z p) -> keeps (points_are id p) (updateUser caller target b).
Proof.
  intros Hb. unfold updateUser. destruct (negb _ && negb _); [apply keeps_reply|].
  destruct (user_changes caller b) as [m|c] eqn:Ec; [apply keeps_reply|]. keeps_chain.
  - intros d n d' Hu HI. exact (update_user_points id target c p d n d' (user_changes_points _ _ _ _ Hb Ec) Hu HI).
  - by intros d x d' [= _ <-].
Qed.

Variable antd_email : string -> bool.


End EditProps.

(** Alice holds 25 points; the system admin saves her edit form. *)
Definition alice25 : User :=
  mkUser "alice" "alice" None (Some "20230001") None (Some "alice@campus.edu") Student 25 1.
Definition points_db : DB := set_users (<[1 := alice25]> (users Sample.db0)) Sample.db0.



(** The system admin adds eve with the student id "S-1" and 50 points,
    then opens her edit form and saves it. *)
Definition eve_form : UserForm := mkUserForm "eve" "eve@campus.edu" "pw" "S-1" "" "student" "50".
Definition eve_created : Resp * DB :=
  default (mkResp 0 MDbError, Sample.db0) (um_submit email_ok 1 None eve_form None Sample.db0 browser_root).

Lemma um_create_points_zero_witness :
  um_submit email_ok 1 None eve_form None Sample.db0 browser_root = Some eve_created
  /\ new_users_zero Sample.db0 eve_created.2.
Proof.
  assert (E : um_submit email_ok 1 None eve_form None Sample.db0 browser_root = Some eve_created)
    by (vm_compute; reflexivity).
  split; [exact E | exact (um_create_points_zero email_ok 1 eve_form None Sample.db0 browser_root _ _ E)].
Defined.

(** Eve is created with 0 points instead of 50, and her record can
    never be saved again from UserManagement: createUser accepted the
    student id "S-1", which the edit form sends back and updateUser
    refuses as not 8 to 12 digits. *)
Lemma um_student_id_locks_edit :
  eve_created.1 = mkResp 201 (MUserCreated 100 Student)
  /\ (u_points <$> users eve_created.2 !! 100) = Some 0
  /\ match users eve_created.2 !! 100 with
     | Some eve =>
         (um_submit email_ok 2 (Some 100) (edit_form eve) None eve_created.2 browser_root)
         = Some (mkResp 400 MBadStudentId, eve_created.2)
     | None => False
     end.
Proof. vm_compute. repeat split; reflexivity. Qed.

End Client.
