(* ===== verification/Admin.v ===== *)
(** Two admin pages of client/src/pages/admin run against the server
    model: the review table of ActivityReview.tsx and the club table of
    ClubManagement.tsx.  Each page's state is a record of its React
    state (the rows, the current row, the modals' flags and the form's
    fields); each handler is the source's async function, which sends its
    request with the browser's token and, on success, reads its list
    again.  The theorems say what a successful decision, creation or
    deletion leaves in the database and in the table. *)

From S2P Require Import Prelude Schema Handler TimeWindow Registration Reads Lifecycle Clubs Client.

Module Admin.
Import Registration Reads Lifecycle Clubs Client.

(** ** ActivityReview.tsx *)

(** The React state of the page; [rv_feedback] is the [feedback] field
    of the review form. *)
Record ReviewPage := mkReview {
  rv_rows : list ActivityRow;
  rv_current : option ActivityRow;
  rv_review_open : bool;
  rv_detail_open : bool;
  rv_feedback : option string
}.

(** The rows [getPendingActivities] answers. *)
Definition pending_rows (d : DB) : list ActivityRow :=
  order_asc row_created
    (List.filter (fun r => bool_decide (a_status (r_act r) = Pending)) (activity_rows d)).

(** [activityAPI.getPendingActivities] (api/api.ts line 179):
    [GET /api/activities/pending/list] behind [verifyToken] and
    [isAdmin] (activityRoutes.js line 84); [None] is an answer axios
    rejects. *)
Definition fetch_pending (now : Z) (b : Browser) (d : DB) : option (list ActivityRow) :=
  match jwt_verify now (b_token b) with
  | Some u =>
      if decide (p_role u = Admin) then
        match fst (getPendingActivities (mkSys d [])) with
        | Cont rows => Some rows
        | Done _ => None
        end
      else None
  | None => None
  end.

(** [fetchPendingActivities] (lines 37-48): a failure only shows a
    message, the table keeps its rows. *)
Definition fetchPendingActivities (now : Z) (b : Browser) (d : DB) (pg : ReviewPage) : ReviewPage :=
  match fetch_pending now b d with
  | Some rows => mkReview rows (rv_current pg) (rv_review_open pg) (rv_detail_open pg) (rv_feedback pg)
  | None => pg
  end.

(** [handleOpenReviewModal] (lines 54-58), reached from the table's
    button, which is [disabled={!isAdmin}] (line 156): the form is
    reset. *)
Definition handleOpenReviewModal (b : Browser) (r : ActivityRow) (pg : ReviewPage) : ReviewPage :=
  if isAdmin_ui b then mkReview (rv_rows pg) (Some r) true (rv_detail_open pg) None else pg.

(** [handleCloseReviewModal] (lines 60-62). *)
Definition handleCloseReviewModal (pg : ReviewPage) : ReviewPage :=
  mkReview (rv_rows pg) (rv_current pg) false (rv_detail_open pg) (rv_feedback pg).

(** [handleOpenDetailModal] (lines 64-67) and [handleCloseDetailModal]
    (lines 69-71). *)
Definition handleOpenDetailModal (r : ActivityRow) (pg : ReviewPage) : ReviewPage :=
  mkReview (rv_rows pg) (Some r) (rv_review_open pg) true (rv_feedback pg).
Definition handleCloseDetailModal (pg : ReviewPage) : ReviewPage :=
  mkReview (rv_rows pg) (rv_current pg) (rv_review_open pg) false (rv_feedback pg).

(** The detail modal's [审核此活动] button, shown to an admin (lines
    199-211): it closes the detail and opens the review of the current
    activity. *)
Definition review_from_detail (b : Browser) (pg : ReviewPage) : ReviewPage :=
  if negb (isAdmin_ui b) then pg else
  let pg := handleCloseDetailModal pg in
  match rv_current pg with
  | Some r => handleOpenReviewModal b r pg
  | None => pg
  end.

(** Typing in the form's [TextArea]. *)
Definition set_feedback (fb : option string) (pg : ReviewPage) : ReviewPage :=
  mkReview (rv_rows pg) (rv_current pg) (rv_review_open pg) (rv_detail_open pg) fb.

(** [activityAPI.reviewActivity] (api/api.ts lines 175-176):
    [PUT /api/activities/:id/review] with [{ status, feedback }]. *)
Definition send_review (now aid : Z) (st : ActStatus) (fb : option string) (b : Browser) (d : DB)
    : Resp * DB :=
  run_ok (route_review (jwt_verify now (b_token b)) aid (Some st) fb) d.

(** The success branch shared by both decisions: the modal closes and
    the list is read again. *)
Definition after_review (now : Z) (b : Browser) (d : DB) (pg : ReviewPage) : ReviewPage :=
  fetchPendingActivities now b d (handleCloseReviewModal pg).

(** [handleApprove] (lines 73-85): the form is not validated and the
    request carries no feedback. *)
Definition handleApprove (now : Z) (pg : ReviewPage) (d : DB) (b : Browser)
    : option Resp * ReviewPage * DB :=
  match rv_current pg with
  | None => (None, pg, d)
  | Some r =>
      let '(resp, d') := send_review now (r_id r) Approved None b d in
      (Some resp, if ok resp then after_review now b d' pg else pg, d')
  end.

(** The rule [{ required: true }] of the feedback field (line 276): an
    absent or empty value fails [form.validateFields()]. *)
Definition feedback_valid (fb : option string) : bool := truthy_str fb.

(** [handleReject] (lines 87-100): a failed validation throws into the
    [catch], and nothing is sent. *)
Definition handleReject (now : Z) (pg : ReviewPage) (d : DB) (b : Browser)
    : option Resp * ReviewPage * DB :=
  match rv_current pg with
  | None => (None, pg, d)
  | Some r =>
      if negb (feedback_valid (rv_feedback pg)) then (None, pg, d) else
      let '(resp, d') := send_review now (r_id r) Rejected (rv_feedback pg) b d in
      (Some resp, if ok resp then after_review now b d' pg else pg, d')
  end.

(** ** ClubManagement.tsx *)

(** The React state of admin/ClubManagement.tsx: the table, the modal,
    the club being edited, the form's [name] and [description] and the
    newly chosen logo of [fileList] (a file with an [originFileObj]; the
    entry shown for a club's stored logo has none). *)
Record ClubPage := mkClubPage {
  cp_rows : list ClubRow;
  cp_modal : bool;
  cp_editing : option ClubRow;
  cp_name : option string;
  cp_desc : option string;
  cp_file : option string
}.

(** [fetchClubs] (lines 32-43): [clubAPI.getAllClubs()], the public
    [GET /api/clubs]; a failure keeps the table. *)
Definition fetchClubs (now : Z) (b : Browser) (d : DB) (pg : ClubPage) : ClubPage :=
  match fst (route_get_clubs (jwt_verify now (b_token b)) (mkSys d [])) with
  | Cont rows => mkClubPage rows (cp_modal pg) (cp_editing pg) (cp_name pg) (cp_desc pg) (cp_file pg)
  | Done _ => pg
  end.

(** [handleOpenModal] (lines 49-72): an edit fills the form with the
    club's name and description, a new club resets it; the buttons are
    [disabled={!isAdmin}] (lines 190, 203). *)
Definition handleOpenModal (b : Browser) (club : option ClubRow) (pg : ClubPage) : ClubPage :=
  if negb (isAdmin_ui b) then pg else
  match club with
  | Some c => mkClubPage (cp_rows pg) true (Some c) (Some (c_name (cr_club c)))
                (c_description (cr_club c)) None
  | None => mkClubPage (cp_rows pg) true None None None None
  end.

(** [handleCloseModal] (lines 74-78): [form.resetFields()] and an empty
    [fileList]. *)
Definition handleCloseModal (pg : ClubPage) : ClubPage :=
  mkClubPage (cp_rows pg) false (cp_editing pg) None None None.

(** Typing in the form and choosing a file. *)
Definition set_club_fields (n ds : option string) (file : option string) (pg : ClubPage) : ClubPage :=
  mkClubPage (cp_rows pg) (cp_modal pg) (cp_editing pg) n ds file.

(** The rules [{ required: true }] of [name] and [description] (lines
    261, 269). *)
Definition club_form_valid (pg : ClubPage) : bool := truthy_str (cp_name pg) && truthy_str (cp_desc pg).

(** [handleSubmit] (lines 92-118): after validation, the form data with
    [name], [description] and the new logo, if any, as
    [clubAPI.updateClub] or [clubAPI.createClub] (api/api.ts lines
    108-121); on success the modal closes and the table is read again.
    The server's answer uses the time [now] for the new row. *)
Definition club_submit (now : Z) (pg : ClubPage) (d : DB) (b : Browser) : option Resp * ClubPage * DB :=
  if negb (club_form_valid pg) then (None, pg, d) else
  let tok := jwt_verify now (b_token b) in
  let '(resp, d') :=
    match cp_editing pg with
    | Some c => run_ok (route_update_club tok (cr_id c) (cp_name pg) (cp_desc pg) (cp_file pg)) d
    | None => run_ok (route_create_club now tok (cp_name pg) (cp_desc pg) (cp_file pg)) d
    end in
  (Some resp, if ok resp then fetchClubs now b d' (handleCloseModal pg) else pg, d').

(** [handleDelete] (lines 120-129), from the [Popconfirm] of a row
    ([disabled={!isAdmin}], line 197): [DELETE /api/clubs/:id], then
    the table is read again. *)
Definition club_delete (now cid : Z) (pg : ClubPage) (d : DB) (b : Browser) : option Resp * ClubPage * DB :=
  if negb (isAdmin_ui b) then (None, pg, d) else
  let '(resp, d') := run_ok (route_delete_club (jwt_verify now (b_token b)) cid) d in
  (Some resp, if ok resp then fetchClubs now b d' pg else pg, d').

(** ** A review session of the system admin *)

(** A pending activity 2 of club 1 beside the sample's approved one. *)
Definition act2 : Activity :=
  mkActivity "Quiz" "A quiz night" 1 "Hall" (Sample.T + 86400000) (Sample.T + 93600000) 5 30
    Pending None None 1.
Definition db_pend : DB := set_activities (<[2 := act2]> (activities Sample.db0)) Sample.db0.

(** The page after its first [fetchPendingActivities], with the review
    modal opened on the listed row and the feedback typed in. *)
Definition review_pg0 : ReviewPage :=
  fetchPendingActivities 0 browser_root db_pend (mkReview [] None false false None).
Definition review_pg (fb : option string) : ReviewPage :=
  match rv_rows review_pg0 with
  | r :: _ => set_feedback fb (handleOpenReviewModal browser_root r review_pg0)
  | [] => review_pg0
  end.

Definition approved_out : option Resp * ReviewPage * DB :=
  handleApprove 0 (review_pg (Some "Looks good")) db_pend browser_root.
Definition rejected_out : option Resp * ReviewPage * DB :=
  handleReject 0 (review_pg (Some "Needs a poster")) db_pend browser_root.

(** The system admin adds the club "Chess" from the club table, then
    deletes it. *)
Definition club_pg0 : ClubPage :=
  fetchClubs 0 browser_root Sample.db0 (mkClubPage [] false None None None None).
Definition club_pg_new : ClubPage :=
  set_club_fields (Some "Chess") (Some "Board games") None (handleOpenModal browser_root None club_pg0).
Definition created_out : option Resp * ClubPage * DB := club_submit 0 club_pg_new Sample.db0 browser_root.
Definition deleted_out : option Resp * ClubPage * DB :=
  club_delete 0 2 created_out.1.2 created_out.2 browser_root.

(** ** Properties *)

Lemma review_row_hit aid st fb d d' :
  review_row aid st fb d = Some (1%nat, d') ->
  exists a a', activities d !! aid = Some a /\ d' = set_activities (<[aid := a']> (activities d)) d
               /\ a_status a' = st /\ a_feedback a' = fb.
Proof.
  unfold review_row. destruct (activities d !! aid) as [a|]; intros [= <-]; eauto 10.
Qed.

Lemma review_row_miss aid st fb d d' :
  review_row aid st fb d = Some (0%nat, d') -> activities d !! aid = None /\ d' = d.
Proof. unfold review_row. by destruct (activities d !! aid); intros [=]. Qed.

(** A review the server accepts came from a system admin's token and
    wrote the decision and the feedback it received into the activity. *)
Lemma send_review_ok now aid st fb b d resp d' :
  st = Approved \/ st = Rejected ->
  send_review now aid st fb b d = (resp, d') -> ok resp = true ->
  (exists u, jwt_verify now (b_token b) = Some u /\ p_role u = Admin) /\
  exists a a', activities d !! aid = Some a /\ d' = set_activities (<[aid := a']> (activities d)) d
               /\ a_status a' = st /\ a_feedback a' = (if truthy_str fb then fb else None).
Proof.
  intros Hst. unfold send_review, route_review, verifyToken, isAdmin, reviewActivity, run_ok, run, bind.
  destruct (jwt_verify now (b_token b)) as [u|]; [|by intros [= <- _]].
  destruct (decide (p_role u = Admin)); [|by intros [= <- _]].
  assert (Hb : (bool_decide (st = Approved) || bool_decide (st = Rejected)) = true)
    by (destruct Hst; subst; reflexivity).
  rewrite Hb, query_ok.
  destruct (review_row aid st (if truthy_str fb then fb else None) d) as [[[|[|n]] d0]|] eqn:E;
    cbn; intros Heq; injection Heq as <- <-; try done.
  - intros _. split; [eauto|]. by apply review_row_hit.
  - unfold review_row in E. by destruct (activities d !! aid); injection E.
Qed.

Lemma fetch_pending_admin now b d u :
  jwt_verify now (b_token b) = Some u -> p_role u = Admin ->
  fetch_pending now b d = Some (pending_rows d).
Proof. intros Hu Ha. unfold fetch_pending. rewrite Hu. by rewrite decide_True. Qed.

Lemma pending_rows_elem d r :
  r ∈ pending_rows d -> activities d !! r_id r = Some (r_act r) /\ a_status (r_act r) = Pending.
Proof.
  unfold pending_rows. rewrite order_asc_elem, elem_of_List_filter, elem_activity_rows.
  intros [Hp (id & a & Ha & Hr)]. apply bool_decide_eq_true in Hp.
  apply activity_row_Some in Hr as (c & _ & ->). done.
Qed.

(** The success branch of both decisions: the decision is stored, the
    modal is closed, and the table holds the pending list of the new
    database, from which the reviewed activity is gone. *)
Lemma decision_refreshes now aid st fb b d resp d' pg :
  st = Approved \/ st = Rejected ->
  send_review now aid st fb b d = (resp, d') -> ok resp = true ->
  (exists a, activities d' !! aid = Some a /\ a_status a = st
             /\ a_feedback a = (if truthy_str fb then fb else None))
  /\ rv_review_open (after_review now b d' pg) = false
  /\ rv_rows (after_review now b d' pg) = pending_rows d'
  /\ forall r, r ∈ rv_rows (after_review now b d' pg) -> r_id r <> aid.
Proof.
  intros Hst Hs Hok.
  destruct (send_review_ok _ _ _ _ _ _ _ _ Hst Hs Hok) as [(u & Hu & Ha) (a & a' & _ & -> & Hs' & Hf)].
  unfold after_review, fetchPendingActivities. rewrite (fetch_pending_admin _ _ _ _ Hu Ha). simpl.
  split; [exists a'; by rewrite lookup_insert_eq|]. do 2 (split; [done|]).
  intros r Hr Heq. apply pending_rows_elem in Hr as [Hr Hp]. simpl in Hr. rewrite Heq in Hr.
  rewrite lookup_insert_eq in Hr. injection Hr as Hr. rewrite <- Hr in Hp.
  destruct Hst; congruence.
Qed.


(** [handleReject] sends nothing while the feedback is absent or
    empty; a successful rejection stores [rejected] with the form's
    feedback, closes the modal and drops the activity from the table. *)
Theorem reject_requires_feedback now pg d b :
  (feedback_valid (rv_feedback pg) = false -> handleReject now pg d b = (None, pg, d))
  /\ forall resp pg' d', handleReject now pg d b = (Some resp, pg', d') -> ok resp = true ->
     exists r a, rv_current pg = Some r /\ activities d' !! r_id r = Some a
       /\ a_status a = Rejected /\ a_feedback a = rv_feedback pg /\ feedback_valid (rv_feedback pg) = true
       /\ rv_review_open pg' = false /\ rv_rows pg' = pending_rows d'
       /\ forall r', r' ∈ rv_rows pg' -> r_id r' <> r_id r.
Proof.
  unfold handleReject. split; [intros ->; by destruct (rv_current pg)|].
  destruct (rv_current pg) as [r|]; [|by intros ? ? ? [=]].
  destruct (feedback_valid (rv_feedback pg)) eqn:Hv; [|by intros ? ? ? [=]].
  destruct (send_review now (r_id r) Rejected (rv_feedback pg) b d) as [resp0 d0] eqn:Hs.
  intros resp pg' d' [= <- <- <-] Hok. rewrite Hok.
  destruct (decision_refreshes now (r_id r) Rejected (rv_feedback pg) b d resp0 d0 pg)
    as ((a & ? & ? & Hf) & ? & ? & ?); auto.
  unfold feedback_valid in Hv. rewrite Hv in Hf. exists r, a. auto 10.
Qed.

Lemma fetchClubs_rows now b d pg :
  cp_rows (fetchClubs now b d pg) = club_rows d /\ cp_modal (fetchClubs now b d pg) = cp_modal pg.
Proof.
  unfold fetchClubs, route_get_clubs. by rewrite getAllClubs_None_ok.
Qed.

Lemma elem_club_rows d r :
  r ∈ club_rows d <->
  clubs d !! cr_id r = Some (cr_club r) /\ cr_members r = member_count (cr_id r) d /\ cr_is_member r = false.
Proof.
  unfold club_rows. rewrite elem_of_List_map. setoid_rewrite order_by_elem. split.
  - intros ([id c] & -> & Hin). apply elem_of_map_to_list in Hin. done.
  - destruct r as [id c n m]. simpl. intros (Hc & -> & ->).
    exists (id, c). split; [done|]. by apply elem_of_map_to_list.
Qed.

Lemma ok_code c m : ok (mkResp c m) = (c <? 400).
Proof. reflexivity. Qed.

(** A creation the server accepts stored the form's club under the next
    id, administered by the token's user. *)
Lemma create_club_ok now tok n ds l d resp d' :
  run_ok (route_create_club now tok n ds l) d = (resp, d') -> ok resp = true ->
  exists u, tok = Some u /\
    clubs d' !! next_club d = Some (mkClub (default "" n) (Some (default "" ds)) l (Some (p_id u)) now).
Proof.
  unfold route_create_club. destruct tok as [u|]; autorewrite with ltf_rw; [|by intros [= <- _]].
  pose proof (createClub_run now u n ds l d) as H. destruct (run_ok _ d) as [r0 d0].
  intros [= <- <-] Hok. exists u. split; [done|].
  destruct (negb _); [destruct H as [-> _]; discriminate|].
  destruct (users d !! p_id u); [|destruct H as [-> _]; discriminate].
  destruct (name_taken _ _ _); [destruct H as [-> _]; discriminate|].
  destruct H as (_ & -> & _). by rewrite lookup_insert_eq.
Qed.

(** A deletion the server accepts removed the club. *)
Lemma delete_club_ok tok cid d resp d' :
  run_ok (route_delete_club tok cid) d = (resp, d') -> ok resp = true -> clubs d' !! cid = None.
Proof.
  unfold route_delete_club. destruct tok as [u|]; autorewrite with ltf_rw; [|by intros [= <- _]].
  case_decide; [|by intros [= <- _]].
  pose proof (deleteClub_run u cid d) as Hrun. destruct (run_ok _ d) as [r0 d0].
  intros [= <- <-] Hok.
  destruct (clubs d !! cid); [|destruct Hrun as [-> _]; discriminate].
  destruct (negb _ && negb _); [destruct Hrun as [-> _]; discriminate|].
  destruct (negb _); [destruct Hrun as [-> _]; discriminate|].
  destruct Hrun as (_ & -> & _). by rewrite lookup_delete_eq.
Qed.

(** A new club saved from admin/ClubManagement is on the table read
    after the success: its row carries the next id and the form's name,
    description and logo, the modal is closed. *)
Theorem club_create_listed now pg d b resp pg' d' :
  cp_editing pg = None -> club_submit now pg d b = (Some resp, pg', d') -> ok resp = true ->
  cp_modal pg' = false /\
  exists r, r ∈ cp_rows pg' /\ cr_id r = next_club d
    /\ cr_club r = mkClub (default "" (cp_name pg)) (Some (default "" (cp_desc pg))) (cp_file pg)
                     (c_admin (cr_club r)) now.
Proof.
  intros He. unfold club_submit. rewrite He. destruct (negb _); [by intros [=]|].
  destruct (run_ok _ d) as [r0 d0] eqn:Hr. intros [= <- <- <-] Hok. rewrite Hok.
  destruct (create_club_ok _ _ _ _ _ _ _ _ Hr Hok) as (u & _ & Hc).
  destruct (fetchClubs_rows now b d0 (handleCloseModal pg)) as [-> ->]. split; [done|].
  eexists (mkClubRow (next_club d) _ (member_count (next_club d) d0) false).
  rewrite elem_club_rows. simpl. eauto.
Qed.

(** After a deletion the server accepts, the table read again has no
    row of the club. *)
Theorem club_delete_unlisted now cid pg d b resp pg' d' :
  club_delete now cid pg d b = (Some resp, pg', d') -> ok resp = true ->
  forall r, r ∈ cp_rows pg' -> cr_id r <> cid.
Proof.
  unfold club_delete. destruct (negb _); [by intros [=]|].
  destruct (run_ok _ d) as [r0 d0] eqn:Hr. intros [= <- <- <-] Hok. rewrite Hok.
  destruct (fetchClubs_rows now b d0 pg) as [-> _]. intros r Hin <-.
  apply elem_club_rows in Hin as [Hin _]. by rewrite (delete_club_ok _ _ _ _ _ Hr Hok) in Hin.
Qed.


Lemma reject_requires_feedback_witness :
  handleReject 0 (review_pg None) db_pend browser_root = (None, review_pg None, db_pend)
  /\ rejected_out = (Some (mkResp 200 (MReviewed Rejected)), rejected_out.1.2, rejected_out.2)
  /\ exists r a, rv_current (review_pg (Some "Needs a poster")) = Some r
    /\ activities rejected_out.2 !! r_id r = Some a
    /\ a_status a = Rejected /\ a_feedback a = Some "Needs a poster"
    /\ rv_rows rejected_out.1.2 = [].
Proof.
  assert (E : rejected_out = (Some (mkResp 200 (MReviewed Rejected)), rejected_out.1.2, rejected_out.2))
    by (vm_compute; reflexivity).
  split; [exact (proj1 (reject_requires_feedback 0 (review_pg None) db_pend browser_root) eq_refl)|].
  split; [exact E|].
  destruct (proj2 (reject_requires_feedback 0 (review_pg (Some "Needs a poster")) db_pend browser_root)
              _ _ _ E eq_refl) as (r & a & Hr & Ha & Hs & Hf & _ & _ & Hrows & _).
  exists r, a. do 3 (split; [done|]). split; [exact Hf|].
  rewrite Hrows. vm_compute. reflexivity.
Defined.

Lemma club_create_listed_witness :
  cp_editing club_pg_new = None
  /\ created_out = (Some (mkResp 201 (MClubCreated 2)), created_out.1.2, created_out.2)
  /\ cp_modal created_out.1.2 = false
  /\ exists r, r ∈ cp_rows created_out.1.2 /\ cr_id r = next_club Sample.db0
     /\ cr_club r = mkClub "Chess" (Some "Board games") None (c_admin (cr_club r)) 0.
Proof.
  assert (E : created_out = (Some (mkResp 201 (MClubCreated 2)), created_out.1.2, created_out.2))
    by (vm_compute; reflexivity).
  split; [reflexivity|]. split; [exact E|].
  exact (club_create_listed 0 club_pg_new Sample.db0 browser_root _ _ _ eq_refl E eq_refl).
Defined.

Lemma club_delete_unlisted_witness :
  deleted_out = (Some (mkResp 200 (MClubDeleted 1)), deleted_out.1.2, deleted_out.2)
  /\ forall r, r ∈ cp_rows deleted_out.1.2 -> cr_id r <> 2.
Proof.
  assert (E : deleted_out = (Some (mkResp 200 (MClubDeleted 1)), deleted_out.1.2, deleted_out.2))
    by (vm_compute; reflexivity).
  split; [exact E|].
  exact (club_delete_unlisted 0 2 created_out.1.2 created_out.2 browser_root _ _ _ E eq_refl).
Defined.

End Admin.
