(* ===== verification/AdminActivities.v ===== *)
(** The activity table of client/src/pages/admin/ActivityManagement.tsx
    run against the server model: the list read from [getAllActivities],
    the search, status filter and sort of its [useEffect], and the form
    that creates, edits and deletes activities.  The theorems describe
    the table the page shows and what a saved form leaves in it. *)

From S2P Require Import Prelude Schema Handler TimeWindow Registration Reads Lifecycle Users Client.

Module AdminActivities.
Import TimeWindow Registration Reads Lifecycle Users Client.

(** ** The table *)

(** [searchText], [statusFilter] (['']: none, as after [allowClear]) and
    [sortOrder]. *)
Record AMFilters := mkAMFilters { am_search : string; am_status : string; am_sort : string }.

(** The search of lines 106-111: title, club name or location contains
    the lower-cased text. *)
Definition am_search_hit (q : string) (r : ActivityRow) : bool :=
  includes (js_lower (a_title (r_act r))) (js_lower q)
  || includes (js_lower (r_club_name r)) (js_lower q)
  || includes (js_lower (a_location (r_act r))) (js_lower q).

(** The [useEffect] of lines 102-121: the search and the status filter
    when their text is truthy, then the sort, [Array.prototype.sort]
    being stable like [merge_sort]. *)
Definition am_filter (f : AMFilters) (activities : list ActivityRow) : list ActivityRow :=
  let filtered := activities in
  let filtered := if String.eqb (am_search f) "" then filtered
                  else List.filter (am_search_hit (am_search f)) filtered in
  let filtered := if String.eqb (am_status f) "" then filtered
                  else List.filter (fun r => String.eqb (status_json (r_status r)) (am_status f)) filtered in
  if String.eqb (am_sort f) "time" then order_desc row_start filtered
  else if String.eqb (am_sort f) "popularity" then order_desc (fun r => Z.of_nat (r_participants r)) filtered
  else if String.eqb (am_sort f) "points" then order_desc (fun r => a_points (r_act r)) filtered
  else filtered.

(** The options of the status [Select] (lines 419-422). *)
Definition am_status_options : list string := ["pending"; "approved"; "rejected"; "completed"].

(** [getStatusLabel] (lines 228-243). *)
Definition am_status_label (s : string) : string :=
  if String.eqb s "upcoming" then "即将开始"
  else if String.eqb s "ongoing" then "进行中"
  else if String.eqb s "completed" then "已结束"
  else if String.eqb s "pending" then "待审核"
  else if String.eqb s "rejected" then "已拒绝"
  else "未知".

(** ** The form *)

(** The fields of the modal's form ([None]: empty); [time] is the
    [RangePicker]'s pair, sent as [YYYY-MM-DD HH:mm:ss] and read back by
    the server as the same instant. *)
Record ActivityForm := mkAForm {
  af_title : option string;
  af_club : option Z;
  af_location : option string;
  af_time : option (Z * Z);
  af_points : option Z;
  af_max : option Z;
  af_desc : option string
}.

Definition empty_form : ActivityForm := mkAForm None None None None None None None.

(** The rules [{ required: true }] of lines 466-523. *)
Definition aform_valid (f : ActivityForm) : bool :=
  truthy_str (af_title f) && bool_decide (is_Some (af_club f)) && truthy_str (af_location f)
  && bool_decide (is_Some (af_time f)) && bool_decide (is_Some (af_points f)) && bool_decide (is_Some (af_max f))
  && truthy_str (af_desc f).

(** The [FormData] of lines 186-194 as the server's [req.body]. *)
Definition aform_body (f : ActivityForm) : ActivityInput :=
  mkInput (af_title f) (af_desc f) (af_club f) (af_location f)
    (fst <$> af_time f) (snd <$> af_time f) (af_points f) (af_max f).

(** The React state of the page. *)
Record AMPage := mkAMPage {
  am_rows : list ActivityRow;
  am_filters : AMFilters;
  am_modal : bool;
  am_editing : option ActivityRow;
  am_form : ActivityForm;
  am_file : option string
}.

(** [filteredActivities], the rows the table shows. *)
Definition am_displayed (pg : AMPage) : list ActivityRow := am_filter (am_filters pg) (am_rows pg).

Definition set_am_rows (rows : list ActivityRow) (pg : AMPage) : AMPage :=
  mkAMPage rows (am_filters pg) (am_modal pg) (am_editing pg) (am_form pg) (am_file pg).
Definition set_am_filters (f : AMFilters) (pg : AMPage) : AMPage :=
  mkAMPage (am_rows pg) f (am_modal pg) (am_editing pg) (am_form pg) (am_file pg).
Definition set_am_form (f : ActivityForm) (file : option string) (pg : AMPage) : AMPage :=
  mkAMPage (am_rows pg) (am_filters pg) (am_modal pg) (am_editing pg) f file.

(** [fetchActivities] (lines 70-83): [activityAPI.getAllActivities()]
    with no query string; a failure keeps the table. *)
Definition am_fetch (now : Z) (d : DB) (pg : AMPage) : AMPage :=
  match fst (getAllActivities now None None (mkSys d [])) with
  | Cont rows => set_am_rows rows pg
  | Done _ => pg
  end.

(** [handleOpenModal] (lines 128-160): an edit fills the form from the
    row, a new activity starts with 0 points and 20 places; the add
    button exists only for an admin (line 388), the edit button is
    [disabled={!isAdmin}] (line 353). *)
Definition am_open (b : Browser) (row : option ActivityRow) (pg : AMPage) : AMPage :=
  if negb (isAdmin_ui b) then pg else
  let f := match row with
           | Some r =>
               let a := r_act r in
               mkAForm (Some (a_title a)) (Some (a_club a)) (Some (a_location a))
                 (Some (a_start a, a_end a)) (Some (a_points a)) (Some (a_max a))
                 (Some (a_description a))
           | None => mkAForm None None None None (Some 0) (Some 20) None
           end in
  mkAMPage (am_rows pg) (am_filters pg) true row f None.

(** [handleCloseModal] (lines 163-167). *)
Definition am_close (pg : AMPage) : AMPage :=
  mkAMPage (am_rows pg) (am_filters pg) false (am_editing pg) empty_form None.

(** [handleSubmit] (lines 183-213): nothing is sent when a rule fails;
    an edit is [PUT /api/activities/:id], a new activity
    [POST /api/activities], both with the form data and the new image;
    on success the modal closes and the list is read again. *)
Definition am_submit (now : Z) (pg : AMPage) (d : DB) (b : Browser) : option Resp * AMPage * DB :=
  if negb (aform_valid (am_form pg)) then (None, pg, d) else
  let tok := jwt_verify now (b_token b) in
  let body := Some (aform_body (am_form pg)) in
  let '(resp, d') :=
    match am_editing pg with
    | Some r => run_ok (route_update tok (r_id r) body (am_file pg)) d
    | None => run_ok (route_create now tok body (am_file pg)) d
    end in
  (Some resp, if ok resp then am_fetch now d' (am_close pg) else pg, d').

(** [handleDelete] (lines 216-225), from the row's [Popconfirm]
    ([disabled={!isAdmin}], line 360). *)
Definition am_delete (now aid : Z) (pg : AMPage) (d : DB) (b : Browser) : option Resp * AMPage * DB :=
  if negb (isAdmin_ui b) then (None, pg, d) else
  let '(resp, d') := run_ok (route_delete (jwt_verify now (b_token b)) aid) d in
  (Some resp, if ok resp then am_fetch now d' pg else pg, d').

(** ** The system admin's table on the sample database *)

Definition am_pg0 : AMPage :=
  am_fetch 0 Sample.db0 (mkAMPage [] (mkAMFilters "" "" "time") false None empty_form None).
Definition am_pg_approved : AMPage := set_am_filters (mkAMFilters "" "approved" "time") am_pg0.
Definition chess_form : ActivityForm :=
  mkAForm (Some "Chess night") (Some 1) (Some "Room 2") (Some (Sample.T + 86400000, Sample.T + 93600000))
    (Some 5) (Some 10) (Some "Games").
Definition am_new : AMPage := set_am_form chess_form None (am_open browser_root None am_pg0).
Definition am_created : option Resp * AMPage * DB := am_submit 0 am_new Sample.db0 browser_root.

(** ** Properties *)

Lemma am_fetch_rows now d pg :
  am_rows (am_fetch now d pg) =
  List.map (derive_row now) (order_desc row_start (List.filter (list_filter None None) (activity_rows d)))
  /\ am_modal (am_fetch now d pg) = am_modal pg.
Proof. unfold am_fetch. by rewrite getAllActivities_ok. Qed.

(** The search keeps a sub-list of the rows. *)
Lemma am_search_sub f l r :
  r ∈ (if String.eqb (am_search f) "" then l else List.filter (am_search_hit (am_search f)) l) -> r ∈ l.
Proof. destruct (String.eqb _ _); [done|]. by intros [_ ?]%elem_of_List_filter. Qed.

(** Whatever the search and the sort, the status filter [approved] keeps
    no row whose status is not [approved]. *)
Lemma am_filter_approved_nil f l :
  am_status f = "approved" -> (forall r, r ∈ l -> r_status r <> SApproved) -> am_filter f l = [].
Proof.
  intros Hf Hl. unfold am_filter. rewrite Hf. simpl.
  rewrite filter_all_false; [by repeat case_match|].
  intros r Hin%list_elem_of_In%am_search_sub. apply String.eqb_neq.
  specialize (Hl r Hin). destruct (r_status r); simpl; congruence.
Qed.

(** C34: The status filter offers [approved], but the rows of
    [getAllActivities] carry the status derived from the clock, so
    choosing it empties the admin table whatever the database holds. *)
Theorem am_approved_filter_empty now d pg :
  am_status (am_filters pg) = "approved" -> am_displayed (am_fetch now d pg) = [].
Proof.
  intros Hf. unfold am_displayed. destruct (am_fetch_rows now d pg) as [Hr _].
  rewrite Hr. apply am_filter_approved_nil; [unfold am_fetch; by destruct (fst _)|].
  intros r [x [-> _]]%elem_of_List_map. apply derive_status_never_approved.
Qed.

(** C35: The JSON status of every row the admin table receives is one
    of the values its [getStatusLabel] names: whatever the database and
    the clock, no row is labelled [未知] (unknown), because the server
    sends [pending], [rejected], [completed], [upcoming] or [ongoing]
    and never the stored [approved]. *)
Theorem am_labels_known now d pg r :
  r ∈ am_rows (am_fetch now d pg) -> am_status_label (status_json (r_status r)) <> "未知".
Proof.
  destruct (am_fetch_rows now d pg) as [-> _]. intros (x & -> & _)%elem_of_List_map. simpl.
  pose proof (derive_status_never_approved (a_status (r_act x)) (a_start (r_act x)) (a_end (r_act x)) now) as Hn.
  destruct (derive_status _ _ _ _); simpl; done.
Qed.

(** A creation the server accepts stored the body under the next id,
    approved when a system admin created it. *)
Lemma route_create_ok now tok b img d resp d' :
  run_ok (route_create now tok (Some b) img) d = (resp, d') -> ok resp = true ->
  exists u cid start end_, tok = Some u /\ in_club b = Some cid /\ in_start b = Some start
    /\ in_end b = Some end_ /\ is_Some (clubs d' !! cid)
    /\ activities d' = <[next_activity d := new_activity now b cid start end_
                          (if bool_decide (p_role u = Admin) then Approved else Pending) img]> (activities d)
    /\ clubs d' = clubs d.
Proof.
  unfold route_create. destruct tok as [u|]; autorewrite with ltf_rw; [|by intros [= <- _]].
  case_decide; [|by intros [= <- _]].
  unfold run_ok, run, createActivity, bind, select, query, reply, next_fault, insert_activity.
  destruct (in_club b) as [cid|], (in_start b) as [start|], (in_end b) as [end_|]; simpl;
    try (by intros [= <- _]).
  repeat (simpl; hstep); simpl; try (by intros [= <- _]).
  all: intros [= <- <-] _; repeat case_match; simplify_eq/=; do 4 eexists; repeat split; eauto.
  all: match goal with E : bool_decide (p_role _ = Admin) = _ |- _ => by rewrite E end.
Qed.

(** A new activity saved from the admin table is on the table read
    after the success: under the next id, with the form's title, club,
    times and points, stored approved for a system admin's token and
    pending otherwise, and shown with the status derived from the clock;
    the modal is closed. *)
Theorem am_create_listed now pg d b resp pg' d' :
  am_editing pg = None -> am_submit now pg d b = (Some resp, pg', d') -> ok resp = true ->
  am_modal pg' = false /\
  exists u r, jwt_verify now (b_token b) = Some u /\ r ∈ am_rows pg' /\ r_id r = next_activity d
    /\ a_title (r_act r) = default "" (af_title (am_form pg)) /\ Some (a_club (r_act r)) = af_club (am_form pg)
    /\ Some (a_start (r_act r), a_end (r_act r)) = af_time (am_form pg)
    /\ a_points (r_act r) = field_or (af_points (am_form pg)) 0
    /\ a_status (r_act r) = (if bool_decide (p_role u = Admin) then Approved else Pending)
    /\ r_status r = derive_status (a_status (r_act r)) (a_start (r_act r)) (a_end (r_act r)) now.
Proof.
  intros He. unfold am_submit. rewrite He. destruct (negb _); [by intros [=]|].
  destruct (run_ok _ d) as [r0 d0] eqn:Hr. intros [= <- <- <-] Hok. rewrite Hok.
  destruct (route_create_ok _ _ _ _ _ _ _ Hr Hok)
    as (u & cid & start & end_ & -> & Hc & Hs & Hf & [club Hcl] & Ha & _).
  destruct (am_fetch_rows now d0 (am_close pg)) as [-> ->]. split; [done|].
  set (a := new_activity now (aform_body (am_form pg)) cid start end_
              (if bool_decide (p_role u = Admin) then Approved else Pending) (am_file pg)).
  exists u, (derive_row now (mkRow (next_activity d) a (c_name club) (c_logo club)
                               (count_participants (next_activity d) d0) (stored_status (a_status a)))).
  split; [done|]. split.
  - apply getAllActivities_row_elem; [by rewrite Ha, lookup_insert_eq | done].
  - simpl in Hc, Hs, Hf. destruct (af_time (am_form pg)) as [[t1 t2]|]; simplify_eq/=. auto 10.
Qed.

Lemma am_approved_filter_empty_witness :
  a_status (r_act (default (mkRow 0 Sample.act1 "" None 0 SPending) (head (am_rows am_pg0)))) = Approved
  /\ am_displayed (am_fetch 0 Sample.db0 am_pg_approved) = [].
Proof.
  split; [vm_compute; reflexivity|].
  exact (am_approved_filter_empty 0 Sample.db0 am_pg_approved eq_refl).
Defined.

Lemma am_create_listed_witness :
  am_created = (Some (mkResp 201 (MCreated 2 Approved)), am_created.1.2, am_created.2)
  /\ am_modal am_created.1.2 = false
  /\ exists u r, jwt_verify 0 (b_token browser_root) = Some u /\ r ∈ am_rows am_created.1.2
    /\ r_id r = 2 /\ a_title (r_act r) = "Chess night" /\ Some (a_club (r_act r)) = Some 1
    /\ Some (a_start (r_act r), a_end (r_act r)) = Some (Sample.T + 86400000, Sample.T + 93600000)
    /\ a_points (r_act r) = 5
    /\ a_status (r_act r) = (if bool_decide (p_role u = Admin) then Approved else Pending)
    /\ r_status r = derive_status (a_status (r_act r)) (a_start (r_act r)) (a_end (r_act r)) 0.
Proof.
  assert (E : am_created = (Some (mkResp 201 (MCreated 2 Approved)), am_created.1.2, am_created.2))
    by (vm_compute; reflexivity).
  split; [exact E|].
  exact (am_create_listed 0 am_new Sample.db0 browser_root _ _ _ eq_refl E eq_refl).
Defined.

Lemma am_labels_known_witness :
  let r := default (mkRow 0 Sample.act1 "" None 0 SPending) (head (am_rows (am_fetch 0 Sample.db0 am_pg0))) in
  r ∈ am_rows (am_fetch 0 Sample.db0 am_pg0) /\ am_status_label (status_json (r_status r)) <> "未知".
Proof.
  intros r. assert (H : r ∈ am_rows (am_fetch 0 Sample.db0 am_pg0)) by (vm_compute; constructor).
  split; [exact H | exact (am_labels_known 0 Sample.db0 am_pg0 r H)].
Defined.

End AdminActivities.
