(* ===== verification/Pages.v ===== *)
(** The public pages and the route guards of client/src: the home page
    (pages/Home.tsx), the points ranking (pages/PointsRanking.tsx), the
    activity centre (pages/ActivityList.tsx), the login and registration
    forms (pages/Login.tsx, pages/Register.tsx),
    and [PrivateRoute] and [AdminRoute] (components/auth), which decide
    from the [AuthContext] state whether a page is shown.  The theorems
    give the home page's statistics, the ranks the ranking page shows,
    what an expired admin session sees, that the registration form signs
    a new student in on every reachable database, and that the activity
    centre lists activities no admin has approved. *)

From S2P Require Import Prelude Schema Handler TimeWindow Registration Reads Lifecycle Clubs Users Server Counters Client Admin.

Module Pages.
Import TimeWindow Reads Lifecycle Clubs Users Server Counters Client Admin.

(** ** Route guards *)

(** What a guard renders once the provider is initialised (its
    [loading] spinner only shows while [fetchCurrentUser] runs, which the
    model performs in one step). *)
Inductive Guarded := GLogin | GForbidden | GRender.

#[export] Instance Guarded_eq_dec : EqDecision Guarded.
Proof. solve_decision. Defined.

(** [PrivateRoute] (lines 10-34): [Navigate] to [/login] unless
    [isAuthenticated]. *)
Definition private_route (b : Browser) : Guarded :=
  if isAuthenticated b then GRender else GLogin.

(** [AdminRoute] (lines 10-52): signed out to [/login], signed in
    without the admin role to the 403 [Result]. *)
Definition admin_route (b : Browser) : Guarded :=
  if negb (isAuthenticated b) then GLogin
  else if negb (isAdmin_ui b) then GForbidden
  else GRender.

(** ** Home.tsx *)

(** The three lists the page keeps. *)
Record HomeData := mkHome {
  h_clubs : list ClubRow;
  h_activities : list ActivityRow;
  h_rankings : list (Z * User)
}.

(** [fetchData] (lines 35-59): [Promise.all] of [getAllClubs()],
    [getAllActivities({ status: 'approved' })] and [getRankings()]; one
    rejected request leaves the three lists empty. *)
Definition home_fetch (now : Z) (d : DB) : HomeData :=
  let s := mkSys d [] in
  match fst (getAllClubs None s), fst (getAllActivities now (Some "approved") None s),
        fst (getPointsRanking None s) with
  | Cont cs, Cont acts, Cont rk => mkHome cs acts rk
  | _, _, _ => mkHome [] [] []
  end.

(** The [Statistic]s of lines 80-108: clubs, activities and users, each
    the length of a list. *)
Definition home_stats (h : HomeData) : nat * nat * nat :=
  (length (h_clubs h), length (h_activities h), length (h_rankings h)).

(** The [热门社团] list (line 120): the first five clubs. *)
Definition home_popular (h : HomeData) : list ClubRow := take 5 (h_clubs h).

(** ** PointsRanking.tsx *)

(** A row of the ranking table: the user with the [rank] the page adds. *)
Record RankRow := mkRank { rk_id : Z; rk_user : User; rk_rank : Z }.

Record RankPage := mkRankPage {
  rk_users : list RankRow;
  rk_filtered : list RankRow;
  rk_search : string;
  rk_sort : string
}.

(** [response.data.rankings.map((user, index) => ({ ...user, rank:
    index + 1 }))]. *)
Definition number_ranks (rows : list (Z * User)) : list RankRow :=
  imap (fun i p => mkRank p.1 p.2 (Z.of_nat i + 1)) rows.

(** [fetchRankings] (lines 27-42): [search ? { search } : undefined]; a
    failure keeps both lists. *)
Definition fetchRankings (search : option string) (d : DB) (pg : RankPage) : RankPage :=
  match fst (getPointsRanking (if truthy_str search then search else None) (mkSys d [])) with
  | Cont rows => mkRankPage (number_ranks rows) (number_ranks rows) (rk_search pg) (rk_sort pg)
  | Done _ => pg
  end.

(** [handleSearch] (lines 48-51) and the reload button (lines 171-174). *)
Definition handleSearch (value : string) (d : DB) (pg : RankPage) : RankPage :=
  fetchRankings (Some value) d (mkRankPage (rk_users pg) (rk_filtered pg) value (rk_sort pg)).
Definition handleReload (d : DB) (pg : RankPage) : RankPage :=
  fetchRankings None d (mkRankPage (rk_users pg) (rk_filtered pg) "" (rk_sort pg)).

Section Sorting.
(** [String.prototype.localeCompare] as a comparison [<= 0]; the
    collation of the browser's locale is left open. *)
Variable locale_le : string -> string -> bool.

(** [handleSortTypeChange] (lines 53-68): the shown rows sorted by the
    chosen key ([Array.prototype.sort] is stable). *)
Definition handleSortTypeChange (value : string) (pg : RankPage) : RankPage :=
  let l := rk_filtered pg in
  let sorted :=
    if String.eqb value "rank" then order_asc rk_rank l
    else if String.eqb value "points_desc" then order_desc (fun r => u_points (rk_user r)) l
    else if String.eqb value "points_asc" then order_asc (fun r => u_points (rk_user r)) l
    else if String.eqb value "name" then order_by (fun x y => locale_le (u_name (rk_user x)) (u_name (rk_user y))) l
    else l in
  mkRankPage (rk_users pg) sorted (rk_search pg) value.
End Sorting.

(** [getRankColor] (lines 70-75). *)
Definition getRankColor (rank : Z) : string :=
  if Z.eqb rank 1 then "gold" else if Z.eqb rank 2 then "#C0C0C0"
  else if Z.eqb rank 3 then "#CD7F32" else "".

(** ** ActivityList.tsx *)

(** The React state of the activity centre: the rows, the clubs of the
    club [Select] and the four filters. *)
Record ALPage := mkALPage { al_rows : list ActivityRow; al_clubs : list ClubRow; al_filters : Filters }.

(** [filteredActivities], which the [useEffect] of lines 118-120 keeps
    equal to [applyFilters] of the state. *)
Definition al_displayed (pg : ALPage) : list ActivityRow := applyFilters (al_filters pg) (al_rows pg).

(** [fetchActivities] (lines 46-57): [getAllActivities()] with no query
    string, so every status; a failure keeps the rows.  [handleRefresh]
    and [handleActivityJoin] (lines 171-178) call it again. *)
Definition al_fetch (now : Z) (d : DB) (pg : ALPage) : ALPage :=
  match fst (getAllActivities now None None (mkSys d [])) with
  | Cont rows => mkALPage rows (al_clubs pg) (al_filters pg)
  | Done _ => pg
  end.

(** [fetchClubs] (lines 59-66). *)
Definition al_fetch_clubs (d : DB) (pg : ALPage) : ALPage :=
  match fst (getAllClubs None (mkSys d [])) with
  | Cont cs => mkALPage (al_rows pg) cs (al_filters pg)
  | Done _ => pg
  end.

(** The filter handlers (lines 122-143): each sets one field;
    [resetFilters] restores the initial state of lines 41-44. *)
Definition al_set_filters (f : Filters) (pg : ALPage) : ALPage := mkALPage (al_rows pg) (al_clubs pg) f.
Definition al_handleSearch (v : string) (pg : ALPage) : ALPage :=
  al_set_filters (mkFilters v (f_status (al_filters pg)) (f_club (al_filters pg)) (f_range (al_filters pg))) pg.
Definition al_handleStatusChange (v : string) (pg : ALPage) : ALPage :=
  al_set_filters (mkFilters (f_search (al_filters pg)) v (f_club (al_filters pg)) (f_range (al_filters pg))) pg.
Definition al_handleClubChange (v : option Z) (pg : ALPage) : ALPage :=
  al_set_filters (mkFilters (f_search (al_filters pg)) (f_status (al_filters pg)) v (f_range (al_filters pg))) pg.
Definition al_handleDateRangeChange (v : option (Z * Z)) (pg : ALPage) : ALPage :=
  al_set_filters (mkFilters (f_search (al_filters pg)) (f_status (al_filters pg)) (f_club (al_filters pg)) v) pg.
Definition initial_filters : Filters := mkFilters "" "all" None None.
Definition al_resetFilters (pg : ALPage) : ALPage := al_set_filters initial_filters pg.

(** The options of the status [Select] (lines 227-230). *)
Definition al_status_options : list string := ["all"; "upcoming"; "ongoing"; "completed"].

(** ** Login.tsx and Register.tsx *)

(** The fields of the registration form. *)
Record RegisterForm := mkRegisterForm {
  rf_username : string;
  rf_password : string;
  rf_confirm : string;
  rf_student_id : string;
  rf_email : string;
  rf_bio : option string;
  rf_avatar : option string
}.

Section Forms.
Context `{Hasher}.
(** Antd's [{ type: 'email' }] rule. *)
Variable antd_email : string -> bool.

(** The rules of Register.tsx (lines 96-162): a user name of 3
    characters or more, a password of 6 or more, the confirmation equal
    to it, a student id, and an email antd accepts. *)
Definition register_valid (f : RegisterForm) : bool :=
  Nat.leb 3 (String.length (rf_username f)) && Nat.leb 6 (String.length (rf_password f))
  && negb (String.eqb (rf_confirm f) "") && String.eqb (rf_confirm f) (rf_password f)
  && negb (String.eqb (rf_student_id f) "") && negb (String.eqb (rf_email f) "")
  && antd_email (rf_email f).

(** [onFinish] of Register.tsx (lines 18-47): the form data, with [bio]
    only when truthy and the avatar when one was chosen, given to
    [AuthContext.register]. *)
Definition register_submit (now : Z) (f : RegisterForm) (d : DB) (b : Browser) : option (DB * Browser) :=
  if negb (register_valid f) then None else
  Some (client_register now (rf_username f) (rf_password f) (rf_student_id f) (rf_email f)
          (if truthy_str (rf_bio f) then rf_bio f else None) (rf_avatar f) d b).

(** [onFinish] of Login.tsx (lines 35-54) behind the two required fields
    (lines 87, 98). *)
Definition login_submit (now : Z) (n pw : string) (d : DB) (b : Browser) : option Browser :=
  if String.eqb n "" || String.eqb pw "" then None else Some (client_login now n pw d b).
End Forms.

(** ** A ranking of three students *)

Definition scorer (name : string) (pts : Z) : User := mkUser name name None None None None Student pts 0.
Definition rank_db : DB :=
  set_users (<[1 := scorer "alice" 30]> (<[2 := scorer "bob" 20]> (<[3 := scorer "carol" 10]> ∅)))
    Sample.db0.
Definition rank_pg0 : RankPage := fetchRankings None rank_db (mkRankPage [] [] "" "rank").

(** The admin's browser two days after the login of day 0. *)
Definition expired_root : Browser :=
  mkBrowser (Some (sign 0 Sample.root)) (Some Sample.root) [] None None false.
Definition two_days : Z := 2 * day_ms.

(** The club of the pending activity of [Admin.db_pend]. *)
Definition club_of_act2 : Club := Sample.club1.

(** Dave's registration form. *)
Definition dave_form : RegisterForm :=
  mkRegisterForm "dave" "secret1" "secret1" "20230001" "d@x.io" None None.

(** ** Properties *)

Lemma order_by_length {A} (le : A -> A -> bool) l : length (order_by le l) = length l.
Proof. unfold order_by. by rewrite merge_sort_Permutation. Qed.

Lemma status_str_approved st : ci_eqb (status_str st) "approved" = bool_decide (st = Approved).
Proof. by destruct st; vm_compute. Qed.

(** The home page's three statistics, titled total clubs, total
    activities and total users: every club; only the activities whose
    stored status is [approved] (pending, rejected and settled ones are
    not counted); and the length of the ranking, which [LIMIT 100] caps,
    so that the user count never exceeds 100. *)
Theorem home_stats_spec now d :
  home_stats (home_fetch now d) =
  (size (clubs d),
   length (List.filter (fun r => bool_decide (a_status (r_act r) = Approved)) (activity_rows d)),
   min 100 (size (users d))).
Proof.
  unfold home_stats, home_fetch.
  rewrite getAllClubs_None_ok, getAllActivities_ok, getPointsRanking_ok. cbn [fst h_clubs h_activities h_rankings].
  unfold club_rows. rewrite length_map, order_by_length, length_map_to_list, length_map,
    order_desc_length, length_take, order_desc_length.
  rewrite (filter_all_true _ (map_to_list (users d))), length_map_to_list by (intros; reflexivity).
  do 2 f_equal. f_equal. apply List.filter_ext. intros r. unfold list_filter. cbn [truthy_str].
  by rewrite status_str_approved, andb_true_r.
Qed.

(** After every read of the ranking, with or without a search, the
    table shows the server's rows in their order, the [rank] of each
    being its position in that answer plus one, at most 100 rows: the
    rank of a searched user is its place among the matches, not in the
    school. *)
Theorem fetchRankings_ranks search d pg :
  let pg' := fetchRankings search d pg in
  rk_filtered pg' = rk_users pg' /\ (length (rk_users pg') <= 100)%nat
  /\ forall i r, rk_users pg' !! i = Some r -> rk_rank r = Z.of_nat i + 1.
Proof.
  unfold fetchRankings, getPointsRanking. rewrite select_ok. simpl. split; [done|].
  split.
  - unfold number_ranks. rewrite length_imap, length_take. lia.
  - intros i r. unfold number_ranks. rewrite list_lookup_imap.
    destruct (_ !! i); simpl; by intros [= <-].
Qed.

(** C36: An admin whose stored token has expired is still shown the admin
    pages: the provider keeps the stored user, [AdminRoute] renders the
    review page, whose table is never filled, and an approval is
    answered 401 with the page and the database unchanged. *)
Theorem expired_admin_page_refused now d b u pg :
  ls_user b = Some u -> p_role u = Admin -> is_Some (ls_token b) -> jwt_verify now (ls_token b) = None ->
  let b' := fetchCurrentUser now d (load b) in
  admin_route b' = GRender
  /\ fetchPendingActivities now b' d pg = pg
  /\ handleApprove now pg d b' = (match rv_current pg with Some _ => Some (mkResp 401 MNoToken) | None => None end, pg, d).
Proof.
  intros Hu Ha Ht Hj b'. subst b'. rewrite fetchCurrentUser_stored by (rewrite Hu; eauto).
  unfold admin_route, isAuthenticated, isAdmin_ui, fetchPendingActivities, fetch_pending, handleApprove,
    send_review, route_review; simpl. rewrite Hu, Hj, bool_decide_true by done. simpl.
  rewrite bool_decide_true by done. split; [done|]. split; [done|].
  by destruct (rv_current pg).
Qed.

Lemma expired_admin_page_refused_witness :
  ls_user expired_root = Some Sample.root /\ p_role Sample.root = Admin
  /\ is_Some (ls_token expired_root) /\ jwt_verify two_days (ls_token expired_root) = None
  /\ (let b' := fetchCurrentUser two_days db_pend (load expired_root) in
      admin_route b' = GRender
      /\ fetchPendingActivities two_days b' db_pend (review_pg None) = review_pg None
      /\ handleApprove two_days (review_pg None) db_pend b'
         = (match rv_current (review_pg None) with Some _ => Some (mkResp 401 MNoToken) | None => None end,
            review_pg None, db_pend)).
Proof.
  assert (Ht : is_Some (ls_token expired_root)) by (eexists; reflexivity).
  split; [reflexivity|]. split; [reflexivity|]. split; [exact Ht|]. split; [reflexivity|].
  exact (expired_admin_page_refused two_days db_pend expired_root Sample.root (review_pg None)
           eq_refl eq_refl Ht eq_refl).
Defined.

Lemma nonempty_of_length n s : Nat.leb (S n) (String.length s) = true -> s <> "".
Proof. intros H ->. discriminate. Qed.

(** C?: On every database the server can reach from one with fresh
    counters, a registration form that passes the page's rules, with a
    name, student id and email no one holds, registers the account and
    signs the browser in as that new student: token and user are stored
    and held by the provider. *)
Theorem register_page_signs_in `{Hasher} antd_email d0 d now f b :
  Counters.fresh d0 -> sreachable d0 d -> register_valid antd_email f = true ->
  unique_violation (rf_username f) (Some (rf_student_id f)) (Some (rf_email f)) None d = None ->
  let p := mkPrincipal (next_user d) Student in
  exists d', register_submit antd_email now f d b
             = Some (d', set_auth (Some (sign now p)) (Some p) (set_storage (Some (sign now p)) (Some p) b)).
Proof.
  intros H0 Hr Hv Hu p. unfold register_submit. rewrite Hv. simpl.
  unfold register_valid in Hv. repeat apply andb_true_iff in Hv as [Hv ?].
  assert (Hn : rf_username f <> "") by (by eapply nonempty_of_length).
  assert (Hpw : rf_password f <> "") by (by eapply nonempty_of_length).
  assert (Hs : rf_student_id f <> "") by (apply String.eqb_neq, negb_true_iff; done).
  assert (He : rf_email f <> "") by (apply String.eqb_neq, negb_true_iff; done).
  pose proof (register_login_roundtrip now (rf_username f) (rf_password f) (rf_student_id f) (rf_email f)
    (if truthy_str (rf_bio f) then rf_bio f else None) (rf_avatar f) d Hn Hpw Hs He
    (fresh_next_user d (fresh_reach d0 d H0 Hr)) Hu) as R.
  unfold client_register, client_login.
  destruct (run_ok (register _ _ _ _ _ _ _ _) d) as [r1 d1].
  destruct (run_ok (login _ _ _) d1) as [r2 d2].
  destruct R as (-> & -> & _). by eexists.
Qed.

Lemma register_page_signs_in_witness :
  Counters.fresh Sample.db0 /\ sreachable Sample.db0 Sample.db0
  /\ register_valid email_ok dave_form = true
  /\ unique_violation "dave" (Some "20230001") (Some "d@x.io") None Sample.db0 = None
  /\ (let p := mkPrincipal (next_user Sample.db0) Student in
      exists d', register_submit email_ok 3 dave_form Sample.db0 fresh
        = Some (d', set_auth (Some (sign 3 p)) (Some p) (set_storage (Some (sign 3 p)) (Some p) fresh))).
Proof.
  assert (Hv : register_valid email_ok dave_form = true) by (vm_compute; reflexivity).
  assert (Hu : unique_violation "dave" (Some "20230001") (Some "d@x.io") None Sample.db0 = None)
    by (vm_compute; reflexivity).
  split; [exact fresh_sample|]. split; [apply rtc_refl|]. split; [exact Hv|]. split; [exact Hu|].
  exact (register_page_signs_in email_ok Sample.db0 Sample.db0 3 dave_form fresh fresh_sample
           (rtc_refl _ _) Hv Hu).
Defined.

Lemma applyFilters_initial l : applyFilters initial_filters l = l.
Proof. reflexivity. Qed.

(** C?: The activity centre lists every activity whose club exists,
    pending and rejected ones included, to every visitor: with the
    filters reset, a pending or rejected activity is shown with its
    stored status, which no option of the status filter selects. *)
Theorem activity_centre_lists_unreviewed now d pg id a c :
  activities d !! id = Some a -> clubs d !! a_club a = Some c ->
  a_status a = Pending \/ a_status a = Rejected ->
  exists r, r ∈ al_displayed (al_fetch now d (al_resetFilters pg)) /\ r_id r = id
    /\ r_status r = stored_status (a_status a)
    /\ status_json (r_status r) ∉ List.tail al_status_options.
Proof.
  intros Ha Hc Hs. unfold al_displayed, al_fetch. rewrite getAllActivities_ok. simpl.
  rewrite applyFilters_initial.
  eexists. split; [exact (getAllActivities_row_elem now d id a c Ha Hc)|].
  simpl. rewrite derive_status_not_approved by (destruct Hs as [-> | ->]; done).
  split; [done|]. split; [done|].
  destruct Hs as [-> | ->]; simpl; rewrite !not_elem_of_cons; repeat split; try discriminate;
    apply not_elem_of_nil.
Qed.

Lemma activity_centre_lists_unreviewed_witness :
  activities db_pend !! 2 = Some act2 /\ clubs db_pend !! a_club act2 = Some club_of_act2
  /\ (a_status act2 = Pending \/ a_status act2 = Rejected)
  /\ exists r, r ∈ al_displayed (al_fetch 0 db_pend (al_resetFilters (mkALPage [] [] initial_filters)))
     /\ r_id r = 2 /\ r_status r = stored_status (a_status act2)
     /\ status_json (r_status r) ∉ List.tail al_status_options.
Proof.
  assert (Ha : activities db_pend !! 2 = Some act2) by reflexivity.
  assert (Hc : clubs db_pend !! a_club act2 = Some club_of_act2) by reflexivity.
  split; [exact Ha|]. split; [exact Hc|]. split; [by left|].
  exact (activity_centre_lists_unreviewed 0 db_pend (mkALPage [] [] initial_filters) 2 act2 club_of_act2
           Ha Hc (or_introl eq_refl)).
Defined.

(** Bob is second of the school, but a search for him shows him with
    rank 1 and the gold trophy; and a search after sorting by ascending
    points shows the server's order while the sort selector still says
    ascending points. *)
Lemma ranking_search_renumbers :
  List.map (fun r => (u_name (rk_user r), rk_rank r)) (rk_filtered rank_pg0)
    = [("alice", 1); ("bob", 2); ("carol", 3)]
  /\ List.map (fun r => (u_name (rk_user r), rk_rank r)) (rk_filtered (handleSearch "bob" rank_db rank_pg0))
    = [("bob", 1)]
  /\ getRankColor 1 = "gold"
  /\ (let pg := handleSearch "" rank_db (handleSortTypeChange String.leb "points_asc" rank_pg0) in
      rk_sort pg = "points_asc"
      /\ List.map (fun r => u_name (rk_user r)) (rk_filtered pg) = ["alice"; "bob"; "carol"]).
Proof. vm_compute. repeat split. Qed.

End Pages.
