(* ===== verification/Routing.v ===== *)
(** The client's navigation: the route table of App.tsx, the menus of
    components/layout/AppLayout.tsx, the links and [navigate] calls of
    the pages, and the guards of [Pages] deciding what a path shows.
    Navigation is a step relation on the current path and the history
    of visited paths, over every session; the theorems say which pages
    the links reach and what a club admin's links lead to. *)

From Stdlib Require Import Ascii.
From S2P Require Import Prelude Schema Handler TimeWindow Registration Reads Clubs Users Client Pages.

Module Routing.
Import Client Pages.

(** ** Routes *)

(** The elements the route table of App.tsx (lines 34-90) renders. *)
Inductive Page :=
  | PLogin | PRegister | PHome | PClubs | PClubDetail | PActivities | PActivityDetail
  | PRanking | PProfile | PAdminUsers | PAdminClubs | PAdminActivities | PAdminReview.

#[export] Instance Page_eq_dec : EqDecision Page.
Proof. solve_decision. Defined.

Definition review_path : string := "/admin/activities/review".

(** The routes without a parameter. *)
Definition route_table : list (string * Page) :=
  [("/login", PLogin); ("/register", PRegister); ("/", PHome); ("/clubs", PClubs);
   ("/activities", PActivities); ("/ranking", PRanking); ("/profile", PProfile);
   ("/admin/users", PAdminUsers); ("/admin/clubs", PAdminClubs);
   ("/admin/activities", PAdminActivities); (review_path, PAdminReview)].

Fixpoint strip_prefix (pre s : string) : option string :=
  match pre, s with
  | EmptyString, _ => Some s
  | String c p, String c' s' => if Ascii.eqb c c' then strip_prefix p s' else None
  | String _ _, EmptyString => None
  end.

(** A path [pre:id]: one non-empty segment after [pre]. *)
Definition id_segment (pre path : string) : bool :=
  match strip_prefix pre path with
  | Some rest => negb (String.eqb rest "") && negb (existsb (Ascii.eqb "/"%char) (String.list_ascii_of_string rest))
  | None => false
  end.

(** React-router's match of a path: an exact route, or [clubs/:id] and
    [activities/:id]; no route matches anything else (there is no [*]
    route). *)
Definition match_route (path : string) : option Page :=
  match List.find (fun e => String.eqb e.1 path) route_table with
  | Some e => Some e.2
  | None =>
      if id_segment "/clubs/" path then Some PClubDetail
      else if id_segment "/activities/" path then Some PActivityDetail
      else None
  end.

(** What a path shows: the profile behind [PrivateRoute], the four admin
    pages behind [AdminRoute] (lines 47-89), the others as they are. *)
Definition view (path : string) (b : Browser) : option Guarded :=
  match match_route path with
  | Some PProfile => Some (private_route b)
  | Some (PAdminUsers | PAdminClubs | PAdminActivities | PAdminReview) => Some (admin_route b)
  | Some _ => Some GRender
  | None => None
  end.

(** ** Menus and links *)

(** The club admin's [社团管理] submenu (AppLayout.tsx lines 105-117). *)
Definition club_admin_submenu : list string := ["/admin/clubs"; "/admin/activities"].

(** The side menu (lines 64-118): home; the public pages for everyone
    but an admin; the admin pages for an admin, the review item being
    commented out (lines 99-101); the submenu for a club admin. *)
Definition side_menu (b : Browser) : list string :=
  ["/"] ++ (if isAdmin_ui b then ["/admin/users"; "/admin/clubs"; "/admin/activities"]
            else ["/clubs"; "/activities"; "/ranking"])
  ++ (if negb (isAdmin_ui b) && isClubAdmin_ui b then club_admin_submenu else []).

(** The header (lines 38-54 and 138-150): the user menu with the admin
    entry and the logout, which [AuthContext.logout] ends on [/login]
    (line 189); signed out, the login and register buttons. *)
Definition header_links (b : Browser) : list string :=
  if isAuthenticated b then ["/profile"] ++ (if isAdmin_ui b then ["/admin/users"] else []) ++ ["/login"]
  else ["/login"; "/register"].

(** A link of a page: a fixed path, or a path [pre ++ id] built from a
    row's id. *)
Inductive Link := LPath (s : string) | LId (pre : string).

Definition link_target (l : Link) (q : string) : Prop :=
  match l with
  | LPath s => q = s
  | LId pre => exists id, q = pre +:+ id /\ id_segment pre q = true
  end.

(** The [Link]s and [navigate] calls of each page: Home (lines 115-231),
    ClubList (85-342, the create button of line 274 for a signed-in
    admin or club admin), ClubDetail (302-386), ActivityList and its
    cards (200, ActivityCard.tsx 102-267), ActivityDetail (71-347), Login
    (26-126, [from] defaulting to [/]) and Register (38-193). *)
Definition page_links (b : Browser) (pg : Page) : list Link :=
  let creator := isAuthenticated b && (isAdmin_ui b || isClubAdmin_ui b) in
  match pg with
  | PHome => [LPath "/clubs"; LPath "/activities"; LPath "/ranking"; LId "/clubs/"; LId "/activities/"]
  | PClubs => [LId "/clubs/"; LPath "/login"] ++ (if creator then [LPath "/admin/clubs"] else [])
  | PClubDetail => [LPath "/clubs"; LId "/activities/"]
  | PActivities => [LId "/activities/"; LPath "/login"] ++ (if creator then [LPath "/admin/activities"] else [])
  | PActivityDetail => [LPath "/activities"; LPath "/login"]
  | PLogin => [LPath "/register"; LPath "/"]
  | PRegister => [LPath "/login"; LPath "/"]
  | _ => []
  end.

(** Every page but Login and Register is rendered inside [AppLayout]. *)
Definition in_layout (pg : Page) : bool :=
  match pg with PLogin | PRegister => false | _ => true end.

(** The links a path shows to a session: the layout's, then the guard's
    [Navigate] to [/login] or the 403 page's home button
    (AdminRoute.tsx line 43), or the page's own. *)
Definition shown_links (b : Browser) (path : string) : list Link :=
  match match_route path with
  | None => []
  | Some pg =>
      (if in_layout pg then List.map LPath (side_menu b ++ header_links b) else [])
      ++ match view path b with
         | Some GLogin => [LPath "/login"]
         | Some GForbidden => [LPath "/"]
         | _ => page_links b pg
         end
  end.

(** One navigation: following a link a session is shown, or the login
    page's redirect to a path visited before ([redirectPath], stored by
    the guards, lines 22-29 of Login.tsx). *)
Inductive nav : string * list string -> string * list string -> Prop :=
  | nav_link b p h l q : In l (shown_links b p) -> link_target l q -> nav (p, h) (q, p :: h)
  | nav_redirect p h q : p = "/login" -> In q h -> nav (p, h) (q, p :: h).

(** Every link any page shows, whatever the session. *)
Definition all_links : list Link :=
  List.map LPath ["/"; "/admin/users"; "/admin/clubs"; "/admin/activities"; "/clubs"; "/activities";
                  "/ranking"; "/profile"; "/login"; "/register"]
  ++ [LId "/clubs/"; LId "/activities/"].

(** The club's president signed in on the sample database. *)
Definition browser_leader : Browser := client_login 0 "lead" "lead" Sample.db0 fresh.

(** ** Properties *)

(** Close [In x l] for a concrete list by trying each element. *)
Ltac in_list := simpl; repeat (first [by left | right]).

(** Split [In x l] for a concrete list into one goal per element. *)
Ltac split_in H := simpl in H; repeat destruct H as [<-|H]; try done.

Lemma shown_links_all b p l : In l (shown_links b p) -> In l all_links.
Proof.
  unfold shown_links. destruct (match_route p) as [pg|]; [|done].
  rewrite in_app_iff. intros [Hl|Hl].
  - destruct (in_layout pg); [|done]. apply in_map_iff in Hl as (q & <- & Hq).
    unfold side_menu, header_links in Hq.
    destruct (isAdmin_ui b), (isClubAdmin_ui b), (isAuthenticated b); split_in Hq; in_list.
  - unfold page_links in Hl.
    destruct (view p b) as [[]|], pg, (isAdmin_ui b), (isClubAdmin_ui b), (isAuthenticated b);
      split_in Hl; in_list.
Qed.

Lemma strip_prefix_app pre s rest : strip_prefix pre s = Some rest -> s = pre +:+ rest.
Proof.
  revert s. induction pre as [|c pre IH]; intros [|c' s]; simpl; try (by intros [= <-]); try done.
  destruct (Ascii.eqb_spec c c') as [<-|]; [|done]. intros H. change (String c pre +:+ rest) with (String c (pre +:+ rest)). f_equal. by apply IH.
Qed.

(** No link leads to the review page. *)
Lemma link_not_review l q : In l all_links -> link_target l q -> q <> review_path.
Proof.
  unfold all_links, review_path. simpl.
  intros Hl; split_in Hl; simpl; try (intros -> ; discriminate); intros (id & -> & _); discriminate.
Qed.

(** C38: Following links, from the home page and whatever sessions the
    browser goes through, never reaches the activity review page: its
    menu item is commented out and no page links to it, so pending
    activities are reviewed only by typing the address. *)
Theorem review_unreachable p h :
  rtc nav ("/", []) (p, h) -> p <> review_path /\ review_path ∉ h.
Proof.
  assert (Hinv : forall x y, rtc nav x y -> Forall (fun q => q <> review_path) (x.1 :: x.2) ->
                 Forall (fun q => q <> review_path) (y.1 :: y.2)).
  { intros x y Hr. induction Hr as [|x z y Hxz _ IH]; [done|]. intros Hx. apply IH.
    destruct Hxz as [b p0 h0 l q Hl Ht|p0 h0 q _ Hq]; simpl in *; constructor; [|done| |done].
    - exact (link_not_review l q (shown_links_all _ _ _ Hl) Ht).
    - apply Forall_cons in Hx as [_ Hh]. rewrite Forall_forall in Hh. apply Hh.
      by apply list_elem_of_In. }
  intros Hr. apply Hinv in Hr; [|repeat constructor; discriminate].
  apply Forall_cons in Hr as [Hp Hh]. split; [done|]. intros Hin.
  rewrite Forall_forall in Hh. by apply (Hh _ Hin).
Qed.

(** C39: A club admin who is not a system admin is shown the [社团管理]
    submenu and the create buttons of the club and activity lists, and
    every one of these links leads to [AdminRoute]'s 403 page: a club
    admin can manage nothing from the client. *)
Theorem club_admin_links_forbidden b :
  isAuthenticated b = true -> isClubAdmin_ui b = true -> isAdmin_ui b = false ->
  (forall q, In q club_admin_submenu -> In q (side_menu b) /\ view q b = Some GForbidden)
  /\ In (LPath "/admin/clubs") (page_links b PClubs)
  /\ In (LPath "/admin/activities") (page_links b PActivities).
Proof.
  intros Ha Hc Hn. unfold side_menu, page_links, view, admin_route. rewrite Ha, Hc, Hn. simpl.
  split; [|split; [by right; right; left | by right; right; left]].
  intros q [<-|[<-|[]]]; split; try (right; right; right; right; by simpl; auto); reflexivity.
Qed.

Lemma review_unreachable_witness :
  rtc nav ("/", []) ("/clubs/1", ["/clubs"; "/"])
  /\ "/clubs/1" <> review_path /\ review_path ∉ ["/clubs"; "/"].
Proof.
  assert (Hr : rtc nav ("/", []) ("/clubs/1", ["/clubs"; "/"])).
  { eapply rtc_l; [apply (nav_link fresh "/" [] (LPath "/clubs")); [vm_compute; tauto | reflexivity]|].
    eapply rtc_l; [|apply rtc_refl].
    apply (nav_link fresh "/clubs" ["/"] (LId "/clubs/")); [vm_compute; tauto|].
    exists "1". split; reflexivity. }
  split; [exact Hr|]. exact (review_unreachable "/clubs/1" ["/clubs"; "/"] Hr).
Defined.

Lemma club_admin_links_forbidden_witness :
  isAuthenticated browser_leader = true /\ isClubAdmin_ui browser_leader = true
  /\ isAdmin_ui browser_leader = false
  /\ (forall q, In q club_admin_submenu -> In q (side_menu browser_leader)
                                         /\ view q browser_leader = Some GForbidden)
  /\ In (LPath "/admin/clubs") (page_links browser_leader PClubs)
  /\ In (LPath "/admin/activities") (page_links browser_leader PActivities).
Proof.
  assert (Ha : isAuthenticated browser_leader = true) by (vm_compute; reflexivity).
  assert (Hc : isClubAdmin_ui browser_leader = true) by (vm_compute; reflexivity).
  assert (Hn : isAdmin_ui browser_leader = false) by (vm_compute; reflexivity).
  split; [exact Ha|]. split; [exact Hc|]. split; [exact Hn|].
  exact (club_admin_links_forbidden browser_leader Ha Hc Hn).
Defined.

End Routing.
