(* ===== verification/Uploads.v ===== *)
(** The file uploads of the server: the [multer] middleware that the
    routers (routes/activityRoutes.js, routes/clubRoutes.js,
    routes/userRoutes.js) put in front of the controllers that take a
    file, its file filters, its 5 MB limit and its [diskStorage] names,
    the error answers (the activity router's [uploadErrorHandler], the
    other two routers' fall-through to Express's default error handler),
    and the directory [uploads/] the files are written to.  On the
    client side, the [beforeUpload] checks of the pages and antd's
    [Upload], which keeps a chosen file in the list whatever the check
    answers.  The theorems give the answers to a refused file, the
    sizes the pages and the server accept, and the name clash of two
    club logos uploaded in the same millisecond. *)

From Stdlib Require Import Ascii.
From S2P Require Import Prelude Schema Handler TimeWindow Registration Lifecycle Clubs Users Client.

Module Uploads.
Import Lifecycle Clubs Users Client.

(** ** Files and names *)

(** A file of a multipart request: [originalname], [mimetype] (the
    type the browser declares) and the size in bytes. *)
Record UpFile := mkUpFile { uf_name : string; uf_type : string; uf_size : Z }.

(** The [uploads/] directory: the files written, by the path under which
    [express.static] serves them and the controllers store them. *)
Abbreviation Disk := (gmap string UpFile).

(** The characters of a reversed name up to its last dot, and those
    before it. *)
Fixpoint split_ext (rl : list ascii) : option (list ascii * list ascii) :=
  match rl with
  | [] => None
  | c :: rl' =>
      if Ascii.eqb c "." then Some ([], rl')
      else match split_ext rl' with
           | Some (e, r) => Some (c :: e, r)
           | None => None
           end
  end.

(** Node's [path.extname] of a file name without [/]: from the last dot
    to the end; empty when there is no dot, when the last dot is the
    first character, and for [..]. *)
Definition extname (s : string) : string :=
  if String.eqb s ".." then "" else
  match split_ext (rev (String.list_ascii_of_string s)) with
  | Some (e, _ :: _) => String.string_of_list_ascii ("."%char :: rev e)
  | _ => ""
  end.

(** The [filename] of clubRoutes.js (lines 13-15) and index.js:
    [Date.now() + path.extname(file.originalname)]. *)
Definition club_filename (now : Z) (f : UpFile) : string :=
  js_string_of_Z now +:+ extname (uf_name f).

(** The [filename] of activityRoutes.js (lines 20-24) and userRoutes.js
    (lines 13-16): [Date.now() + '-' + Math.round(Math.random() * 1E9)]
    and the extension; [rnd] is the rounded random number. *)
Definition unique_filename (now rnd : Z) (f : UpFile) : string :=
  js_string_of_Z now +:+ "-" +:+ js_string_of_Z rnd +:+ extname (uf_name f).

(** ** The middleware *)

(** [limits: { fileSize: 5 * 1024 * 1024 }]: busboy stops a file that
    goes past this many bytes. *)
Definition upload_limit : Z := 5 * 1024 * 1024.

(** [file.mimetype.startsWith('image/')] (clubRoutes.js line 22,
    userRoutes.js line 23). *)
Definition image_filter (f : UpFile) : bool := String.prefix "image/" (uf_type f).

(** [allowedTypes.includes(file.mimetype)] (activityRoutes.js lines
    32-33). *)
Definition activity_types : list string := ["image/jpeg"; "image/png"; "image/gif"; "image/webp"].
Definition activity_filter (f : UpFile) : bool := existsb (String.eqb (uf_type f)) activity_types.

(** The errors [upload.single] passes on: the filter's [Error], or
    [MulterError('LIMIT_FILE_SIZE')]. *)
Inductive UploadErr := FilterRejected | LimitFileSize.

(** [upload.single(field)] with [diskStorage]: no file, nothing to do;
    the filter runs before the file is read; a file past the limit is
    removed again; an accepted file is written under [dir ++ name]. *)
Definition multer_store (filter : UpFile -> bool) (dir : string) (name : UpFile -> string)
    (f : option UpFile) (disk : Disk) : UploadErr + (option string * Disk) :=
  match f with
  | None => inr (None, disk)
  | Some x =>
      if negb (filter x) then inl FilterRejected
      else if upload_limit <? uf_size x then inl LimitFileSize
      else inr (Some (dir +:+ name x), <[dir +:+ name x := x]> disk)
  end.

(** [uploadErrorHandler] (activityRoutes.js lines 42-57): 400 for
    every upload error, with the size message for [LIMIT_FILE_SIZE]. *)
Definition upload_error_handler (e : UploadErr) : Resp :=
  match e with
  | LimitFileSize => mkResp 400 MFileTooLarge
  | FilterRejected => mkResp 400 MImageTypesOnly
  end.

(** ClubRoutes.js and userRoutes.js call [upload.single] as a plain
    middleware, which gives the error to [next(err)]; index.js installs
    no error handler, so Express's default one answers 500 (neither
    error carries a [status]). *)
Definition express_error (e : UploadErr) : Resp := mkResp 500 MExpressError.

(** ** The routes that take a file *)

(** The middleware before the upload: [verifyToken], and [isAdmin] or
    [isClubAdminOrAdmin] where the route has it. *)
Definition token_guard (tok : option Principal) : option Resp :=
  match tok with Some _ => None | None => Some (mkResp 401 MNoToken) end.
Definition admin_guard (tok : option Principal) : option Resp :=
  match tok with
  | Some u => if decide (p_role u = Admin) then None else Some (mkResp 403 MNeedAdmin)
  | None => Some (mkResp 401 MNoToken)
  end.
Definition club_admin_guard (tok : option Principal) : option Resp :=
  match tok with
  | Some u => if decide (p_role u = ClubAdmin \/ p_role u = Admin) then None
              else Some (mkResp 403 MNeedClubAdmin)
  | None => Some (mkResp 401 MNoToken)
  end.

(** A request through the middleware before the upload, the upload, and
    the controller, given the stored path as [req.file]. *)
Definition with_upload (g : option Resp) (up : UploadErr + (option string * Disk))
    (on_err : UploadErr -> Resp) (k : option string -> M Resp) (d : DB) (disk : Disk)
    : Resp * DB * Disk :=
  match g with
  | Some r => (r, d, disk)
  | None =>
      match up with
      | inl e => (on_err e, d, disk)
      | inr (path, disk') => let '(r, d') := run_ok (k path) d in (r, d', disk')
      end
  end.

Section Routes.
Context `{Hasher}.

(** [POST /api/users/register] (userRoutes.js line 33): the upload
    first, without authentication. *)
Definition up_register (now rnd : Z) (body : bool) (username password sid email bio : option string)
    (f : option UpFile) (d : DB) (disk : Disk) : Resp * DB * Disk :=
  with_upload None (multer_store image_filter "/uploads/" (unique_filename now rnd) f disk) express_error
    (route_register now body username password sid email bio) d disk.

(** [POST /api/clubs] and [PUT /api/clubs/:id] (clubRoutes.js lines 31,
    40): [verifyToken], then the logo. *)
Definition up_create_club (now : Z) (tok : option Principal) (name desc : option string)
    (f : option UpFile) (d : DB) (disk : Disk) : Resp * DB * Disk :=
  with_upload (token_guard tok) (multer_store image_filter "/uploads/" (club_filename now) f disk)
    express_error (route_create_club now tok name desc) d disk.
Definition up_update_club (now : Z) (tok : option Principal) (cid : Z) (name desc : option string)
    (f : option UpFile) (d : DB) (disk : Disk) : Resp * DB * Disk :=
  with_upload (token_guard tok) (multer_store image_filter "/uploads/" (club_filename now) f disk)
    express_error (route_update_club tok cid name desc) d disk.

(** [PUT /api/users/:id] (line 44) and [POST /api/users] (line 54,
    behind [isAdmin]); the avatar's field of the update body is the
    stored path. *)
Definition with_avatar (b : UserUpdate) (a : option string) : UserUpdate :=
  mkUpdate (uu_username b) (uu_bio b) (uu_email b) (uu_role b) (uu_student_id b) (uu_points b) a.
Definition up_update_user (now rnd : Z) (tok : option Principal) (target : Z) (b : UserUpdate)
    (f : option UpFile) (d : DB) (disk : Disk) : Resp * DB * Disk :=
  with_upload (token_guard tok) (multer_store image_filter "/uploads/" (unique_filename now rnd) f disk)
    express_error (fun a => route_update_user tok target (with_avatar b a)) d disk.
Definition up_create_user (now rnd : Z) (tok : option Principal) (body : bool)
    (username password email sid role bio : option string) (f : option UpFile) (d : DB) (disk : Disk)
    : Resp * DB * Disk :=
  with_upload (admin_guard tok) (multer_store image_filter "/uploads/" (unique_filename now rnd) f disk)
    express_error (route_create_user now tok body username password email sid role bio) d disk.

(** [POST /api/activities] (activityRoutes.js line 60, behind
    [isClubAdminOrAdmin]) and [PUT /api/activities/:id] (line 69):
    the image through [uploadErrorHandler], stored as
    [/uploads/activities/<filename>] (activityController.js lines 97,
    315). *)
Definition up_create_activity (now rnd : Z) (tok : option Principal) (body : option ActivityInput)
    (f : option UpFile) (d : DB) (disk : Disk) : Resp * DB * Disk :=
  with_upload (club_admin_guard tok)
    (multer_store activity_filter "/uploads/activities/" (unique_filename now rnd) f disk)
    upload_error_handler (route_create now tok body) d disk.
Definition up_update_activity (now rnd : Z) (tok : option Principal) (aid : Z) (body : option ActivityInput)
    (f : option UpFile) (d : DB) (disk : Disk) : Resp * DB * Disk :=
  with_upload (token_guard tok)
    (multer_store activity_filter "/uploads/activities/" (unique_filename now rnd) f disk)
    upload_error_handler (route_update tok aid body) d disk.

End Routes.

(** ** The pages' checks and antd's [Upload] *)

(** [file.size / 1024 / 1024 < n]: on a size below [2^53] the two
    divisions by a power of two are exact in binary floating point, so
    the test is [size < n * 1024 * 1024]. *)
Definition under_mb (n : Z) (f : UpFile) : bool := uf_size f <? n * 1024 * 1024.

(** The [beforeUpload] of Register.tsx (lines 49-61), Profile.tsx (lines
    17-27), admin/ClubManagement.tsx (lines 80-90) and
    admin/ActivityManagement.tsx (lines 170-180): JPEG or PNG, under
    2 MB. *)
Definition jpg_png_2m_check (f : UpFile) : bool :=
  (String.eqb (uf_type f) "image/jpeg" || String.eqb (uf_type f) "image/png") && under_mb 2 f.

(** The [beforeUpload] of admin/UserManagement.tsx (lines 128-138),
    which answers [false] whatever the test: any image, under 2 MB. *)
Definition image_2m_check (f : UpFile) : bool := image_filter f && under_mb 2 f.

(** The [beforeUpload] of pages/ActivityManagement.tsx (lines 180-190):
    the four types of the activity router, under 5 MB. *)
Definition poster_check (f : UpFile) : bool := activity_filter f && under_mb 5 f.

(** An entry of antd's [fileList]: the chosen file ([originFileObj]; the
    entry a page builds for a stored image has none) and whether its
    upload finished. *)
Record UploadItem := mkItem { ui_file : option UpFile; ui_done : bool }.

(** Antd's [Upload] with [maxCount={1}] on a chosen file: an answer
    [false] of [beforeUpload] stops the upload but keeps the file in the
    list (only [Upload.LIST_IGNORE] would drop it), an answer [true] runs
    [customRequest], which marks it done; the new file replaces the
    list. *)
Definition antd_choose (check : bool) (f : UpFile) (fl : list UploadItem) : list UploadItem :=
  [mkItem (Some f) check].

(** The file a page's submit sends: [fileList.length > 0 &&
    fileList[0].originFileObj] (Register.tsx line 32 reads its [avatar]
    state the same way). *)
Definition form_file (fl : list UploadItem) : option UpFile :=
  match fl with x :: _ => ui_file x | [] => None end.

(** ** Properties *)

Lemma multer_store_accept filter dir name x disk :
  filter x = true -> uf_size x <= upload_limit ->
  multer_store filter dir name (Some x) disk = inr (Some (dir +:+ name x), <[dir +:+ name x := x]> disk).
Proof.
  intros Hf Hs. unfold multer_store. rewrite Hf. simpl.
  by rewrite (proj2 (Z.ltb_ge _ _) Hs).
Qed.

Lemma multer_store_limit filter dir name x disk :
  filter x = true -> upload_limit < uf_size x -> multer_store filter dir name (Some x) disk = inl LimitFileSize.
Proof.
  intros Hf Hs. unfold multer_store. rewrite Hf. simpl. by rewrite (proj2 (Z.ltb_lt _ _) Hs).
Qed.

Lemma activity_filter_image f : activity_filter f = true -> image_filter f = true.
Proof.
  unfold activity_filter, image_filter. intros (t & Hin & Ht)%existsb_exists.
  apply String.eqb_eq in Ht. rewrite Ht.
  simpl in Hin. by repeat destruct Hin as [<-|Hin].
Qed.


(** A club creation the server answers 201 stored the club under the
    next id and advanced the counter. *)
Lemma create_club_201 `{Hasher} now u n ds logo d r d' :
  run_ok (route_create_club now (Some u) n ds logo) d = (r, d') -> code r = 201 ->
  clubs d' = <[next_club d := mkClub (default "" n) (Some (default "" ds)) logo (Some (p_id u)) now]> (clubs d)
  /\ next_club d' = next_club d + 1.
Proof.
  unfold route_create_club. autorewrite with ltf_rw.
  pose proof (createClub_run now u n ds logo d) as Hr. destruct (run_ok _ d) as [r0 d0].
  intros [= <- <-] Hc.
  destruct (negb _); [destruct Hr as [-> _]; discriminate|].
  destruct (users d !! p_id u); [|destruct Hr as [-> _]; discriminate].
  destruct (name_taken _ _ _); [destruct Hr as [-> _]; discriminate|].
  by destruct Hr as (_ & -> & _ & _ & _ & _ & ->).
Qed.

(** The same through the upload of a logo: the file is on the disk under
    the path the club row holds. *)
Lemma up_create_club_201 `{Hasher} now u n ds f d disk r d' disk' :
  up_create_club now (Some u) n ds (Some f) d disk = (r, d', disk') -> code r = 201 ->
  let p := "/uploads/" +:+ club_filename now f in
  disk' = <[p := f]> disk
  /\ clubs d' = <[next_club d := mkClub (default "" n) (Some (default "" ds)) (Some p) (Some (p_id u)) now]> (clubs d)
  /\ next_club d' = next_club d + 1.
Proof.
  unfold up_create_club, with_upload, token_guard, multer_store.
  destruct (negb _); [by intros [= <- _ _]|]. destruct (upload_limit <? _); [by intros [= <- _ _]|].
  destruct (run_ok _ d) as [r0 d0] eqn:Hr. intros [= <- <- <-] Hc.
  destruct (create_club_201 _ _ _ _ _ _ _ _ Hr Hc). by split.
Qed.

(** C31: A file past the 5 MB limit, of a type every filter admits, is
    refused by every router with nothing stored, but with different
    answers: the activity router's [uploadErrorHandler] answers 400 with
    the size message, while the club and user routers, which have no
    error handler, leave it to Express's default handler, which answers
    500. *)
Theorem oversize_upload_codes `{Hasher} now rnd u body name desc username password sid email bio f d disk :
  (p_role u = ClubAdmin \/ p_role u = Admin) -> activity_filter f = true -> upload_limit < uf_size f ->
  up_create_activity now rnd (Some u) body (Some f) d disk = (mkResp 400 MFileTooLarge, d, disk)
  /\ up_create_club now (Some u) name desc (Some f) d disk = (mkResp 500 MExpressError, d, disk)
  /\ up_register now rnd true username password sid email bio (Some f) d disk
     = (mkResp 500 MExpressError, d, disk).
Proof.
  intros Hu Hf Hs. pose proof (activity_filter_image f Hf) as Hi.
  unfold up_create_activity, up_create_club, up_register, with_upload, token_guard, club_admin_guard.
  rewrite decide_True by done. by rewrite !multer_store_limit.
Qed.

(** C32: Two clubs created in the same millisecond with logos of the same
    extension get the same file name, [Date.now()] plus the extension,
    so the second upload overwrites the first: after both creations
    succeed, the two club rows hold the same logo path and the file
    under it is the second club's. *)
Theorem club_logo_collision `{Hasher} now u1 u2 n1 ds1 n2 ds2 f1 f2 d disk r1 d1 disk1 r2 d2 disk2 :
  up_create_club now (Some u1) n1 ds1 (Some f1) d disk = (r1, d1, disk1) -> code r1 = 201 ->
  up_create_club now (Some u2) n2 ds2 (Some f2) d1 disk1 = (r2, d2, disk2) -> code r2 = 201 ->
  extname (uf_name f1) = extname (uf_name f2) ->
  exists c1 c2 path, clubs d2 !! next_club d = Some c1 /\ clubs d2 !! (next_club d + 1) = Some c2
    /\ c_logo c1 = Some path /\ c_logo c2 = Some path /\ disk2 !! path = Some f2.
Proof.
  intros E1 H1 E2 H2 He.
  destruct (up_create_club_201 _ _ _ _ _ _ _ _ _ _ E1 H1) as (_ & Hc1 & Hn1).
  destruct (up_create_club_201 _ _ _ _ _ _ _ _ _ _ E2 H2) as (-> & Hc2 & _).
  unfold club_filename in *. rewrite He in Hc1. rewrite Hc2, Hc1, Hn1.
  do 3 eexists. rewrite lookup_insert_ne by lia. rewrite !lookup_insert_eq.
  by do 4 (split; [reflexivity|]).
Qed.

(** C33: The pages' size checks are stricter than the server's and stop
    nothing: a PNG of 2 MB up to the 5 MB limit fails the check of the
    registration, profile and admin club and activity pages, yet antd
    keeps it as the form's file and the server's upload stores it. *)
Theorem page_check_advisory f fl filter dir name disk :
  uf_type f = "image/png" -> 2 * 1024 * 1024 <= uf_size f <= upload_limit -> filter f = true ->
  jpg_png_2m_check f = false
  /\ form_file (antd_choose (jpg_png_2m_check f) f fl) = Some f
  /\ multer_store filter dir name (form_file (antd_choose (jpg_png_2m_check f) f fl)) disk
     = inr (Some (dir +:+ name f), <[dir +:+ name f := f]> disk).
Proof.
  intros Ht Hs Hf.
  assert (Hc : jpg_png_2m_check f = false).
  { unfold jpg_png_2m_check, under_mb. apply andb_false_iff. right. apply Z.ltb_ge. lia. }
  rewrite Hc. split; [done|]. split; [done|]. simpl. apply multer_store_accept; [done | lia].
Qed.

(** ** Uploads on the sample database *)

Definition big_png : UpFile := mkUpFile "poster.png" "image/png" 6000000.
Definition logo_a : UpFile := mkUpFile "a.png" "image/png" 1000.
Definition logo_b : UpFile := mkUpFile "b.png" "image/png" 2000.
Definition photo_png : UpFile := mkUpFile "photo.png" "image/png" 3000000.

(** Alice and then bob create a club in the same millisecond 5. *)
Definition logo_run1 : Resp * DB * Disk :=
  up_create_club 5 (Some Sample.alice) (Some "Chess") (Some "Board games") (Some logo_a) Sample.db0 ∅.
Definition logo_run2 : Resp * DB * Disk :=
  up_create_club 5 (Some Sample.bob) (Some "Go") (Some "Stones") (Some logo_b) logo_run1.1.2 logo_run1.2.

Lemma oversize_upload_codes_witness :
  (p_role Sample.root = ClubAdmin \/ p_role Sample.root = Admin) /\ activity_filter big_png = true
  /\ upload_limit < uf_size big_png
  /\ up_create_activity 0 7 (Some Sample.root) None (Some big_png) Sample.db0 ∅
     = (mkResp 400 MFileTooLarge, Sample.db0, ∅)
  /\ up_create_club 0 (Some Sample.root) (Some "Chess") None (Some big_png) Sample.db0 ∅
     = (mkResp 500 MExpressError, Sample.db0, ∅)
  /\ up_register 0 7 true (Some "dave") (Some "secret") None None None (Some big_png) Sample.db0 ∅
     = (mkResp 500 MExpressError, Sample.db0, ∅).
Proof.
  assert (Hr : p_role Sample.root = ClubAdmin \/ p_role Sample.root = Admin) by (right; reflexivity).
  assert (Hf : activity_filter big_png = true) by reflexivity.
  assert (Hs : upload_limit < uf_size big_png) by reflexivity.
  do 3 (split; [assumption|]).
  exact (oversize_upload_codes 0 7 Sample.root None (Some "Chess") None (Some "dave") (Some "secret")
           None None None big_png Sample.db0 ∅ Hr Hf Hs).
Defined.

Lemma triple_eta {A B C} (x : A * B * C) : x = (x.1.1, x.1.2, x.2).
Proof. by destruct x as [[? ?] ?]. Qed.

Lemma club_logo_collision_witness :
  code logo_run1.1.1 = 201 /\ code logo_run2.1.1 = 201
  /\ extname (uf_name logo_a) = extname (uf_name logo_b)
  /\ exists c1 c2 path, clubs logo_run2.1.2 !! next_club Sample.db0 = Some c1
      /\ clubs logo_run2.1.2 !! (next_club Sample.db0 + 1) = Some c2
      /\ c_logo c1 = Some path /\ c_logo c2 = Some path /\ logo_run2.2 !! path = Some logo_b.
Proof.
  assert (H1 : code logo_run1.1.1 = 201) by (vm_compute; reflexivity).
  assert (H2 : code logo_run2.1.1 = 201) by (vm_compute; reflexivity).
  assert (He : extname (uf_name logo_a) = extname (uf_name logo_b)) by reflexivity.
  split; [exact H1|]. split; [exact H2|]. split; [exact He|].
  exact (club_logo_collision 5 Sample.alice Sample.bob (Some "Chess") (Some "Board games") (Some "Go")
           (Some "Stones") logo_a logo_b Sample.db0 ∅ logo_run1.1.1 logo_run1.1.2 logo_run1.2
           logo_run2.1.1 logo_run2.1.2 logo_run2.2 (triple_eta logo_run1) H1 (triple_eta logo_run2) H2 He).
Defined.

Lemma page_check_advisory_witness :
  uf_type photo_png = "image/png" /\ 2 * 1024 * 1024 <= uf_size photo_png <= upload_limit
  /\ image_filter photo_png = true
  /\ jpg_png_2m_check photo_png = false
  /\ form_file (antd_choose (jpg_png_2m_check photo_png) photo_png []) = Some photo_png
  /\ multer_store image_filter "/uploads/" (unique_filename 0 7)
       (form_file (antd_choose (jpg_png_2m_check photo_png) photo_png [])) ∅
     = inr (Some ("/uploads/" +:+ unique_filename 0 7 photo_png),
            <["/uploads/" +:+ unique_filename 0 7 photo_png := photo_png]> ∅).
Proof.
  assert (Ht : uf_type photo_png = "image/png") by reflexivity.
  assert (Hs : 2 * 1024 * 1024 <= uf_size photo_png <= upload_limit) by (vm_compute; split; discriminate).
  assert (Hf : image_filter photo_png = true) by reflexivity.
  do 3 (split; [assumption|]).
  exact (page_check_advisory photo_png [] image_filter "/uploads/" (unique_filename 0 7) ∅ Ht Hs Hf).
Defined.

End Uploads.
