(* ===== verification/Tables.v ===== *)
(** The management tables of pages/ClubManagement.tsx and
    pages/ActivityManagement.tsx, the two pages App.tsx does not route.
    Both are one table page over a resource of the API: a list read
    with [GET], a modal form that creates or edits a row, and a delete
    button, the edit and delete buttons being [disabled={!isAdmin}] and
    the add button shown to an admin only.  The class [TableResource]
    is what a resource of api/api.ts promises such a page: its requests
    and the laws that a created row is on the list read next and a
    deleted one is not.  The page and its theorems are proved once
    against the class; the instances for clubs and activities discharge
    the laws from the server's handlers. *)

From S2P Require Import Prelude Schema Handler TimeWindow Registration Reads Lifecycle Clubs Users Client Admin AdminActivities.

Module Tables.
Import TimeWindow Reads Lifecycle Clubs Client Admin AdminActivities.

(** ** The interface *)

(** A resource of the API as a table page uses it: the rows, the form's
    fields, the form a row fills ([form.setFieldsValue]) and the empty
    one ([form.resetFields]), the form's rules, the requests, the next
    AUTO_INCREMENT id, and when a row shows a form's fields.  The
    requests take the token the browser holds and the page's new file. *)
Class TableResource := {
  tr_row : Type;
  tr_form : Type;
  tr_id : tr_row -> Z;
  tr_get : Z -> M (list tr_row);
  tr_rows : Z -> DB -> list tr_row;
  tr_fill : tr_row -> tr_form;
  tr_empty : tr_form;
  tr_valid : tr_form -> bool;
  tr_create : Z -> option Principal -> tr_form -> option string -> M Resp;
  tr_update : option Principal -> Z -> tr_form -> option string -> M Resp;
  tr_delete : option Principal -> Z -> M Resp;
  tr_next : DB -> Z;
  tr_shows : tr_form -> tr_row -> Prop;
  (** The list request answers the rows when no query fails. *)
  tr_get_ok : forall now d, fst (tr_get now (mkSys d [])) = Cont (tr_rows now d);
  (** A creation the server accepts puts a row with the form's fields
      under the next id on the list. *)
  tr_create_listed : forall now tok f l d r d',
    tr_valid f = true -> run_ok (tr_create now tok f l) d = (r, d') -> ok r = true ->
    exists row, row ∈ tr_rows now d' /\ tr_id row = tr_next d /\ tr_shows f row;
  (** A deletion the server accepts leaves no row of the id. *)
  tr_delete_unlisted : forall now tok i d r d',
    run_ok (tr_delete tok i) d = (r, d') -> ok r = true -> forall row, row ∈ tr_rows now d' -> tr_id row <> i
}.

(** ** The page *)

Section Page.
Context `{TableResource}.

(** The React state: the rows, the modal, the row being edited, the
    form's fields and the new file of [fileList]. *)
Record TablePage := mkTable {
  tp_rows : list tr_row;
  tp_modal : bool;
  tp_editing : option tr_row;
  tp_form : tr_form;
  tp_file : option string
}.

(** [fetchClubs] / [fetchActivities] (ClubManagement.tsx lines 27-38,
    ActivityManagement.tsx lines 49-60): a failure keeps the table. *)
Definition tp_fetch (now : Z) (d : DB) (pg : TablePage) : TablePage :=
  match fst (tr_get now (mkSys d [])) with
  | Cont rows => mkTable rows (tp_modal pg) (tp_editing pg) (tp_form pg) (tp_file pg)
  | Done _ => pg
  end.

(** [handleOpenModal] (ClubManagement.tsx lines 44-58,
    ActivityManagement.tsx lines 76-110): an edit fills the form from
    the row, a new row resets it; the stored image of a row is shown
    without [originFileObj], so no new file. *)
Definition tp_open (b : Browser) (row : option tr_row) (pg : TablePage) : TablePage :=
  if negb (isAdmin_ui b) then pg else
  mkTable (tp_rows pg) true row (match row with Some r => tr_fill r | None => tr_empty end) None.

(** [handleCloseModal] (lines 60-63, 112-116). *)
Definition tp_close (pg : TablePage) : TablePage :=
  mkTable (tp_rows pg) false (tp_editing pg) tr_empty None.

(** Typing in the form and choosing a file. *)
Definition tp_set_form (f : tr_form) (file : option string) (pg : TablePage) : TablePage :=
  mkTable (tp_rows pg) (tp_modal pg) (tp_editing pg) f file.

(** [handleSubmit] (lines 65-83, 118-167): nothing is sent when a rule
    fails; an edit updates the row, a new row is created; on success
    the modal closes and the table is read again. *)
Definition tp_submit (now : Z) (pg : TablePage) (d : DB) (b : Browser) : option Resp * TablePage * DB :=
  if negb (tr_valid (tp_form pg)) then (None, pg, d) else
  let tok := jwt_verify now (b_token b) in
  let '(r, d') :=
    match tp_editing pg with
    | Some row => run_ok (tr_update tok (tr_id row) (tp_form pg) (tp_file pg)) d
    | None => run_ok (tr_create now tok (tp_form pg) (tp_file pg)) d
    end in
  (Some r, if ok r then tp_fetch now d' (tp_close pg) else pg, d').

(** [handleDelete] (lines 85-94, 169-178), from a row's [Popconfirm]. *)
Definition tp_delete (now i : Z) (pg : TablePage) (d : DB) (b : Browser) : option Resp * TablePage * DB :=
  if negb (isAdmin_ui b) then (None, pg, d) else
  let '(r, d') := run_ok (tr_delete (jwt_verify now (b_token b)) i) d in
  (Some r, if ok r then tp_fetch now d' pg else pg, d').

Lemma tp_fetch_rows now d pg :
  tp_rows (tp_fetch now d pg) = tr_rows now d /\ tp_modal (tp_fetch now d pg) = tp_modal pg.
Proof. unfold tp_fetch. by rewrite tr_get_ok. Qed.

End Page.

Arguments TablePage : clear implicits.

(** ** The club table of pages/ClubManagement.tsx *)

(** The form's [name] and [description]; the page sends them as the
    request's fields (axios serialises the object as the form data
    [clubAPI] declares) and has no logo upload. *)
Definition club_form : Type := option string * option string.

Definition club_shows (f : club_form) (r : ClubRow) : Prop :=
  c_name (cr_club r) = default "" f.1 /\ c_description (cr_club r) = Some (default "" f.2)
  /\ c_logo (cr_club r) = None.

Lemma club_table_create now tok (f : club_form) (l : option string) d r d' :
  truthy_str f.1 && truthy_str f.2 = true ->
  run_ok (route_create_club now tok f.1 f.2 None) d = (r, d') -> ok r = true ->
  exists row, row ∈ club_rows d' /\ cr_id row = next_club d /\ club_shows f row.
Proof.
  intros _ Hr Hok. destruct (create_club_ok _ _ _ _ _ _ _ _ Hr Hok) as (u & _ & Hc).
  eexists (mkClubRow (next_club d) _ (member_count (next_club d) d') false).
  rewrite elem_club_rows. simpl. split; [by eauto|]. split; [done|]. by repeat split.
Qed.

Lemma club_table_delete tok cid d r d' :
  run_ok (route_delete_club tok cid) d = (r, d') -> ok r = true ->
  forall row, row ∈ club_rows d' -> cr_id row <> cid.
Proof.
  intros Hr Hok row Hin <-. apply elem_club_rows in Hin as [Hin _].
  by rewrite (delete_club_ok _ _ _ _ _ Hr Hok) in Hin.
Qed.

#[export] Instance club_table : TableResource := {|
  tr_row := ClubRow;
  tr_form := club_form;
  tr_id := cr_id;
  tr_get now := getAllClubs None;
  tr_rows now d := club_rows d;
  tr_fill c := (Some (c_name (cr_club c)), c_description (cr_club c));
  tr_empty := (None, None);
  tr_valid f := truthy_str f.1 && truthy_str f.2;
  tr_create now tok f l := route_create_club now tok f.1 f.2 None;
  tr_update tok cid f l := route_update_club tok cid f.1 f.2 None;
  tr_delete tok cid := route_delete_club tok cid;
  tr_next := next_club;
  tr_shows := club_shows;
  tr_get_ok now d := getAllClubs_None_ok d;
  tr_create_listed := club_table_create;
  tr_delete_unlisted now := club_table_delete
|}.

(** ** The activity table of pages/ActivityManagement.tsx *)

(** The rows of [getAllActivities()] with no query string. *)
Definition all_rows (now : Z) (d : DB) : list ActivityRow :=
  List.map (derive_row now) (order_desc row_start (List.filter (list_filter None None) (activity_rows d))).

(** [form.setFieldsValue] of lines 80-88. *)
Definition activity_fill (r : ActivityRow) : ActivityForm :=
  let a := r_act r in
  mkAForm (Some (a_title a)) (Some (a_club a)) (Some (a_location a)) (Some (a_start a, a_end a))
    (Some (a_points a)) (Some (a_max a)) (Some (a_description a)).

Definition activity_shows (f : ActivityForm) (r : ActivityRow) : Prop :=
  a_title (r_act r) = default "" (af_title f) /\ Some (a_club (r_act r)) = af_club f
  /\ Some (a_start (r_act r), a_end (r_act r)) = af_time f.

Lemma all_rows_lookup now d row : row ∈ all_rows now d -> activities d !! r_id row = Some (r_act row).
Proof.
  unfold all_rows. intros (x & -> & Hx)%elem_of_List_map.
  apply order_desc_elem, elem_of_List_filter in Hx as [_ Hx].
  apply elem_activity_rows in Hx as (id & a & Ha & (c & _ & ->)%activity_row_Some). done.
Qed.

(** A deletion the server accepts removed the activity. *)
Lemma delete_activity_ok tok aid d r d' :
  run_ok (route_delete tok aid) d = (r, d') -> ok r = true -> activities d' !! aid = None.
Proof.
  unfold route_delete. destruct tok as [u|]; autorewrite with ltf_rw; [|by intros [= <- _]].
  case_decide; [|by intros [= <- _]].
  unfold run_ok, run, deleteActivity, deleteActivityRecord, bind, select, query, reply, next_fault,
    delete_participants, delete_activity_row.
  repeat (simpl; hstep); simpl; try (by intros [= <- _]).
  all: intros [= <- <-] _; repeat case_match; simplify_eq/=; apply lookup_delete_eq.
Qed.

Lemma activity_table_create now tok f l d r d' :
  aform_valid f = true -> run_ok (route_create now tok (Some (aform_body f)) l) d = (r, d') -> ok r = true ->
  exists row, row ∈ all_rows now d' /\ r_id row = next_activity d /\ activity_shows f row.
Proof.
  intros _ Hr Hok.
  destruct (route_create_ok _ _ _ _ _ _ _ Hr Hok) as (u & cid & start & end_ & _ & Hc & Hs & He & [club Hcl] & Ha & _).
  set (a := new_activity now (aform_body f) cid start end_
              (if bool_decide (p_role u = Admin) then Approved else Pending) l).
  exists (derive_row now (mkRow (next_activity d) a (c_name club) (c_logo club)
                           (count_participants (next_activity d) d') (stored_status (a_status a)))).
  split; [apply getAllActivities_row_elem; [by rewrite Ha, lookup_insert_eq | done]|].
  split; [done|]. simpl in Hc, Hs, He. unfold activity_shows. subst a. simpl. rewrite Hc.
  destruct (af_time f) as [[t1 t2]|]; simplify_eq/=. by repeat split.
Qed.

Lemma activity_table_delete now tok aid d r d' :
  run_ok (route_delete tok aid) d = (r, d') -> ok r = true ->
  forall row, row ∈ all_rows now d' -> r_id row <> aid.
Proof.
  intros Hr Hok row Hin <-. apply all_rows_lookup in Hin.
  by rewrite (delete_activity_ok _ _ _ _ _ Hr Hok) in Hin.
Qed.

#[export] Instance activity_table : TableResource := {|
  tr_row := ActivityRow;
  tr_form := ActivityForm;
  tr_id := r_id;
  tr_get now := getAllActivities now None None;
  tr_rows := all_rows;
  tr_fill := activity_fill;
  tr_empty := empty_form;
  tr_valid := aform_valid;
  tr_create now tok f l := route_create now tok (Some (aform_body f)) l;
  tr_update tok aid f l := route_update tok aid (Some (aform_body f)) l;
  tr_delete := route_delete;
  tr_next := next_activity;
  tr_shows := activity_shows;
  tr_get_ok now d := getAllActivities_ok now None None d;
  tr_create_listed := activity_table_create;
  tr_delete_unlisted := activity_table_delete
|}.

(** ** Properties of the page, against the interface *)

Section Laws.
Context `{TableResource}.

(** On a table page over any resource that keeps the interface's laws,
    a new row saved from the form is on the table read after the
    success, under the next id and showing the form's fields, and the
    modal is closed. *)
Theorem table_create_listed now pg d b r pg' d' :
  tp_editing pg = None -> tp_submit now pg d b = (Some r, pg', d') -> ok r = true ->
  tp_modal pg' = false /\ exists row, row ∈ tp_rows pg' /\ tr_id row = tr_next d /\ tr_shows (tp_form pg) row.
Proof.
  intros He. unfold tp_submit. rewrite He. destruct (tr_valid (tp_form pg)) eqn:Hv; simpl; [|by intros [=]].
  destruct (run_ok _ d) as [r0 d0] eqn:Hr. intros [= <- <- <-] Hok. rewrite Hok.
  destruct (tp_fetch_rows now d0 (tp_close pg)) as [-> ->]. split; [done|].
  exact (tr_create_listed _ _ _ _ _ _ _ Hv Hr Hok).
Qed.

(** After a deletion the server accepts, the table read again has no
    row of the id. *)
Theorem table_delete_unlisted now i pg d b r pg' d' :
  tp_delete now i pg d b = (Some r, pg', d') -> ok r = true -> forall row, row ∈ tp_rows pg' -> tr_id row <> i.
Proof.
  unfold tp_delete. destruct (negb _); [by intros [=]|].
  destruct (run_ok _ d) as [r0 d0] eqn:Hr. intros [= <- <- <-] Hok. rewrite Hok.
  destruct (tp_fetch_rows now d0 pg) as [-> _]. exact (tr_delete_unlisted _ _ _ _ _ _ Hr Hok).
Qed.

End Laws.

(** ** The unrouted activity page of the system admin *)


Definition chess_table : TablePage activity_table :=
  tp_set_form chess_form None
    (tp_open browser_root None (tp_fetch 0 Sample.db0 (mkTable [] false None empty_form None))).
Definition chess_table_out : option Resp * TablePage activity_table * DB :=
  tp_submit 0 chess_table Sample.db0 browser_root.


End Tables.
